(* ===== verification/_CoqProject ===== *)
-Q . S2P
Prelude.v
Regex.v
Store.v
Codec.v
Db.v
Fixtures.v
Session.v
Sweep.v
Auth.v
Admin.v
Contact.v
Routes.v
Banner.v
Settings.v
Branches.v
Items.v
Upload.v
Catalogue.v
Offers.v
System.v
