(* ===== verification/Prelude.v ===== *)
(** * Verification of the admin backend of hammad04x/testing

    The repository is an Express application over one MySQL pool
    ([src/connection/connection.js]).  Its core, and the core of this
    development, is the session subsystem:
    [src/controller/login/login.js] (login, refreshToken, updateActivity,
    logout), the table [active_tokens] those handlers and the sweep write,
    the token helpers of [src/utils/jwtUtils.js], the two bearer-token gates
    [src/middleware/verifyToken.js] and [src/middleware/authMiddleware.js],
    the API-key gate [src/middleware/authenticateAPIKey.js], the sweep
    [src/utils/tokenCleanup.js] started by [src/index.js], and the routes of
    [src/routes/login/login.js] that chain them.  Around it the development
    models the account management of [src/controller/manage-admin/admin.js]
    (which writes the accounts the sessions belong to and deletes their
    sessions), the rate-limited contact form of
    [src/controller/contact/contact.js], the banner of
    [src/controller/banner/banner.js], the general and branch settings of
    [src/controller/settings/] (whose branch rows the contact form reads),
    the catalogue of [src/controller/category/] (items and categories),
    the gallery, the popular products and the offers, the upload
    middleware that names the files those controllers keep in
    [src/uploads], and the whole route table of [src/routes/] as
    mounted by [src/index.js].

    ** Files, in dependency order

    - [Prelude] (this file): the state monad [St] with its [let*] notation,
      JavaScript truthiness ([js_truthy], [js_or]), the class [Faulty] of
      states with a fault oracle ([query_of], [run_of]), row counting
      ([count_where]) and its lemmas, the hint databases [session] and
      [session_rw].
    - [Regex]: anchored regular expressions ([RegExp.prototype.test]) as
      patterns with a matcher by derivatives, proved to decide the
      patterns' language ([test_spec]).
    - [Store]: the rows of [admin] ([AdminRow.t]) and [active_tokens]
      ([TokenRow.t]); every SQL statement the code issues on
      [active_tokens] as a constructor of [Store.stmt], interpreted by
      [Store.exec_stmt] (the INSERT fails on a duplicate primary key);
      the SELECTs; the store invariants [ids_unique] and
      [at_most_one_live] and the lemmas that each statement keeps them.
    - [Codec]: the JWT payload ([claims]), symbolic signed tokens, [jwt_sign]
      and [jwt_verify] (signature, then [exp] against the clock), and the
      libraries the code only calls, as type classes with their laws:
      [Uuid] (an injective generator) and [Bcrypt] (compare agrees with
      hash), with concrete instances for running examples.
    - [Db]: the world threaded through every handler: the two tables, a
      fault oracle giving the outcome of each query in execution order,
      and the UUID counter; [run] (a write statement), [query] (a SELECT),
      [generateAccessToken]; [both o m1 m2], two statements issued without
      waiting, run in the order [o] (issue order or swapped) the pool
      picks; the HTTP [response]; the invariant
      [ids_issued]; the tactics [nf] and [step_nf] that step a handler in a
      fault-free world.
    - [Fixtures]: concrete worlds for the witnesses and the tactics that
      discharge a theorem's hypotheses on them.
    - [Session]: the four handlers of login.js, each a [St world response]
      with every query, callback branch and early return of the source,
      and their properties: login's outcome in either order of its two
      statements ([login_table]), at most one live session after it (none
      when the INSERT runs first), blocked and unknown accounts; refresh's
      window, idle guard, rotation and failure; activity touch; logout
      idempotence.
    - [Sweep]: tokenCleanup.js's two statements, run by [both] in either
      order, the timer of index.js ([sweeps], each sweep with its own
      order), and the sweep's effect and invariants: the live rows left are
      the same in both orders, the swapped order keeps blacklisted copies
      one sweep longer; every session ends at the first sweep past its
      expiry and its row is gone one sweep later (liveness).
    - [Auth]: the three gates and the session routes; which requests the
      strict gate admits, the light gate's ['block'] test, the spec's
      scenario of a second login revoking the first token (in either
      order), and the token a login hands out already revoked when the
      pool runs its INSERT first.
    - [Admin]: the six account handlers, the statements on table [admin]
      under its unique keys, the two validation patterns; an added
      account can log in, blocking keeps sessions, deleting cascades,
      [updateadmin] writes any status.
    - [Contact]: the contact form and its rate limit over its own state
      (tables [contacts] and [branches]); the limit of three per address
      and ten hours holds in every state reached one request at a time,
      and two submissions interleaved at their queries ([run2]) exceed
      it on any store.
    - [Routes]: [cors()] and the body parsers of index.js, every router of
      [src/routes/] and Express's dispatch over the mounts: without the key
      no request reaches a handler (cors answers OPTIONS, the parsers bad
      bodies, the key gate the rest), the session handlers sit behind
      [verifyToken], the account routes do not.
    - [Banner]: the banner row and the field renaming between the two
      handlers.
    - [Settings]: the settings row, the [uploads] folder as the list of
      its file names, and [updateGeneralSettings] with its file deletions
      ([safeUnlink]): the row never names a missing file whatever the
      faults, and a failed UPDATE leaves the uploaded files orphaned.
    - [Branches]: branchSetting.js: the tables [branches] and
      [branch_categories], the LEFT JOIN and ORDER BY of the listings, and
      its twelve handlers; the step relation [bstep] of its requests and
      the invariants that every branch names an existing category and
      carries a valid status; the stats as counts; the view of a branch
      row that [Contact] reads, so that a status set here is the one the
      contact form checks; a category delete that fails half way.
    - [Items]: item.js: JavaScript's [parseInt] on query strings, MySQL's
      [LIKE] and [LIMIT], the tables [items] and [category] and the
      [uploads] folder, and its nine handlers; [parseInt] reads back a
      printed number (over unbounded integers, not JavaScript's doubles),
      the client pages tile the active rows, the search
      term matches substrings, the category search queries a table that
      does not exist, and every item's image is a file of the folder in
      every reachable state.  [ihandle] and [item_frame] give what an
      item request does to the folder the other controllers share.
    - [Upload]: [src/middleware/fileHandler.js]: the name multer gives an
      upload, [Date.now() + originalname]; names of this clock era are
      equal only for one millisecond and one client name, so a later
      upload is new to the folder (the freshness the folder theorems
      assume).
    - [Catalogue]: category.js, gallary.js and popularProducts.js over
      one database with the items ([item_view], [on_items] run the item
      requests of [Items] on it) and one [uploads] folder: the step
      relation [cstep] of the four controllers and the invariant that
      every image a row of [category], [items] or [gallery] names is a
      file of the folder and no two rows name one file; the category
      delete's item guard; the gallery's pages ([parseInt] without a
      radix, [Math.ceil]); the popular products' join and defaults; a
      file multer stores under the clock ([multer_store]) is the fresh
      upload the folder invariant assumes ([stored_upload_fresh]).
    - [Offers]: offer.js: the [LEFT JOIN ... GROUP BY ... GROUP_CONCAT]
      listings (the grouping with fuel, [group_fuel], against its
      well-founded definition by Equations, [group_rows]), and the three
      writes in transactions (a snapshot that [rollback] restores); the
      object [beginTransaction] is called on is an argument ([Pool] or
      [PoolConn]), and the pool has no such method; [editOffer] on a
      missing id answers 200 and writes discounts for it.
    - [System]: the server as a step relation (one handler or one sweep per
      step, the admin handlers included, any statement failing, login's
      and the sweep's statements in either order) and the invariant of
      every reachable state: unique session ids, ids from the generator,
      rows lasting 30 minutes; on a database where nothing fails, at most
      one live session per admin ([reliable_single_live]).

    ** Modelling choices

    Each handler is a function of the state in the monad [St]: its
    queries in the order the callbacks issue them, every early return and
    every [err] branch.  The outcome of each query comes from a fault
    oracle in the state (class [Faulty] and the [world] of [Db]), so the
    theorems cover failing statements as well as successful ones.
    Times are milliseconds in [Z] ([Date] arithmetic of the source); a
    token's [iat] and [exp] are seconds, as jsonwebtoken writes them.
    Handlers issue their statements in source order and each statement is
    atomic; the oracle models a failing statement (no effect, the callback
    sees [err]).  Where the source leaves two statements unsequenced on the
    pool of ten connections (the sweep, login's UPDATE and INSERT) the
    definition runs them with [both] in an order given as an argument, and
    every theorem about them quantifies over it.  Nothing is bounded by
    fuel: every handler is a finite chain of queries and every parser
    ([parse_int], [like], the regular expressions) recurses on its input,
    so all definitions are total and structural.  Two
    definitions take fuel: the printer [show_Z] of [Items], given
    [log2 n + 1] digit steps ([show_fuel] shows that is enough, the
    number being below [10] to that power), and the grouping
    [group_fuel] of [Offers], given as many steps as rows (it then
    returns, and returns the groups of the well-founded [group_rows]).  A transaction's [rollback] restores
    the two tables it covers but not the [AUTO_INCREMENT] counter, as
    InnoDB does.  The development assumes no axiom of its own; the
    kernel check lists functional extensionality, which Equations uses
    for the unfolding equation of [group_rows].  The sweep's liveness takes [k] ticks of the timer, [k] given
    by [first_sweep_after] from the row's expiry.

    ** Not modelled

    The Express plumbing beyond what decides who answers (CORS headers,
    the parsed body's contents; the static folder only as a predicate on
    paths), the file upload middleware (disk I/O; what
    [Settings] relies on of it is the hypothesis [upload_ok]; [Items]
    and [Catalogue] take the uploaded file's name as an argument, and
    [Upload] models only the name multer gives it), the blog routes
    (not mounted, and their controller is not in the repository),
    cryptography (signatures are symbolic), JSON bodies beyond the
    fields the handlers read (numbers of [popularProducts.js] are
    JSON numbers, the dates of [offer.js] day numbers and [CURDATE()]
    an argument), [group_concat_max_len] (GROUP_CONCAT is not
    truncated), and MySQL's case-insensitive collation of string
    comparisons (so [LIKE] and [ORDER BY] compare bytes).  [System],
    [Items], [Catalogue] and [Branches] handle requests one at a time;
    interleavings of whole requests are modelled only where a theorem is
    about them (two contact submissions in [Contact]), and the findings
    name the other checks they would break. *)

From stdpp Require Import base list strings decidable.
From Stdlib Require Import ZArith Lia.

(** ** The handler monad

    Every Express handler of the repository is a chain of MySQL queries whose
    callbacks decide the HTTP response.  We model a handler as a function of
    an explicit world state (the tables, the outcome of each query, the UUID
    generator) returning its response and the new world: the state monad
    [St], written with [let* x := m in k] (the callback [k] of the query
    [m]). *)

Definition St (S A : Type) : Type := S -> A * S.

Definition st_ret {S A} (x : A) : St S A := fun s => (x, s).
Definition st_bind {S A B} (m : St S A) (k : A -> St S B) : St S B :=
  fun s => let '(a, s') := m s in k a s'.
Definition st_get {S} : St S S := fun s => (s, s).
Definition st_put {S} (s : S) : St S unit := fun _ => (tt, s).

Declare Scope st_scope.
Delimit Scope st_scope with st.
Notation "'let*' x ':=' m 'in' k" := (st_bind m (fun x => k))
  (at level 10, x name, m at level 100, k at level 200) : st_scope.
Open Scope st_scope.

(** ** JavaScript values

    The request fields the handlers read are optional strings ([undefined]
    is [None]); JavaScript's truthiness of a string is "defined and not
    empty", which is what [!x] and [x || d] test. *)

Declare Scope js_scope.
Delimit Scope js_scope with js.

Definition js_truthy (o : option string) : bool :=
  match o with
  | Some s => negb (String.eqb s "")
  | None => false
  end.

(** [x || d] on a string value. *)
Definition js_or (o : option string) (d : string) : string :=
  match o with
  | Some s => if String.eqb s "" then d else s
  | None => d
  end.

Notation "x '||' d" := (js_or x d) (at level 50, left associativity) : js_scope.

(** ** Counting rows

    Tables are lists of rows and a WHERE clause a boolean test; most
    invariants count the rows a test selects. *)

Definition count_where {A} (p : A -> bool) (l : list A) : nat :=
  length (List.filter p l).

(** ** Results of fallible operations *)

Inductive result (A E : Type) : Type :=
| Ok (a : A)
| Err (e : E).
Arguments Ok {A E} a.
Arguments Err {A E} e.

(** ** Stores with a fault oracle

    A state that carries the outcome of its next queries: [true] makes
    the next query fail with no effect. *)
Class Faulty (S : Type) := {
  faults_of : S -> list bool;
  with_faults : list bool -> S -> S
}.

Section Faulty.
Context {Σ : Type} `{!Faulty Σ}.

Definition next_fault_of : St Σ bool :=
  fun s => match faults_of s with
           | [] => (false, s)
           | b :: bs => (b, with_faults bs s)
           end.

(** A SELECT: [None] is the [err] of its callback. *)
Definition query_of {R} (sel : Σ -> R) : St Σ (option R) :=
  let* f := next_fault_of in
  if f then st_ret None else fun s => (Some (sel s), s).

(** A write with its [affectedRows] or [insertId]. *)
Definition run_of (f : Σ -> Σ * Z) : St Σ (option Z) :=
  let* fl := next_fault_of in
  if fl then st_ret None else fun s => let '(s', n) := f s in (Some n, s').
End Faulty.

(** An invariant [P] of a computation: every run from a state satisfying
    [P] ends in one. *)
Definition st_keeps {S A} (P : S -> Prop) (m : St S A) : Prop :=
  forall s, P s -> P (snd (m s)).

Create HintDb session.
Create Rewrite HintDb session_rw.

(** ** Generic lemmas *)

(** Running a bound computation runs the first part and then the rest. *)
Lemma st_bind_run {S A B} (m : St S A) (k : A -> St S B) s :
  st_bind m k s = k (fst (m s)) (snd (m s)).
Proof. unfold st_bind. by destruct (m s). Qed.

Lemma st_keeps_bind {S A B} (P : S -> Prop) (m : St S A) (k : A -> St S B) :
  st_keeps P m -> (forall a, st_keeps P (k a)) -> st_keeps P (st_bind m k).
Proof. intros Hm Hk s Hs. rewrite st_bind_run. by apply Hk, Hm. Qed.

Lemma st_keeps_ret {S A} (P : S -> Prop) (x : A) : st_keeps P (st_ret x).
Proof. by intros s Hs. Qed.

Section FaultyLemmas.
Context {Σ : Type} `{!Faulty Σ}.

Lemma query_of_cases {R} (sel : Σ -> R) s :
  query_of sel s = (Some (sel s), s) \/
  exists bs, query_of sel s = (None, with_faults bs s) \/
             query_of sel s = (Some (sel (with_faults bs s)), with_faults bs s).
Proof.
  unfold query_of, next_fault_of, st_bind. destruct (faults_of s) as [|[] bs]; [by left| |];
    right; exists bs; [by left|by right].
Qed.

Lemma run_of_cases (f : Σ -> Σ * Z) s :
  run_of f s = (Some (snd (f s)), fst (f s)) \/
  exists bs, run_of f s = (None, with_faults bs s) \/
             run_of f s = (Some (snd (f (with_faults bs s))), fst (f (with_faults bs s))).
Proof.
  unfold run_of, next_fault_of, st_bind. destruct (faults_of s) as [|[] bs]; [left| |].
  - by destruct (f s).
  - right. exists bs. by left.
  - right. exists bs. right. by destruct (f _).
Qed.

Lemma query_of_nf {R} (sel : Σ -> R) s : faults_of s = [] -> query_of sel s = (Some (sel s), s).
Proof. intros Hf. unfold query_of, next_fault_of, st_bind. by rewrite Hf. Qed.

Lemma run_of_nf (f : Σ -> Σ * Z) s :
  faults_of s = [] -> run_of f s = (Some (snd (f s)), fst (f s)).
Proof. intros Hf. unfold run_of, next_fault_of, st_bind. rewrite Hf. by destruct (f s). Qed.

(** Invariants of the tables: a property that does not read the fault
    oracle is kept by every SELECT, and by a write whose statement keeps it. *)
Context (P : Σ -> Prop) (HP : forall bs s, P s -> P (with_faults bs s)).

Lemma keeps_query_of {R} (sel : Σ -> R) : st_keeps P (query_of sel).
Proof.
  intros s Hs. destruct (query_of_cases sel s) as [->|(bs & [->| ->])]; cbn [snd]; auto.
Qed.

Lemma keeps_run_of (f : Σ -> Σ * Z) :
  (forall s, P s -> P (fst (f s))) -> st_keeps P (run_of f).
Proof.
  intros Hf s Hs. destruct (run_of_cases f s) as [->|(bs & [->| ->])]; cbn [snd]; auto.
Qed.

(** What a write establishes when it reports success, and what holds when
    it fails. *)
Lemma run_of_post (Q : Σ -> Prop) (f : Σ -> Σ * Z) s :
  (forall s, P s -> Q (fst (f s))) -> P s ->
  match fst (run_of f s) with None => P (snd (run_of f s)) | Some _ => Q (snd (run_of f s)) end.
Proof.
  intros Hf Hs. destruct (run_of_cases f s) as [->|(bs & [->| ->])]; cbn [fst snd]; auto.
Qed.

(** The rules of a postcondition [Q] of the reply and the state through
    a SELECT or a write whose callback reads the result: the callback
    runs in a state satisfying [P], with [None] or with the rows that
    state holds. *)
Lemma query_bind_spec {R B} (Q : B * Σ -> Prop) (sel : Σ -> R) (k : option R -> St Σ B) s :
  P s -> (forall s, P s -> Q (k None s)) -> (forall s, P s -> Q (k (Some (sel s)) s)) ->
  Q (st_bind (query_of sel) k s).
Proof.
  intros Hs HN HS. rewrite st_bind_run.
  destruct (query_of_cases sel s) as [->|(bs & [->| ->])]; cbn [fst snd]; auto.
Qed.

Lemma run_bind_spec {B} (Q : B * Σ -> Prop) (f : Σ -> Σ * Z) (k : option Z -> St Σ B) s :
  P s -> (forall s, P s -> Q (k None s)) -> (forall s, P s -> Q (k (Some (snd (f s))) (fst (f s)))) ->
  Q (st_bind (run_of f) k s).
Proof.
  intros Hs HN HS. rewrite st_bind_run.
  destruct (run_of_cases f s) as [->|(bs & [->| ->])]; cbn [fst snd]; auto.
Qed.

(** The same rules for a postcondition of the state alone. *)
Lemma query_bind_post {R B} (Q : Σ -> Prop) (sel : Σ -> R) (k : option R -> St Σ B) s :
  P s -> (forall s, P s -> Q (snd (k None s))) -> (forall s, P s -> Q (snd (k (Some (sel s)) s))) ->
  Q (snd (st_bind (query_of sel) k s)).
Proof. apply (query_bind_spec (fun r => Q (snd r))). Qed.

Lemma run_bind_post {B} (Q : Σ -> Prop) (f : Σ -> Σ * Z) (k : option Z -> St Σ B) s :
  P s -> (forall s, P s -> Q (snd (k None s))) ->
  (forall s, P s -> Q (snd (k (Some (snd (f s))) (fst (f s))))) ->
  Q (snd (st_bind (run_of f) k s)).
Proof. apply (run_bind_spec (fun r => Q (snd r))). Qed.
End FaultyLemmas.

(** A property of the tables holds whatever the fault oracle. *)
Ltac faults_free := let H := fresh in intros ?? H; exact H.

(** Close an [st_keeps] goal over a handler written with [query_of] and
    [run_of], leaving the effect of each write as a goal. *)
Ltac keeps_faulty :=
  repeat match goal with
  | |- st_keeps _ (st_bind (query_of _) _) =>
      apply st_keeps_bind; [apply keeps_query_of; faults_free|intros ?]
  | |- st_keeps _ (st_bind (run_of _) _) =>
      apply st_keeps_bind; [apply keeps_run_of; [faults_free|]|intros ?]
  | |- st_keeps _ (st_bind (st_ret _) _) => apply st_keeps_bind; [apply st_keeps_ret|intros ?]
  | |- st_keeps _ (st_bind (if ?b then _ else _) _) => destruct b eqn:?
  | |- st_keeps _ (st_ret _) => apply st_keeps_ret
  | |- st_keeps _ (match ?x with _ => _ end) => destruct x eqn:?
  | |- st_keeps _ (if ?b then _ else _) => destruct b eqn:?
  | |- st_keeps _ (let _ := _ in _) => cbv zeta
  end.

(** [String.append] does not reduce under [simpl]; its two equations. *)
Lemma string_app_nil_l (b : string) : (EmptyString ++ b)%string = b.
Proof. reflexivity. Qed.

Lemma string_app_cons c (s b : string) : (String c s ++ b)%string = String c (s ++ b)%string.
Proof. reflexivity. Qed.

Lemma string_app_nil_r (s : string) : (s ++ EmptyString)%string = s.
Proof. induction s as [|c s IH]; [done|]. by rewrite string_app_cons, IH. Qed.

Create Rewrite HintDb str_rw.
#[export] Hint Rewrite string_app_nil_l string_app_cons : str_rw.

Lemma js_or_truthy o d : js_truthy o = true -> exists s, o = Some s /\ js_or o d = s.
Proof.
  destruct o as [s|]; simpl; [|discriminate].
  destruct (String.eqb s "") eqn:E; simpl; [discriminate|eauto].
Qed.

(** [run_st] unfolds the monad in a goal so that the handler's branches
    appear as plain [match]es. *)
Ltac run_st :=
  repeat (unfold st_bind, st_ret, st_get, st_put in *; cbn beta iota zeta in *).

Section Counting.
Context {A : Type}.
Implicit Types (p q : A -> bool) (l : list A).

Lemma count_where_app p l1 l2 :
  count_where p (l1 ++ l2) = count_where p l1 + count_where p l2.
Proof. unfold count_where. by rewrite List.filter_app, length_app. Qed.

Lemma count_where_cons p x l :
  count_where p (x :: l) = (if p x then 1 else 0) + count_where p l.
Proof. unfold count_where. simpl. by destruct (p x). Qed.

Lemma count_where_nil p : count_where p [] = 0.
Proof. reflexivity. Qed.

Lemma count_where_zero p l :
  count_where p l = 0 <-> Forall (fun x => p x = false) l.
Proof.
  induction l as [|x l IH]; [split; auto|].
  rewrite count_where_cons. split.
  - intros H. destruct (p x) eqn:E; [simpl in H; lia|].
    constructor; [done|]. by apply IH.
  - intros H. inversion H as [|? ? Hx Hl]; subst.
    rewrite Hx. simpl. by apply IH.
Qed.

(** A map that never makes a row newly selected does not increase the
    count. *)
Lemma count_where_map_le p (f : A -> A) l :
  (forall x, p (f x) = true -> p x = true) ->
  count_where p (List.map f l) <= count_where p l.
Proof.
  intros Hf. induction l as [|x l IH]; [done|]. simpl.
  rewrite !count_where_cons.
  destruct (p (f x)) eqn:E1; [rewrite (Hf x E1)|]; destruct (p x); lia.
Qed.

(** Removing rows does not increase the count. *)
Lemma count_where_filter_le p q l :
  count_where p (List.filter q l) <= count_where p l.
Proof.
  induction l as [|x l IH]; [done|]. simpl.
  destruct (q x); rewrite ?count_where_cons; destruct (p x); lia.
Qed.

(** A test implied by another on the list's elements counts at least as
    many. *)
Lemma count_where_le_in p q l :
  (forall x, In x l -> p x = true -> q x = true) -> count_where p l <= count_where q l.
Proof.
  induction l as [|x l IH]; intros Hpq; [done|]. rewrite !count_where_cons.
  assert (count_where p l <= count_where q l) by (apply IH; intros y Hy; apply Hpq; by right).
  destruct (p x) eqn:E; [rewrite (Hpq x (or_introl eq_refl) E)|destruct (q x)]; lia.
Qed.

Lemma count_where_ext p q l :
  (forall x, p x = q x) -> count_where p l = count_where q l.
Proof.
  intros H. induction l as [|x l IH]; [done|].
  by rewrite !count_where_cons, H, IH.
Qed.
Lemma filter_none p l : Forall (fun x => p x = false) l -> List.filter p l = [].
Proof. induction 1 as [|x l Hx _ IH]; simpl; [done|]. by rewrite Hx. Qed.

Lemma filter_idem p l : List.filter p (List.filter p l) = List.filter p l.
Proof.
  induction l as [|x l IH]; [done|]. simpl.
  destruct (p x) eqn:E; simpl; [rewrite E|]; by rewrite IH.
Qed.

(** A DELETE leaves no row its WHERE clause selects. *)
Lemma filter_neg_empty p l : List.filter p (List.filter (fun x => negb (p x)) l) = [].
Proof. induction l as [|x l IH]; [done|]. simpl. destruct (p x) eqn:E; simpl; [done|]. by rewrite E. Qed.

(** Two tests that never hold together count no more than the list. *)
Lemma count_where_disjoint p q l :
  (forall x, p x = true -> q x = false) ->
  (count_where p l + count_where q l <= length l)%nat.
Proof.
  intros Hpq. induction l as [|x l IH]; [done|]. rewrite !count_where_cons. cbn [length].
  destruct (p x) eqn:E; [rewrite (Hpq x E)|destruct (q x)]; lia.
Qed.

(** Two tests that never hold together and cover every element count
    the whole list. *)
Lemma count_where_partition p q l :
  (forall x, In x l -> p x = true \/ q x = true) -> (forall x, p x = true -> q x = false) ->
  (count_where p l + count_where q l = length l)%nat.
Proof.
  intros Hcov Hpq. induction l as [|x l IH]; [done|]. rewrite !count_where_cons. cbn [length].
  assert (count_where p l + count_where q l = length l)%nat by (apply IH; intros y Hy; apply Hcov; by right).
  destruct (Hcov x (or_introl eq_refl)) as [E|E]; rewrite E;
    [rewrite (Hpq x E)|destruct (p x) eqn:E'; [by rewrite (Hpq x E') in E|]]; lia.
Qed.
End Counting.

(** Rows of a table keyed by [f] are equal when their keys are. *)
Lemma NoDup_map_eq {A B} (f : A -> B) l x y :
  NoDup (List.map f l) -> In x l -> In y l -> f x = f y -> x = y.
Proof.
  induction l as [|a l IH]; [done|]. cbn. intros Hd. inversion Hd as [|? ? Hn Hd']; subst.
  intros [->|Hx] [->|Hy] Hf; [done| | |by apply IH].
  - destruct Hn. rewrite Hf. by apply list_elem_of_In, in_map.
  - destruct Hn. rewrite <- Hf. by apply list_elem_of_In, in_map.
Qed.

(** A SELECT's [WHERE] respects the reordering of the rows: [List.filter]
    is a morphism of [Permutation], so [rewrite] works under [≡ₚ]. *)
#[export] Instance List_filter_Permutation {A} (p : A -> bool) :
  Proper ((≡ₚ) ==> (≡ₚ)) (List.filter p).
Proof.
  intros l l' H. induction H as [|x l l' _ IH|x y l|l l' l'' _ IH1 _ IH2]; simpl.
  - done.
  - destruct (p x); [by f_equiv|done].
  - destruct (p x), (p y); [apply Permutation_swap|done..].
  - by rewrite IH1.
Qed.

#[export] Hint Rewrite @count_where_app @count_where_cons @count_where_nil : session_rw.
#[export] Hint Resolve count_where_map_le count_where_filter_le : session.

