(* ===== verification/Regex.v ===== *)
(** * Anchored regular expressions: [RegExp.prototype.test]

    The validators of [src/controller/manage-admin/admin.js] test strings
    against anchored patterns ([/^...$/]): the whole string must match.
    Patterns are the inductive [re] (character classes as predicates on
    characters), [test] is the matcher by Brzozowski derivatives, and
    [matches] is the language of a pattern.  [test_spec] shows the matcher
    decides the language.  Strings are sequences of 8-bit characters;
    JavaScript's UTF-16 units above 255 do not occur in the model. *)

From stdpp Require Import base tactics.
From Stdlib Require Import Ascii String List Lia.
From S2P Require Import Prelude.
Import ListNotations.

Module Regex.

Inductive re : Type :=
| Void
| Eps
| Class (p : ascii -> bool)
| Cat (r1 r2 : re)
| Alt (r1 r2 : re)
| Star (r : re).

(** [r+] and [r{n}] *)
Definition Plus (r : re) : re := Cat r (Star r).
Fixpoint Rep (n : nat) (r : re) : re :=
  match n with
  | O => Eps
  | S k => Cat r (Rep k r)
  end.

Fixpoint nullable (r : re) : bool :=
  match r with
  | Void | Class _ => false
  | Eps | Star _ => true
  | Cat r1 r2 => nullable r1 && nullable r2
  | Alt r1 r2 => nullable r1 || nullable r2
  end.

Fixpoint deriv (c : ascii) (r : re) : re :=
  match r with
  | Void | Eps => Void
  | Class p => if p c then Eps else Void
  | Cat r1 r2 =>
    if nullable r1 then Alt (Cat (deriv c r1) r2) (deriv c r2)
    else Cat (deriv c r1) r2
  | Alt r1 r2 => Alt (deriv c r1) (deriv c r2)
  | Star r1 => Cat (deriv c r1) (Star r1)
  end.

(** [/^r$/.test(s)] *)
Definition test (r : re) (s : list ascii) : bool :=
  nullable (fold_left (fun r c => deriv c r) s r).

Definition test_string (r : re) (s : string) : bool := test r (list_ascii_of_string s).

(** The language of a pattern. *)
Inductive matches : re -> list ascii -> Prop :=
| m_eps : matches Eps []
| m_class p c : p c = true -> matches (Class p) [c]
| m_cat r1 r2 s1 s2 : matches r1 s1 -> matches r2 s2 -> matches (Cat r1 r2) (s1 ++ s2)
| m_altl r1 r2 s : matches r1 s -> matches (Alt r1 r2) s
| m_altr r1 r2 s : matches r2 s -> matches (Alt r1 r2) s
| m_star0 r : matches (Star r) []
| m_star r s1 s2 : matches r s1 -> matches (Star r) s2 -> matches (Star r) (s1 ++ s2).

(** ** Character classes of JavaScript *)

(** [\s] on 8-bit characters: tab, line feed, vertical tab, form feed,
    carriage return, space and no-break space. *)
Definition is_space (c : ascii) : bool :=
  let n := nat_of_ascii c in
  (Nat.leb 9 n && Nat.leb n 13) || Nat.eqb n 32 || Nat.eqb n 160.

(** [[0-9]] *)
Definition is_digit (c : ascii) : bool :=
  let n := nat_of_ascii c in Nat.leb 48 n && Nat.leb n 57.

(** [[^\s@]] *)
Definition not_space_at (c : ascii) : bool :=
  negb (is_space c) && negb (Ascii.eqb c "@").

Definition chr (a : ascii) : re := Class (Ascii.eqb a).

(** ** Lemmas *)

Lemma matches_cat r1 r2 s :
  matches (Cat r1 r2) s <-> exists s1 s2, s = s1 ++ s2 /\ matches r1 s1 /\ matches r2 s2.
Proof.
  split.
  - intros H. inversion H; subst. eauto.
  - intros (s1 & s2 & -> & H1 & H2). by constructor.
Qed.

Lemma matches_alt r1 r2 s : matches (Alt r1 r2) s <-> matches r1 s \/ matches r2 s.
Proof.
  split.
  - intros H. inversion H; subst; auto.
  - intros [H|H]; [by apply m_altl|by apply m_altr].
Qed.

Lemma matches_class p s : matches (Class p) s <-> exists c, s = [c] /\ p c = true.
Proof.
  split.
  - intros H. inversion H; subst. eauto.
  - intros (c & -> & Hc). by constructor.
Qed.

Lemma nullable_spec r : nullable r = true <-> matches r [].
Proof.
  induction r as [| |p|r1 IH1 r2 IH2|r1 IH1 r2 IH2|r IH]; simpl.
  - split; [discriminate|intros H; inversion H].
  - split; [constructor|done].
  - split; [discriminate|intros H; inversion H].
  - rewrite Bool.andb_true_iff, IH1, IH2. split.
    + intros [H1 H2]. apply (m_cat _ _ [] []); done.
    + intros (s1 & s2 & E & H1 & H2)%matches_cat.
      symmetry in E. apply app_eq_nil in E as [-> ->]. done.
  - rewrite Bool.orb_true_iff, IH1, IH2. symmetry. apply matches_alt.
  - split; [constructor|done].
Qed.

Section Deriv.

(** The inversion of a [Star] match on a non-empty string: the first
    non-empty piece starts with its first character. *)
Lemma star_cons_inv r c s :
  matches (Star r) (c :: s) ->
  exists s1 s2, s = s1 ++ s2 /\ matches r (c :: s1) /\ matches (Star r) s2.
Proof.
  intros H. remember (Star r) as rs eqn:Ers. remember (c :: s) as cs eqn:Ecs.
  revert s Ecs. induction H as [| | | | | |r0 s1 s2 H1 H2 IH2 IH]; intros s0 Ecs;
    try discriminate.
  injection Ers as <-. destruct s1 as [|c1 s1].
  - simpl in Ecs. subst s2. by apply IH.
  - injection Ecs as <- <-. exists s1, s2. done.
Qed.

Lemma deriv_spec r : forall c s, matches (deriv c r) s <-> matches r (c :: s).
Proof.
  induction r as [| |p|r1 IH1 r2 IH2|r1 IH1 r2 IH2|r IH]; intros c s; simpl.
  - split; intros H; inversion H.
  - split; intros H; inversion H.
  - destruct (p c) eqn:Ep; split; intros H.
    + inversion H. by constructor.
    + inversion H; subst. constructor.
    + inversion H.
    + inversion H; congruence.
  - split.
    + destruct (nullable r1) eqn:En.
      * intros [(s1 & s2 & -> & H1 & H2)%matches_cat | H']%matches_alt.
        -- apply IH1 in H1. by apply (m_cat _ _ (c :: s1) s2).
        -- apply IH2 in H'. apply nullable_spec in En.
           by apply (m_cat _ _ [] (c :: s)).
      * intros (s1 & s2 & -> & H1 & H2)%matches_cat.
        apply IH1 in H1. by apply (m_cat _ _ (c :: s1) s2).
    + intros (s1 & s2 & E & H1 & H2)%matches_cat.
      destruct s1 as [|c1 s1].
      * simpl in E. subst s2. assert (nullable r1 = true) as -> by by apply nullable_spec.
        apply m_altr. by apply IH2.
      * injection E as <- ->. apply IH1 in H1.
        destruct (nullable r1); [apply m_altl|]; by constructor.
  - rewrite !matches_alt, IH1, IH2. done.
  - split.
    + intros (s1 & s2 & -> & H1 & H2)%matches_cat.
      apply IH in H1. by apply (m_star _ (c :: s1) s2).
    + intros (s1 & s2 & -> & H1 & H2)%star_cons_inv. constructor; [by apply IH|done].
Qed.

End Deriv.

(** The matcher decides the language of the pattern. *)
Lemma test_spec r s : test r s = true <-> matches r s.
Proof.
  unfold test. revert r. induction s as [|c s IH]; intros r; simpl.
  - apply nullable_spec.
  - rewrite IH. apply deriv_spec.
Qed.

Lemma matches_star_class p s :
  matches (Star (Class p)) s <-> Forall (fun c => p c = true) s.
Proof.
  split.
  - intros H. remember (Star (Class p)) as rs eqn:E in H.
    induction H as [| | | | | |r0 t1 t2 Ht1 Ht2 IHt IHt2]; try discriminate; [constructor|].
    injection E as ->. apply matches_class in Ht1 as (c & -> & Hc).
    constructor; [done|by apply IHt2].
  - induction 1 as [|c s Hc _ IH]; [constructor|].
    apply (m_star _ [c] s); [by constructor|done].
Qed.

Lemma matches_plus_class p s :
  matches (Plus (Class p)) s <-> s <> [] /\ Forall (fun c => p c = true) s.
Proof.
  unfold Plus. rewrite matches_cat. split.
  - intros (s1 & s2 & -> & (c & -> & Hc)%matches_class & H2%matches_star_class).
    split; [done|]. by constructor.
  - intros [Hne Hall]. destruct s as [|c s]; [done|].
    inversion Hall as [|? ? Hc Hs]; subst.
    exists [c], s. split; [done|]. split; [by constructor|]. by apply matches_star_class.
Qed.

Lemma matches_rep_class p n s :
  matches (Rep n (Class p)) s <-> length s = n /\ Forall (fun c => p c = true) s.
Proof.
  revert s. induction n as [|n IH]; intros s; simpl.
  - split.
    + intros H. inversion H. done.
    + intros [Hl _]. destruct s; [constructor|discriminate].
  - split.
    + intros H. inversion H as [| | ? ? s1 s2 H1 H2| | | |]; subst.
      inversion H1; subst. apply IH in H2 as [Hl Hf]. simpl. split; [lia|by constructor].
    + intros [Hl Hf]. destruct s as [|c s]; [discriminate|].
      inversion Hf; subst. apply (m_cat _ _ [c] s); [by constructor|].
      apply IH. split; [simpl in Hl; lia|done].
Qed.

Lemma matches_chr a s : matches (chr a) s <-> s = [a].
Proof.
  split.
  - intros H. inversion H as [|p c Hc| | | | |]; subst. by apply Ascii.eqb_eq in Hc as ->.
  - intros ->. constructor. apply Ascii.eqb_refl.
Qed.

End Regex.
