(* ===== verification/Store.v ===== *)
(** * Session Store: the [admin] and [active_tokens] tables

    The rows of the two MySQL tables the session subsystem reads and writes,
    the SQL statements that [src/controller/login/login.js],
    [src/utils/tokenCleanup.js] and [src/controller/manage-admin/admin.js]
    issue against [active_tokens], their interpretation on a table (a list of
    rows in primary-key order), the SELECTs, and the two store invariants:
    session ids are unique (the table is keyed by [token_id]) and each admin
    owns at most one non-blacklisted row. *)

From stdpp Require Import base list strings decidable.
From Stdlib Require Import ZArith Lia.
From S2P Require Import Prelude.

Open Scope Z_scope.

(** A row of table [admin] (columns read by [login.js]). *)
Module AdminRow.
Record t := mk {
  id : Z;
  name : string;
  email : string;
  number : string;
  password : string;   (** the bcrypt hash *)
  status : string      (** ['active'], ['blocked'], or anything else *)
}.
End AdminRow.

(** A row of table [active_tokens], one per issued session. *)
Module TokenRow.
Record t := mk {
  token_id : string;     (** the JWT's [jti] *)
  admin_id : Z;
  ip_address : string;
  user_agent : string;
  issued_at : Z;         (** milliseconds *)
  last_activity : Z;
  expires_at : Z;
  is_blacklisted : bool
}.

Definition live (r : t) : bool := negb (is_blacklisted r).

(** [SET is_blacklisted = 1] *)
Definition blacklist (r : t) : t :=
  mk (token_id r) (admin_id r) (ip_address r) (user_agent r)
     (issued_at r) (last_activity r) (expires_at r) true.

(** [SET last_activity = ?] *)
Definition touch (now : Z) (r : t) : t :=
  mk (token_id r) (admin_id r) (ip_address r) (user_agent r)
     (issued_at r) now (expires_at r) (is_blacklisted r).
End TokenRow.

Module Store.
Import TokenRow.

(** ** The SQL statements issued against [active_tokens] *)
Inductive stmt :=
(** login.js:50 [UPDATE .. SET is_blacklisted = 1 WHERE admin_id = ? AND is_blacklisted = 0] *)
| BlacklistAdminTokens (aid : Z)
(** login.js:110 and :121 [UPDATE .. SET is_blacklisted = 1 WHERE token_id = ?] *)
| BlacklistToken (jti : string)
(** login.js:162 [UPDATE .. SET is_blacklisted = 1 WHERE token_id = ? AND admin_id = ?] *)
| BlacklistTokenOf (jti : string) (aid : Z)
(** login.js:62 and :126 [INSERT INTO active_tokens (...) VALUES (...)] *)
| InsertToken (r : TokenRow.t)
(** login.js:147 [UPDATE .. SET last_activity = ? WHERE token_id = ? AND admin_id = ? AND is_blacklisted = 0] *)
| UpdateLastActivity (now : Z) (jti : string) (aid : Z)
(** tokenCleanup.js:7 [UPDATE .. SET is_blacklisted = 1 WHERE expires_at < ? AND is_blacklisted = 0] *)
| BlacklistExpired (now : Z)
(** tokenCleanup.js:18 [DELETE FROM active_tokens WHERE is_blacklisted = 1] *)
| DeleteBlacklisted
(** admin.js:182 [DELETE FROM active_tokens WHERE admin_id = ?] *)
| DeleteAdminTokens (aid : Z).

Definition update_where (p : TokenRow.t -> bool) (f : TokenRow.t -> TokenRow.t)
    (tbl : list TokenRow.t) : list TokenRow.t :=
  List.map (fun r => if p r then f r else r) tbl.

Definition delete_where (p : TokenRow.t -> bool) (tbl : list TokenRow.t) : list TokenRow.t :=
  List.filter (fun r => negb (p r)) tbl.

Definition has_token_id (jti : string) (tbl : list TokenRow.t) : bool :=
  existsb (fun r => String.eqb (token_id r) jti) tbl.

(** The table is keyed by [token_id]: inserting a duplicate key fails. *)
Definition insert_row (r : TokenRow.t) (tbl : list TokenRow.t) : option (list TokenRow.t) :=
  if has_token_id (token_id r) tbl then None else Some (tbl ++ [r]).

(** The WHERE clauses. *)
Definition of_admin_live (aid : Z) (r : TokenRow.t) : bool :=
  (admin_id r =? aid) && live r.
Definition is_token (jti : string) (r : TokenRow.t) : bool :=
  String.eqb (token_id r) jti.
Definition is_token_of (jti : string) (aid : Z) (r : TokenRow.t) : bool :=
  String.eqb (token_id r) jti && (admin_id r =? aid).
Definition is_live_token_of (jti : string) (aid : Z) (r : TokenRow.t) : bool :=
  is_token_of jti aid r && live r.
Definition expired_live (now : Z) (r : TokenRow.t) : bool :=
  (expires_at r <? now) && live r.

Definition exec_stmt (s : stmt) (tbl : list TokenRow.t) : option (list TokenRow.t) :=
  match s with
  | BlacklistAdminTokens aid => Some (update_where (of_admin_live aid) blacklist tbl)
  | BlacklistToken jti => Some (update_where (is_token jti) blacklist tbl)
  | BlacklistTokenOf jti aid => Some (update_where (is_token_of jti aid) blacklist tbl)
  | InsertToken r => insert_row r tbl
  | UpdateLastActivity now jti aid =>
      Some (update_where (is_live_token_of jti aid) (touch now) tbl)
  | BlacklistExpired now => Some (update_where (expired_live now) blacklist tbl)
  | DeleteBlacklisted => Some (delete_where is_blacklisted tbl)
  | DeleteAdminTokens aid => Some (delete_where (fun r => admin_id r =? aid) tbl)
  end.

(** ** The SELECTs *)

(** login.js:84, verifyToken.js:272
    [SELECT * FROM active_tokens WHERE token_id = ? AND admin_id = ? AND is_blacklisted = 0] *)
Definition select_live_token (jti : string) (aid : Z) (tbl : list TokenRow.t) : list TokenRow.t :=
  List.filter (is_live_token_of jti aid) tbl.

(** login.js:16 [SELECT * FROM admin WHERE (email = ? OR number = ?)] *)
Definition select_admin_by_identifier (ident : string) (adm : list AdminRow.t) : list AdminRow.t :=
  List.filter (fun a => String.eqb (AdminRow.email a) ident || String.eqb (AdminRow.number a) ident) adm.

(** login.js:114 [SELECT * FROM admin WHERE id = ?] *)
Definition select_admin_by_id (aid : Z) (adm : list AdminRow.t) : list AdminRow.t :=
  List.filter (fun a => AdminRow.id a =? aid) adm.

(** ** Store invariants *)

Definition ids_unique (tbl : list TokenRow.t) : Prop := NoDup (List.map token_id tbl).

Definition live_count (aid : Z) (tbl : list TokenRow.t) : nat :=
  count_where (of_admin_live aid) tbl.

(** At most one non-blacklisted session per admin (spec, section 3). *)
Definition at_most_one_live (tbl : list TokenRow.t) : Prop :=
  forall aid, (live_count aid tbl <= 1)%nat.

(** Blacklisting is monotone: every live row after a statement was already
    a live row before it, or is the row the statement inserted. *)
Definition live_from (tbl tbl' : list TokenRow.t) (ins : option TokenRow.t) : Prop :=
  forall r', In r' tbl' -> live r' = true ->
    Some r' = ins \/ exists r, In r tbl /\ token_id r = token_id r' /\ live r = true.

Definition inserted (s : stmt) : option TokenRow.t :=
  match s with InsertToken r => Some r | _ => None end.

(** ** Lemmas on the statements *)

Lemma map_token_id_update p f tbl :
  (forall r, token_id (f r) = token_id r) ->
  List.map token_id (update_where p f tbl) = List.map token_id tbl.
Proof.
  intros Hf. induction tbl as [|r tbl IH]; [done|]. simpl.
  rewrite IH. by destruct (p r); rewrite ?Hf.
Qed.

Lemma in_map_token_id_filter q k tbl :
  In k (List.map token_id (List.filter q tbl)) -> In k (List.map token_id tbl).
Proof.
  rewrite !in_map_iff. intros (r & <- & Hr).
  apply filter_In in Hr as [Hr1 _]. eauto.
Qed.

Lemma ids_unique_delete p tbl : ids_unique tbl -> ids_unique (delete_where p tbl).
Proof.
  unfold ids_unique, delete_where. induction tbl as [|r tbl IH]; simpl; [done|].
  intros Hnd. inversion Hnd as [|? ? Hnin Hnd']; subst.
  destruct (negb (p r)); simpl; [|by apply IH].
  constructor; [|by apply IH].
  intros Hin%list_elem_of_In. apply Hnin, list_elem_of_In.
  by eapply in_map_token_id_filter.
Qed.

Lemma has_token_id_false jti tbl :
  has_token_id jti tbl = false -> ~ In jti (List.map token_id tbl).
Proof.
  unfold has_token_id. intros Hex Hin.
  apply in_map_iff in Hin as (r & Hr & Hin).
  assert (existsb (fun r => String.eqb (token_id r) jti) tbl = true) as Ht.
  { apply existsb_exists. exists r. split; [done|]. by apply String.eqb_eq. }
  congruence.
Qed.

Lemma ids_unique_insert r tbl tbl' :
  insert_row r tbl = Some tbl' -> ids_unique tbl -> ids_unique tbl'.
Proof.
  unfold insert_row, ids_unique. destruct (has_token_id _ _) eqn:E; [done|].
  intros [= <-] Hnd. rewrite List.map_app. simpl.
  apply list.NoDup_app. split; [done|]. split; [|constructor; [apply not_elem_of_nil|constructor]].
  intros x Hx Hx'. apply list_elem_of_singleton in Hx' as ->.
  apply list_elem_of_In in Hx. by apply (has_token_id_false _ _ E).
Qed.

Lemma has_token_id_update k p f tbl :
  (forall r, token_id (f r) = token_id r) ->
  has_token_id k (update_where p f tbl) = has_token_id k tbl.
Proof.
  intros Hf. induction tbl as [|r tbl IH]; [done|]. simpl.
  rewrite IH. by destruct (p r); rewrite ?Hf.
Qed.

Lemma blacklist_token_id r : token_id (blacklist r) = token_id r.
Proof. reflexivity. Qed.
Lemma touch_token_id now r : token_id (touch now r) = token_id r.
Proof. reflexivity. Qed.
#[local] Hint Resolve blacklist_token_id touch_token_id : session.

(** Every statement keeps session ids unique. *)
Lemma exec_stmt_ids_unique s tbl tbl' :
  exec_stmt s tbl = Some tbl' -> ids_unique tbl -> ids_unique tbl'.
Proof.
  destruct s; simpl; try (intros [= <-]; unfold ids_unique;
    rewrite ?map_token_id_update by auto with session; done);
    try (intros [= <-]; apply ids_unique_delete).
  apply ids_unique_insert.
Qed.

(** Blacklisting and touching never make a row newly live for an admin. *)
Lemma of_admin_live_update_blacklist aid p tbl :
  (live_count aid (update_where p blacklist tbl) <= live_count aid tbl)%nat.
Proof.
  apply count_where_map_le. intros r. unfold of_admin_live.
  destruct (p r); simpl; [|done]. by rewrite andb_false_r.
Qed.

Lemma live_count_touch aid p now tbl :
  live_count aid (update_where p (touch now) tbl) = live_count aid tbl.
Proof.
  unfold live_count, update_where. induction tbl as [|r tbl IH]; [done|].
  simpl. rewrite !count_where_cons, IH. by destruct (p r).
Qed.

(** Statements other than INSERT never increase an admin's live count. *)
Lemma exec_stmt_live_le s tbl tbl' aid :
  inserted s = None -> exec_stmt s tbl = Some tbl' ->
  (live_count aid tbl' <= live_count aid tbl)%nat.
Proof.
  destruct s; simpl; intros Hins; try discriminate; intros [= <-];
    try apply of_admin_live_update_blacklist;
    try (rewrite live_count_touch; lia);
    apply count_where_filter_le.
Qed.

Lemma at_most_one_live_stmt s tbl tbl' :
  inserted s = None -> exec_stmt s tbl = Some tbl' ->
  at_most_one_live tbl -> at_most_one_live tbl'.
Proof.
  intros Hins Hs Ho aid. specialize (Ho aid).
  pose proof (exec_stmt_live_le s tbl tbl' aid Hins Hs). lia.
Qed.

(** login.js:50 leaves the admin with no live row. *)
Lemma blacklist_admin_tokens_none aid tbl :
  live_count aid (update_where (of_admin_live aid) blacklist tbl) = 0%nat.
Proof.
  apply count_where_zero, Forall_forall. intros r Hr.
  apply in_map_iff in Hr as (r0 & <- & _).
  destruct (of_admin_live aid r0) eqn:E; [|done].
  unfold of_admin_live. simpl. by rewrite andb_false_r.
Qed.

Lemma live_count_app aid l1 l2 :
  live_count aid (l1 ++ l2) = (live_count aid l1 + live_count aid l2)%nat.
Proof. apply count_where_app. Qed.

Lemma live_count_insert aid r tbl tbl' :
  insert_row r tbl = Some tbl' ->
  live_count aid tbl' = (live_count aid tbl + if of_admin_live aid r then 1 else 0)%nat.
Proof.
  unfold insert_row. destruct (has_token_id _ _); [done|]. intros [= <-].
  unfold live_count. rewrite count_where_app, count_where_cons, count_where_nil.
  destruct (of_admin_live aid r); lia.
Qed.

(** After an UPDATE that blacklists every row of session [jti] of admin
    [aid], no live row of that session remains. *)
Lemma select_live_token_blacklisted p jti aid tbl :
  (forall r, is_live_token_of jti aid r = true -> p r = true) ->
  select_live_token jti aid (update_where p blacklist tbl) = [].
Proof.
  intros Hp. unfold select_live_token, update_where.
  induction tbl as [|r tbl IH]; [done|]. simpl.
  destruct (p r) eqn:E.
  - unfold is_live_token_of at 1, live. simpl. by rewrite andb_false_r.
  - destruct (is_live_token_of jti aid r) eqn:E'; [|done].
    rewrite (Hp r E') in E. discriminate.
Qed.

Lemma is_live_token_of_is_token jti aid r : is_live_token_of jti aid r = true -> is_token jti r = true.
Proof. unfold is_live_token_of, is_token_of, is_token. by intros [[-> _]%andb_prop _]%andb_prop. Qed.

Lemma is_live_token_of_is_token_of jti aid r :
  is_live_token_of jti aid r = true -> is_token_of jti aid r = true.
Proof. unfold is_live_token_of. by intros [-> _]%andb_prop. Qed.

Lemma is_live_token_of_admin_live jti aid r :
  is_live_token_of jti aid r = true -> of_admin_live aid r = true.
Proof.
  unfold is_live_token_of, is_token_of, of_admin_live.
  by intros [[_ ->]%andb_prop ->]%andb_prop.
Qed.

Lemma select_live_token_app jti aid l1 l2 :
  select_live_token jti aid (l1 ++ l2) = select_live_token jti aid l1 ++ select_live_token jti aid l2.
Proof. apply List.filter_app. Qed.

(** Blacklisting twice with a test that ignores the flag is blacklisting
    once. *)
Lemma update_blacklist_idem p tbl :
  (forall r, p (blacklist r) = p r) ->
  update_where p blacklist (update_where p blacklist tbl) = update_where p blacklist tbl.
Proof.
  intros Hp. unfold update_where. rewrite List.map_map.
  apply List.map_ext. intros r. destruct (p r) eqn:E; [by rewrite Hp, E|by rewrite E].
Qed.

(** Statements other than INSERT add no session id. *)
Lemma exec_stmt_keys s tbl tbl' k :
  inserted s = None -> exec_stmt s tbl = Some tbl' ->
  In k (List.map token_id tbl') -> In k (List.map token_id tbl).
Proof.
  destruct s; simpl; intros Hins; try discriminate; intros [= <-];
    try (rewrite map_token_id_update; auto with session);
    apply in_map_token_id_filter.
Qed.

(** A property of rows that blacklisting and touching keep, and that the
    inserted row has, holds of every row after any statement. *)
Lemma exec_stmt_forall (P : TokenRow.t -> Prop) s tbl tbl' :
  (forall r, P r -> P (blacklist r)) -> (forall now r, P r -> P (touch now r)) ->
  (forall r, inserted s = Some r -> P r) ->
  exec_stmt s tbl = Some tbl' -> Forall P tbl -> Forall P tbl'.
Proof.
  intros Hb Ht Hi. destruct s; cbn; intros Hs Hall;
    try (injection Hs as <-; unfold update_where, delete_where;
         first [apply List.Forall_map; eapply List.Forall_impl; [|exact Hall]; intros r Hr; cbn;
                case_match; auto
               |apply List.Forall_forall; intros x [Hx _]%filter_In; by eapply List.Forall_forall in Hall]).
  unfold insert_row in Hs. destruct (has_token_id _ _); [done|]. injection Hs as <-.
  apply List.Forall_app. split; [done|]. constructor; [by apply Hi|constructor].
Qed.

Lemma select_live_token_head jti aid tbl row rest :
  select_live_token jti aid tbl = row :: rest ->
  In row tbl /\ is_live_token_of jti aid row = true.
Proof.
  intros Hsel. assert (In row (select_live_token jti aid tbl)) as Hin by (rewrite Hsel; left; done).
  by apply filter_In in Hin.
Qed.

(** Blacklisting a live row of [aid] lowers its live count. *)
Lemma live_count_blacklist_drop p aid row tbl :
  In row tbl -> of_admin_live aid row = true -> p row = true ->
  (live_count aid (update_where p blacklist tbl) < live_count aid tbl)%nat.
Proof.
  unfold live_count, update_where. induction tbl as [|x tbl IH]; [done|].
  intros [<-|Hin] Hl Hp; simpl; rewrite !count_where_cons.
  - rewrite Hp, Hl. unfold of_admin_live at 1. simpl. rewrite andb_false_r.
    enough (count_where (of_admin_live aid) (List.map (fun r => if p r then blacklist r else r) tbl)
            <= count_where (of_admin_live aid) tbl)%nat by lia.
    apply count_where_map_le.
    intros r. destruct (p r); [|done]. unfold of_admin_live. simpl. by rewrite andb_false_r.
  - specialize (IH Hin Hl Hp).
    destruct (p x); [|destruct (of_admin_live aid x); lia].
    unfold of_admin_live at 1. simpl. rewrite andb_false_r. destruct (of_admin_live aid x); lia.
Qed.

(** Blacklisting some rows and appending a fresh row keeps both store
    invariants, provided the new row's admin is left with no other live
    row. *)
Lemma rotate_invariants p r tbl :
  ids_unique tbl -> at_most_one_live tbl -> has_token_id (token_id r) tbl = false ->
  live_count (admin_id r) (update_where p blacklist tbl) = 0%nat ->
  ids_unique (update_where p blacklist tbl ++ [r]) /\
  at_most_one_live (update_where p blacklist tbl ++ [r]).
Proof.
  intros Hu Ho Hfresh Hzero. split.
  - apply (ids_unique_insert r (update_where p blacklist tbl)).
    + unfold insert_row. by rewrite has_token_id_update, Hfresh.
    + unfold ids_unique. by rewrite map_token_id_update.
  - intros aid. rewrite live_count_app.
    assert (live_count aid [r] = if Z.eqb (admin_id r) aid then (if live r then 1 else 0) else 0)%nat
      as Hr by (unfold live_count, count_where, of_admin_live; simpl;
                by destruct (admin_id r =? aid), (live r)).
    rewrite Hr. destruct (Z.eqb_spec (admin_id r) aid) as [Heq|Hne].
    + rewrite <- Heq, Hzero. destruct (live r); lia.
    + pose proof (of_admin_live_update_blacklist aid p tbl). specialize (Ho aid). lia.
Qed.
End Store.
