(* ===== verification/Codec.v ===== *)
(** * Token Codec and Credential Verifier

    [src/utils/jwtUtils.js] signs the session claims with the process-wide
    [ACCESS_TOKEN_SECRET] and a 30-minute lifetime; the middlewares verify
    them with [jsonwebtoken]'s [jwt.verify].  A token is modelled
    symbolically: a signed token carries its claims and the key it was
    signed with (HMAC unforgeability, taken as the codec's contract), any
    other bearer string is [Malformed].  The two external primitives the
    code calls, [uuid]'s [v4] and [bcrypt], are interfaces (type classes)
    with the laws the session code relies on. *)

From stdpp Require Import base list strings decidable.
From Stdlib Require Import ZArith Lia DecimalString DecimalNat.
From S2P Require Import Prelude Store.

Open Scope Z_scope.

Module Codec.
(** jwtUtils.js:4 *)
Definition ACCESS_TOKEN_SECRET : string :=
  "f8b54dd08c66f24176c682a3a74f7818c740ee5c1805c3e88a16ac1c92d1e721".

(** The payload signed at jwtUtils.js:10, with the [iat] and [exp] that
    [jwt.sign] adds (seconds since the epoch). *)
Record claims := mk_claims {
  id : Z;
  email : string;
  name : string;
  status : string;
  jti : string;
  ip : string;
  userAgent : string;
  iat : Z;
  exp : Z
}.

Inductive token :=
| Signed (c : claims) (key : string)
| Malformed (raw : string).

(** [expiresIn: '30m'] *)
Definition EXPIRES_IN : Z := 30 * 60.

(** [jwt.sign(payload, key, { expiresIn: '30m' })] at [now] (milliseconds):
    [iat = Math.floor(now / 1000)], [exp = iat + 1800]. *)
Definition jwt_sign (a : AdminRow.t) (jti ip ua key : string) (now : Z) : token :=
  let iat := now / 1000 in
  Signed (mk_claims (AdminRow.id a) (AdminRow.email a) (AdminRow.name a)
            (AdminRow.status a) jti ip ua iat (iat + EXPIRES_IN)) key.

Inductive verify_error :=
| SecretMissing        (** "secret or public key must be provided" *)
| JwtMalformed         (** "jwt malformed" *)
| InvalidSignature     (** "invalid signature" *)
| TokenExpired.        (** TokenExpiredError: [clockTimestamp >= exp] *)

(** [jwt.verify(token, secret)] at [now] (milliseconds), in the order the
    library checks: secret present, token well formed, signature, expiry. *)
Definition jwt_verify (t : token) (secret : option string) (now : Z) : result claims verify_error :=
  match secret with
  | None => Err SecretMissing
  | Some key =>
      match t with
      | Malformed _ => Err JwtMalformed
      | Signed c k =>
          if String.eqb k key then
            if now / 1000 >=? exp c then Err TokenExpired else Ok c
          else Err InvalidSignature
      end
  end.

(** ** The UUID generator ([uuid.v4]) *)

(** Version-4 UUIDs are assumed distinct: the generator is an injective
    function of a counter that the runtime threads. *)
Class Uuid := {
  uuidv4 : nat -> string;
  uuidv4_inj :: Inj eq eq uuidv4
}.

(** ** The credential verifier ([bcrypt]) *)

Class Bcrypt := {
  bcrypt_hash : string -> string;
  bcrypt_compare : string -> string -> bool;
  bcrypt_compare_hash : forall p, bcrypt_compare p (bcrypt_hash p) = true
}.

(** Concrete instances, used to run the model on examples. *)
(** The counter printed in decimal: ["0"], ["1"], ... *)
Definition decimal (n : nat) : string := NilEmpty.string_of_uint (Nat.to_uint n).
#[export] Program Instance uuid_counter : Uuid := {| uuidv4 := decimal |}.
Next Obligation.
  intros a b Hab. unfold decimal in Hab.
  apply (f_equal NilEmpty.uint_of_string) in Hab. rewrite !NilEmpty.usu in Hab.
  injection Hab as Hab. apply (f_equal Nat.of_uint) in Hab.
  by rewrite !DecimalNat.Unsigned.of_to in Hab.
Qed.

Definition hash_tag (p : string) : string := "$2b$10$" +:+ p.
#[export] Program Instance bcrypt_tagged : Bcrypt :=
  {| bcrypt_hash := hash_tag;
     bcrypt_compare p h := String.eqb (hash_tag p) h |}.
Next Obligation. intros p. apply String.eqb_refl. Qed.

(** ** Lemmas *)

Lemma jwt_verify_sign a jti ip ua now now' :
  now' / 1000 < now / 1000 + EXPIRES_IN ->
  jwt_verify (jwt_sign a jti ip ua ACCESS_TOKEN_SECRET now) (Some ACCESS_TOKEN_SECRET) now'
  = Ok (mk_claims (AdminRow.id a) (AdminRow.email a) (AdminRow.name a)
          (AdminRow.status a) jti ip ua (now / 1000) (now / 1000 + EXPIRES_IN)).
Proof.
  intros Hlt. unfold jwt_verify, jwt_sign. cbn -[Z.div Z.geb Z.add].
  destruct (Z.geb_spec (now' / 1000) (now / 1000 + EXPIRES_IN)); [lia|done].
Qed.

Lemma jwt_verify_signed c key now :
  now / 1000 < exp c -> jwt_verify (Signed c key) (Some key) now = Ok c.
Proof.
  intros Hlt. unfold jwt_verify. rewrite String.eqb_refl.
  destruct (Z.geb_spec (now / 1000) (exp c)); [lia|done].
Qed.

(** A token verifies under a key only if it was signed with that key. *)
Lemma jwt_verify_ok_inv t key now c :
  jwt_verify t (Some key) now = Ok c ->
  t = Signed c key /\ now / 1000 < exp c.
Proof.
  unfold jwt_verify. destruct t as [c' k|]; [|discriminate].
  destruct (String.eqb_spec k key) as [->|]; [|discriminate].
  destruct (Z.geb_spec (now / 1000) (exp c')); [discriminate|].
  intros [= ->]. split; [done|lia].
Qed.
End Codec.
