(* ===== verification/Db.v ===== *)
(** * The runtime: the MySQL pool, the UUID source and HTTP responses

    [src/connection/connection.js] exports one shared [mysql2] pool; every
    handler calls [connection.query(sql, params, callback)] and branches on
    [err] in the callback.  The world threads the tables, a fault oracle (the
    outcome of each query in issue order: [true] makes that query fail, as a
    lost connection or a constraint error would, with no effect), and the
    counter of the UUID generator.  A statement issued in a callback runs
    after the statement whose callback it is; two statements issued without
    waiting run in either order ([both]).  A statement whose callback
    ignores [err] is still run, and its failure is dropped. *)

From stdpp Require Import base list strings decidable.
From Stdlib Require Import ZArith Lia.
From S2P Require Import Prelude Store Codec.

Open Scope Z_scope.

Module Db.
Import Codec.

Record world := mk_world {
  admins : list AdminRow.t;
  tokens : list TokenRow.t;
  faults : list bool;
  uuid_seed : nat
}.

Definition set_tokens (t : list TokenRow.t) (w : world) : world :=
  mk_world (admins w) t (faults w) (uuid_seed w).
Definition set_admins (a : list AdminRow.t) (w : world) : world :=
  mk_world a (tokens w) (faults w) (uuid_seed w).

Inductive outcome := Done | Failed.

(** The oracle's verdict on the next query. *)
Definition next_fault : St world bool :=
  fun w => match faults w with
           | [] => (false, w)
           | b :: bs => (b, mk_world (admins w) (tokens w) bs (uuid_seed w))
           end.

(** A write statement on [active_tokens]. *)
Definition run (s : Store.stmt) : St world outcome :=
  let* f := next_fault in
  if f then st_ret Failed
  else fun w => match Store.exec_stmt s (tokens w) with
                | Some t => (Done, set_tokens t w)
                | None => (Failed, w)
                end.

(** A SELECT: [None] is the [err] branch of the callback. *)
Definition query {R} (sel : world -> list R) : St world (option (list R)) :=
  let* f := next_fault in
  if f then st_ret None else fun w => (Some (sel w), w).

(** [uuidv4()] *)
Definition gen_uuid `{Uuid} : St world string :=
  fun w => (uuidv4 (uuid_seed w),
            mk_world (admins w) (tokens w) (faults w) (S (uuid_seed w))).

(** jwtUtils.js:6-16 [generateAccessToken(admin, ip, userAgent)]: a fresh
    [jti] and the token signed with [ACCESS_TOKEN_SECRET]. *)
Definition generateAccessToken `{Uuid} (a : AdminRow.t) (ip ua : string) (now : Z)
    : St world (token * string) :=
  let* jti := gen_uuid in
  st_ret (jwt_sign a jti ip ua ACCESS_TOKEN_SECRET now, jti).

(** ** Two statements issued without waiting

    [connection] is a pool of ten connections (connection.js:4-12).  A
    handler that issues a second statement before the first one's callback
    (login.js:49-71, tokenCleanup.js:28-31) hands them to two connections,
    and the server may execute either first.  [both o m1 m2] runs the two
    in the order [o] the pool picks and returns their results in issue
    order; theorems about such a handler quantify over [o]. *)
Inductive order := InOrder | Swapped.

#[export] Instance order_eq_dec : EqDecision order.
Proof. solve_decision. Defined.

Definition both {A B} (o : order) (m1 : St world A) (m2 : St world B) : St world (A * B) :=
  match o with
  | InOrder => let* a := m1 in let* b := m2 in st_ret (a, b)
  | Swapped => let* b := m2 in let* a := m1 in st_ret (a, b)
  end.

(** ** HTTP responses *)

Inductive body :=
| JError (msg : string)                                 (** [{ error: msg }] *)
| JMessage (msg : string)                               (** [{ message: msg }] *)
| JAccessToken (t : token)                              (** [{ accessToken }] *)
| JLogin (t : token) (aid : Z) (name email : string)    (** [{ accessToken, admin: {id, name, email} }] *)
| JAdmins (rows : list AdminRow.t)                      (** [res.json(data)] of [SELECT * FROM admin] *)
| JAdmin (row : AdminRow.t)                             (** [res.json(data[0])] *)
| JAdminAdded (msg : string) (insertId : Z)             (** [{ message, data: result }] of an INSERT *)
| JAdminStatus (msg : string) (row : AdminRow.t)        (** [{ message, admin: { ...results[0], status } }] *)
| JAgency (aid : Z) (name email number status : string). (** [SELECT id, name, email, number, status, ..] *)

Record response := mk_response { code : Z; body_of : body }.

(** ** Issued ids

    Every [token_id] in the table came from the generator, with a seed
    below the current one: the next [uuidv4()] is fresh. *)
Definition ids_issued `{Uuid} (w : world) : Prop :=
  Forall (fun r => exists k, (k < uuid_seed w)%nat /\ TokenRow.token_id r = uuidv4 k) (tokens w).

(** ** Lemmas *)

Lemma run_no_fault s w :
  faults w = [] ->
  run s w = match Store.exec_stmt s (tokens w) with
            | Some t => (Done, set_tokens t w)
            | None => (Failed, w)
            end.
Proof. intros Hf. unfold run. run_st. unfold next_fault. by rewrite Hf. Qed.

Lemma query_no_fault {R} (sel : world -> list R) w :
  faults w = [] -> query sel w = (Some (sel w), w).
Proof. intros Hf. unfold query. run_st. unfold next_fault. by rewrite Hf. Qed.

Lemma run_faults s w : faults (snd (run s w)) = tail (faults w).
Proof.
  unfold run, next_fault. run_st.
  destruct (faults w) as [|[] bs] eqn:Hf; simpl; repeat case_match;
    unfold set_tokens; simpl; congruence.
Qed.

(** Binding a query or a statement in a fault-free world. *)
Lemma bind_query_nf {R B} (sel : world -> list R) (k : option (list R) -> St world B) w :
  faults w = [] -> st_bind (query sel) k w = k (Some (sel w)) w.
Proof. intros Hf. by rewrite st_bind_run, query_no_fault. Qed.

Lemma bind_run_nf {B} s (k : outcome -> St world B) w :
  faults w = [] ->
  st_bind (run s) k w = match Store.exec_stmt s (tokens w) with
                        | Some t => k Done (set_tokens t w)
                        | None => k Failed w
                        end.
Proof.
  intros Hf. rewrite st_bind_run, run_no_fault by done.
  destruct (Store.exec_stmt s (tokens w)); reflexivity.
Qed.

Lemma bind_run_fail {B} s (k : outcome -> St world B) w bs :
  faults w = true :: bs ->
  st_bind (run s) k w = k Failed (mk_world (admins w) (tokens w) bs (uuid_seed w)).
Proof. intros Hf. unfold run, next_fault. run_st. by rewrite Hf. Qed.

Lemma bind_query_ok {R B} (sel : world -> list R) (k : option (list R) -> St world B) w bs :
  faults w = false :: bs ->
  st_bind (query sel) k w =
    let w1 := mk_world (admins w) (tokens w) bs (uuid_seed w) in k (Some (sel w1)) w1.
Proof. intros Hf. unfold query, next_fault. run_st. by rewrite Hf. Qed.

Lemma bind_run_ok {B} s (k : outcome -> St world B) w bs :
  faults w = false :: bs ->
  st_bind (run s) k w =
    let w1 := mk_world (admins w) (tokens w) bs (uuid_seed w) in
    match Store.exec_stmt s (tokens w) with
    | Some t => k Done (set_tokens t w1)
    | None => k Failed w1
    end.
Proof. intros Hf. unfold run, next_fault. run_st. rewrite Hf. simpl.
  destruct (Store.exec_stmt s (tokens w)); reflexivity.
Qed.

Lemma bind_generate `{Uuid} {B} a ip ua now (k : token * string -> St world B) w :
  st_bind (generateAccessToken a ip ua now) k w =
  k (jwt_sign a (uuidv4 (uuid_seed w)) ip ua ACCESS_TOKEN_SECRET now, uuidv4 (uuid_seed w))
    (mk_world (admins w) (tokens w) (faults w) (S (uuid_seed w))).
Proof. reflexivity. Qed.

Lemma fresh_uuid `{Uuid} w :
  ids_issued w -> Store.has_token_id (uuidv4 (uuid_seed w)) (tokens w) = false.
Proof.
  intros Hiss. unfold Store.has_token_id.
  apply not_true_iff_false. intros (r & Hr & Heq)%existsb_exists.
  apply String.eqb_eq in Heq.
  unfold ids_issued in Hiss. rewrite List.Forall_forall in Hiss. destruct (Hiss r Hr) as (k & Hk & Hid).
  rewrite Heq in Hid. apply (inj uuidv4) in Hid. lia.
Qed.

Lemma issued_ne_fresh `{Uuid} w r :
  ids_issued w -> In r (tokens w) -> TokenRow.token_id r <> uuidv4 (uuid_seed w).
Proof.
  intros Hiss Hr Heq. unfold ids_issued in Hiss. rewrite List.Forall_forall in Hiss.
  destruct (Hiss r Hr) as (k & Hk & Hid). rewrite Heq in Hid.
  apply (inj uuidv4) in Hid. lia.
Qed.

(** Blacklisting rows and appending a row with the fresh id keeps every
    id issued, once the generator has moved on. *)
Lemma ids_issued_rotate `{Uuid} w adm p f r bs :
  ids_issued w -> (forall x, TokenRow.token_id (f x) = TokenRow.token_id x) ->
  TokenRow.token_id r = uuidv4 (uuid_seed w) ->
  ids_issued (mk_world adm (Store.update_where p f (tokens w) ++ [r]) bs (S (uuid_seed w))).
Proof.
  intros Hiss Hf Hr. unfold ids_issued in *. simpl.
  apply List.Forall_app. split.
  - apply List.Forall_map. eapply List.Forall_impl; [|exact Hiss].
    intros x (k & Hk & Hx). exists k. split; [lia|]. by destruct (p x); rewrite ?Hf.
  - constructor; [|constructor]. exists (uuid_seed w). split; [lia|done].
Qed.

(** Inserting a freshly generated session id into the table after an
    UPDATE succeeds. *)
Lemma insert_fresh `{Uuid} w p f r :
  ids_issued w -> TokenRow.token_id r = uuidv4 (uuid_seed w) ->
  (forall x, TokenRow.token_id (f x) = TokenRow.token_id x) ->
  Store.insert_row r (Store.update_where p f (tokens w)) =
    Some (Store.update_where p f (tokens w) ++ [r]).
Proof.
  intros Hiss Hid Hf. unfold Store.insert_row.
  rewrite Store.has_token_id_update, Hid, fresh_uuid by done. reflexivity.
Qed.

(** A property of tables that every successful execution of [s] keeps
    holds after [run s], whatever the oracle says. *)
Lemma run_preserves (P : list TokenRow.t -> Prop) s w :
  (forall tbl tbl', Store.exec_stmt s tbl = Some tbl' -> P tbl -> P tbl') ->
  P (tokens w) -> P (tokens (snd (run s w))).
Proof.
  intros HP Hw. unfold run, next_fault. run_st.
  destruct (faults w) as [|[] bs]; simpl; [| done |];
    destruct (Store.exec_stmt s (tokens _)) eqn:E; simpl; eauto.
Qed.

(** A statement either fails with no effect on the tables or applies its
    effect; it never touches the admins or the generator. *)
Lemma run_cases s w :
  admins (snd (run s w)) = admins w /\ uuid_seed (snd (run s w)) = uuid_seed w /\
  (tokens (snd (run s w)) = tokens w \/
   Store.exec_stmt s (tokens w) = Some (tokens (snd (run s w)))).
Proof.
  unfold run, next_fault. run_st.
  destruct (faults w) as [|[] bs]; simpl; [| auto |];
    destruct (Store.exec_stmt s (tokens _)) eqn:E; simpl; auto.
Qed.

(** The two statements of [both], each entered with the state the other
    left. *)
Lemma both_run {A B C} o (m1 : St world A) (m2 : St world B) (k : A * B -> St world C) w :
  st_bind (both o m1 m2) k w =
    match o with
    | InOrder => k (fst (m1 w), fst (m2 (snd (m1 w)))) (snd (m2 (snd (m1 w))))
    | Swapped => k (fst (m1 (snd (m2 w))), fst (m2 w)) (snd (m1 (snd (m2 w))))
    end.
Proof.
  destruct o; cbn [both]; by rewrite !st_bind_run.
Qed.

Lemma snd_both {A B} o (m1 : St world A) (m2 : St world B) w :
  snd (both o m1 m2 w) =
    match o with InOrder => snd (m2 (snd (m1 w))) | Swapped => snd (m1 (snd (m2 w))) end.
Proof.
  destruct o; cbn [both]; by rewrite !st_bind_run.
Qed.

Lemma query_world {R} (sel : world -> list R) w :
  admins (snd (query sel w)) = admins w /\ tokens (snd (query sel w)) = tokens w /\
  uuid_seed (snd (query sel w)) = uuid_seed w.
Proof. unfold query, next_fault. run_st. by destruct (faults w) as [|[] bs]. Qed.
End Db.

(** Stepping through a handler in a fault-free world: each query's callback
    is entered with the query's result. *)
Ltac nf := cbn [Db.set_tokens Db.tokens Db.admins Db.faults Db.uuid_seed];
           first [assumption | congruence].
Ltac step_nf :=
  first [ rewrite Db.bind_query_nf by nf
        | rewrite Db.bind_run_nf by nf
        | rewrite Db.bind_generate ];
  cbn [Store.exec_stmt Db.set_tokens Db.tokens Db.admins Db.faults Db.uuid_seed].

#[export] Hint Rewrite @Db.bind_query_nf @Db.bind_run_nf using done : session_rw.
