(* ===== verification/Fixtures.v ===== *)
(** * Concrete inputs for the witnesses

    A small database on which the theorems are applied: an active admin and
    a blocked one (passwords hashed with the tagged instance of [Bcrypt]),
    and a session row of the active admin issued at 1 000 000 ms with an
    activity touch five seconds later. *)

From stdpp Require Import base list strings decidable.
From Stdlib Require Import ZArith Lia.
From S2P Require Import Prelude Store Codec Db.

Open Scope Z_scope.

Module Fixtures.
Import Codec Db.

Definition ex_admin : AdminRow.t :=
  AdminRow.mk 1 "ann" "a@x.com" "9876543210" (hash_tag "secret1") "active".
Definition ex_blocked : AdminRow.t :=
  AdminRow.mk 2 "bob" "b@x.com" "9876543211" (hash_tag "secret2") "blocked".

(** The database before any login. *)
Definition ex_world : world := mk_world [ex_admin; ex_blocked] [] [] 0.

(** The session "0" of admin 1, touched at 1 005 000 ms. *)
Definition ex_row : TokenRow.t :=
  TokenRow.mk "0" 1 "127.0.0.1" "" 1000000 1005000 2800000 false.
Definition ex_world_live : world := mk_world [ex_admin; ex_blocked] [ex_row] [] 1.

(** A session never touched after its issuance. *)
Definition ex_row_idle : TokenRow.t :=
  TokenRow.mk "0" 1 "127.0.0.1" "" 1000000 1000000 2800000 false.
Definition ex_world_idle : world := mk_world [ex_admin; ex_blocked] [ex_row_idle] [] 1.
End Fixtures.

(** [ids_issued] on a small table: each id is the decimal of a seed below 4. *)
Ltac issued_row :=
  solve [ exists 0%nat; split; [cbv; lia|reflexivity] | exists 1%nat; split; [cbv; lia|reflexivity]
        | exists 2%nat; split; [cbv; lia|reflexivity] | exists 3%nat; split; [cbv; lia|reflexivity] ].
Ltac solve_issued :=
  unfold Db.ids_issued; simpl; repeat (constructor; [issued_row|]); constructor.

(** Closing a hypothesis of a theorem at a concrete input. *)
Ltac solve_wit :=
  solve [ solve_issued | reflexivity | discriminate | (intros ?; discriminate) | constructor
        | (repeat constructor) | (repeat constructor; cbn; intros ?; discriminate) | (cbv; lia) | (vm_compute; reflexivity)
        | (vm_compute; intros ?; discriminate) | (cbv; intros ?; discriminate) ].

(** Apply a theorem to concrete arguments, close each of its hypotheses
    with [solve_wit], and conclude by conversion. *)
Ltac witness_of t :=
  let H := fresh "Hthm" in
  pose proof t as H;
  repeat match type of H with
         | ?P -> _ =>
             let Hp := fresh "Hp" in
             assert P as Hp by solve_wit; specialize (H Hp); clear Hp
         end;
  exact H.
