(* ===== verification/Session.v ===== *)
(** * Session Lifecycle Manager: [src/controller/login/login.js]

    The four handlers of the session subsystem, [login], [refreshToken],
    [updateActivity] and [logout], each as the chain of queries its
    callbacks issue, with every early return.  [refreshToken],
    [updateActivity] and [logout] run behind the [verifyToken] middleware,
    which hands them [req.admin = { id, jti }]; they take those two values
    as arguments, and [refreshToken] also the bearer token the request
    presented ([req.headers['authorization'].split(' ')[1]]). *)

From stdpp Require Import base list strings decidable.
From Stdlib Require Import ZArith Lia.
From S2P Require Import Prelude Store Codec Db Fixtures.

Open Scope Z_scope.
Open Scope st_scope.

Module Session.
Import Codec Db Store Fixtures.

Definition reply (c : Z) (b : body) : St world response := st_ret (mk_response c b).

(** [30 * 60 * 1000]: the session row's lifetime (login.js:59, :123). *)
Definition SESSION_MS : Z := 30 * 60 * 1000.
(** [13 * 60 * 1000]: the no-rotation window of [refreshToken] (login.js:105). *)
Definition REFRESH_WINDOW_MS : Z := 13 * 60 * 1000.
(** [1000]: the idle guard of [refreshToken] (login.js:109). *)
Definition IDLE_GUARD_MS : Z := 1000.

(** The row inserted at login.js:62 and :126. *)
Definition new_session (jti : string) (aid : Z) (ip ua : string) (now : Z) : TokenRow.t :=
  TokenRow.mk jti aid ip ua now now (now + SESSION_MS) false.

Section Handlers.
Context `{!Uuid} `{!Bcrypt}.

(** login.js:5-74 *)
Definition login (ord : order) (identifier password : option string) (req_ip req_ua : option string)
    (now : Z) : St world response :=
  let ip := js_or req_ip "127.0.0.1" in
  let userAgent := js_or req_ua "" in
  match identifier, password with
  | Some ident, Some pw =>
    if String.eqb ident "" || String.eqb pw "" then
      reply 400 (JError "Identifier and password are required")
    else
    let* results := query (fun w => select_admin_by_identifier ident (admins w)) in
    match results with
    | None => reply 500 (JError "Database error")
    | Some [] => reply 401 (JError "Invalid credentials")
    | Some (admin :: _) =>
      if String.eqb (AdminRow.status admin) "blocked" then
        reply 403 (JError "Your account is blocked. Please contact support.")
      else if negb (String.eqb (AdminRow.status admin) "active") then
        reply 403 (JError "Your account is not active.")
      else if negb (bcrypt_compare pw (AdminRow.password admin)) then
        reply 401 (JError "Invalid credentials")
      else
        (* the blacklist UPDATE (its callback only logs its error) and the
           INSERT are issued without waiting for each other; the token is
           signed, synchronously, before either runs *)
        let* gen := generateAccessToken admin ip userAgent now in
        let '(accessToken, jti) := gen in
        let* rs := both ord (run (BlacklistAdminTokens (AdminRow.id admin)))
                         (run (InsertToken (new_session jti (AdminRow.id admin) ip userAgent now))) in
        match snd rs with
        | Failed => reply 500 (JError "Failed to create session")
        | Done => reply 200 (JLogin accessToken (AdminRow.id admin)
                               (AdminRow.name admin) (AdminRow.email admin))
        end
    end
  | _, _ => reply 400 (JError "Identifier and password are required")
  end.

(** login.js:77-140 *)
Definition refreshToken (jti : string) (adminId : Z) (presented : token)
    (req_ip req_ua : option string) (now : Z) : St world response :=
  let ip := js_or req_ip "127.0.0.1" in
  let userAgent := js_or req_ua "" in
  let* results := query (fun w => select_live_token jti adminId (tokens w)) in
  match results with
  | None => reply 500 (JError "Database error")
  | Some [] => reply 401 (JError "Token invalidated or not found")
  | Some (tokenData :: _) =>
    let timeSinceIssue := now - TokenRow.issued_at tokenData in
    let activityDiff := TokenRow.last_activity tokenData - TokenRow.issued_at tokenData in
    if timeSinceIssue <? REFRESH_WINDOW_MS then
      reply 200 (JAccessToken presented)
    else if activityDiff <? IDLE_GUARD_MS then
      (* fire-and-forget UPDATE, then the 401 *)
      let* _ := run (BlacklistToken jti) in
      reply 401 (JError "No activity detected, session expired")
    else
      let* adminResults := query (fun w => select_admin_by_id adminId (admins w)) in
      match adminResults with
      | None | Some [] => reply 401 (JError "User not found")
      | Some (admin :: _) =>
        (* the UPDATE's callback ignores its error and goes on *)
        let* _ := run (BlacklistToken jti) in
        let* gen := generateAccessToken admin ip userAgent now in
        let '(newToken, newJti) := gen in
        let* r := run (InsertToken (new_session newJti adminId ip userAgent now)) in
        match r with
        | Failed => reply 500 (JError "Failed to refresh token")
        | Done => reply 200 (JAccessToken newToken)
        end
      end
  end.

(** login.js:142-157 *)
Definition updateActivity (jti : string) (adminId : Z) (now : Z) : St world response :=
  let* r := run (UpdateLastActivity now jti adminId) in
  match r with
  | Failed => reply 500 (JError "Failed to update activity")
  | Done => reply 200 (JMessage "Activity updated")
  end.

(** login.js:159-172 *)
Definition logout (jti : string) (adminId : Z) : St world response :=
  let* r := run (BlacklistTokenOf jti adminId) in
  match r with
  | Failed => reply 500 (JError "Logout failed")
  | Done => reply 200 (JMessage "Logged out successfully")
  end.
(** login.js:174-196.  The route parameter as the number it denotes,
    [None] when it is empty or [isNaN]; the columns [createdat] and
    [updatedat] are not modelled. *)
Definition getAgencyById (id : option Z) : St world response :=
  match id with
  | None => reply 400 (JError "Invalid admin ID")
  | Some aid =>
    let* results := query (fun w => select_admin_by_id aid (admins w)) in
    match results with
    | None => reply 500 (JError "Database error")
    | Some [] => reply 404 (JError "Admin not found")
    | Some (a :: _) =>
      reply 200 (JAgency (AdminRow.id a) (AdminRow.name a) (AdminRow.email a) (AdminRow.number a)
                         (AdminRow.status a))
    end
  end.
End Handlers.

(** The session table after a successful login, for each order in which
    the pool runs the blacklist UPDATE and the INSERT of the new row [r]. *)
Definition login_table (o : order) (aid : Z) (r : TokenRow.t) (tbl : list TokenRow.t) : list TokenRow.t :=
  match o with
  | InOrder => update_where (of_admin_live aid) TokenRow.blacklist tbl ++ [r]
  | Swapped => update_where (of_admin_live aid) TokenRow.blacklist (tbl ++ [r])
  end.

(** ** Properties *)

Section Props.
Context `{!Uuid} `{!Bcrypt}.
Implicit Types (w : world) (now : Z).

Lemma eqb_nonempty (s : string) : s <> ""%string -> String.eqb s "" = false.
Proof. apply String.eqb_neq. Qed.

(** The run of a successful login, step by step. *)
Lemma login_run ord w ident pw req_ip req_ua now a rest :
  faults w = [] -> ident <> ""%string -> pw <> ""%string -> ids_issued w ->
  select_admin_by_identifier ident (admins w) = a :: rest ->
  AdminRow.status a = "active"%string ->
  bcrypt_compare pw (AdminRow.password a) = true ->
  let ip := js_or req_ip "127.0.0.1" in
  let ua := js_or req_ua "" in
  let jti := uuidv4 (uuid_seed w) in
  login ord (Some ident) (Some pw) req_ip req_ua now w =
    (mk_response 200 (JLogin (jwt_sign a jti ip ua ACCESS_TOKEN_SECRET now)
                        (AdminRow.id a) (AdminRow.name a) (AdminRow.email a)),
     mk_world (admins w) (login_table ord (AdminRow.id a) (new_session jti (AdminRow.id a) ip ua now) (tokens w))
       [] (S (uuid_seed w))).
Proof.
  intros Hf Hi Hp Hiss Hsel Hst Hpw ip ua jti. unfold login.
  rewrite !eqb_nonempty by done. simpl.
  step_nf. rewrite Hsel, Hst, Hpw. simpl. step_nf. rewrite both_run.
  destruct ord.
  - rewrite (run_no_fault (BlacklistAdminTokens _)) by (cbn; done). cbn [Store.exec_stmt tokens].
    cbn [fst snd]. rewrite run_no_fault by (cbn; done). cbn [Store.exec_stmt set_tokens tokens].
    rewrite insert_fresh by done. unfold reply, set_tokens. simpl. by rewrite Hf.
  - rewrite (run_no_fault (InsertToken _)) by (cbn; done). cbn [Store.exec_stmt tokens].
    unfold Store.insert_row. cbn [new_session TokenRow.token_id]. rewrite fresh_uuid by done.
    cbn. rewrite run_no_fault by (cbn; done). cbn. unfold reply. by rewrite Hf.
Qed.

(** C3: a successful login answers 200 with a token signed by
    [ACCESS_TOKEN_SECRET] over a fresh [jti]; its two statements blacklist
    every live session of the admin and insert the session row, live and
    expiring 30 minutes later, in the order the pool runs them: in issue
    order the new row is appended after the UPDATE, in the other order the
    UPDATE blacklists the new row too. *)
Theorem login_success ord w ident pw req_ip req_ua now a rest :
  faults w = [] -> ident <> ""%string -> pw <> ""%string -> ids_issued w ->
  select_admin_by_identifier ident (admins w) = a :: rest ->
  AdminRow.status a = "active"%string ->
  bcrypt_compare pw (AdminRow.password a) = true ->
  let ip := js_or req_ip "127.0.0.1" in
  let ua := js_or req_ua "" in
  let jti := uuidv4 (uuid_seed w) in
  login ord (Some ident) (Some pw) req_ip req_ua now w =
    (mk_response 200 (JLogin (jwt_sign a jti ip ua ACCESS_TOKEN_SECRET now)
                        (AdminRow.id a) (AdminRow.name a) (AdminRow.email a)),
     mk_world (admins w) (login_table ord (AdminRow.id a) (new_session jti (AdminRow.id a) ip ua now) (tokens w))
       [] (S (uuid_seed w))).
Proof. apply login_run. Qed.

(** No live row of the admin survives the blacklist UPDATE. *)
Lemma admin_live_blacklisted aid tbl :
  List.filter (of_admin_live aid) (update_where (of_admin_live aid) TokenRow.blacklist tbl) = [].
Proof.
  induction tbl as [|r tbl IH]; [done|]. cbn. destruct (of_admin_live aid r) eqn:E; cbn.
  - unfold of_admin_live at 1, TokenRow.live. cbn. by rewrite andb_false_r.
  - by rewrite E.
Qed.

(** In the other order the new row is blacklisted with the admin's older
    rows. *)
Lemma login_table_swapped aid r tbl :
  of_admin_live aid r = true ->
  login_table Swapped aid r tbl =
    update_where (of_admin_live aid) TokenRow.blacklist tbl ++ [TokenRow.blacklist r].
Proof. intros Hr. cbn [login_table]. unfold update_where at 1. rewrite List.map_app. cbn. by rewrite Hr. Qed.

Lemma new_session_live jti aid ip ua now : of_admin_live aid (new_session jti aid ip ua now) = true.
Proof. unfold of_admin_live, TokenRow.live. cbn. by rewrite Z.eqb_refl. Qed.

Lemma login_table_ids o aid r tbl :
  List.map TokenRow.token_id (login_table o aid r tbl) = List.map TokenRow.token_id tbl ++ [TokenRow.token_id r].
Proof.
  destruct o; cbn [login_table]; rewrite ?List.map_app, map_token_id_update by apply blacklist_token_id;
    [done|apply List.map_app].
Qed.

(** Both orders keep every id issued by the generator. *)
Lemma ids_issued_login o aid r w adm bs :
  ids_issued w -> TokenRow.token_id r = uuidv4 (uuid_seed w) ->
  ids_issued (mk_world adm (login_table o aid r (tokens w)) bs (S (uuid_seed w))).
Proof.
  intros Hiss Hr. unfold ids_issued in *. cbn.
  apply (proj1 (List.Forall_map TokenRow.token_id (fun i => exists k, (k < S (uuid_seed w))%nat /\ i = uuidv4 k) _)).
  rewrite login_table_ids. apply List.Forall_app. split.
  - apply List.Forall_map. eapply List.Forall_impl; [|exact Hiss]. intros x (k & Hk & Hx). exists k. split; [lia|done].
  - constructor; [|constructor]. exists (uuid_seed w). split; [lia|done].
Qed.

(** After a login of admin [aid], a session of [aid] is live only if it
    is the new row, inserted after the UPDATE. *)
Lemma select_live_login_table o jti aid r tbl :
  select_live_token jti aid (login_table o aid r tbl) =
    match o with InOrder => select_live_token jti aid [r] | Swapped => [] end.
Proof.
  destruct o; cbn [login_table]; [rewrite select_live_token_app|];
    rewrite select_live_token_blacklisted by (intros x; apply is_live_token_of_admin_live); done.
Qed.

(** C4: after a successful login the admin owns at most one live session
    (spec, section 8): in issue order exactly the one just created; when
    the pool runs the INSERT first, none, since the UPDATE also
    blacklists the new row and the token just answered is already
    revoked. *)
Theorem login_single_live ord w ident pw req_ip req_ua now a rest :
  faults w = [] -> ident <> ""%string -> pw <> ""%string -> ids_issued w ->
  select_admin_by_identifier ident (admins w) = a :: rest ->
  AdminRow.status a = "active"%string ->
  bcrypt_compare pw (AdminRow.password a) = true ->
  List.filter (of_admin_live (AdminRow.id a))
    (tokens (snd (login ord (Some ident) (Some pw) req_ip req_ua now w))) =
    match ord with
    | InOrder => [new_session (uuidv4 (uuid_seed w)) (AdminRow.id a)
                   (js_or req_ip "127.0.0.1") (js_or req_ua "") now]
    | Swapped => []
    end.
Proof.
  intros Hf Hi Hp Hiss Hsel Hst Hpw.
  rewrite (login_run ord w ident pw req_ip req_ua now a rest) by done. cbn [snd tokens].
  destruct ord; [cbn [login_table]|rewrite login_table_swapped by apply new_session_live];
    rewrite List.filter_app, admin_live_blacklisted; cbn;
    unfold of_admin_live, TokenRow.live; cbn; by rewrite ?Z.eqb_refl.
Qed.

(** A login that stops before touching the session table leaves the
    state as it was. *)
Lemma login_early_return ord w ident pw req_ip req_ua now a rest :
  faults w = [] -> ident <> ""%string -> pw <> ""%string ->
  select_admin_by_identifier ident (admins w) = a :: rest ->
  (AdminRow.status a <> "active"%string \/ bcrypt_compare pw (AdminRow.password a) = false) ->
  snd (login ord (Some ident) (Some pw) req_ip req_ua now w) = w.
Proof.
  intros Hf Hi Hp Hsel Hrej. unfold login.
  rewrite !eqb_nonempty by done. simpl. step_nf. rewrite Hsel. simpl.
  destruct (String.eqb_spec (AdminRow.status a) "blocked"); [done|].
  destruct (String.eqb_spec (AdminRow.status a) "active"); [|done].
  destruct Hrej as [Hne | ->]; [done|done].
Qed.

(** A blocked admin is refused with 403 and the message of the
    source, and no session row is created (spec, section 8). *)
Theorem login_blocked ord w ident pw req_ip req_ua now a rest :
  faults w = [] -> ident <> ""%string -> pw <> ""%string ->
  select_admin_by_identifier ident (admins w) = a :: rest ->
  AdminRow.status a = "blocked"%string ->
  login ord (Some ident) (Some pw) req_ip req_ua now w =
    (mk_response 403 (JError "Your account is blocked. Please contact support."), w).
Proof.
  intros Hf Hi Hp Hsel Hst. unfold login.
  rewrite !eqb_nonempty by done. simpl. step_nf. by rewrite Hsel, Hst.
Qed.

(** An unknown identifier and a wrong password get the same answer,
    401 "Invalid credentials", so the response does not reveal whether
    the account exists; neither touches the session table. *)
Theorem login_no_enumeration ord w ident pw req_ip req_ua now a rest :
  faults w = [] -> ident <> ""%string -> pw <> ""%string ->
  (select_admin_by_identifier ident (admins w) = [] \/
   (select_admin_by_identifier ident (admins w) = a :: rest /\
    AdminRow.status a = "active"%string /\
    bcrypt_compare pw (AdminRow.password a) = false)) ->
  login ord (Some ident) (Some pw) req_ip req_ua now w =
    (mk_response 401 (JError "Invalid credentials"), w).
Proof.
  intros Hf Hi Hp Hcase. unfold login.
  rewrite !eqb_nonempty by done. simpl. step_nf.
  destruct Hcase as [-> | (-> & Hst & Hpw)]; [done|].
  by rewrite Hst, Hpw.
Qed.

(** C7: a refresh within 13 minutes of issuance answers with the very
    token the request presented and changes nothing (spec, section 8). *)
Theorem refresh_within_window w jti aid presented req_ip req_ua now row rest :
  faults w = [] ->
  select_live_token jti aid (tokens w) = row :: rest ->
  now - TokenRow.issued_at row < REFRESH_WINDOW_MS ->
  refreshToken jti aid presented req_ip req_ua now w =
    (mk_response 200 (JAccessToken presented), w).
Proof.
  intros Hf Hsel Hwin. unfold refreshToken. step_nf. rewrite Hsel.
  apply Z.ltb_lt in Hwin. by rewrite Hwin.
Qed.

(** C8: past the window, a session whose last activity is less than a
    second after its issuance is blacklisted and the refresh fails with
    401 (spec, section 8). *)
Theorem refresh_idle_guard w jti aid presented req_ip req_ua now row rest :
  faults w = [] ->
  select_live_token jti aid (tokens w) = row :: rest ->
  REFRESH_WINDOW_MS <= now - TokenRow.issued_at row ->
  TokenRow.last_activity row - TokenRow.issued_at row < IDLE_GUARD_MS ->
  refreshToken jti aid presented req_ip req_ua now w =
    (mk_response 401 (JError "No activity detected, session expired"),
     set_tokens (update_where (is_token jti) TokenRow.blacklist (tokens w)) w) /\
  select_live_token jti aid (update_where (is_token jti) TokenRow.blacklist (tokens w)) = [].
Proof.
  intros Hf Hsel Hwin Hidle. split.
  - unfold refreshToken. step_nf. rewrite Hsel.
    apply Z.ltb_ge in Hwin. apply Z.ltb_lt in Hidle. rewrite Hwin, Hidle.
    step_nf. reflexivity.
  - apply select_live_token_blacklisted, is_live_token_of_is_token.
Qed.

Lemma select_live_token_in jti aid tbl row rest :
  select_live_token jti aid tbl = row :: rest ->
  In row tbl /\ TokenRow.token_id row = jti /\ TokenRow.admin_id row = aid.
Proof.
  intros Hsel. assert (In row (select_live_token jti aid tbl)) as Hin by (rewrite Hsel; left; done).
  apply filter_In in Hin as [Hin Hp].
  unfold is_live_token_of, is_token_of in Hp.
  apply andb_prop in Hp as [[Ht Ha]%andb_prop _].
  apply String.eqb_eq in Ht. apply Z.eqb_eq in Ha. done.
Qed.

(** C6: past the window and with recorded activity, a refresh rotates the
    session: the old row is blacklisted, a new live row with a fresh
    [jti] (different from the old one) is appended, and the answer is a
    token signed over the new [jti] (spec, section 8). *)
Theorem refresh_rotation w jti aid presented req_ip req_ua now row rest admin rest' :
  faults w = [] -> ids_issued w ->
  select_live_token jti aid (tokens w) = row :: rest ->
  REFRESH_WINDOW_MS <= now - TokenRow.issued_at row ->
  IDLE_GUARD_MS <= TokenRow.last_activity row - TokenRow.issued_at row ->
  select_admin_by_id aid (admins w) = admin :: rest' ->
  let ip := js_or req_ip "127.0.0.1" in
  let ua := js_or req_ua "" in
  let jti' := uuidv4 (uuid_seed w) in
  refreshToken jti aid presented req_ip req_ua now w =
    (mk_response 200 (JAccessToken (jwt_sign admin jti' ip ua ACCESS_TOKEN_SECRET now)),
     mk_world (admins w)
       (update_where (is_token jti) TokenRow.blacklist (tokens w)
          ++ [new_session jti' aid ip ua now])
       [] (S (uuid_seed w))) /\
  jti' <> jti.
Proof.
  intros Hf Hiss Hsel Hwin Hidle Hadm ip ua jti'. split.
  - unfold refreshToken. step_nf. rewrite Hsel.
    apply Z.ltb_ge in Hwin, Hidle. rewrite Hwin, Hidle. step_nf. rewrite Hadm.
    repeat step_nf. rewrite insert_fresh by done. unfold reply, set_tokens. simpl. by rewrite Hf.
  - destruct (select_live_token_in _ _ _ _ _ Hsel) as (Hin & <- & _).
    intros Heq. by apply (issued_ne_fresh w row).
Qed.

(** A refresh whose session has no live row (logged out, replaced by
    a later login, or swept) fails with 401 and changes nothing. *)
Theorem refresh_invalidated w jti aid presented req_ip req_ua now :
  faults w = [] -> select_live_token jti aid (tokens w) = [] ->
  refreshToken jti aid presented req_ip req_ua now w =
    (mk_response 401 (JError "Token invalidated or not found"), w).
Proof. intros Hf Hsel. unfold refreshToken. step_nf. by rewrite Hsel. Qed.

(** C15: the callback of the blacklist UPDATE at login.js:121 ignores its
    error: when that UPDATE fails and the INSERT succeeds, the old session
    stays live beside the new one, and the admin owns two live sessions. *)
Theorem refresh_blacklist_failure w jti aid presented req_ip req_ua now row rest admin rest' :
  faults w = [false; false; true] -> ids_issued w ->
  select_live_token jti aid (tokens w) = row :: rest ->
  REFRESH_WINDOW_MS <= now - TokenRow.issued_at row ->
  IDLE_GUARD_MS <= TokenRow.last_activity row - TokenRow.issued_at row ->
  select_admin_by_id aid (admins w) = admin :: rest' ->
  code (fst (refreshToken jti aid presented req_ip req_ua now w)) = 200 /\
  live_count aid (tokens (snd (refreshToken jti aid presented req_ip req_ua now w)))
    = S (live_count aid (tokens w)).
Proof.
  intros Hf Hiss Hsel Hwin Hidle Hadm.
  unfold refreshToken. erewrite bind_query_ok by done. simpl. rewrite Hsel.
  apply Z.ltb_ge in Hwin, Hidle. rewrite Hwin, Hidle.
  erewrite bind_query_ok by done. simpl. rewrite Hadm.
  erewrite bind_run_fail by done. rewrite bind_generate. simpl.
  rewrite bind_run_nf by done. simpl. unfold insert_row. simpl.
  rewrite (fresh_uuid w Hiss). simpl. split; [done|].
  rewrite live_count_app. unfold live_count at 2, count_where, of_admin_live, new_session.
  simpl. rewrite Z.eqb_refl. simpl. lia.
Qed.

(** [updateActivity] answers 200 whether or not a live row matched
    (spec, section 9), touches only [last_activity] of the matching live
    row, and never changes which sessions are live. *)
Theorem updateActivity_ok w jti aid now :
  faults w = [] ->
  updateActivity jti aid now w =
    (mk_response 200 (JMessage "Activity updated"),
     set_tokens (update_where (is_live_token_of jti aid) (TokenRow.touch now) (tokens w)) w) /\
  forall a, live_count a (update_where (is_live_token_of jti aid) (TokenRow.touch now) (tokens w))
            = live_count a (tokens w).
Proof.
  intros Hf. split.
  - unfold updateActivity. by step_nf.
  - intros a. apply live_count_touch.
Qed.

(** Logout is idempotent: two logouts both answer 200, the second
    leaves the table as the first left it, and no live row of the session
    remains (spec, section 8). *)
Theorem logout_idempotent w jti aid :
  faults w = [] ->
  let '(r1, w1) := logout jti aid w in
  let '(r2, w2) := logout jti aid w1 in
  r1 = mk_response 200 (JMessage "Logged out successfully") /\ r2 = r1 /\
  tokens w2 = tokens w1 /\ select_live_token jti aid (tokens w1) = [].
Proof.
  intros Hf. unfold logout. step_nf. unfold reply, st_ret. cbn beta iota.
  step_nf. rewrite update_blacklist_idem by done. cbn.
  split; [done|]. split; [done|]. split; [done|].
  apply select_live_token_blacklisted, is_live_token_of_is_token_of.
Qed.
End Props.

(** ** Witnesses *)

Lemma login_success_witness :
  login InOrder (Some "a@x.com") (Some "secret1") None None 1000000 ex_world =
    (mk_response 200 (JLogin (jwt_sign ex_admin "0" "127.0.0.1" "" ACCESS_TOKEN_SECRET 1000000)
                        1 "ann" "a@x.com"),
     mk_world [ex_admin; ex_blocked]
       (login_table InOrder 1 (new_session "0" 1 "127.0.0.1" "" 1000000) []) [] 1).
Proof.
  witness_of (login_success InOrder ex_world "a@x.com" "secret1" None None 1000000 ex_admin []).
Defined.

Lemma login_single_live_witness :
  List.filter (of_admin_live 1)
    (tokens (snd (login Swapped (Some "a@x.com") (Some "secret1") None None 1000000 ex_world))) = [].
Proof.
  witness_of (login_single_live Swapped ex_world "a@x.com" "secret1" None None 1000000 ex_admin []).
Defined.

Lemma login_blocked_witness :
  login InOrder (Some "b@x.com") (Some "secret2") None None 1000000 ex_world =
    (mk_response 403 (JError "Your account is blocked. Please contact support."), ex_world).
Proof.
  witness_of (login_blocked InOrder ex_world "b@x.com" "secret2" None None 1000000 ex_blocked []).
Defined.

Lemma login_no_enumeration_witness :
  login InOrder (Some "a@x.com") (Some "wrong") None None 1000000 ex_world =
    (mk_response 401 (JError "Invalid credentials"), ex_world).
Proof.
  witness_of (login_no_enumeration InOrder ex_world "a@x.com" "wrong" None None 1000000 ex_admin []).
Defined.

Lemma refresh_within_window_witness :
  refreshToken "0" 1 (Malformed "tok") None None 1060000 ex_world_live =
    (mk_response 200 (JAccessToken (Malformed "tok")), ex_world_live).
Proof.
  witness_of (refresh_within_window ex_world_live "0" 1 (Malformed "tok") None None 1060000 ex_row []).
Defined.

Lemma refresh_idle_guard_witness :
  refreshToken "0" 1 (Malformed "tok") None None 1840000 ex_world_idle =
    (mk_response 401 (JError "No activity detected, session expired"),
     set_tokens (update_where (is_token "0") TokenRow.blacklist (tokens ex_world_idle)) ex_world_idle) /\
  select_live_token "0" 1 (update_where (is_token "0") TokenRow.blacklist (tokens ex_world_idle)) = [].
Proof.
  witness_of (refresh_idle_guard ex_world_idle "0" 1 (Malformed "tok") None None 1840000 ex_row_idle []).
Defined.

Lemma refresh_rotation_witness :
  refreshToken "0" 1 (Malformed "tok") None None 1840000 ex_world_live =
    (mk_response 200 (JAccessToken (jwt_sign ex_admin "1" "127.0.0.1" "" ACCESS_TOKEN_SECRET 1840000)),
     mk_world [ex_admin; ex_blocked]
       [TokenRow.blacklist ex_row; new_session "1" 1 "127.0.0.1" "" 1840000] [] 2) /\
  "1"%string <> "0"%string.
Proof.
  witness_of (refresh_rotation ex_world_live "0" 1 (Malformed "tok") None None 1840000 ex_row [] ex_admin []).
Defined.

Lemma refresh_invalidated_witness :
  refreshToken "9" 1 (Malformed "tok") None None 1840000 ex_world_live =
    (mk_response 401 (JError "Token invalidated or not found"), ex_world_live).
Proof.
  witness_of (refresh_invalidated ex_world_live "9" 1 (Malformed "tok") None None 1840000).
Defined.

Lemma refresh_blacklist_failure_witness :
  let w := mk_world [ex_admin; ex_blocked] [ex_row] [false; false; true] 1 in
  code (fst (refreshToken "0" 1 (Malformed "tok") None None 1840000 w)) = 200 /\
  live_count 1 (tokens (snd (refreshToken "0" 1 (Malformed "tok") None None 1840000 w))) = 2%nat.
Proof.
  witness_of (refresh_blacklist_failure (mk_world [ex_admin; ex_blocked] [ex_row] [false; false; true] 1)
           "0" 1 (Malformed "tok") None None 1840000 ex_row [] ex_admin []).
Defined.

Lemma updateActivity_ok_witness :
  updateActivity "0" 1 1100000 ex_world_live =
    (mk_response 200 (JMessage "Activity updated"),
     set_tokens (update_where (is_live_token_of "0" 1) (TokenRow.touch 1100000) (tokens ex_world_live))
       ex_world_live) /\
  forall a, live_count a (update_where (is_live_token_of "0" 1) (TokenRow.touch 1100000) (tokens ex_world_live))
            = live_count a (tokens ex_world_live).
Proof. witness_of (updateActivity_ok ex_world_live "0" 1 1100000). Defined.

Lemma logout_idempotent_witness :
  let '(r1, w1) := logout "0" 1 ex_world_live in
  let '(r2, w2) := logout "0" 1 w1 in
  r1 = mk_response 200 (JMessage "Logged out successfully") /\ r2 = r1 /\
  tokens w2 = tokens w1 /\ select_live_token "0" 1 (tokens w1) = [].
Proof. witness_of (logout_idempotent ex_world_live "0" 1). Defined.
End Session.
