(* ===== verification/Sweep.v ===== *)
(** * Background sweep: [src/utils/tokenCleanup.js] and its timer

    [runTokenCleanup] issues two statements without waiting for either:
    blacklist every live row whose [expires_at] has passed, then delete
    every blacklisted row.  [src/index.js] runs it once at startup and every
    five minutes.  On one connection the two statements run in issue order;
    on the pool they may run in either order, so the theorems that matter
    are stated for both orders. *)

From stdpp Require Import base list strings decidable.
From Stdlib Require Import ZArith Lia.
From S2P Require Import Prelude Store Codec Db Fixtures.

Open Scope Z_scope.
Open Scope st_scope.

Module Sweep.
Import Db Store Fixtures.

(** tokenCleanup.js:4-15 *)
Definition updateExpiredTokens (now : Z) : St world unit :=
  let* _ := run (BlacklistExpired now) in st_ret tt.

(** tokenCleanup.js:17-25 *)
Definition cleanupExpiredTokens : St world unit :=
  let* _ := run DeleteBlacklisted in st_ret tt.

(** tokenCleanup.js:28-31: [updateExpiredTokens()] and
    [cleanupExpiredTokens()] each issue their statement and return at once;
    [ord] is the order in which the pool runs the two. *)
Definition runTokenCleanup (ord : order) (now : Z) : St world unit :=
  let* _ := both ord (updateExpiredTokens now) cleanupExpiredTokens in st_ret tt.

(** index.js:55-56: [setInterval(runTokenCleanup, 5 * 60 * 1000)] and one
    run at startup: the k-th sweep runs at [start + k * 5 min]. *)
Definition SWEEP_INTERVAL_MS : Z := 5 * 60 * 1000.
Definition sweep_time (start : Z) (k : nat) : Z := start + Z.of_nat k * SWEEP_INTERVAL_MS.

(** The two statements in either execution order. *)
Definition sweep_in_order (now : Z) (tbl : list TokenRow.t) : list TokenRow.t :=
  delete_where TokenRow.is_blacklisted (update_where (expired_live now) TokenRow.blacklist tbl).
Definition sweep_swapped (now : Z) (tbl : list TokenRow.t) : list TokenRow.t :=
  update_where (expired_live now) TokenRow.blacklist (delete_where TokenRow.is_blacklisted tbl).
Definition sweep_table (ord : order) : Z -> list TokenRow.t -> list TokenRow.t :=
  match ord with InOrder => sweep_in_order | Swapped => sweep_swapped end.

(** The rows a sweep keeps: live and not expired. *)
Definition kept (now : Z) (r : TokenRow.t) : bool :=
  TokenRow.live r && negb (TokenRow.expires_at r <? now).

(** The timer of index.js:55-56 with nothing else running: the state
    after the first [k] sweeps, the [i]-th at [sweep_time start i], its two
    statements run in the order [ords i]. *)
Fixpoint sweeps (ords : nat -> order) (start : Z) (k : nat) (w : world) : world :=
  match k with
  | O => w
  | S k' => snd (runTokenCleanup (ords k') (sweep_time start k') (sweeps ords start k' w))
  end.

(** The index of the first sweep that runs after [expires_at]. *)
Definition first_sweep_after (start e : Z) : nat := Z.to_nat ((e - start) / SWEEP_INTERVAL_MS + 1).

(** ** Lemmas *)

Lemma sweep_in_order_filter now tbl :
  sweep_in_order now tbl = List.filter (kept now) tbl.
Proof.
  unfold sweep_in_order, delete_where, update_where, kept, expired_live.
  induction tbl as [|r tbl IH]; [done|]. unfold TokenRow.live in *. simpl.
  destruct (TokenRow.expires_at r <? now) eqn:Ex, (TokenRow.is_blacklisted r) eqn:Eb;
    simpl; rewrite ?Ex, ?Eb; simpl; by rewrite ?IH.
Qed.

(** The swapped order leaves the same live rows as the issue order. *)
Lemma sweep_swapped_live now tbl :
  List.filter TokenRow.live (sweep_swapped now tbl) = List.filter (kept now) tbl.
Proof.
  induction tbl as [|r tbl IH]; [done|].
  unfold sweep_swapped, update_where, delete_where in *. cbn [List.filter map].
  change (negb (TokenRow.is_blacklisted r)) with (TokenRow.live r).
  destruct (TokenRow.live r) eqn:El; cbn [List.filter map].
  - destruct (expired_live now r) eqn:Ex; cbn [List.filter].
    + change (TokenRow.live (TokenRow.blacklist r)) with false.
      assert (kept now r = false) as -> by (unfold kept, expired_live in *; rewrite El in *; by destruct (_ <? now)).
      exact IH.
    + rewrite El. assert (kept now r = true) as ->
        by (unfold kept, expired_live in *; rewrite El in *; by destruct (_ <? now)).
      f_equal. exact IH.
  - assert (kept now r = false) as -> by (unfold kept; by rewrite El). exact IH.
Qed.

(** The run of a fault-free sweep, in either order. *)
Lemma runTokenCleanup_run ord w now :
  faults w = [] ->
  runTokenCleanup ord now w = (tt, set_tokens (sweep_table ord now (tokens w)) w).
Proof.
  intros Hf. unfold runTokenCleanup, updateExpiredTokens, cleanupExpiredTokens.
  rewrite both_run. destruct ord; unfold run, next_fault; run_st; rewrite Hf; cbn; by rewrite Hf.
Qed.

Lemma kept_live now x : kept now x = true -> TokenRow.live x = true.
Proof. unfold kept. by intros [-> _]%andb_prop. Qed.

Lemma blacklist_not_live x : TokenRow.live (TokenRow.blacklist x) = false.
Proof. done. Qed.

(** The rows after one sweep: the kept ones, and in the swapped order the
    blacklisted copies of the rows that were live and expired. *)
Lemma in_sweep_table ord now tbl x :
  In x (sweep_table ord now tbl) <->
  (In x tbl /\ kept now x = true) \/
  (ord = Swapped /\ exists y, In y tbl /\ expired_live now y = true /\ x = TokenRow.blacklist y).
Proof.
  destruct ord; cbn [sweep_table].
  - rewrite sweep_in_order_filter, filter_In. split; [by left|]. by intros [|[? _]].
  - unfold sweep_swapped, update_where, delete_where, kept, expired_live, TokenRow.live.
    rewrite in_map_iff. split.
    + intros (y & <- & [Hy Hl]%filter_In). destruct (TokenRow.expires_at y <? now) eqn:E; cbn in *.
      * right. split; [done|]. exists y. by rewrite E, Hl.
      * left. by rewrite Hl, E.
    + intros [[Hx Hk]|[_ (y & Hy & He & ->)]].
      * exists x. apply andb_prop in Hk as [Hl Hn]. apply negb_true_iff in Hn.
        rewrite Hn. cbn. split; [done|]. apply filter_In. by rewrite Hl.
      * exists y. rewrite He. apply andb_prop in He as [_ Hl]. split; [done|]. by apply filter_In.
Qed.

Lemma sweeps_faults ords start k w : faults w = [] -> faults (sweeps ords start k w) = [].
Proof. intros Hf. induction k as [|k IH]; [done|]. cbn [sweeps]. rewrite runTokenCleanup_run by done. exact IH. Qed.

Lemma in_sweeps_step ords start k w x :
  faults w = [] ->
  In x (tokens (sweeps ords start (S k) w)) <->
  In x (sweep_table (ords k) (sweep_time start k) (tokens (sweeps ords start k w))).
Proof. intros Hf. cbn [sweeps]. by rewrite runTokenCleanup_run by (by apply sweeps_faults). Qed.

(** Where a row after [k] sweeps comes from: a row of the start kept by
    every sweep so far, or the blacklisted copy of one that the last sweep
    found live and expired and ran in the swapped order. *)
Lemma sweeps_origin ords start k w x :
  faults w = [] -> In x (tokens (sweeps ords start k w)) ->
  exists y, In y (tokens w) /\
    ((x = y /\ forall i, (i < k)%nat -> kept (sweep_time start i) y = true) \/
     (exists j, k = S j /\ ords j = Swapped /\
        (forall i, (i < j)%nat -> kept (sweep_time start i) y = true) /\
        expired_live (sweep_time start j) y = true /\ x = TokenRow.blacklist y)).
Proof.
  intros Hf. revert x. induction k as [|k IH]; intros x Hx.
  - exists x. split; [done|]. left. split; [done|lia].
  - apply (in_sweeps_step ords start k w x Hf), in_sweep_table in Hx as [[Hx Hk]|[Ho (y' & Hy' & He & ->)]].
    + destruct (IH x Hx) as (y & Hy & [[-> Hall]|(j & -> & _ & _ & _ & ->)]).
      * exists y. split; [done|]. left. split; [done|]. intros i Hi.
        destruct (decide (i = k)) as [->|]; [done|]. apply Hall. lia.
      * apply kept_live in Hk. discriminate.
    + destruct (IH y' Hy') as (y & Hy & [[-> Hall]|(j & -> & _ & _ & _ & ->)]).
      * exists y. split; [done|]. right. exists k. done.
      * unfold expired_live in He. by rewrite andb_false_r in He.
Qed.

(** A row of the start that every sweep so far kept is still there. *)
Lemma sweeps_keep ords start k w y :
  faults w = [] -> In y (tokens w) ->
  (forall i, (i < k)%nat -> kept (sweep_time start i) y = true) ->
  In y (tokens (sweeps ords start k w)).
Proof.
  intros Hf Hy. induction k as [|k IH]; intros Hall; [done|].
  apply (in_sweeps_step ords start k w y Hf), in_sweep_table. left. split; [apply IH; auto with lia|auto with lia].
Qed.

Lemma runTokenCleanup_runs ord now w :
  snd (runTokenCleanup ord now w) =
    match ord with
    | InOrder => snd (run DeleteBlacklisted (snd (run (BlacklistExpired now) w)))
    | Swapped => snd (run (BlacklistExpired now) (snd (run DeleteBlacklisted w)))
    end.
Proof.
  unfold runTokenCleanup, updateExpiredTokens, cleanupExpiredTokens.
  rewrite st_bind_run, snd_both. destruct ord; by rewrite !st_bind_run.
Qed.

(** The arithmetic of the timer: sweep [first_sweep_after start e] is the
    first one after [e]. *)
Lemma first_sweep_after_spec start e :
  e < sweep_time start (first_sweep_after start e) /\
  forall i, (i < first_sweep_after start e)%nat -> sweep_time start i <= e.
Proof.
  unfold sweep_time, first_sweep_after, SWEEP_INTERVAL_MS.
  pose proof (Z.mul_div_le (e - start) (5 * 60 * 1000) ltac:(lia)).
  pose proof (Z.mul_succ_div_gt (e - start) (5 * 60 * 1000) ltac:(lia)).
  set (q := (e - start) / (5 * 60 * 1000)) in *. split.
  - destruct (Z_le_gt_dec (q + 1) 0); [rewrite Z2Nat.nonpos by lia; lia|].
    rewrite Z2Nat.id by lia. lia.
  - intros i Hi. assert (Z.of_nat i <= q) by lia. nia.
Qed.

(** ** Properties *)

(** C16: whichever order the pool runs its two statements in, a
    fault-free sweep leaves the same live rows, those live and not yet
    expired, in their order; besides them, the swapped order (DELETE
    first) leaves the blacklisted copies of the rows it found live and
    expired, which the issue order deletes. *)
Theorem runTokenCleanup_effect ord w now :
  faults w = [] ->
  List.filter TokenRow.live (tokens (snd (runTokenCleanup ord now w))) = List.filter (kept now) (tokens w) /\
  forall x, In x (tokens (snd (runTokenCleanup ord now w))) <->
    (In x (tokens w) /\ kept now x = true) \/
    (ord = Swapped /\ exists y, In y (tokens w) /\ expired_live now y = true /\ x = TokenRow.blacklist y).
Proof.
  intros Hf. rewrite runTokenCleanup_run by done. cbn [snd tokens set_tokens]. split; [|apply in_sweep_table].
  destruct ord; cbn [sweep_table]; [rewrite sweep_in_order_filter|].
  - induction (tokens w) as [|r tbl IH]; [done|]. cbn.
    destruct (kept now r) eqn:E; cbn; [by rewrite (kept_live _ _ E), IH|exact IH].
  - apply sweep_swapped_live.
Qed.

(** The sweep keeps the store invariants, whatever the oracle says
    about its two statements and whichever order they run in. *)
Theorem runTokenCleanup_invariants ord w now :
  ids_unique (tokens w) -> at_most_one_live (tokens w) ->
  ids_unique (tokens (snd (runTokenCleanup ord now w))) /\
  at_most_one_live (tokens (snd (runTokenCleanup ord now w))).
Proof.
  intros Hu Ho. rewrite runTokenCleanup_runs.
  assert (Hs : forall s w', inserted s = None -> ids_unique (tokens w') /\ at_most_one_live (tokens w') ->
            ids_unique (tokens (snd (run s w'))) /\ at_most_one_live (tokens (snd (run s w'))))
    by (intros s w' Hin [Hu' Ho']; split;
        [apply run_preserves; [intros ?? Hst; apply (exec_stmt_ids_unique _ _ _ Hst)|done]
        |apply run_preserves; [intros ??; by apply at_most_one_live_stmt|done]]).
  destruct ord; (apply Hs; [done|]); by apply Hs.
Qed.

(** C17: under the five-minute timer, with no other request and no fault,
    whatever order each sweep's two statements run in: a live row stays,
    unchanged, up to the first sweep after its [expires_at]; from that sweep
    on no row with its id is live, and the only row with its id that can
    remain is its blacklisted copy, right after that sweep and only if it
    ran in the swapped order; one sweep later the id is gone.  Every
    session ends at the first sweep after its expiry and its row is deleted
    at most one sweep later. *)
Theorem expired_row_swept ords start w r :
  faults w = [] -> ids_unique (tokens w) -> In r (tokens w) ->
  (TokenRow.live r = true -> forall k, (k <= first_sweep_after start (TokenRow.expires_at r))%nat ->
     In r (tokens (sweeps ords start k w))) /\
  (forall k x, (first_sweep_after start (TokenRow.expires_at r) < k)%nat ->
     In x (tokens (sweeps ords start k w)) -> TokenRow.token_id x = TokenRow.token_id r ->
     k = S (first_sweep_after start (TokenRow.expires_at r)) /\
     ords (first_sweep_after start (TokenRow.expires_at r)) = Swapped /\ x = TokenRow.blacklist r).
Proof.
  intros Hf Hu Hr. destruct (first_sweep_after_spec start (TokenRow.expires_at r)) as [Hlt Hle].
  set (f := first_sweep_after start (TokenRow.expires_at r)) in *. split.
  - intros Hl k Hk. apply sweeps_keep; [done|done|]. intros i Hi.
    unfold kept. rewrite Hl. cbn. apply negb_true_iff, Z.ltb_ge. specialize (Hle i). lia.
  - intros k x Hk Hx Hid. destruct (sweeps_origin ords start k w x Hf Hx) as (y & Hy & Ho).
    assert (y = r) as ->.
    { apply (NoDup_map_eq TokenRow.token_id (tokens w)); [done|done|done|].
      destruct Ho as [[-> _]|(j & _ & _ & _ & _ & ->)]; done. }
    assert (Hnk : kept (sweep_time start f) r = false)
      by (unfold kept; apply andb_false_iff; right; apply negb_false_iff, Z.ltb_lt; lia).
    destruct Ho as [[-> Hall]|(j & -> & Hj & Hall & He & ->)].
    + rewrite Hall in Hnk by lia. discriminate.
    + assert (j = f) as ->; [|done].
      destruct (decide (j < f)%nat) as [Hjf|Hjf].
      * unfold expired_live in He. apply andb_prop in He as [He%Z.ltb_lt _]. specialize (Hle j Hjf). lia.
      * destruct (decide (f < j)%nat) as [Hfj|]; [|lia]. rewrite Hall in Hnk by lia. discriminate.
Qed.

(** ** Witnesses *)

Lemma runTokenCleanup_effect_witness :
  List.filter TokenRow.live (tokens (snd (runTokenCleanup Swapped 3000000 ex_world_live)))
    = List.filter (kept 3000000) (tokens ex_world_live) /\
  forall x, In x (tokens (snd (runTokenCleanup Swapped 3000000 ex_world_live))) <->
    (In x (tokens ex_world_live) /\ kept 3000000 x = true) \/
    (Swapped = Swapped /\ exists y, In y (tokens ex_world_live) /\ expired_live 3000000 y = true /\
                                  x = TokenRow.blacklist y).
Proof. witness_of (runTokenCleanup_effect Swapped ex_world_live 3000000). Defined.

Lemma runTokenCleanup_invariants_witness :
  ids_unique (tokens (snd (runTokenCleanup InOrder 3000000 ex_world_live))) /\
  at_most_one_live (tokens (snd (runTokenCleanup InOrder 3000000 ex_world_live))).
Proof.
  apply (runTokenCleanup_invariants InOrder ex_world_live 3000000).
  - repeat constructor. intros Hin. inversion Hin.
  - intros aid. unfold live_count, ex_world_live. cbn [tokens].
    rewrite count_where_cons, count_where_nil.
    destruct (of_admin_live aid ex_row); simpl; lia.
Defined.

Lemma expired_row_swept_witness :
  (TokenRow.live ex_row = true -> forall k, (k <= first_sweep_after 1000000 (TokenRow.expires_at ex_row))%nat ->
     In ex_row (tokens (sweeps (fun _ => Swapped) 1000000 k ex_world_live))) /\
  (forall k x, (first_sweep_after 1000000 (TokenRow.expires_at ex_row) < k)%nat ->
     In x (tokens (sweeps (fun _ => Swapped) 1000000 k ex_world_live)) ->
     TokenRow.token_id x = TokenRow.token_id ex_row ->
     k = S (first_sweep_after 1000000 (TokenRow.expires_at ex_row)) /\
     Swapped = Swapped /\ x = TokenRow.blacklist ex_row).
Proof.
  apply (expired_row_swept (fun _ => Swapped) 1000000 ex_world_live ex_row);
    [reflexivity| |left; reflexivity].
  repeat constructor. intros Hin. inversion Hin.
Defined.

End Sweep.
