(* ===== verification/Auth.v ===== *)
(** * Request Authenticator: the middlewares and the [/admin] routes

    [src/middleware/verifyToken.js] (the strict gate: signature, expiry and a
    live row in [active_tokens]), [src/middleware/authMiddleware.js] (the
    light gate: signature, expiry and the status claim, with the secret read
    from the environment), [src/middleware/authenticateAPIKey.js] (the
    [x-api-key] check every router installs), and the pipeline of
    [src/routes/login/login.js] that chains them in front of the session
    handlers.

    The [Authorization] header is modelled as the list of its
    space-separated pieces, each read by the token codec ([Malformed] for a
    piece that is not a signed token, such as the scheme word [Bearer]);
    [authHeader.split(' ')[1]] is the piece at index 1. *)

From stdpp Require Import base list strings decidable.
From Stdlib Require Import ZArith Lia.
From S2P Require Import Prelude Store Codec Db Session Fixtures.

Open Scope Z_scope.
Open Scope st_scope.

Module Auth.
Import Codec Db Store Session Fixtures.

(** The process environment read by the middlewares. *)
Record env := mk_env {
  API_KEY : option string;                  (** [process.env.API_KEY] *)
  ENV_ACCESS_TOKEN_SECRET : option string   (** [process.env.ACCESS_TOKEN_SECRET] *)
}.

Record request := mk_request {
  x_api_key : option string;
  authorization : option (list token);
  ip : option string;
  user_agent : option string;
  identifier : option string;
  password : option string
}.

(** What a middleware does: call [next()] with what it attaches to [req],
    or answer. *)
Inductive gate (C : Type) :=
| Next (ctx : C)
| Halt (r : response).
Arguments Next {C} ctx.
Arguments Halt {C} r.

Definition token_truthy (t : token) : bool :=
  match t with Signed _ _ => true | Malformed s => negb (String.eqb s "") end.

(** [!authHeader]: the header is absent or the empty string. *)
Definition header_truthy (h : option (list token)) : bool :=
  match h with
  | None => false
  | Some [Malformed s] => negb (String.eqb s "")
  | Some _ => true
  end.

(** [authHeader && authHeader.split(' ')[1]], falsy as [None]. *)
Definition header_token (h : option (list token)) : option token :=
  match h with
  | None => None
  | Some pieces =>
      match nth_error pieces 1 with
      | Some t => if token_truthy t then Some t else None
      | None => None
      end
  end.

Definition halt {C} (c : Z) (b : body) : gate C := Halt (mk_response c b).

(** verifyToken.js:5-27 *)
Definition verifyToken (h : option (list token)) (now : Z) : St world (gate (Z * string)) :=
  match header_token h with
  | None => st_ret (halt 401 (JError "Access token required"))
  | Some t =>
    match jwt_verify t (Some ACCESS_TOKEN_SECRET) now with
    | Err _ => st_ret (halt 401 (JError "Invalid or expired token"))
    | Ok decoded =>
      let* results := query (fun w => select_live_token (jti decoded) (id decoded) (tokens w)) in
      match results with
      | None => st_ret (halt 500 (JError "Database error"))
      | Some [] => st_ret (halt 401 (JError "Token has been invalidated"))
      | Some (_ :: _) => st_ret (Next (id decoded, jti decoded))
      end
    end
  end.

(** authMiddleware.js:3-20 *)
Definition authenticateToken (e : env) (h : option (list token)) (now : Z) : gate claims :=
  if negb (header_truthy h) then halt 401 (JError "Authorization header missing")
  else match header_token h with
  | None => halt 401 (JError "Access token missing")
  | Some t =>
    match jwt_verify t (ENV_ACCESS_TOKEN_SECRET e) now with
    | Err _ => halt 403 (JError "Invalid or expired access token")
    | Ok admin =>
      if String.eqb (status admin) "block" then halt 403 (JError "Your account is blocked")
      else Next admin
    end
  end.

(** authenticateAPIKey.js:5-15 *)
Definition authenticateAPIKey (e : env) (apiKey : option string) : gate unit :=
  if negb (js_truthy apiKey) then halt 401 (JMessage "Access Denied")
  else if negb (bool_decide (apiKey = API_KEY e)) then halt 403 (JMessage "Invalid API key")
  else Next tt.

(** ** The routes of [src/routes/login/login.js] *)

Section Routes.
Context `{!Uuid} `{!Bcrypt}.

Definition with_api_key (e : env) (req : request) (k : St world response) : St world response :=
  match authenticateAPIKey e (x_api_key req) with
  | Halt r => st_ret r
  | Next _ => k
  end.

Definition with_session (req : request) (now : Z)
    (k : Z -> string -> token -> St world response) : St world response :=
  let* g := verifyToken (authorization req) now in
  match g, header_token (authorization req) with
  | Halt r, _ => st_ret r
  | Next (aid, jti), Some t => k aid jti t
  | Next _, None => st_ret (mk_response 401 (JError "Access token required"))
  end.

(** login.js:9 [router.post('/login', login.login)]; [ord] is the order
    in which the pool runs the handler's two statements. *)
Definition post_login (ord : order) (e : env) (req : request) (now : Z) : St world response :=
  with_api_key e req
    (login ord (identifier req) (password req) (ip req) (user_agent req) now).

(** login.js:10 [router.post('/refresh-token', verifyToken, login.refreshToken)] *)
Definition post_refresh_token (e : env) (req : request) (now : Z) : St world response :=
  with_api_key e req (with_session req now (fun aid jti t =>
    refreshToken jti aid t (ip req) (user_agent req) now)).

(** login.js:11 [router.post('/update-activity', verifyToken, login.updateActivity)] *)
Definition post_update_activity (e : env) (req : request) (now : Z) : St world response :=
  with_api_key e req (with_session req now (fun aid jti _ => updateActivity jti aid now)).

(** login.js:12 [router.post('/logout', verifyToken, login.logout)] *)
Definition post_logout (e : env) (req : request) (now : Z) : St world response :=
  with_api_key e req (with_session req now (fun aid jti _ => logout jti aid)).
End Routes.

(** ** Properties *)

Lemma header_token_bearer t : token_truthy t = true ->
  header_token (Some [Malformed "Bearer"; t]) = Some t.
Proof. intros Ht. simpl. by rewrite Ht. Qed.

(** C9: in a fault-free run, [verifyToken] calls [next()] with
    [{ id, jti }] exactly when the bearer token is signed with
    [ACCESS_TOKEN_SECRET], has not expired, carries that [id] and [jti],
    and the session still has a live row. *)
Theorem verifyToken_admits h now w aid jti :
  faults w = [] ->
  fst (verifyToken h now w) = Next (aid, jti) <->
  exists c, header_token h = Some (Signed c ACCESS_TOKEN_SECRET) /\ now / 1000 < exp c /\
    id c = aid /\ Codec.jti c = jti /\ select_live_token jti aid (tokens w) <> [].
Proof.
  intros Hf. unfold verifyToken. destruct (header_token h) as [t|] eqn:Eh.
  2: { split; [discriminate|]. by intros (c & ? & _). }
  destruct (jwt_verify t (Some ACCESS_TOKEN_SECRET) now) as [c|e] eqn:Ev.
  - apply jwt_verify_ok_inv in Ev as [-> Hexp].
    rewrite bind_query_nf by done.
    destruct (select_live_token (Codec.jti c) (id c) (tokens w)) eqn:Es; simpl.
    + split; [discriminate|]. intros (c' & [= <-] & _ & <- & <- & Hne). done.
    + split.
      * intros [= <- <-]. exists c. rewrite Es. repeat split; auto; discriminate.
      * intros (c' & [= <-] & _ & <- & <- & _). done.
  - split; [discriminate|]. intros (c' & [= ->] & Hlt & _).
    by rewrite jwt_verify_signed in Ev.
Qed.

(** C20: the light gate compares the status claim with ["block"], while
    the code writes ["blocked"] (login.js:31, admin.js:80, :117): a valid
    token whose status claim is ["blocked"] is admitted. *)
Theorem authenticateToken_admits_blocked e h now c k :
  ENV_ACCESS_TOKEN_SECRET e = Some k -> header_truthy h = true ->
  header_token h = Some (Signed c k) -> now / 1000 < exp c ->
  status c = "blocked"%string ->
  authenticateToken e h now = Next c.
Proof.
  intros Hk Hh Ht Hexp Hst. unfold authenticateToken.
  rewrite Hh, Ht, Hk. cbn [negb]. rewrite jwt_verify_signed by done. by rewrite Hst.
Qed.

Section Scenario.
Context `{!Uuid} `{!Bcrypt}.

(** C10: the scenario of the spec, section 8.  Two successful logins of
    the same admin, whatever order the pool runs each one's two statements
    in: the first answers token A; after the second, the strict gate
    rejects A with 401 "Token has been invalidated" while the light gate,
    with the same secret, still admits it until it expires. *)
Theorem second_login_revokes_first ord1 ord2 e w ident pw ip1 ua1 ip2 ua2 now1 now2 now3 a rest :
  faults w = [] -> ident <> ""%string -> pw <> ""%string -> ids_issued w ->
  select_admin_by_identifier ident (admins w) = a :: rest ->
  AdminRow.status a = "active"%string ->
  bcrypt_compare pw (AdminRow.password a) = true ->
  ENV_ACCESS_TOKEN_SECRET e = Some ACCESS_TOKEN_SECRET ->
  now3 / 1000 < now1 / 1000 + EXPIRES_IN ->
  let tA := jwt_sign a (uuidv4 (uuid_seed w)) (js_or ip1 "127.0.0.1") (js_or ua1 "")
              ACCESS_TOKEN_SECRET now1 in
  let w1 := snd (login ord1 (Some ident) (Some pw) ip1 ua1 now1 w) in
  let w2 := snd (login ord2 (Some ident) (Some pw) ip2 ua2 now2 w1) in
  body_of (fst (login ord1 (Some ident) (Some pw) ip1 ua1 now1 w))
    = JLogin tA (AdminRow.id a) (AdminRow.name a) (AdminRow.email a) /\
  fst (verifyToken (Some [Malformed "Bearer"; tA]) now3 w2)
    = Halt (mk_response 401 (JError "Token has been invalidated")) /\
  exists c, authenticateToken e (Some [Malformed "Bearer"; tA]) now3 = Next c /\
            Codec.jti c = uuidv4 (uuid_seed w).
Proof.
  intros Hf Hi Hp Hiss Hsel Hst Hpw Henv Hexp tA w1 w2.
  pose proof (login_run ord1 w ident pw ip1 ua1 now1 a rest Hf Hi Hp Hiss Hsel Hst Hpw) as L1.
  assert (Hiss1 : ids_issued w1) by (subst w1; rewrite L1; by apply ids_issued_login).
  assert (Hw1 : faults w1 = [] /\ admins w1 = admins w /\ uuid_seed w1 = S (uuid_seed w))
    by (subst w1; by rewrite L1).
  destruct Hw1 as (Hf1 & Ha1 & Hs1).
  rewrite <- Ha1 in Hsel.
  pose proof (login_run ord2 w1 ident pw ip2 ua2 now2 a rest Hf1 Hi Hp Hiss1 Hsel Hst Hpw) as L2.
  split; [by rewrite L1|]. split.
  - subst w2. rewrite L2. unfold verifyToken.
    rewrite header_token_bearer by done. subst tA.
    rewrite (jwt_verify_sign a) by done. cbn [jti id].
    rewrite bind_query_nf by done. cbn [snd tokens]. rewrite select_live_login_table.
    destruct ord2; [|reflexivity].
    unfold select_live_token, is_live_token_of, is_token_of, new_session. simpl.
    rewrite Hs1. destruct (String.eqb_spec (uuidv4 (S (uuid_seed w))) (uuidv4 (uuid_seed w))) as [E|].
    + apply (inj uuidv4) in E. lia.
    + reflexivity.
  - eexists. split.
    + unfold authenticateToken. rewrite header_token_bearer by done. cbn [header_truthy negb].
      rewrite Henv. subst tA. rewrite (jwt_verify_sign a) by done.
      cbn [status]. rewrite Hst. reflexivity.
    + reflexivity.
Qed.
(** C5: when the pool runs login's INSERT before its blacklist UPDATE
    (login.js:49-71 issues both without waiting), the UPDATE blacklists the
    new session too: the login answers 200 with token A, and the strict
    gate rejects A at once with 401 "Token has been invalidated". *)
Theorem login_swapped_token_revoked w ident pw ip ua now now' a rest :
  faults w = [] -> ident <> ""%string -> pw <> ""%string -> ids_issued w ->
  select_admin_by_identifier ident (admins w) = a :: rest ->
  AdminRow.status a = "active"%string ->
  bcrypt_compare pw (AdminRow.password a) = true ->
  now' / 1000 < now / 1000 + EXPIRES_IN ->
  let tA := jwt_sign a (uuidv4 (uuid_seed w)) (js_or ip "127.0.0.1") (js_or ua "")
              ACCESS_TOKEN_SECRET now in
  fst (login Swapped (Some ident) (Some pw) ip ua now w)
    = mk_response 200 (JLogin tA (AdminRow.id a) (AdminRow.name a) (AdminRow.email a)) /\
  fst (verifyToken (Some [Malformed "Bearer"; tA]) now'
         (snd (login Swapped (Some ident) (Some pw) ip ua now w)))
    = Halt (mk_response 401 (JError "Token has been invalidated")).
Proof.
  intros Hf Hi Hp Hiss Hsel Hst Hpw Hexp tA.
  rewrite (login_run Swapped w ident pw ip ua now a rest) by done. split; [done|].
  cbn [snd]. unfold verifyToken. rewrite header_token_bearer by done. subst tA.
  rewrite (jwt_verify_sign a) by done. cbn [jti id].
  rewrite bind_query_nf by done. cbn [snd tokens]. by rewrite select_live_login_table.
Qed.
End Scenario.

(** ** Witnesses *)

Lemma verifyToken_admits_witness :
  let tA := jwt_sign ex_admin "0" "127.0.0.1" "" ACCESS_TOKEN_SECRET 1000000 in
  fst (verifyToken (Some [Malformed "Bearer"; tA]) 1100000 ex_world_live) = Next (1, "0"%string) <->
  exists c, header_token (Some [Malformed "Bearer"; tA]) = Some (Signed c ACCESS_TOKEN_SECRET) /\
    1100000 / 1000 < exp c /\ id c = 1 /\ Codec.jti c = "0"%string /\
    select_live_token "0" 1 (tokens ex_world_live) <> [].
Proof.
  witness_of (verifyToken_admits
    (Some [Malformed "Bearer"; jwt_sign ex_admin "0" "127.0.0.1" "" ACCESS_TOKEN_SECRET 1000000])
    1100000 ex_world_live 1 "0").
Defined.

Lemma authenticateToken_admits_blocked_witness :
  let c := mk_claims 2 "b@x.com" "bob" "blocked" "7" "" "" 1000 2800 in
  authenticateToken (mk_env None (Some ACCESS_TOKEN_SECRET))
    (Some [Malformed "Bearer"; Signed c ACCESS_TOKEN_SECRET]) 1100000 = Next c.
Proof.
  witness_of (authenticateToken_admits_blocked (mk_env None (Some ACCESS_TOKEN_SECRET))
    (Some [Malformed "Bearer"; Signed (mk_claims 2 "b@x.com" "bob" "blocked" "7" "" "" 1000 2800)
                                  ACCESS_TOKEN_SECRET])
    1100000 (mk_claims 2 "b@x.com" "bob" "blocked" "7" "" "" 1000 2800) ACCESS_TOKEN_SECRET).
Defined.

Lemma second_login_revokes_first_witness :
  let tA := jwt_sign ex_admin "0" "127.0.0.1" "" ACCESS_TOKEN_SECRET 1000000 in
  let w1 := snd (login InOrder (Some "a@x.com") (Some "secret1") None None 1000000 ex_world) in
  let w2 := snd (login Swapped (Some "a@x.com") (Some "secret1") None None 1200000 w1) in
  body_of (fst (login InOrder (Some "a@x.com") (Some "secret1") None None 1000000 ex_world))
    = JLogin tA 1 "ann" "a@x.com" /\
  fst (verifyToken (Some [Malformed "Bearer"; tA]) 1300000 w2)
    = Halt (mk_response 401 (JError "Token has been invalidated")) /\
  exists c, authenticateToken (mk_env None (Some ACCESS_TOKEN_SECRET))
              (Some [Malformed "Bearer"; tA]) 1300000 = Next c /\ Codec.jti c = "0"%string.
Proof.
  witness_of (second_login_revokes_first InOrder Swapped (mk_env None (Some ACCESS_TOKEN_SECRET)) ex_world
    "a@x.com" "secret1" None None None None 1000000 1200000 1300000 ex_admin []).
Defined.

Lemma login_swapped_token_revoked_witness :
  let tA := jwt_sign ex_admin "0" "127.0.0.1" "" ACCESS_TOKEN_SECRET 1000000 in
  fst (login Swapped (Some "a@x.com") (Some "secret1") None None 1000000 ex_world)
    = mk_response 200 (JLogin tA 1 "ann" "a@x.com") /\
  fst (verifyToken (Some [Malformed "Bearer"; tA]) 1000000
         (snd (login Swapped (Some "a@x.com") (Some "secret1") None None 1000000 ex_world)))
    = Halt (mk_response 401 (JError "Token has been invalidated")).
Proof.
  witness_of (login_swapped_token_revoked ex_world "a@x.com" "secret1" None None 1000000 1000000 ex_admin []).
Defined.
End Auth.
