(* ===== verification/Admin.v ===== *)
(** * Admin management: [src/controller/manage-admin/admin.js]

    The six handlers behind the routes of [src/routes/manage-admin/admin.js]:
    [getadmin], [getadminbyid], [addadmin] (validations, the duplicate
    check, the INSERT), [adminstatus], [updateadmin] ([UPDATE admin SET ?]
    with the request body as the assignment list) and [deleteAdmin] (the
    account's sessions first, then the account).  The statements on table
    [admin] are [admin_stmt], executed by [exec_admin] under the table's
    unique keys ([id], [email], [number]; spec, section 3).  The theorems
    relate these handlers to the session subsystem: an added account can
    log in, a blocked account keeps its sessions, a deleted account keeps
    none. *)

From stdpp Require Import base list strings decidable.
From Stdlib Require Import ZArith Lia Ascii.
From S2P Require Import Prelude Regex Store Codec Db Fixtures Session Auth.

Open Scope Z_scope.
Open Scope st_scope.

Module Admin.
Import Regex Codec Db Store Session Auth Fixtures.

(** ** Validation (admin.js:37-57) *)

(** [/^[^\s@]+@[^\s@]+\.[^\s@]+$/] *)
Definition emailRegex : re :=
  Cat (Plus (Class not_space_at))
    (Cat (chr "@") (Cat (Plus (Class not_space_at)) (Cat (chr ".") (Plus (Class not_space_at))))).

(** [/^[0-9]{10}$/] *)
Definition numberRegex : re := Rep 10 (Class is_digit).

(** The four checks of admin.js:38-57 in their order: the first that
    fails gives the 400 message. *)
Definition addadmin_validate (name email number password : option string) : option string :=
  if negb (js_truthy name && js_truthy email && js_truthy number && js_truthy password) then
    Some "All fields (name, email, number, password) are required"%string
  else if negb (test_string emailRegex (default "" email)) then Some "Invalid email format"%string
  else if negb (test_string numberRegex (default "" number)) then
    Some "Invalid number format. Must be 10 digits"%string
  else if (String.length (default "" password) <? 6)%nat then
    Some "Password must be at least 6 characters long"%string
  else None.

(** [results.forEach] of admin.js:67-72: for each returned row, in order,
    push each clashing field once. *)
Definition push_once (c : string) (acc : list string) : list string :=
  if bool_decide (c ∈ acc) then acc else acc ++ [c].

Definition conflict_step (name email number : string) (acc : list string) (item : AdminRow.t)
    : list string :=
  let acc := if String.eqb (AdminRow.email item) email then push_once "Email" acc else acc in
  let acc := if String.eqb (AdminRow.number item) number then push_once "Number" acc else acc in
  if String.eqb (AdminRow.name item) name then push_once "Name" acc else acc.

Definition conflicts_of (name email number : string) (results : list AdminRow.t) : list string :=
  List.fold_left (conflict_step name email number) results [].

(** [`${conflicts.join(", ")} already exists`] *)
Definition conflict_message (conflicts : list string) : string :=
  (String.concat ", " conflicts +:+ " already exists")%string.

(** [String.prototype.toLowerCase] on 8-bit characters. *)
Definition ascii_lower (c : ascii) : ascii :=
  let n := nat_of_ascii c in
  if Nat.leb 65 n && Nat.leb n 90 then ascii_of_nat (n + 32) else c.
Definition to_lower (s : string) : string :=
  String.string_of_list_ascii (List.map ascii_lower (String.list_ascii_of_string s)).

(** admin.js:80 [status?.toLowerCase() === "blocked" ? "blocked" : "active"] *)
Definition statusValue (status : option string) : string :=
  match status with
  | Some s => if String.eqb (to_lower s) "blocked" then "blocked" else "active"
  | None => "active"
  end.

(** ** Statements on table [admin] *)

Inductive column := CName | CEmail | CNumber | CPassword | CStatus.

(** A key of the request body as a column of [admin]; any other key is
    an unknown column for MySQL. *)
Definition column_of (k : string) : option column :=
  if String.eqb k "name" then Some CName
  else if String.eqb k "email" then Some CEmail
  else if String.eqb k "number" then Some CNumber
  else if String.eqb k "password" then Some CPassword
  else if String.eqb k "status" then Some CStatus
  else None.

Definition set_column (c : column) (v : string) (r : AdminRow.t) : AdminRow.t :=
  let '(AdminRow.mk i n e num p st) := r in
  match c with
  | CName => AdminRow.mk i v e num p st
  | CEmail => AdminRow.mk i n v num p st
  | CNumber => AdminRow.mk i n e v p st
  | CPassword => AdminRow.mk i n e num v st
  | CStatus => AdminRow.mk i n e num p v
  end.

Inductive admin_stmt :=
(** admin.js:82 [INSERT INTO admin (name, email, number, password, status) VALUES (...)] *)
| InsertAdmin (name email number password status : string)
(** admin.js:121 [UPDATE admin SET status=? WHERE id=?] *)
| UpdateAdminStatus (status : string) (aid : Z)
(** admin.js:158 [UPDATE admin SET ? WHERE id = ?] *)
| UpdateAdminSet (data : list (string * string)) (aid : Z)
(** admin.js:190 [DELETE FROM admin WHERE id = ?] *)
| DeleteAdmin (aid : Z).

(** The unique keys of [admin]. *)
Definition admin_keys_ok (adm : list AdminRow.t) : bool :=
  bool_decide (NoDup (List.map AdminRow.id adm)) &&
  bool_decide (NoDup (List.map AdminRow.email adm)) &&
  bool_decide (NoDup (List.map AdminRow.number adm)).

(** [AUTO_INCREMENT]: above every id of the table. *)
Definition next_admin_id (adm : list AdminRow.t) : Z :=
  1 + List.fold_right Z.max 0 (List.map AdminRow.id adm).

Definition of_id (aid : Z) (r : AdminRow.t) : bool := AdminRow.id r =? aid.

(** [SET ?] with an object: each key is a column, assigned in key order. *)
Definition columns_ok (data : list (string * string)) : bool :=
  forallb (fun kv => bool_decide (is_Some (column_of kv.1))) data.

Definition apply_set (data : list (string * string)) (r : AdminRow.t) : AdminRow.t :=
  List.fold_left (fun r kv =>
    match column_of kv.1 with Some c => set_column c kv.2 r | None => r end) data r.

Definition update_admins (aid : Z) (f : AdminRow.t -> AdminRow.t) (adm : list AdminRow.t)
    : list AdminRow.t :=
  List.map (fun r => if of_id aid r then f r else r) adm.

(** A statement's new table and its [insertId] or [affectedRows]; [None]
    is the [err] of the callback (a violated key, an unknown column, or the
    syntax error of an empty [SET]). *)
Definition exec_admin (s : admin_stmt) (adm : list AdminRow.t) : option (list AdminRow.t * Z) :=
  let checked adm' n := if admin_keys_ok adm' then Some (adm', n) else None in
  match s with
  | InsertAdmin n e num p st =>
    let i := next_admin_id adm in checked (adm ++ [AdminRow.mk i n e num p st]) i
  | UpdateAdminStatus st aid =>
    checked (update_admins aid (set_column CStatus st) adm) (Z.of_nat (count_where (of_id aid) adm))
  | UpdateAdminSet data aid =>
    if bool_decide (data = []) || negb (columns_ok data) then None
    else checked (update_admins aid (apply_set data) adm) (Z.of_nat (count_where (of_id aid) adm))
  | DeleteAdmin aid =>
    checked (List.filter (fun r => negb (of_id aid r)) adm) (Z.of_nat (count_where (of_id aid) adm))
  end.

(** A statement on [admin] through the pool: [None] is the [err] of its
    callback, [Some n] the [insertId] or [affectedRows] of its result. *)
Definition run_admin (s : admin_stmt) : St world (option Z) :=
  let* f := next_fault in
  if f then st_ret None
  else fun w => match exec_admin s (admins w) with
                | Some (adm, n) => (Some n, set_admins adm w)
                | None => (None, w)
                end.

(** admin.js:60 [SELECT name, email, number FROM admin WHERE email = ? OR number = ? OR name = ?] *)
Definition select_conflicts (name email number : string) (adm : list AdminRow.t) : list AdminRow.t :=
  List.filter (fun a => String.eqb (AdminRow.email a) email || String.eqb (AdminRow.number a) number
                        || String.eqb (AdminRow.name a) name) adm.

(** The value of a key of the request body. *)
Definition body_get (k : string) (body : list (string * string)) : option string :=
  option_map snd (List.find (fun kv => String.eqb kv.1 k) body).

(** admin.js:147-155: the body, with a non-empty password replaced by its
    hash and an empty one removed. *)
Definition prepare_update `{!Bcrypt} (body : list (string * string)) : list (string * string) :=
  if js_truthy (body_get "password" body) then
    List.map (fun kv => if String.eqb kv.1 "password" then (kv.1, bcrypt_hash kv.2) else kv) body
  else List.filter (fun kv => negb (String.eqb kv.1 "password")) body.

(** admin.js:117 [["active", "blocked"].includes(status)] *)
Definition allowed_status (status : option string) : bool :=
  match status with
  | Some s => String.eqb s "active" || String.eqb s "blocked"
  | None => false
  end.

Section Handlers.
Context `{!Bcrypt}.

(** admin.js:8-16 *)
Definition getadmin : St world response :=
  let* data := query (fun w => admins w) in
  match data with
  | None => reply 500 (JError "Database query failed")
  | Some rows => reply 200 (JAdmins rows)
  end.

(** admin.js:18-30 *)
Definition getadminbyid (aid : Z) : St world response :=
  let* data := query (fun w => select_admin_by_id aid (admins w)) in
  match data with
  | None => reply 500 (JError "Database query failed")
  | Some [] => reply 404 (JError "Admin not found")
  | Some (row :: _) => reply 200 (JAdmin row)
  end.

(** admin.js:33-97 *)
Definition addadmin (name email number password status : option string) : St world response :=
  match addadmin_validate name email number password with
  | Some msg => reply 400 (JError msg)
  | None =>
    let n := default "" name in
    let e := default "" email in
    let num := default "" number in
    let* results := query (fun w => select_conflicts n e num (admins w)) in
    match results with
    | None => reply 500 (JError "Database query failed. Check your SQL syntax.")
    | Some rows =>
      let conflicts := conflicts_of n e num rows in
      if negb (bool_decide (conflicts = [])) then reply 400 (JError (conflict_message conflicts))
      else
        let hashedPassword := bcrypt_hash (default "" password) in
        let* r := run_admin (InsertAdmin n e num hashedPassword (statusValue status)) in
        match r with
        | None => reply 500 (JError "Failed to insert admin. Please check your SQL query.")
        | Some insertId => reply 200 (JAdminAdded "Admin added successfully" insertId)
        end
    end
  end.

(** admin.js:101-138 *)
Definition adminstatus (aid : Z) (status : option string) : St world response :=
  let* results := query (fun w => select_admin_by_id aid (admins w)) in
  match results with
  | None => reply 500 (JError "Database error while checking admin")
  | Some [] => reply 404 (JMessage "Admin not found")
  | Some (row :: _) =>
    if negb (allowed_status status) then
      reply 400 (JMessage "Invalid status value. Allowed: 'active' or 'blocked'")
    else
      let st := default "" status in
      let* u := run_admin (UpdateAdminStatus st aid) in
      match u with
      | None => reply 500 (JError "Error updating admin status")
      | Some _ => reply 200 (JAdminStatus "Admin status updated successfully" (set_column CStatus st row))
      end
  end.

(** admin.js:145-171 *)
Definition updateadmin (aid : Z) (body : list (string * string)) : St world response :=
  let data := prepare_update body in
  let* u := run_admin (UpdateAdminSet data aid) in
  match u with
  | None => reply 500 (JError "Database error")
  | Some affectedRows =>
    if affectedRows =? 0 then reply 404 (JMessage "Admin not found")
    else reply 200 (JMessage "Admin updated successfully")
  end.

(** admin.js:178-200 *)
Definition deleteAdmin (aid : Z) : St world response :=
  let* r := run (DeleteAdminTokens aid) in
  match r with
  | Failed => reply 500 (JError "Failed to delete related tokens")
  | Done =>
    let* d := run_admin (DeleteAdmin aid) in
    match d with
    | None => reply 500 (JError "Failed to delete admin")
    | Some _ => reply 200 (JMessage "Admin deleted successfully")
    end
  end.
End Handlers.

(** What the [forEach] callback finds in one row. *)
Definition clashes (name email number : string) (c : string) (item : AdminRow.t) : Prop :=
  (c = "Email" /\ AdminRow.email item = email) \/ (c = "Number" /\ AdminRow.number item = number) \/
  (c = "Name" /\ AdminRow.name item = name).

(** The statuses the spec allows (section 3). *)
Definition statuses_valid (adm : list AdminRow.t) : Prop :=
  Forall (fun r => AdminRow.status r = "active" \/ AdminRow.status r = "blocked") adm.

(** ** Lemmas *)

Lemma bind_run_admin_nf {B} s (k : option Z -> St world B) w :
  faults w = [] ->
  st_bind (run_admin s) k w = match exec_admin s (admins w) with
                              | Some (adm, n) => k (Some n) (set_admins adm w)
                              | None => k None w
                              end.
Proof.
  intros Hf. unfold run_admin, next_fault. run_st. rewrite Hf. simpl.
  destruct (exec_admin s (admins w)) as [[adm n]|]; reflexivity.
Qed.

Lemma elem_of_push_once c d acc : c ∈ push_once d acc <-> c ∈ acc \/ c = d.
Proof.
  unfold push_once. case_bool_decide; [|by rewrite elem_of_app, list_elem_of_singleton].
  split; [by left|]. intros [?| ->]; done.
Qed.

Lemma NoDup_push_once d acc : NoDup acc -> NoDup (push_once d acc).
Proof.
  intros Hnd. unfold push_once. case_bool_decide; [done|].
  apply list.NoDup_app. split; [done|]. split; [|apply NoDup_singleton].
  intros x Hx ->%list_elem_of_singleton. done.
Qed.

Lemma elem_of_if_push (b : bool) d c acc :
  c ∈ (if b then push_once d acc else acc) <-> c ∈ acc \/ (b = true /\ c = d).
Proof. destruct b; rewrite ?elem_of_push_once; naive_solver. Qed.

Lemma elem_of_conflict_step name email number acc item c :
  c ∈ conflict_step name email number acc item <->
  c ∈ acc \/ clashes name email number c item.
Proof.
  unfold conflict_step, clashes. rewrite !elem_of_if_push, !String.eqb_eq. naive_solver.
Qed.

Lemma NoDup_conflict_step name email number acc item :
  NoDup acc -> NoDup (conflict_step name email number acc item).
Proof.
  intros Hnd. unfold conflict_step.
  repeat match goal with |- context [if ?b then _ else _] => destruct b end;
    repeat apply NoDup_push_once; done.
Qed.

Lemma conflicts_fold name email number rows acc c :
  c ∈ List.fold_left (conflict_step name email number) rows acc <->
  c ∈ acc \/ Exists (clashes name email number c) rows.
Proof.
  revert acc. induction rows as [|item rows IH]; intros acc; simpl.
  - rewrite Exists_nil. naive_solver.
  - rewrite IH, elem_of_conflict_step, Exists_cons. naive_solver.
Qed.

Lemma NoDup_conflicts_fold name email number rows acc :
  NoDup acc -> NoDup (List.fold_left (conflict_step name email number) rows acc).
Proof.
  revert acc. induction rows as [|item rows IH]; intros acc Hnd; simpl; [done|].
  by apply IH, NoDup_conflict_step.
Qed.

Lemma fold_max_ge (l : list Z) x : In x l -> x <= List.fold_right Z.max 0 l.
Proof.
  induction l as [|y l IH]; simpl; [done|]. intros [->|Hin]; [lia|]. specialize (IH Hin). lia.
Qed.

Lemma next_admin_id_fresh adm : next_admin_id adm ∉ List.map AdminRow.id adm.
Proof.
  intros Hin%list_elem_of_In. apply fold_max_ge in Hin. unfold next_admin_id in Hin. lia.
Qed.

Lemma NoDup_snoc {A} (l : list A) x : NoDup l -> x ∉ l -> NoDup (l ++ [x]).
Proof.
  intros Hnd Hx. apply list.NoDup_app. split; [done|]. split; [|apply NoDup_singleton].
  intros y Hy ->%list_elem_of_singleton. done.
Qed.

Lemma admin_keys_ok_snoc adm r :
  admin_keys_ok adm = true ->
  AdminRow.id r ∉ List.map AdminRow.id adm ->
  AdminRow.email r ∉ List.map AdminRow.email adm ->
  AdminRow.number r ∉ List.map AdminRow.number adm ->
  admin_keys_ok (adm ++ [r]) = true.
Proof.
  unfold admin_keys_ok. rewrite !andb_true_iff, !bool_decide_eq_true, !List.map_app.
  intros ((Hi & He) & Hn) Hri Hre Hrn. by repeat split; apply NoDup_snoc.
Qed.

Lemma NoDup_map_filter {A B} (f : A -> B) (p : A -> bool) l :
  NoDup (List.map f l) -> NoDup (List.map f (List.filter p l)).
Proof.
  induction l as [|x l IH]; simpl; [done|]. intros Hnd. inversion Hnd as [|? ? Hx Hnd']; subst.
  destruct (p x); simpl; [|by apply IH]. constructor; [|by apply IH].
  intros Hin. apply Hx. apply list_elem_of_In in Hin. apply list_elem_of_In.
  apply in_map_iff in Hin as (y & <- & Hy). apply filter_In in Hy as [Hy _]. by apply in_map.
Qed.

Lemma admin_keys_ok_filter p adm :
  admin_keys_ok adm = true -> admin_keys_ok (List.filter p adm) = true.
Proof.
  unfold admin_keys_ok. rewrite !andb_true_iff, !bool_decide_eq_true.
  intros ((Hi & He) & Hn). by repeat split; apply NoDup_map_filter.
Qed.

(** A change that keeps [id], [email] and [number] keeps the keys. *)
Lemma admin_keys_ok_update aid f adm :
  (forall r, AdminRow.id (f r) = AdminRow.id r /\ AdminRow.email (f r) = AdminRow.email r /\
             AdminRow.number (f r) = AdminRow.number r) ->
  admin_keys_ok (update_admins aid f adm) = admin_keys_ok adm.
Proof.
  intros Hf. unfold admin_keys_ok, update_admins. rewrite !List.map_map.
  rewrite (List.map_ext (fun x => AdminRow.id (if of_id aid x then f x else x)) AdminRow.id),
    (List.map_ext (fun x => AdminRow.email (if of_id aid x then f x else x)) AdminRow.email),
    (List.map_ext (fun x => AdminRow.number (if of_id aid x then f x else x)) AdminRow.number);
    [done| |  |]; intros x; destruct (of_id aid x); try done; apply Hf.
Qed.

Lemma select_conflicts_nil name email number adm :
  select_conflicts name email number adm = [] ->
  Forall (fun a => AdminRow.email a <> email /\ AdminRow.number a <> number /\
                   AdminRow.name a <> name) adm.
Proof.
  unfold select_conflicts. intros Hnil. apply List.Forall_forall. intros a Ha.
  destruct (String.eqb_spec (AdminRow.email a) email) as [He|He],
    (String.eqb_spec (AdminRow.number a) number) as [Hn|Hn],
    (String.eqb_spec (AdminRow.name a) name) as [Hm|Hm]; try done;
  assert (In a (List.filter (fun a => String.eqb (AdminRow.email a) email ||
             String.eqb (AdminRow.number a) number || String.eqb (AdminRow.name a) name) adm))
    as Hin by (apply filter_In; split; [done|]; rewrite ?He, ?Hn, ?Hm, ?String.eqb_refl, ?orb_true_r; done);
  rewrite Hnil in Hin; done.
Qed.

Lemma not_in_map_of_forall {B} (f : AdminRow.t -> B) (P : AdminRow.t -> Prop) adm x :
  Forall P adm -> (forall a, P a -> f a <> x) -> x ∉ List.map f adm.
Proof.
  intros Hall Hne Hin%list_elem_of_In. apply in_map_iff in Hin as (a & Ha & Hin).
  rewrite List.Forall_forall in Hall. by apply (Hne a (Hall a Hin)).
Qed.

Lemma addadmin_validate_none n e num p :
  addadmin_validate (Some n) (Some e) (Some num) (Some p) = None ->
  n <> ""%string /\ e <> ""%string /\ num <> ""%string /\ p <> ""%string /\
  test_string emailRegex e = true /\ test_string numberRegex num = true /\
  (6 <= String.length p)%nat.
Proof.
  unfold addadmin_validate. simpl.
  destruct (String.eqb_spec n ""), (String.eqb_spec e ""), (String.eqb_spec num ""),
    (String.eqb_spec p ""); simpl; try discriminate.
  destruct (test_string emailRegex e), (test_string numberRegex num); simpl; try discriminate.
  destruct (Nat.ltb_spec (String.length p) 6); [discriminate|]. done.
Qed.

(** Invariants of the [admin] table through the handlers' statements. *)
Section KeepsAdmins.
Variable Q : list AdminRow.t -> Prop.

Lemma keeps_query {R} (sel : world -> list R) : st_keeps (fun w => Q (admins w)) (query sel).
Proof. intros w Hw. by destruct (query_world sel w) as [-> _]. Qed.

Lemma keeps_run s : st_keeps (fun w => Q (admins w)) (run s).
Proof. intros w Hw. by destruct (run_cases s w) as [-> _]. Qed.

Lemma keeps_run_admin s :
  (forall adm adm' n, exec_admin s adm = Some (adm', n) -> Q adm -> Q adm') ->
  st_keeps (fun w => Q (admins w)) (run_admin s).
Proof.
  intros Hs w Hw. unfold run_admin, next_fault. run_st.
  destruct (faults w) as [|[] bs]; simpl; [| done |];
    destruct (exec_admin s _) as [[adm n]|] eqn:E; simpl; eauto.
Qed.
End KeepsAdmins.

Ltac keeps_step :=
  match goal with
  | |- st_keeps _ (st_bind (query _) _) => apply st_keeps_bind; [apply keeps_query|intros ?]
  | |- st_keeps _ (st_bind (run _) _) => apply st_keeps_bind; [apply keeps_run|intros ?]
  | |- st_keeps _ (st_bind (run_admin _) _) => apply st_keeps_bind; [apply keeps_run_admin|intros ?]
  | |- st_keeps _ (reply _ _) => apply st_keeps_ret
  | |- st_keeps _ (st_ret _) => apply st_keeps_ret
  | |- st_keeps _ (match ?x with _ => _ end) => destruct x eqn:?
  | |- st_keeps _ (if ?b then _ else _) => destruct b eqn:?
  end.

Lemma statuses_valid_snoc adm r :
  statuses_valid adm -> AdminRow.status r = "active" \/ AdminRow.status r = "blocked" ->
  statuses_valid (adm ++ [r]).
Proof. intros H Hr. apply List.Forall_app. split; [done|by constructor]. Qed.

Lemma statusValue_valid st : statusValue st = "active" \/ statusValue st = "blocked".
Proof. unfold statusValue. destruct st; [case_match|]; auto. Qed.

Lemma statuses_valid_update aid st adm :
  statuses_valid adm -> allowed_status (Some st) = true ->
  statuses_valid (update_admins aid (set_column CStatus st) adm).
Proof.
  intros H Hst. apply List.Forall_map. eapply List.Forall_impl; [|exact H].
  intros [i n e num p s0] Hr. cbn. destruct (of_id aid _); [|done].
  cbn in Hst. apply orb_true_iff in Hst as [?%String.eqb_eq|?%String.eqb_eq]; auto.
Qed.

Lemma statuses_valid_filter q adm : statuses_valid adm -> statuses_valid (List.filter q adm).
Proof. intros H. apply List.Forall_forall. intros r (Hr & _)%filter_In. by eapply List.Forall_forall in H. Qed.

Lemma exec_admin_keeps_statuses s adm adm' k :
  match s with
  | InsertAdmin _ _ _ _ st => st = "active"%string \/ st = "blocked"%string
  | UpdateAdminStatus st _ => allowed_status (Some st) = true
  | UpdateAdminSet _ _ => False
  | DeleteAdmin _ => True
  end ->
  exec_admin s adm = Some (adm', k) -> statuses_valid adm -> statuses_valid adm'.
Proof.
  destruct s; simpl; intros Hs; try done;
    case_match; intros [= <- _] Hv.
  - by apply statuses_valid_snoc.
  - by apply statuses_valid_update.
  - by apply statuses_valid_filter.
Qed.

Lemma count_where_of_id aid adm : count_where (of_id aid) adm = length (select_admin_by_id aid adm).
Proof. reflexivity. Qed.

Lemma set_status_keys st :
  forall r, AdminRow.id (set_column CStatus st r) = AdminRow.id r /\
            AdminRow.email (set_column CStatus st r) = AdminRow.email r /\
            AdminRow.number (set_column CStatus st r) = AdminRow.number r.
Proof. by intros []. Qed.

(** The strict gate's decision depends on the session table and the
    oracle only. *)
Lemma verifyToken_congr h now w w' :
  faults w = faults w' -> tokens w = tokens w' -> fst (verifyToken h now w) = fst (verifyToken h now w').
Proof.
  intros Hf Ht. unfold verifyToken.
  destruct (header_token h) as [t|]; [|done]. destruct (jwt_verify _ _ _) as [c|]; [|done].
  unfold query, next_fault. run_st. rewrite Hf.
  destruct (faults w') as [|[] ?]; cbn; rewrite ?Ht;
    try case_match; reflexivity.
Qed.

(** ** Properties *)

Section Props.
Context `{!Uuid} `{!Bcrypt}.

(** The email pattern of admin.js:43 accepts exactly the strings
    [a@b.c] with [a], [b], [c] non-empty and free of whitespace and [@]
    ([b] may itself contain dots). *)
Theorem emailRegex_spec (s : list ascii) :
  test emailRegex s = true <->
  exists a b c, s = a ++ "@"%char :: b ++ "."%char :: c /\ a <> [] /\ b <> [] /\ c <> [] /\
    Forall (fun x => not_space_at x = true) (a ++ b ++ c).
Proof.
  rewrite test_spec. unfold emailRegex.
  rewrite (matches_cat (Plus _)). setoid_rewrite (matches_cat (chr "@")).
  setoid_rewrite (matches_cat (Plus _) (Cat (chr ".") _)). setoid_rewrite (matches_cat (chr ".")).
  setoid_rewrite matches_plus_class. setoid_rewrite matches_chr. split.
  - intros (a & s1 & -> & [Ha Fa] & (x & s2 & -> & -> & (b & s3 & -> & [Hb Fb] &
      (y & c & -> & -> & [Hc Fc])))).
    exists a, b, c. split; [done|]. do 3 (split; [done|]). by rewrite !List.Forall_app.
  - intros (a & b & c & -> & Ha & Hb & Hc & F). rewrite !List.Forall_app in F.
    destruct F as (Fa & Fb & Fc).
    exists a, ("@"%char :: b ++ "."%char :: c). split; [done|]. split; [done|].
    exists ["@"%char], (b ++ "."%char :: c). split; [done|]. split; [done|].
    exists b, ("."%char :: c). split; [done|]. split; [done|].
    exists ["."%char], c. done.
Qed.

(** The number pattern of admin.js:49 accepts exactly the strings of
    ten decimal digits. *)
Theorem numberRegex_spec (s : list ascii) :
  test numberRegex s = true <-> length s = 10%nat /\ Forall (fun x => is_digit x = true) s.
Proof. rewrite test_spec. apply matches_rep_class. Qed.

(** The duplicate check of admin.js:67-72 names each clashing field
    once: ["Email"] when a returned row has the email, ["Number"] when one
    has the number, ["Name"] when one has the name, and nothing else. *)
Theorem conflicts_of_spec name email number rows c :
  NoDup (conflicts_of name email number rows) /\
  (c ∈ conflicts_of name email number rows <-> Exists (clashes name email number c) rows).
Proof.
  split; [apply NoDup_conflicts_fold, NoDup_nil_2|].
  unfold conflicts_of. rewrite conflicts_fold. split; [|by right].
  intros [Hin|?]; [inversion Hin|done].
Qed.

(** The run of a successful [addadmin]. *)
Lemma addadmin_run w n e num p st :
  faults w = [] -> admin_keys_ok (admins w) = true ->
  addadmin_validate (Some n) (Some e) (Some num) (Some p) = None ->
  select_conflicts n e num (admins w) = [] ->
  addadmin (Some n) (Some e) (Some num) (Some p) st w =
    (mk_response 200 (JAdminAdded "Admin added successfully" (next_admin_id (admins w))),
     set_admins (admins w ++ [AdminRow.mk (next_admin_id (admins w)) n e num (bcrypt_hash p)
                                          (statusValue st)]) w).
Proof.
  intros Hf Hk Hv Hsel. unfold addadmin. rewrite Hv. simpl default.
  rewrite bind_query_nf by done. rewrite Hsel. cbn.
  rewrite bind_run_admin_nf by done. cbn.
  pose proof (select_conflicts_nil _ _ _ _ Hsel) as Hall.
  rewrite admin_keys_ok_snoc; [done|done|apply next_admin_id_fresh| |];
    eapply not_in_map_of_forall; [exact Hall| |exact Hall|]; cbn; intros a Ha; apply Ha.
Qed.

(** A valid new account with no clash is inserted with the next id, the
    bcrypt hash of its password and the status ["blocked"] or ["active"],
    and the answer is 200 with that id. *)
Theorem addadmin_success w n e num p st :
  faults w = [] -> admin_keys_ok (admins w) = true ->
  addadmin_validate (Some n) (Some e) (Some num) (Some p) = None ->
  select_conflicts n e num (admins w) = [] ->
  addadmin (Some n) (Some e) (Some num) (Some p) st w =
    (mk_response 200 (JAdminAdded "Admin added successfully" (next_admin_id (admins w))),
     set_admins (admins w ++ [AdminRow.mk (next_admin_id (admins w)) n e num (bcrypt_hash p)
                                          (statusValue st)]) w).
Proof. apply addadmin_run. Qed.

(** When a row shares the email, the number or the name, the answer
    is 400 naming the clashing fields, and nothing is written. *)
Theorem addadmin_duplicate w n e num p st :
  faults w = [] ->
  addadmin_validate (Some n) (Some e) (Some num) (Some p) = None ->
  select_conflicts n e num (admins w) <> [] ->
  addadmin (Some n) (Some e) (Some num) (Some p) st w =
    (mk_response 400 (JError (conflict_message (conflicts_of n e num (select_conflicts n e num (admins w))))),
     w) /\
  conflicts_of n e num (select_conflicts n e num (admins w)) <> [].
Proof.
  intros Hf Hv Hne.
  assert (conflicts_of n e num (select_conflicts n e num (admins w)) <> []) as Hc.
  { destruct (select_conflicts n e num (admins w)) as [|r rows] eqn:Hs; [done|].
    assert (r ∈ select_conflicts n e num (admins w)) as Hr by (rewrite Hs; left).
    apply list_elem_of_In, filter_In in Hr as [_ Hr].
    rewrite !orb_true_iff, !String.eqb_eq in Hr.
    intros Hnil. destruct Hr as [[He|Hn]|Hm].
    - assert ("Email" ∈ conflicts_of n e num (r :: rows)) as Hin.
      { unfold conflicts_of. apply conflicts_fold. right. left. by left. }
      rewrite Hnil in Hin. inversion Hin.
    - assert ("Number" ∈ conflicts_of n e num (r :: rows)) as Hin.
      { unfold conflicts_of. apply conflicts_fold. right. left. right; left. done. }
      rewrite Hnil in Hin. inversion Hin.
    - assert ("Name" ∈ conflicts_of n e num (r :: rows)) as Hin.
      { unfold conflicts_of. apply conflicts_fold. right. left. right; right. done. }
      rewrite Hnil in Hin. inversion Hin. }
  split; [|done]. unfold addadmin. rewrite Hv. simpl default.
  rewrite bind_query_nf by done. cbn.
  rewrite bool_decide_false by done. reflexivity.
Qed.
(** An account added by [addadmin] with an active status can log in
    at once with its email and password: login answers 200 with the new
    account's id, name and email. *)
Theorem addadmin_then_login ord w n e num p st ip ua now :
  faults w = [] -> admin_keys_ok (admins w) = true -> ids_issued w ->
  addadmin_validate (Some n) (Some e) (Some num) (Some p) = None ->
  select_conflicts n e num (admins w) = [] ->
  Forall (fun a => AdminRow.number a <> e) (admins w) ->
  statusValue st = "active"%string ->
  exists t, fst (login ord (Some e) (Some p) ip ua now
                   (snd (addadmin (Some n) (Some e) (Some num) (Some p) st w))) =
            mk_response 200 (JLogin t (next_admin_id (admins w)) n e).
Proof.
  intros Hf Hk Hiss Hv Hsel Hnum Hst.
  rewrite addadmin_run by done. cbn [snd].
  destruct (addadmin_validate_none _ _ _ _ Hv) as (_ & He & _ & Hp & _).
  pose proof (select_conflicts_nil _ _ _ _ Hsel) as Hall.
  set (row := AdminRow.mk (next_admin_id (admins w)) n e num (bcrypt_hash p) (statusValue st)).
  assert (select_admin_by_identifier e (admins w ++ [row]) = [row]) as Hid.
  { unfold select_admin_by_identifier. rewrite List.filter_app, filter_none.
    - simpl. by rewrite String.eqb_refl.
    - apply List.Forall_forall. intros a Ha.
      eapply List.Forall_forall in Hall, Hnum; [|done|done].
      destruct Hall as (Hae & _ & _).
      apply orb_false_iff. split; apply String.eqb_neq; done. }
  eexists. rewrite (login_run ord (set_admins (admins w ++ [row]) w) e p ip ua now row []);
    [reflexivity|done|done|done|done|done|done|apply bcrypt_compare_hash].
Qed.

(** [addadmin], [adminstatus] and [deleteAdmin] only ever write the
    statuses ["active"] and ["blocked"] (spec, section 3), whatever the
    outcome of their statements. *)
Theorem admin_handlers_keep_statuses :
  (forall n e num p st, st_keeps (fun w => statuses_valid (admins w)) (addadmin n e num p st)) /\
  (forall aid st, st_keeps (fun w => statuses_valid (admins w)) (adminstatus aid st)) /\
  (forall aid, st_keeps (fun w => statuses_valid (admins w)) (deleteAdmin aid)).
Proof.
  split; [|split]; intros *.
  - unfold addadmin. repeat keeps_step.
    intros ???. apply exec_admin_keeps_statuses, statusValue_valid.
  - unfold adminstatus. repeat keeps_step. intros ???. apply exec_admin_keeps_statuses.
    match goal with H : negb (allowed_status _) = false |- _ => apply negb_false_iff in H end.
    by destruct st.
  - unfold deleteAdmin. repeat keeps_step. intros ???. by apply exec_admin_keeps_statuses.
Qed.
(** C21: [updateadmin] writes whatever status the body carries: the
    status is not checked against ["active"] and ["blocked"] as
    [adminstatus] checks it (admin.js:117), so any other value leaves the
    table outside the statuses of the spec (section 3). *)
Theorem updateadmin_status_unchecked w aid s row rest :
  faults w = [] -> admin_keys_ok (admins w) = true ->
  select_admin_by_id aid (admins w) = row :: rest ->
  updateadmin aid [("status", s)]%string w =
    (mk_response 200 (JMessage "Admin updated successfully"),
     set_admins (update_admins aid (set_column CStatus s) (admins w)) w) /\
  (s <> "active"%string -> s <> "blocked"%string ->
   ~ statuses_valid (update_admins aid (set_column CStatus s) (admins w))).
Proof.
  intros Hf Hk Hsel. split.
  - unfold updateadmin, prepare_update. cbn -[update_admins].
    rewrite bind_run_admin_nf by done. cbn -[update_admins admin_keys_ok count_where].
    change (update_admins aid (apply_set [("status", s)]) (admins w))
      with (update_admins aid (set_column CStatus s) (admins w)).
    rewrite admin_keys_ok_update, Hk by apply set_status_keys.
    rewrite count_where_of_id, Hsel. reflexivity.
  - intros Ha Hb Hv. assert (In row (select_admin_by_id aid (admins w))) as Hin by (rewrite Hsel; left; done).
    apply filter_In in Hin as [Hin Hid].
    eapply List.Forall_forall in Hv; [|apply in_map_iff; exists row; split; [reflexivity|exact Hin]].
    unfold of_id in Hv. rewrite Hid in Hv. destruct row. cbn in Hv. tauto.
Qed.

(** C19: a fault-free [deleteAdmin] deletes the account's session rows and
    then the account, and answers 200; no live session of the account
    remains (spec, section 3: sessions are deleted first). *)
Theorem deleteAdmin_cascade w aid :
  faults w = [] -> admin_keys_ok (admins w) = true ->
  deleteAdmin aid w =
    (mk_response 200 (JMessage "Admin deleted successfully"),
     mk_world (List.filter (fun r => negb (of_id aid r)) (admins w))
       (delete_where (fun r => TokenRow.admin_id r =? aid) (tokens w)) [] (uuid_seed w)) /\
  select_admin_by_id aid (admins (snd (deleteAdmin aid w))) = [] /\
  (forall jti, select_live_token jti aid (tokens (snd (deleteAdmin aid w))) = []).
Proof.
  intros Hf Hk.
  assert (deleteAdmin aid w =
    (mk_response 200 (JMessage "Admin deleted successfully"),
     mk_world (List.filter (fun r => negb (of_id aid r)) (admins w))
       (delete_where (fun r => TokenRow.admin_id r =? aid) (tokens w)) [] (uuid_seed w))) as Hrun.
  { unfold deleteAdmin. step_nf. rewrite bind_run_admin_nf by (cbn; done). cbn -[admin_keys_ok].
    rewrite admin_keys_ok_filter by done. unfold set_admins, set_tokens. cbn. by rewrite Hf. }
  split; [done|]. rewrite Hrun. cbn [snd admins tokens]. split.
  - apply filter_none, List.Forall_forall. intros r (_ & Hr)%filter_In.
    by apply negb_true_iff in Hr.
  - intros jti. apply filter_none, List.Forall_forall. intros r (_ & Hr)%filter_In.
    apply negb_true_iff in Hr. apply not_true_iff_false. intros Hl.
    apply is_live_token_of_admin_live in Hl. unfold of_admin_live in Hl.
    apply andb_prop in Hl as [Hl _]. congruence.
Qed.

(** When the account's DELETE fails after its sessions were deleted,
    the answer is 500 and the account stays without any session: the two
    statements are not one transaction (spec, section 5). *)
Theorem deleteAdmin_partial w aid :
  faults w = [false; true] ->
  deleteAdmin aid w =
    (mk_response 500 (JError "Failed to delete admin"),
     mk_world (admins w) (delete_where (fun r => TokenRow.admin_id r =? aid) (tokens w)) [] (uuid_seed w)).
Proof.
  intros Hf. unfold deleteAdmin. erewrite bind_run_ok by done. cbn.
  unfold run_admin, next_fault. run_st. reflexivity.
Qed.

(** C18: blocking an account with [adminstatus] answers 200 but leaves its
    sessions live: the strict gate decides every request exactly as
    before, so a blocked admin keeps access until logout, expiry or the
    next login (the gate does not read the status, spec, section 4.2). *)
Theorem adminstatus_block_keeps_sessions w aid row rest h now :
  faults w = [] -> admin_keys_ok (admins w) = true ->
  select_admin_by_id aid (admins w) = row :: rest ->
  fst (adminstatus aid (Some "blocked"%string) w) =
    mk_response 200 (JAdminStatus "Admin status updated successfully" (set_column CStatus "blocked" row)) /\
  tokens (snd (adminstatus aid (Some "blocked"%string) w)) = tokens w /\
  fst (verifyToken h now (snd (adminstatus aid (Some "blocked"%string) w))) =
  fst (verifyToken h now w).
Proof.
  intros Hf Hk Hsel.
  assert (adminstatus aid (Some "blocked"%string) w =
    (mk_response 200 (JAdminStatus "Admin status updated successfully" (set_column CStatus "blocked" row)),
     set_admins (update_admins aid (set_column CStatus "blocked") (admins w)) w)) as ->.
  { unfold adminstatus. rewrite bind_query_nf by done. rewrite Hsel. cbn -[update_admins admin_keys_ok count_where].
    rewrite bind_run_admin_nf by done. cbn -[update_admins admin_keys_ok count_where].
    rewrite admin_keys_ok_update, Hk by apply set_status_keys. reflexivity. }
  split; [done|]. split; [done|]. by apply verifyToken_congr.
Qed.
End Props.

(** ** Witnesses *)

Lemma addadmin_success_witness :
  addadmin (Some "cat") (Some "c@x.com") (Some "9123456789") (Some "secret3") None ex_world =
    (mk_response 200 (JAdminAdded "Admin added successfully" (next_admin_id (admins ex_world))),
     set_admins (admins ex_world ++ [AdminRow.mk (next_admin_id (admins ex_world)) "cat" "c@x.com"
                 "9123456789" (bcrypt_hash "secret3") (statusValue None)]) ex_world).
Proof.
  witness_of (addadmin_success ex_world "cat" "c@x.com" "9123456789" "secret3" None).
Defined.

Lemma addadmin_duplicate_witness :
  let sel := select_conflicts "ann" "a@x.com" "9876543210" (admins ex_world) in
  addadmin (Some "ann") (Some "a@x.com") (Some "9876543210") (Some "secret9") None ex_world =
    (mk_response 400 (JError (conflict_message (conflicts_of "ann" "a@x.com" "9876543210" sel))),
     ex_world) /\
  conflicts_of "ann" "a@x.com" "9876543210" sel <> [].
Proof.
  witness_of (addadmin_duplicate ex_world "ann" "a@x.com" "9876543210" "secret9" None).
Defined.

Lemma addadmin_then_login_witness :
  exists t, fst (login Swapped (Some "c@x.com") (Some "secret3") None None 2000000
                   (snd (addadmin (Some "cat") (Some "c@x.com") (Some "9123456789") (Some "secret3")
                                  None ex_world))) =
            mk_response 200 (JLogin t (next_admin_id (admins ex_world)) "cat" "c@x.com").
Proof.
  witness_of (addadmin_then_login Swapped ex_world "cat" "c@x.com" "9123456789" "secret3" None None None 2000000).
Defined.

Lemma updateadmin_status_unchecked_witness :
  updateadmin 1 [("status", "suspended")]%string ex_world =
    (mk_response 200 (JMessage "Admin updated successfully"),
     set_admins (update_admins 1 (set_column CStatus "suspended") (admins ex_world)) ex_world) /\
  ("suspended" <> "active" -> "suspended" <> "blocked" ->
   ~ statuses_valid (update_admins 1 (set_column CStatus "suspended") (admins ex_world)))%string.
Proof. witness_of (updateadmin_status_unchecked ex_world 1 "suspended" ex_admin []). Defined.

Lemma deleteAdmin_cascade_witness :
  deleteAdmin 1 ex_world_live =
    (mk_response 200 (JMessage "Admin deleted successfully"),
     mk_world (List.filter (fun r => negb (of_id 1 r)) (admins ex_world_live))
       (delete_where (fun r => TokenRow.admin_id r =? 1) (tokens ex_world_live)) [] (uuid_seed ex_world_live)) /\
  select_admin_by_id 1 (admins (snd (deleteAdmin 1 ex_world_live))) = [] /\
  (forall jti, select_live_token jti 1 (tokens (snd (deleteAdmin 1 ex_world_live))) = []).
Proof. witness_of (deleteAdmin_cascade ex_world_live 1). Defined.

Lemma deleteAdmin_partial_witness :
  deleteAdmin 1 (mk_world (admins ex_world_live) (tokens ex_world_live) [false; true] 1) =
    (mk_response 500 (JError "Failed to delete admin"),
     mk_world (admins ex_world_live) (delete_where (fun r => TokenRow.admin_id r =? 1) (tokens ex_world_live))
       [] 1).
Proof.
  witness_of (deleteAdmin_partial (mk_world (admins ex_world_live) (tokens ex_world_live) [false; true] 1) 1).
Defined.

Lemma adminstatus_block_keeps_sessions_witness :
  let h := Some [Malformed "Bearer"; jwt_sign ex_admin "0" "127.0.0.1" "" ACCESS_TOKEN_SECRET 1000000] in
  fst (adminstatus 1 (Some "blocked"%string) ex_world_live) =
    mk_response 200 (JAdminStatus "Admin status updated successfully" (set_column CStatus "blocked" ex_admin)) /\
  tokens (snd (adminstatus 1 (Some "blocked"%string) ex_world_live)) = tokens ex_world_live /\
  fst (verifyToken h 1100000 (snd (adminstatus 1 (Some "blocked"%string) ex_world_live))) =
  fst (verifyToken h 1100000 ex_world_live).
Proof.
  witness_of (adminstatus_block_keeps_sessions ex_world_live 1 ex_admin []
    (Some [Malformed "Bearer"; jwt_sign ex_admin "0" "127.0.0.1" "" ACCESS_TOKEN_SECRET 1000000]) 1100000).
Defined.

End Admin.
