(* ===== verification/Contact.v ===== *)
(** * Contact form with a rate limit: [src/controller/contact/contact.js]

    The public contact form: [submitContact] validates the fields, counts
    the submissions of the client's IP address in the last ten hours
    ([checkRateLimit]) and refuses with 429 from the third on, checks the
    branch, and inserts the contact.  The back office lists contacts
    newest first ([getAllContacts]), views one (marking it seen,
    [viewContact]) and deletes one ([deleteContact]); [getRateLimitStatus]
    reports the counter.  The state is the [contacts] table, the
    [branches] table (the columns read here), the fault oracle and the
    [AUTO_INCREMENT] counter of [contacts].  The main theorem is the rate
    limit itself: at most three contacts of one address in any window of
    ten hours, in every state reachable with a clock that does not go
    back. *)

From stdpp Require Import base list strings decidable sorting.
From Stdlib Require Import ZArith Lia.
From S2P Require Import Prelude Regex Store Codec Db Fixtures Admin.

Open Scope Z_scope.
Open Scope st_scope.

Module Contact.
Import Regex.

(** A row of [contacts] (contact.js:117, :179). *)
Module ContactRow.
Record t := mk {
  id : Z;
  name : string;
  email : string;
  phone : option string;
  subject : string;
  message : string;
  branch_id : Z;
  ip_address : string;
  created_at : Z;      (** the column's default, the time of the INSERT, in ms *)
  seen : bool
}.

(** [SET seen = 1] *)
Definition mark_seen (r : t) : t :=
  mk (id r) (name r) (email r) (phone r) (subject r) (message r) (branch_id r) (ip_address r)
     (created_at r) true.
End ContactRow.

(** The columns of [branches] read by contact.js:97. *)
Module BranchRow.
Record t := mk { id : Z; status : string }.
End BranchRow.

Record cdb := mk_cdb {
  contacts : list ContactRow.t;
  branches : list BranchRow.t;
  cfaults : list bool;
  next_contact_id : Z
}.

(** contact.js:5-8 *)
Definition MAX_SUBMISSIONS : nat := 3.
Definition WINDOW_HOURS : Z := 10.
Definition WINDOW_MS : Z := WINDOW_HOURS * 60 * 60 * 1000.

(** contact.js:11-19: the first truthy of the request's addresses. *)
Record client := mk_client {
  req_ip : option string;
  conn_remote : option string;
  socket_remote : option string;
  conn_socket_remote : option string;
  x_forwarded_for : option string;
  x_real_ip : option string
}.

Definition first_of_list (s : string) : string :=
  match String.index 0 "," s with
  | Some i => String.substring 0 i s
  | None => s
  end.

Definition getClientIP (c : client) : string :=
  if js_truthy (req_ip c) then default "" (req_ip c)
  else if js_truthy (conn_remote c) then default "" (conn_remote c)
  else if js_truthy (socket_remote c) then default "" (socket_remote c)
  else if js_truthy (conn_socket_remote c) then default "" (conn_socket_remote c)
  else if js_truthy (option_map first_of_list (x_forwarded_for c)) then
    first_of_list (default "" (x_forwarded_for c))
  else js_or (x_real_ip c) "unknown".

(** ** Statements and queries *)

Definition next_cfault : St cdb bool :=
  fun d => match cfaults d with
           | [] => (false, d)
           | b :: bs => (b, mk_cdb (contacts d) (branches d) bs (next_contact_id d))
           end.

Definition cquery {R} (sel : cdb -> R) : St cdb (option R) :=
  let* f := next_cfault in
  if f then st_ret None else fun d => (Some (sel d), d).

(** A write: the new state and its [insertId] or [affectedRows]. *)
Definition crun (f : cdb -> cdb * Z) : St cdb (option Z) :=
  let* fl := next_cfault in
  if fl then st_ret None else fun d => let '(d', n) := f d in (Some n, d').

(** contact.js:27-29 [WHERE ip_address = ? AND created_at > ?] *)
Definition in_window (ip : string) (windowAgo : Z) (r : ContactRow.t) : bool :=
  String.eqb (ContactRow.ip_address r) ip && (windowAgo <? ContactRow.created_at r).

Record rate_info := mk_rate {
  submissionCount : nat;
  remainingSubmissions : Z;
  isLimitExceeded : bool
}.

(** contact.js:22-46 *)
Definition checkRateLimit (ip : string) (now : Z) : St cdb (option rate_info) :=
  let windowAgo := now - WINDOW_MS in
  let* results := cquery (fun d => count_where (in_window ip windowAgo) (contacts d)) in
  match results with
  | None => st_ret None
  | Some submissionCount =>
    st_ret (Some (mk_rate submissionCount (Z.of_nat MAX_SUBMISSIONS - Z.of_nat submissionCount)
                          (Nat.leb MAX_SUBMISSIONS submissionCount)))
  end.

(** contact.js:97 [SELECT id FROM branches WHERE id = ? AND status = "active"] *)
Definition active_branch (bid : Z) (b : BranchRow.t) : bool :=
  (BranchRow.id b =? bid) && String.eqb (BranchRow.status b) "active".

(** contact.js:115-120: the INSERT, with [seen = 0] and [created_at] the
    time of the statement. *)
Definition insert_contact (name email : string) (phone : option string) (subject message : string)
    (bid : Z) (ip : string) (now : Z) (d : cdb) : cdb * Z :=
  let i := next_contact_id d in
  (mk_cdb (contacts d ++ [ContactRow.mk i name email phone subject message bid ip now false])
          (branches d) (cfaults d) (i + 1), i).

(** ** Responses *)

Inductive cbody :=
| CFail (msg : string)                         (** [{ success: false, message }] *)
| CLimited (msg : string) (info : rate_info)   (** the 429 with [rateLimitInfo] *)
| CSubmitted (contactId : Z) (info : rate_info)
| CStatus (info : rate_info)
| CContacts (rows : list ContactRow.t)
| CContact (row : ContactRow.t)
| COk (msg : string).

Record cresponse := mk_cresponse { ccode : Z; cbody_of : cbody }.

Definition creply (c : Z) (b : cbody) : St cdb cresponse := st_ret (mk_cresponse c b).

(** A JSON [branch_id] is truthy when it is not [0]. *)
Definition id_truthy (o : option Z) : bool :=
  match o with Some z => negb (z =? 0) | None => false end.

Definition LIMIT_MESSAGE : string :=
  "You have submitted the contact form too many times. Please try again after 10 hours.".

(** contact.js:48-148 *)
Definition submitContact (name email phone subject message : option string) (branch_id : option Z)
    (c : client) (now : Z) : St cdb cresponse :=
  let ip_address := getClientIP c in
  if negb (js_truthy name && js_truthy email && js_truthy subject && js_truthy message
           && id_truthy branch_id) then
    creply 400 (CFail "All required fields must be provided")
  else if negb (test_string Admin.emailRegex (default "" email)) then
    creply 400 (CFail "Invalid email format")
  else
    let* rl := checkRateLimit ip_address now in
    match rl with
    | None => creply 500 (CFail "Error processing request")
    | Some info =>
      if isLimitExceeded info then
        creply 429 (CLimited LIMIT_MESSAGE (mk_rate (submissionCount info) (remainingSubmissions info) true))
      else
        let bid := default 0 branch_id in
        let* results := cquery (fun d => List.filter (active_branch bid) (branches d)) in
        match results with
        | None => creply 500 (CFail "Error checking branch")
        | Some [] => creply 400 (CFail "Invalid or inactive branch ID")
        | Some (_ :: _) =>
          let* ins := crun (insert_contact (default "" name) (default "" email) phone
                              (default "" subject) (default "" message) bid ip_address now) in
          match ins with
          | None => creply 500 (CFail "Error submitting contact form")
          | Some insertId =>
            creply 201 (CSubmitted insertId
              (mk_rate (S (submissionCount info)) (remainingSubmissions info - 1)
                       (Nat.leb MAX_SUBMISSIONS (S (submissionCount info)))))
          end
        end
    end.

(** contact.js:151-175 *)
Definition getRateLimitStatus (c : client) (now : Z) : St cdb cresponse :=
  let* rl := checkRateLimit (getClientIP c) now in
  match rl with
  | None => creply 500 (CFail "Error checking rate limit status")
  | Some info => creply 200 (CStatus info)
  end.

(** [ORDER BY created_at DESC] *)
Definition newer_first (a b : ContactRow.t) : Prop := ContactRow.created_at b <= ContactRow.created_at a.
#[export] Instance newer_first_dec : RelDecision newer_first.
Proof. intros a b. unfold newer_first. apply _. Defined.

(** contact.js:177-198 *)
Definition getAllContacts : St cdb cresponse :=
  let* results := cquery (fun d => merge_sort newer_first (contacts d)) in
  match results with
  | None => creply 500 (CFail "Error fetching contacts")
  | Some rows => creply 200 (CContacts rows)
  end.

Definition of_contact (cid : Z) (r : ContactRow.t) : bool := ContactRow.id r =? cid.

(** contact.js:204 [UPDATE contacts SET seen = 1 WHERE id = ?] *)
Definition mark_seen_where (cid : Z) (d : cdb) : cdb * Z :=
  (mk_cdb (List.map (fun r => if of_contact cid r then ContactRow.mark_seen r else r) (contacts d))
          (branches d) (cfaults d) (next_contact_id d),
   Z.of_nat (count_where (of_contact cid) (contacts d))).

(** contact.js:247 [DELETE FROM contacts WHERE id = ?] *)
Definition delete_contact (cid : Z) (d : cdb) : cdb * Z :=
  (mk_cdb (List.filter (fun r => negb (of_contact cid r)) (contacts d))
          (branches d) (cfaults d) (next_contact_id d),
   Z.of_nat (count_where (of_contact cid) (contacts d))).

(** contact.js:200-242 *)
Definition viewContact (cid : Z) : St cdb cresponse :=
  let* u := crun (mark_seen_where cid) in
  match u with
  | None => creply 500 (CFail "Error marking contact as seen")
  | Some _ =>
    let* results := cquery (fun d => List.filter (of_contact cid) (contacts d)) in
    match results with
    | None => creply 500 (CFail "Error fetching contact")
    | Some [] => creply 404 (CFail "Contact not found")
    | Some (row :: _) => creply 200 (CContact row)
    end
  end.

(** contact.js:244-268 *)
Definition deleteContact (cid : Z) : St cdb cresponse :=
  let* r := crun (delete_contact cid) in
  match r with
  | None => creply 500 (CFail "Error deleting contact")
  | Some affectedRows =>
    if affectedRows =? 0 then creply 404 (CFail "Contact not found")
    else creply 200 (COk "Contact deleted successfully")
  end.

(** ** Handlers as sequences of atomic statements

    Node's event loop runs each callback to its end, so a handler is a
    sequence of atomic steps, one per query, with the callbacks in
    between; requests of different clients interleave at those steps.
    [cprog] is such a sequence, [run_seq] runs it alone, [run2] runs two
    of them under a schedule ([true]: the first takes its next step). *)
Inductive cprog (A : Type) : Type :=
| CRet (a : A)
| CStep {X : Type} (m : St cdb X) (k : X -> cprog A).
Arguments CRet {A} a.
Arguments CStep {A X} m k.

Fixpoint run_seq {A} (p : cprog A) : St cdb A :=
  match p with
  | CRet a => st_ret a
  | CStep m k => st_bind m (fun x => run_seq (k x))
  end.

Fixpoint run2 {A} (sched : list bool) (p1 p2 : cprog A) (d : cdb) : cprog A * cprog A * cdb :=
  match sched with
  | [] => (p1, p2, d)
  | true :: sched' =>
    match p1 with
    | CStep m k => let '(x, d') := m d in run2 sched' (k x) p2 d'
    | CRet _ => run2 sched' p1 p2 d
    end
  | false :: sched' =>
    match p2 with
    | CStep m k => let '(x, d') := m d in run2 sched' p1 (k x) d'
    | CRet _ => run2 sched' p1 p2 d
    end
  end.

(** contact.js:48-148 cut at its three queries. *)
Definition submitContact_prog (name email phone subject message : option string) (branch_id : option Z)
    (c : client) (now : Z) : cprog cresponse :=
  let ip_address := getClientIP c in
  if negb (js_truthy name && js_truthy email && js_truthy subject && js_truthy message
           && id_truthy branch_id) then
    CRet (mk_cresponse 400 (CFail "All required fields must be provided"))
  else if negb (test_string Admin.emailRegex (default "" email)) then
    CRet (mk_cresponse 400 (CFail "Invalid email format"))
  else
    CStep (checkRateLimit ip_address now) (fun rl =>
    match rl with
    | None => CRet (mk_cresponse 500 (CFail "Error processing request"))
    | Some info =>
      if isLimitExceeded info then
        CRet (mk_cresponse 429 (CLimited LIMIT_MESSAGE
                (mk_rate (submissionCount info) (remainingSubmissions info) true)))
      else
        let bid := default 0 branch_id in
        CStep (cquery (fun d => List.filter (active_branch bid) (branches d))) (fun results =>
        match results with
        | None => CRet (mk_cresponse 500 (CFail "Error checking branch"))
        | Some [] => CRet (mk_cresponse 400 (CFail "Invalid or inactive branch ID"))
        | Some (_ :: _) =>
          CStep (crun (insert_contact (default "" name) (default "" email) phone
                         (default "" subject) (default "" message) bid ip_address now)) (fun ins =>
          match ins with
          | None => CRet (mk_cresponse 500 (CFail "Error submitting contact form"))
          | Some insertId =>
            CRet (mk_cresponse 201 (CSubmitted insertId
              (mk_rate (S (submissionCount info)) (remainingSubmissions info - 1)
                       (Nat.leb MAX_SUBMISSIONS (S (submissionCount info))))))
          end)
        end)
    end).

(** ** Example state *)

(** Branch 1 is active; the address 10.0.0.1 has submitted twice within
    the last ten hours. *)
Definition ex_contact (i : Z) (at_ : Z) : ContactRow.t :=
  ContactRow.mk i "eve" "e@x.com" None "hi" "hello" 1 "10.0.0.1" at_ false.
Definition ex_cdb : cdb :=
  mk_cdb [ex_contact 1 1000000; ex_contact 2 2000000] [BranchRow.mk 1 "active"] [] 3.
Definition ex_client : client := mk_client (Some "10.0.0.1") None None None None None.
Definition ex_cdb3 : cdb :=
  mk_cdb [ex_contact 1 1000000; ex_contact 2 2000000; ex_contact 3 3000000] [BranchRow.mk 1 "active"] [] 4.
Definition ex_cdb_empty : cdb := mk_cdb [] [BranchRow.mk 1 "active"] [] 1.

(** ** The rate limit as an invariant *)

(** The contacts of [ip] created in the window of ten hours that ends at
    [t]. *)
Definition window_count (ip : string) (t : Z) (tbl : list ContactRow.t) : nat :=
  count_where (fun r => String.eqb (ContactRow.ip_address r) ip && (t - WINDOW_MS <? ContactRow.created_at r)
                        && (ContactRow.created_at r <=? t)) tbl.

Definition rate_ok (tbl : list ContactRow.t) : Prop :=
  forall ip t, (window_count ip t tbl <= MAX_SUBMISSIONS)%nat.

Definition created_before (now : Z) (tbl : list ContactRow.t) : Prop :=
  Forall (fun r => ContactRow.created_at r <= now) tbl.

(** The states reached by requests handled one at a time, with a clock
    that never goes back. *)
Inductive creach : Z -> cdb -> Prop :=
| creach_init t d : contacts d = [] -> creach t d
| creach_tick t t' d : t <= t' -> creach t d -> creach t' d
| creach_submit t d n e ph s m b c :
    creach t d -> creach t (snd (submitContact n e ph s m b c t d))
| creach_status t d c : creach t d -> creach t (snd (getRateLimitStatus c t d))
| creach_all t d : creach t d -> creach t (snd (getAllContacts d))
| creach_view t d cid : creach t d -> creach t (snd (viewContact cid d))
| creach_delete t d cid : creach t d -> creach t (snd (deleteContact cid d)).

(** ** Lemmas *)

Lemma st_bind_ext {S A B} (m : St S A) (f g : A -> St S B) s :
  (forall a s', f a s' = g a s') -> st_bind m f s = st_bind m g s.
Proof. intros Hfg. rewrite !st_bind_run. apply Hfg. Qed.

(** A new contact of [ip] at [now], admitted because fewer than three of
    its contacts are newer than [now - WINDOW_MS], keeps every window
    within the limit. *)
Lemma rate_ok_snoc tbl row now :
  rate_ok tbl -> created_before now tbl -> ContactRow.created_at row = now ->
  (count_where (in_window (ContactRow.ip_address row) (now - WINDOW_MS)) tbl < MAX_SUBMISSIONS)%nat ->
  rate_ok (tbl ++ [row]).
Proof.
  intros Hok Hbefore Hat Hlt ip t. unfold window_count. rewrite count_where_app, count_where_cons, count_where_nil.
  destruct (String.eqb_spec (ContactRow.ip_address row) ip) as [Hip|]; [|simpl; specialize (Hok ip t); unfold window_count in Hok; lia].
  destruct (t - WINDOW_MS <? ContactRow.created_at row) eqn:Hlo, (ContactRow.created_at row <=? t) eqn:Hhi;
    simpl; try (specialize (Hok ip t); unfold window_count in Hok; lia).
  enough (Nat.le (count_where (fun r => String.eqb (ContactRow.ip_address r) ip &&
                          (t - WINDOW_MS <? ContactRow.created_at r) && (ContactRow.created_at r <=? t)) tbl)
                 (count_where (in_window (ContactRow.ip_address row) (now - WINDOW_MS)) tbl)) by lia.
  apply count_where_le_in. intros r Hr Hp.
  eapply List.Forall_forall in Hbefore; [|exact Hr].
  apply andb_prop in Hp as [[Hi Hl]%andb_prop Hh]. unfold in_window. rewrite Hip, Hi. simpl.
  apply Z.ltb_lt in Hl, Hlo. apply Z.leb_le in Hh, Hhi. apply Z.ltb_lt. lia.
Qed.

Lemma rate_ok_filter q tbl : rate_ok tbl -> rate_ok (List.filter q tbl).
Proof. intros Hok ip t. etransitivity; [apply count_where_filter_le|apply (Hok ip t)]. Qed.

Lemma rate_ok_mark_seen cid tbl :
  rate_ok tbl -> rate_ok (List.map (fun r => if of_contact cid r then ContactRow.mark_seen r else r) tbl).
Proof.
  intros Hok ip t. etransitivity; [apply count_where_map_le|apply (Hok ip t)].
  intros x. by destruct (of_contact cid x).
Qed.

Lemma creply_snd c b d : snd (creply c b d) = d.
Proof. reflexivity. Qed.

Lemma next_cfault_tables d :
  contacts (snd (next_cfault d)) = contacts d /\ branches (snd (next_cfault d)) = branches d.
Proof. unfold next_cfault. by destruct (cfaults d). Qed.

Lemma cquery_tables {R} (sel : cdb -> R) d :
  contacts (snd (cquery sel d)) = contacts d /\ branches (snd (cquery sel d)) = branches d.
Proof.
  unfold cquery. rewrite st_bind_run.
  destruct (next_cfault_tables d) as [Hc Hb]. by destruct (fst (next_cfault d)).
Qed.

(** A query reads the tables as they are. *)
Lemma cquery_result {R} (sel : cdb -> R) d v :
  (forall d1 d2, contacts d1 = contacts d2 -> branches d1 = branches d2 -> sel d1 = sel d2) ->
  fst (cquery sel d) = Some v -> v = sel d.
Proof.
  intros Hsel. unfold cquery. rewrite st_bind_run.
  destruct (next_cfault_tables d) as [Hc Hb].
  destruct (fst (next_cfault d)); [discriminate|]. intros [= <-]. by apply Hsel.
Qed.

Lemma checkRateLimit_tables ip now d :
  contacts (snd (checkRateLimit ip now d)) = contacts d /\ branches (snd (checkRateLimit ip now d)) = branches d.
Proof.
  unfold checkRateLimit. rewrite st_bind_run. destruct (cquery_tables
    (fun d => count_where (in_window ip (now - WINDOW_MS)) (contacts d)) d) as [Hc Hb].
  by destruct (fst _).
Qed.

Lemma checkRateLimit_result ip now d info :
  fst (checkRateLimit ip now d) = Some info ->
  let n := count_where (in_window ip (now - WINDOW_MS)) (contacts d) in
  info = mk_rate n (Z.of_nat MAX_SUBMISSIONS - Z.of_nat n) (Nat.leb MAX_SUBMISSIONS n).
Proof.
  unfold checkRateLimit. rewrite st_bind_run.
  destruct (fst (cquery _ d)) as [n|] eqn:E; [|discriminate]. intros [= <-].
  apply cquery_result in E as ->; [done|]. intros d1 d2 -> _. done.
Qed.

Lemma crun_cases f d :
  snd (crun f d) = snd (next_cfault d) \/ snd (crun f d) = fst (f (snd (next_cfault d))).
Proof.
  unfold crun. rewrite st_bind_run. destruct (fst (next_cfault d)); [by left|].
  right. by destruct (f _).
Qed.

Lemma created_before_mono now now' tbl : now <= now' -> created_before now tbl -> created_before now' tbl.
Proof. intros Hle. apply List.Forall_impl. lia. Qed.

(** What a submission does to [contacts]: nothing, or one new row of the
    client's address at [now], admitted by the counter. *)
Lemma submitContact_cases n e ph sb m b c now d :
  contacts (snd (submitContact n e ph sb m b c now d)) = contacts d \/
  exists row, contacts (snd (submitContact n e ph sb m b c now d)) = contacts d ++ [row] /\
    ContactRow.ip_address row = getClientIP c /\ ContactRow.created_at row = now /\
    (count_where (in_window (getClientIP c) (now - WINDOW_MS)) (contacts d) < MAX_SUBMISSIONS)%nat.
Proof.
  unfold submitContact. destruct (negb _); [by left|]. destruct (negb _); [by left|].
  rewrite st_bind_run. destruct (checkRateLimit_tables (getClientIP c) now d) as [Hc1 Hb1].
  destruct (fst (checkRateLimit _ _ d)) as [info|] eqn:Hrl; [|by left].
  apply checkRateLimit_result in Hrl as ->. cbn [isLimitExceeded].
  destruct (Nat.leb MAX_SUBMISSIONS _) eqn:Hlim; [by left|].
  apply Nat.leb_gt in Hlim.
  rewrite st_bind_run. set (d1 := snd (checkRateLimit _ _ d)) in *.
  destruct (cquery_tables (fun d => List.filter (active_branch (default 0 b)) (branches d)) d1) as [Hc2 _].
  destruct (fst (cquery _ d1)) as [[|br brs]|]; [left; rewrite creply_snd; congruence| |left; rewrite creply_snd; congruence].
  rewrite st_bind_run. set (d2 := snd (cquery _ d1)) in *.
  destruct (next_cfault_tables d2) as [Hc3 _].
  assert (contacts (snd (crun (insert_contact (default "" n) (default "" e) ph (default "" sb)
            (default "" m) (default 0 b) (getClientIP c) now) d2)) = contacts d \/
          contacts (snd (crun (insert_contact (default "" n) (default "" e) ph (default "" sb)
            (default "" m) (default 0 b) (getClientIP c) now) d2)) =
          contacts d ++ [ContactRow.mk (next_contact_id (snd (next_cfault d2))) (default "" n) (default "" e) ph
            (default "" sb) (default "" m) (default 0 b) (getClientIP c) now false]) as Hins.
  { destruct (crun_cases (insert_contact (default "" n) (default "" e) ph (default "" sb)
            (default "" m) (default 0 b) (getClientIP c) now) d2) as [-> | ->].
    - left. congruence.
    - right. cbn. congruence. }
  destruct (fst (crun _ d2)); rewrite creply_snd; (destruct Hins as [Hins|Hins]; [by left|right]);
    eexists; (split; [exact Hins|]); done.
Qed.

Lemma submitContact_keeps n e ph sb m b c now :
  st_keeps (fun d => rate_ok (contacts d) /\ created_before now (contacts d)) (submitContact n e ph sb m b c now).
Proof.
  intros d [Hok Hbefore].
  destruct (submitContact_cases n e ph sb m b c now d) as [-> | (row & -> & Hip & Hat & Hlt)]; [done|].
  split.
  - apply (rate_ok_snoc _ _ now); [done|done|done|]. by rewrite Hip.
  - apply List.Forall_app. split; [done|]. constructor; [lia|constructor].
Qed.

Lemma viewContact_tables cid d :
  contacts (snd (viewContact cid d)) = contacts d \/
  contacts (snd (viewContact cid d)) =
    List.map (fun r => if of_contact cid r then ContactRow.mark_seen r else r) (contacts d).
Proof.
  unfold viewContact. rewrite st_bind_run.
  assert (contacts (snd (crun (mark_seen_where cid) d)) = contacts d \/
          contacts (snd (crun (mark_seen_where cid) d)) =
            List.map (fun r => if of_contact cid r then ContactRow.mark_seen r else r) (contacts d)) as Hrun.
  { destruct (next_cfault_tables d) as [Hc _].
    destruct (crun_cases (mark_seen_where cid) d) as [-> | ->]; [by left|right]. cbn. by rewrite Hc. }
  destruct (fst (crun _ d)); [|by rewrite creply_snd].
  rewrite st_bind_run. destruct (cquery_tables (fun d => List.filter (of_contact cid) (contacts d))
    (snd (crun (mark_seen_where cid) d))) as [Hq _].
  destruct (fst (cquery _ _)) as [[|? ?]|]; rewrite creply_snd, Hq; done.
Qed.

Lemma deleteContact_tables cid d :
  contacts (snd (deleteContact cid d)) = contacts d \/
  contacts (snd (deleteContact cid d)) = List.filter (fun r => negb (of_contact cid r)) (contacts d).
Proof.
  unfold deleteContact. rewrite st_bind_run. destruct (next_cfault_tables d) as [Hc _].
  assert (contacts (snd (crun (delete_contact cid) d)) = contacts d \/
          contacts (snd (crun (delete_contact cid) d)) =
            List.filter (fun r => negb (of_contact cid r)) (contacts d)) as Hrun.
  { destruct (crun_cases (delete_contact cid) d) as [-> | ->]; [by left|right]. cbn. by rewrite Hc. }
  destruct (fst (crun _ d)) as [k|]; [destruct (k =? 0)|]; by rewrite creply_snd.
Qed.

(** ** Properties *)

(** Run alone, the step program of [submitContact] is the handler:
    cutting it at its queries changes nothing, so an interleaving of
    step programs is an interleaving of the handler. *)
Theorem submitContact_prog_refines n e ph sb m b c now d :
  run_seq (submitContact_prog n e ph sb m b c now) d = submitContact n e ph sb m b c now d.
Proof.
  unfold submitContact_prog, submitContact.
  destruct (negb _); [reflexivity|]. destruct (negb _); [reflexivity|].
  cbn [run_seq]. apply st_bind_ext. intros [info|] d1; [|reflexivity]. cbn [run_seq].
  destruct (isLimitExceeded info); [reflexivity|]. cbn [run_seq].
  apply st_bind_ext. intros [[|r rs]|] d2; try reflexivity. cbn [run_seq].
  apply st_bind_ext. intros [i|] d3; reflexivity.
Qed.

(** A submission cut at its queries, with valid fields. *)
Lemma submitContact_prog_valid n e ph sb m b c now :
  js_truthy (Some n) && js_truthy (Some e) && js_truthy (Some sb) && js_truthy (Some m) && id_truthy (Some b) = true ->
  test_string Admin.emailRegex e = true ->
  exists k, submitContact_prog (Some n) (Some e) ph (Some sb) (Some m) (Some b) c now =
            CStep (checkRateLimit (getClientIP c) now) k /\
            forall info, isLimitExceeded info = false ->
            k (Some info) = CStep (cquery (fun d => List.filter (active_branch b) (branches d))) (fun results =>
              match results with
              | None => CRet (mk_cresponse 500 (CFail "Error checking branch"))
              | Some [] => CRet (mk_cresponse 400 (CFail "Invalid or inactive branch ID"))
              | Some (_ :: _) =>
                CStep (crun (insert_contact n e ph sb m b (getClientIP c) now)) (fun ins =>
                match ins with
                | None => CRet (mk_cresponse 500 (CFail "Error submitting contact form"))
                | Some insertId =>
                  CRet (mk_cresponse 201 (CSubmitted insertId
                    (mk_rate (S (submissionCount info)) (remainingSubmissions info - 1)
                             (Nat.leb MAX_SUBMISSIONS (S (submissionCount info))))))
                end)
              end).
Proof.
  intros Hv He. unfold submitContact_prog. rewrite Hv. change (default "" (Some e)) with e. rewrite He.
  eexists. split; [reflexivity|]. intros info Hi. cbv beta iota. by rewrite Hi.
Qed.

(** C14: the limit does not hold for concurrent requests.  Two valid
    submissions from one address, on a store where nothing fails and the
    branch is active, whose rate-limit queries both run before either
    INSERT: whenever the address has fewer than three contacts in the
    window, both are accepted (201) and the address ends with two more;
    from two contacts in the window it ends with four. *)
Theorem submit_race_exceeds_limit d n e ph sb m b c now :
  cfaults d = [] ->
  js_truthy (Some n) && js_truthy (Some e) && js_truthy (Some sb) && js_truthy (Some m) && id_truthy (Some b) = true ->
  test_string Admin.emailRegex e = true ->
  List.filter (active_branch b) (branches d) <> [] ->
  (count_where (in_window (getClientIP c) (now - WINDOW_MS)) (contacts d) < MAX_SUBMISSIONS)%nat ->
  let p := submitContact_prog (Some n) (Some e) ph (Some sb) (Some m) (Some b) c now in
  let '(p1, p2, d') := run2 [true; false; true; true; false; false] p p d in
  (exists r1 r2, p1 = CRet r1 /\ p2 = CRet r2 /\ ccode r1 = 201 /\ ccode r2 = 201) /\
  count_where (in_window (getClientIP c) (now - WINDOW_MS)) (contacts d') =
    (count_where (in_window (getClientIP c) (now - WINDOW_MS)) (contacts d) + 2)%nat.
Proof.
  intros Hf Hv He Hb Hk p. destruct (submitContact_prog_valid n e ph sb m b c now Hv He) as (k & Hp & Hk').
  subst p. rewrite Hp. set (cnt := count_where _ (contacts d)) in Hk.
  set (info := mk_rate cnt (Z.of_nat MAX_SUBMISSIONS - Z.of_nat cnt) (Nat.leb MAX_SUBMISSIONS cnt)).
  assert (Hrl : forall d0, cfaults d0 = [] -> contacts d0 = contacts d ->
            checkRateLimit (getClientIP c) now d0 = (Some info, d0)).
  { intros d0 Hf0 Hc0. unfold checkRateLimit, cquery, next_cfault. run_st. rewrite Hf0. cbn.
    by rewrite Hc0. }
  assert (Hex : isLimitExceeded info = false) by (cbn [isLimitExceeded info]; apply Nat.leb_gt; exact Hk).
  assert (Hq : forall {R} (sel : cdb -> R) d0, cfaults d0 = [] -> cquery sel d0 = (Some (sel d0), d0))
    by (intros R sel d0 Hf0; unfold cquery, next_cfault; run_st; by rewrite Hf0).
  assert (Hr : forall f d0, cfaults d0 = [] -> crun f d0 = (Some (snd (f d0)), fst (f d0)))
    by (intros f d0 Hf0; unfold crun, next_cfault; run_st; rewrite Hf0; cbn; by destruct (f d0)).
  destruct (List.filter (active_branch b) (branches d)) as [|br brs] eqn:Eb; [done|].
  cbn [run2]. rewrite (Hrl d Hf eq_refl), (Hk' info Hex). cbn [run2].
  rewrite (Hrl d Hf eq_refl). cbn [run2]. rewrite (Hq _ _ d Hf), Eb. cbn [run2].
  rewrite (Hr _ d Hf). cbn [run2 fst snd insert_contact].
  set (d1 := mk_cdb _ _ _ _). rewrite (Hk' info Hex).
  assert (Hf1 : cfaults d1 = []) by done.
  cbn [run2]. rewrite (Hq _ _ d1 Hf1). cbn [branches d1]. rewrite Eb. cbn [run2].
  rewrite (Hr _ d1 Hf1). cbn [run2 fst snd insert_contact]. split; [by do 2 eexists|].
  cbn [contacts d1]. rewrite !count_where_app, !count_where_cons, !count_where_nil.
  unfold in_window at 2 3. cbn [ContactRow.ip_address ContactRow.created_at]. rewrite String.eqb_refl.
  replace (now - WINDOW_MS <? now) with true by (symmetry; apply Z.ltb_lt; unfold WINDOW_MS, WINDOW_HOURS; lia).
  cbn. lia.
Qed.

(** C13: the rate limit of contact.js:5-8 holds in every reachable state:
    for every address and every window of ten hours, at most three
    contacts of that address were created in it, whatever the outcome of
    the statements, as long as requests are handled one at a time. *)
Theorem creach_rate_limit t d : creach t d -> rate_ok (contacts d).
Proof.
  intros Hr. enough (rate_ok (contacts d) /\ created_before t (contacts d)) by tauto.
  induction Hr as [t d Hnil|t t' d Hle _ [Hok Hb]|t d n e ph sb m b c _ IH|t d c _ IH|t d _ IH
                 |t d cid _ [Hok Hb]|t d cid _ [Hok Hb]].
  - rewrite Hnil. split; [intros ip t'; cbv; lia|constructor].
  - split; [done|]. by apply (created_before_mono t).
  - by apply submitContact_keeps.
  - unfold getRateLimitStatus. rewrite st_bind_run.
    destruct (checkRateLimit_tables (getClientIP c) t d) as [Hc _].
    destruct (fst (checkRateLimit _ _ d)); rewrite creply_snd, Hc; done.
  - unfold getAllContacts. rewrite st_bind_run.
    destruct (cquery_tables (fun d => merge_sort newer_first (contacts d)) d) as [Hc _].
    destruct (fst (cquery _ d)); rewrite creply_snd, Hc; done.
  - destruct (viewContact_tables cid d) as [-> | ->]; [done|]. split; [by apply rate_ok_mark_seen|].
    apply List.Forall_map. eapply List.Forall_impl; [|exact Hb]. intros r Hr. by destruct (of_contact cid r).
  - destruct (deleteContact_tables cid d) as [-> | ->]; [done|]. split; [by apply rate_ok_filter|].
    apply List.Forall_forall. intros r (Hr & _)%filter_In. by eapply List.Forall_forall in Hb.
Qed.

(** With valid fields and a fault-free store, the third and later
    submissions of an address within ten hours are refused with 429 and
    the counter, and nothing is written. *)
Theorem submitContact_limited d n e ph sb m b c now :
  cfaults d = [] ->
  js_truthy (Some n) && js_truthy (Some e) && js_truthy (Some sb) && js_truthy (Some m) && id_truthy (Some b) = true ->
  test_string Admin.emailRegex e = true ->
  (MAX_SUBMISSIONS <= count_where (in_window (getClientIP c) (now - WINDOW_MS)) (contacts d))%nat ->
  let k := count_where (in_window (getClientIP c) (now - WINDOW_MS)) (contacts d) in
  submitContact (Some n) (Some e) ph (Some sb) (Some m) (Some b) c now d =
    (mk_cresponse 429 (CLimited LIMIT_MESSAGE (mk_rate k (Z.of_nat MAX_SUBMISSIONS - Z.of_nat k) true)), d).
Proof.
  intros Hf Hv He Hk k. unfold submitContact. rewrite Hv. change (default "" (Some e)) with e. rewrite He. cbn [negb].
  unfold checkRateLimit, cquery, next_cfault. run_st. rewrite Hf. cbn -[count_where MAX_SUBMISSIONS].
  apply Nat.leb_le in Hk. by rewrite Hk.
Qed.

(** [getRateLimitStatus] reports [isLimitExceeded] exactly when a
    valid submission at the same instant would be refused with 429. *)
Theorem rate_status_agrees d n e ph sb m b c now :
  cfaults d = [] ->
  js_truthy (Some n) && js_truthy (Some e) && js_truthy (Some sb) && js_truthy (Some m) && id_truthy (Some b) = true ->
  test_string Admin.emailRegex e = true ->
  (exists info, getRateLimitStatus c now d = (mk_cresponse 200 (CStatus info), d) /\
     (isLimitExceeded info = true <->
      ccode (fst (submitContact (Some n) (Some e) ph (Some sb) (Some m) (Some b) c now d)) = 429)).
Proof.
  intros Hf Hv He. eexists. split.
  - unfold getRateLimitStatus, checkRateLimit, cquery, next_cfault. run_st. rewrite Hf. reflexivity.
  - cbn [isLimitExceeded]. unfold submitContact. rewrite Hv. change (default "" (Some e)) with e.
    rewrite He. cbn [negb]. rewrite st_bind_run.
    assert (fst (checkRateLimit (getClientIP c) now d) =
      Some (mk_rate (count_where (in_window (getClientIP c) (now - WINDOW_MS)) (contacts d))
        (Z.of_nat MAX_SUBMISSIONS - Z.of_nat (count_where (in_window (getClientIP c) (now - WINDOW_MS)) (contacts d)))
        (Nat.leb MAX_SUBMISSIONS (count_where (in_window (getClientIP c) (now - WINDOW_MS)) (contacts d)))))
      as ->.
    { unfold checkRateLimit, cquery, next_cfault. run_st. by rewrite Hf. }
    cbn [isLimitExceeded]. destruct (Nat.leb _ _); [done|]. split; [discriminate|].
    rewrite st_bind_run. destruct (fst (cquery _ _)) as [[|? ?]|]; [discriminate| |discriminate].
    rewrite st_bind_run. destruct (fst (crun _ _)); discriminate.
Qed.

(** [getAllContacts] answers every contact, newest first
    ([ORDER BY created_at DESC]). *)
Theorem getAllContacts_sorted d :
  cfaults d = [] ->
  exists rows, getAllContacts d = (mk_cresponse 200 (CContacts rows), d) /\
    rows ≡ₚ contacts d /\ Sorted newer_first rows.
Proof.
  intros Hf. exists (merge_sort newer_first (contacts d)). split.
  - unfold getAllContacts, cquery, next_cfault. run_st. by rewrite Hf.
  - split; [apply merge_sort_Permutation|]. apply Sorted_merge_sort.
    intros x y. unfold newer_first. lia.
Qed.

(** ** Witnesses *)

Lemma submit_race_exceeds_limit_witness :
  let p := submitContact_prog (Some "eve") (Some "e@x.com") None (Some "hi") (Some "hello") (Some 1)
             ex_client 3000000 in
  let '(p1, p2, d') := run2 [true; false; true; true; false; false] p p ex_cdb in
  (exists r1 r2, p1 = CRet r1 /\ p2 = CRet r2 /\ ccode r1 = 201 /\ ccode r2 = 201) /\
  count_where (in_window (getClientIP ex_client) (3000000 - WINDOW_MS)) (contacts d') =
    (count_where (in_window (getClientIP ex_client) (3000000 - WINDOW_MS)) (contacts ex_cdb) + 2)%nat.
Proof.
  apply (submit_race_exceeds_limit ex_cdb "eve" "e@x.com" None "hi" "hello" 1 ex_client 3000000);
    [reflexivity|reflexivity|vm_compute; reflexivity|vm_compute; discriminate|vm_compute; lia].
Defined.

Lemma creach_rate_limit_witness :
  rate_ok (contacts (snd (submitContact (Some "eve") (Some "e@x.com") None (Some "hi") (Some "hello")
                            (Some 1) ex_client 1000000 ex_cdb_empty))).
Proof.
  apply (creach_rate_limit 1000000). apply creach_submit, creach_init. reflexivity.
Defined.

Lemma submitContact_limited_witness :
  let k := count_where (in_window (getClientIP ex_client) (4000000 - WINDOW_MS)) (contacts ex_cdb3) in
  submitContact (Some "eve") (Some "e@x.com") None (Some "hi") (Some "hello") (Some 1) ex_client 4000000 ex_cdb3 =
    (mk_cresponse 429 (CLimited LIMIT_MESSAGE (mk_rate k (Z.of_nat MAX_SUBMISSIONS - Z.of_nat k) true)), ex_cdb3).
Proof.
  witness_of (submitContact_limited ex_cdb3 "eve" "e@x.com" None "hi" "hello" 1 ex_client 4000000).
Defined.

Lemma rate_status_agrees_witness :
  exists info, getRateLimitStatus ex_client 4000000 ex_cdb = (mk_cresponse 200 (CStatus info), ex_cdb) /\
     (isLimitExceeded info = true <->
      ccode (fst (submitContact (Some "eve") (Some "e@x.com") None (Some "hi") (Some "hello") (Some 1)
                                ex_client 4000000 ex_cdb)) = 429).
Proof. witness_of (rate_status_agrees ex_cdb "eve" "e@x.com" None "hi" "hello" 1 ex_client 4000000). Defined.

Lemma getAllContacts_sorted_witness :
  exists rows, getAllContacts ex_cdb = (mk_cresponse 200 (CContacts rows), ex_cdb) /\
    rows ≡ₚ contacts ex_cdb /\ Sorted newer_first rows.
Proof. witness_of (getAllContacts_sorted ex_cdb). Defined.

End Contact.
