(* ===== verification/Routes.v ===== *)
(** * The route table: [src/index.js] and [src/routes/]

    Every request first meets [cors()], which ends OPTIONS requests with
    its 204 preflight answer, and the body parsers (index.js:28-31).  The
    application then mounts eleven routers (index.js:36-46) after the static
    folder [/uploads] (index.js:34) and before the root route
    (index.js:51-53).  Every router starts with
    [router.use(authenticateAPIKey)], then lists its routes with their
    middleware ([verifyToken], the multer upload) and handler.  [dispatch]
    is Express's walk over this stack for one request: a mount whose path
    is a prefix of the request's path runs its router's layers in order; a
    [use] layer runs for every request that enters the router, a route
    layer answers when its method and path pattern match; a router that
    answers nothing passes the request on.  Paths are lists of non-empty
    segments, compared without case as Express does.  Handlers are named
    ["file.function"]; the ones this development models are in [Session],
    [Admin] and [Contact]. *)

From stdpp Require Import base list strings decidable.
From Stdlib Require Import ZArith Lia.
From S2P Require Import Prelude Store Codec Db Fixtures Session Auth Admin.

Open Scope Z_scope.

Module Routes.
Import Db Auth.

Inductive meth := GET | HEAD | POST | PUT | PATCH | DELETE | OPTIONS.

Definition meth_eqb (a b : meth) : bool :=
  match a, b with
  | GET, GET | HEAD, HEAD | POST, POST | PUT, PUT | PATCH, PATCH | DELETE, DELETE
  | OPTIONS, OPTIONS => true
  | _, _ => false
  end.

(** A [router.get] route also answers HEAD requests, as Express does. *)
Definition route_handles (rm qm : meth) : bool :=
  meth_eqb rm qm || (meth_eqb rm GET && meth_eqb qm HEAD).

(** [express.static] and [app.get] serve GET and HEAD. *)
Definition is_get (m : meth) : bool := meth_eqb m GET || meth_eqb m HEAD.

(** A segment of a path pattern: a literal or a [:param]. *)
Inductive seg := Lit (s : string) | Param (name : string).

(** Route middleware besides the API key: [verifyToken] and multer. *)
Inductive mw := VerifyToken | Upload (field : string).

Record route := mk_route {
  r_meth : meth;
  r_path : list seg;
  r_mws : list mw;
  r_handler : string
}.

Inductive layer := UseApiKey | Route (r : route).

Definition rt (m : meth) (p : list seg) (mws : list mw) (h : string) : layer :=
  Route (mk_route m p mws h).

(** ** The routers of [src/routes/] *)

(** routes/settings/generalSetting.js:7-18 *)
Definition generalSettingRouter : list layer := [
  UseApiKey;
  rt GET [Lit "general-settings"] [] "generalSetting.getGeneralSettings";
  rt PUT [Lit "general-settings"] [Upload "logo"; Upload "favicon"] "generalSetting.updateGeneralSettings"].

(** routes/category/category.js:7-14 *)
Definition categoryRouter : list layer := [
  UseApiKey;
  rt GET [Lit "category"] [] "category.getAllCategories";
  rt GET [Lit "category"; Param "id"] [] "category.getCategoryById";
  rt POST [Lit "category"] [Upload "image"] "category.addCategory";
  rt PUT [Lit "category"; Param "id"] [Upload "img"] "category.editCategory";
  rt PATCH [Lit "category"; Param "id"; Lit "status"] [] "category.updateCategoryStatus";
  rt DELETE [Lit "category"; Param "id"] [] "category.deleteCategory"].

(** routes/category/item.js:7-20 *)
Definition itemRouter : list layer := [
  UseApiKey;
  rt GET [Lit "item"] [] "item.getAllItems";
  rt GET [Lit "item"; Lit "category"; Param "categoryId"] [] "item.getItemsByCategory";
  rt GET [Lit "item"; Param "id"] [] "item.getItemById";
  rt POST [Lit "item"] [Upload "image"] "item.addItem";
  rt PUT [Lit "item"; Param "id"] [Upload "image"] "item.editItem";
  rt DELETE [Lit "item"; Param "id"] [] "item.deleteItem";
  rt PATCH [Lit "item"; Param "id"; Lit "status"] [] "item.updateItemStatus";
  rt GET [Lit "itemClient"] [] "item.getAllItemsClient";
  rt GET [Lit "item"; Lit "categoryClient"; Param "categoryId"] [] "item.getItemsByCategoryClient"].

(** routes/offer/offer.js:7-23 *)
Definition offerRouter : list layer := [
  UseApiKey;
  rt GET [Lit "offers"] [] "offer.getAllOffers";
  rt GET [Lit "offers"; Lit "active"] [] "offer.getActiveOffers";
  rt GET [Lit "offers"; Lit "category"; Param "categoryId"] [] "offer.getOffersByCategoryId";
  rt GET [Lit "offers"; Param "id"] [] "offer.getOfferById";
  rt POST [Lit "offers"] [] "offer.addOffer";
  rt PUT [Lit "offers"; Param "id"] [] "offer.editOffer";
  rt PUT [Lit "offers"; Param "id"; Lit "status"] [] "offer.updateOfferStatus";
  rt DELETE [Lit "offers"; Param "id"] [] "offer.deleteOffer"].

(** routes/gallary/gallary.js:7-14 *)
Definition galleryRouter : list layer := [
  UseApiKey;
  rt GET [Lit "gallery"] [] "gallary.getAllGallery";
  rt GET [Lit "galleryClient"] [] "gallary.getAllGalleryClient";
  rt GET [Lit "gallery"; Param "id"] [] "gallary.getGalleryById";
  rt POST [Lit "gallery"] [Upload "img"] "gallary.addGallery";
  rt PUT [Lit "gallery"; Param "id"] [Upload "img"] "gallary.editGallery";
  rt DELETE [Lit "gallery"; Param "id"] [] "gallary.deleteGallery"].

(** routes/banner/banner.js:7-10 *)
Definition bannerRouter : list layer := [
  UseApiKey;
  rt GET [Lit "banner"] [] "banner.getBanner";
  rt PUT [Lit "banner"] [Upload "background_image"] "banner.updateBanner"].

(** routes/settings/branchSetting.js:20-40 *)
Definition branchRouter : list layer := [
  UseApiKey;
  rt GET [Lit "branches"; Lit "dashboard"] [] "branchSetting.getAllBranchesForDashboard";
  rt GET [Lit "branches"; Lit "website"] [] "branchSetting.getAllBranchesForWebsite";
  rt GET [Lit "branches"; Lit "stats"] [] "branchSetting.getBranchStats";
  rt GET [Lit "branch"; Param "id"] [] "branchSetting.getBranchById";
  rt PUT [Lit "branch"; Param "id"] [] "branchSetting.updateBranch";
  rt PUT [Lit "branch"; Param "id"; Lit "status"] [] "branchSetting.updateBranchStatus";
  rt DELETE [Lit "branch"; Param "id"] [] "branchSetting.deleteBranch";
  rt POST [Lit "branch"] [] "branchSetting.addBranch";
  rt GET [Lit "category-branch"] [] "branchSetting.getAllCategories";
  rt POST [Lit "category-branch"] [] "branchSetting.addCategory";
  rt PUT [Lit "category-branch"; Param "id"; Lit "status"] [] "branchSetting.updateCategoryStatus";
  rt DELETE [Lit "category-branch"; Param "id"] [] "branchSetting.deleteCategory"].

(** routes/contact/contact.js:13-19 *)
Definition contactRouter : list layer := [
  UseApiKey;
  rt POST [Lit "contact"; Lit "submit"] [] "contact.submitContact";
  rt GET [Lit "contacts"] [] "contact.getAllContacts";
  rt GET [Lit "contact"; Param "id"] [] "contact.viewContact";
  rt DELETE [Lit "contact"; Param "id"] [] "contact.deleteContact";
  rt GET [Lit "contact"; Lit "rate-limit"; Param "email"] [] "contact.getRateLimitStatus"].

(** routes/login/login.js:7-13 *)
Definition authRouter : list layer := [
  UseApiKey;
  rt POST [Lit "login"] [] "login.login";
  rt POST [Lit "refresh-token"] [VerifyToken] "login.refreshToken";
  rt POST [Lit "update-activity"] [VerifyToken] "login.updateActivity";
  rt POST [Lit "logout"] [VerifyToken] "login.logout";
  rt GET [Lit "getagencybyid"; Param "id"] [VerifyToken] "login.getAgencyById"].

(** routes/popularProducts/popularProducts.js:6-12 *)
Definition popularRouter : list layer := [
  UseApiKey;
  rt GET [] [] "popularProducts.getPopularProducts";
  rt GET [Lit "active"] [] "popularProducts.getActivePopularProducts";
  rt POST [] [] "popularProducts.addPopularProduct";
  rt PUT [Param "id"] [] "popularProducts.updatePopularProduct";
  rt DELETE [Param "id"] [] "popularProducts.deletePopularProduct"].

(** routes/manage-admin/admin.js:7-16 *)
Definition manageAdminRouter : list layer := [
  UseApiKey;
  rt GET [Lit "getadmin"] [] "admin.getadmin";
  rt GET [Lit "getadminbyid"; Param "id"] [] "admin.getadminbyid";
  rt POST [Lit "addadmin"] [] "admin.addadmin";
  rt PUT [Lit "updateadmin"; Param "id"] [] "admin.updateadmin";
  rt PUT [Lit "updateadminstatus"; Param "id"] [] "admin.adminstatus";
  rt DELETE [Lit "deleteadmin"; Param "id"] [] "admin.deleteAdmin"].

(** index.js:36-46, in mounting order. *)
Definition app_mounts : list (list string * list layer) := [
  ([], generalSettingRouter);
  ([], categoryRouter);
  ([], itemRouter);
  ([], offerRouter);
  ([], galleryRouter);
  ([], bannerRouter);
  (["api"], branchRouter);
  (["api"], contactRouter);
  (["admin"], authRouter);
  (["api"; "popular-products"], popularRouter);
  ([], manageAdminRouter)].

(** ** Dispatch *)

(** The request body as the parsers of index.js:29-31 see it: its
    [Content-Type], its length in bytes, and for JSON whether it parses. *)
Inductive payload :=
| NoBody
| JsonBody (len : Z) (valid : bool)       (** [application/json] *)
| FormBody (len : Z)                      (** [application/x-www-form-urlencoded] *)
| OtherBody.

Record req := mk_req {
  rq_meth : meth;
  rq_path : list string;        (** the path's non-empty segments *)
  rq_api_key : option string;   (** [req.headers['x-api-key']] *)
  rq_body : payload
}.

Inductive outcome :=
| Preflight                                (** [cors()] answers 204 (index.js:28) *)
| BodyError (code : Z)                     (** a body parser answers (index.js:29-31) *)
| Static                                   (** a file of [uploads/] *)
| ApiKeyHalt (code : Z)                    (** [authenticateAPIKey] answered *)
| Reach (r : route) (params : list (string * string))
| RootRoute                                (** index.js:51-53 *)
| NotFound.

(** Express compares paths without case. *)
Definition seg_eqb (a b : string) : bool := String.eqb (Admin.to_lower a) (Admin.to_lower b).

Fixpoint match_path (pat : list seg) (p : list string) : option (list (string * string)) :=
  match pat, p with
  | [], [] => Some []
  | Lit s :: pat', x :: p' => if seg_eqb s x then match_path pat' p' else None
  | Param n :: pat', x :: p' => option_map (cons (n, x)) (match_path pat' p')
  | _, _ => None
  end.

(** [app.use(prefix, ..)] matches on whole segments. *)
Fixpoint strip_prefix (pre p : list string) : option (list string) :=
  match pre, p with
  | [], _ => Some p
  | a :: pre', x :: p' => if seg_eqb a x then strip_prefix pre' p' else None
  | _ :: _, [] => None
  end.

(** One router: [None] is [next()] out of it. *)
Fixpoint run_router (e : env) (q : req) (ls : list layer) (p : list string) : option outcome :=
  match ls with
  | [] => None
  | UseApiKey :: ls' =>
    match authenticateAPIKey e (rq_api_key q) with
    | Halt r => Some (ApiKeyHalt (code r))
    | Next _ => run_router e q ls' p
    end
  | Route r :: ls' =>
    if route_handles (r_meth r) (rq_meth q) then
      match match_path (r_path r) p with
      | Some ps => Some (Reach r ps)
      | None => run_router e q ls' p
      end
    else run_router e q ls' p
  end.

Fixpoint run_mounts (e : env) (q : req) (ms : list (list string * list layer)) : option outcome :=
  match ms with
  | [] => None
  | (pre, ls) :: ms' =>
    match strip_prefix pre (rq_path q) with
    | Some rest =>
      match run_router e q ls rest with
      | Some o => Some o
      | None => run_mounts e q ms'
      end
    | None => run_mounts e q ms'
    end
  end.

(** body-parser's default [limit: '100kb']. *)
Definition BODY_LIMIT : Z := 100 * 1024.

(** index.js:29-31: [express.json()], [bodyparser.json()] and
    [express.urlencoded()] read a body of their type; one over the limit is
    answered 413, a JSON body that does not parse 400 (the second JSON
    parser skips a body the first has read). *)
Definition parse_body (p : payload) : option Z :=
  match p with
  | JsonBody len valid => if BODY_LIMIT <? len then Some 413 else if valid then None else Some 400
  | FormBody len => if BODY_LIMIT <? len then Some 413 else None
  | NoBody | OtherBody => None
  end.

(** The whole stack of index.js:28-53 for one request: [cors()] ends
    every OPTIONS request with its 204 preflight answer, the body parsers
    may answer, then the static folder, the routers and the root route;
    [static_file] says which paths name a file of the [uploads] folder. *)
Definition dispatch (e : env) (static_file : list string -> bool) (q : req) : outcome :=
  if meth_eqb (rq_meth q) OPTIONS then Preflight
  else match parse_body (rq_body q) with
  | Some c => BodyError c
  | None =>
    let is_static := match strip_prefix ["uploads"] (rq_path q) with
                     | Some rest => static_file rest
                     | None => false
                     end in
    if is_get (rq_meth q) && is_static then Static
    else match run_mounts e q app_mounts with
         | Some o => o
         | None => if is_get (rq_meth q) && bool_decide (rq_path q = []) then RootRoute else NotFound
         end
  end.

(** The handlers that read [req.admin], set by [verifyToken]. *)
Definition session_handlers : list string :=
  ["login.refreshToken"; "login.updateActivity"; "login.logout"; "login.getAgencyById"].

Definition is_verify (m : mw) : bool := match m with VerifyToken => true | _ => false end.

(** A layer of a session handler carries [verifyToken]. *)
Definition gated_ok (l : layer) : bool :=
  match l with
  | Route r => negb (existsb (String.eqb (r_handler r)) session_handlers) || existsb is_verify (r_mws r)
  | UseApiKey => true
  end.

Definition all_layers : list layer := List.concat (List.map snd app_mounts).

(** An environment with the API key ["k1"], for the witnesses. *)
Definition ex_env : env := mk_env (Some "k1") None.

(** ** Lemmas *)

Lemma apikey_halt_code e k r :
  authenticateAPIKey e k = Halt r -> code r = 401 \/ code r = 403.
Proof.
  unfold authenticateAPIKey. destruct (negb (js_truthy k)); [intros [= <-]; by left|].
  destruct (negb _); [intros [= <-]; by right|discriminate].
Qed.

Lemma run_router_reach e q ls p r ps :
  run_router e q ls p = Some (Reach r ps) -> In (Route r) ls.
Proof.
  induction ls as [|[|r0] ls IH]; cbn; [discriminate| |].
  - destruct (authenticateAPIKey e (rq_api_key q)); [intros H; right; by apply IH|discriminate].
  - destruct (route_handles _ _); [destruct (match_path _ _)|]; [intros [= -> _]; by left| |];
      intros H; right; by apply IH.
Qed.

Lemma run_mounts_reach e q ms r ps :
  run_mounts e q ms = Some (Reach r ps) -> In (Route r) (List.concat (List.map snd ms)).
Proof.
  induction ms as [|[pre ls] ms IH]; cbn; [discriminate|]. rewrite in_app_iff.
  destruct (strip_prefix pre _) as [rest|]; [|intros H; right; by apply IH].
  destruct (run_router e q ls rest) eqn:E.
  - intros [= ->]. left. by eapply run_router_reach.
  - intros H. right. by apply IH.
Qed.

Lemma dispatch_reach e sf q r ps : dispatch e sf q = Reach r ps -> In (Route r) all_layers.
Proof.
  unfold dispatch. destruct (meth_eqb _ OPTIONS); [discriminate|].
  destruct (parse_body _); [discriminate|]. destruct (_ && _); [discriminate|].
  destruct (run_mounts e q app_mounts) eqn:E.
  - intros ->. by eapply run_mounts_reach.
  - destruct (_ && _); discriminate.
Qed.

(** ** Properties *)

Lemma parse_body_code p c : parse_body p = Some c -> c = 400 \/ c = 413.
Proof. destruct p; cbn; repeat case_match; intros [= <-]; auto. Qed.

(** Past [cors()] and the parsers, the first router mounted at ["/"] runs
    the API-key gate. *)
Lemma dispatch_no_key e sf q :
  (forall u, authenticateAPIKey e (rq_api_key q) <> Next u) ->
  meth_eqb (rq_meth q) OPTIONS = false -> parse_body (rq_body q) = None ->
  dispatch e sf q = Static \/ exists c, dispatch e sf q = ApiKeyHalt c /\ (c = 401 \/ c = 403).
Proof.
  intros Hk Ho Hb. unfold dispatch. rewrite Ho, Hb. destruct (_ && _); [by left|right].
  cbn [run_mounts app_mounts strip_prefix generalSettingRouter run_router].
  destruct (authenticateAPIKey e (rq_api_key q)) as [u|r] eqn:E; [by destruct (Hk u)|].
  exists (code r). split; [done|]. by eapply apikey_halt_code.
Qed.

(** C11: without the right [x-api-key] header no request reaches a route
    handler or the root route.  [cors()] answers every OPTIONS request, and
    only those, with its 204 preflight; any other request is answered by a
    body parser (400 or 413), by the static folder, or by the key gate with
    401 or 403. *)
Theorem dispatch_requires_api_key e sf q :
  (forall u, authenticateAPIKey e (rq_api_key q) <> Next u) ->
  (forall r ps, dispatch e sf q <> Reach r ps) /\ dispatch e sf q <> RootRoute /\
  (dispatch e sf q = Preflight <-> rq_meth q = OPTIONS) /\
  (rq_meth q <> OPTIONS ->
   (exists c, dispatch e sf q = BodyError c /\ (c = 400 \/ c = 413)) \/ dispatch e sf q = Static \/
   exists c, dispatch e sf q = ApiKeyHalt c /\ (c = 401 \/ c = 403)).
Proof.
  intros Hk. assert (Hm : meth_eqb (rq_meth q) OPTIONS = true <-> rq_meth q = OPTIONS)
    by (destruct (rq_meth q); split; done).
  destruct (meth_eqb (rq_meth q) OPTIONS) eqn:Eo.
  { assert (Hd : dispatch e sf q = Preflight) by (unfold dispatch; by rewrite Eo).
    rewrite Hd. split; [done|]. split; [done|]. split; [split; [intros _; by apply Hm|done]|].
    intros Hne. by destruct Hne; apply Hm. }
  assert (Hcase : (exists c, dispatch e sf q = BodyError c /\ (c = 400 \/ c = 413)) \/
                  dispatch e sf q = Static \/
                  exists c, dispatch e sf q = ApiKeyHalt c /\ (c = 401 \/ c = 403)).
  { destruct (parse_body (rq_body q)) as [c|] eqn:Eb.
    - left. exists c. split; [unfold dispatch; by rewrite Eo, Eb|by eapply parse_body_code].
    - right. by apply dispatch_no_key. }
  split; [|split; [|split]].
  - intros r ps Hd. rewrite Hd in Hcase. by destruct Hcase as [(? & ? & _)|[?|(? & ? & _)]].
  - intros Hd. rewrite Hd in Hcase. by destruct Hcase as [(? & ? & _)|[?|(? & ? & _)]].
  - split; [intros Hd; rewrite Hd in Hcase; by destruct Hcase as [(? & ? & _)|[?|(? & ? & _)]]|].
    intros Heq. apply Hm in Heq. congruence.
  - intros _. exact Hcase.
Qed.

(** The root route [GET /] (index.js:51) answers only requests that
    carry the API key: the routers mounted at ["/"] before it run
    [authenticateAPIKey] on every request. *)
Theorem root_route_needs_key e sf k :
  dispatch e sf (mk_req GET [] k NoBody) = RootRoute <-> authenticateAPIKey e k = Next tt.
Proof.
  split.
  - intros H. destruct (authenticateAPIKey e k) as [[]|r] eqn:E; [done|].
    destruct (dispatch_no_key e sf (mk_req GET [] k NoBody)) as [Hs|(c & Hc & _)];
      [intros u; cbn; by rewrite E|done|done| |]; by rewrite H in *.
  - intros Hk. unfold dispatch. cbn. rewrite !Hk. reflexivity.
Qed.

(** C12: every route whose handler reads the session ([req.admin]) runs
    [verifyToken] first: a request can reach [refreshToken],
    [updateActivity], [logout] or [getAgencyById] only through the strict
    gate. *)
Theorem session_handlers_gated e sf q r ps :
  dispatch e sf q = Reach r ps -> In (r_handler r) session_handlers -> In VerifyToken (r_mws r).
Proof.
  intros Hd Hh. apply dispatch_reach in Hd.
  assert (forallb gated_ok all_layers = true) as Hall by reflexivity.
  rewrite forallb_forall in Hall. specialize (Hall _ Hd). unfold gated_ok in Hall.
  assert (existsb (String.eqb (r_handler r)) session_handlers = true) as Hin.
  { apply existsb_exists. exists (r_handler r). split; [done|apply String.eqb_refl]. }
  rewrite Hin in Hall. cbn in Hall. apply existsb_exists in Hall as ([] & Hm & Hv); [done|discriminate].
Qed.

(** C22: the account management routes answer with the API key alone: a
    request with the key and no bearer token deletes any account
    (DELETE /deleteadmin/:id) or reads every account with its password
    hash (GET /getadmin); no session is checked. *)
Theorem manage_admin_without_session e sf k aid :
  authenticateAPIKey e k = Next tt ->
  dispatch e sf (mk_req DELETE ["deleteadmin"; aid] k NoBody) =
    Reach (mk_route DELETE [Lit "deleteadmin"; Param "id"] [] "admin.deleteAdmin") [("id", aid)] /\
  dispatch e sf (mk_req GET ["getadmin"] k NoBody) =
    Reach (mk_route GET [Lit "getadmin"] [] "admin.getadmin") [].
Proof. intros Hk. unfold dispatch. split; cbn; rewrite !Hk; reflexivity. Qed.

(** ** Witnesses *)

Lemma dispatch_requires_api_key_witness :
  let q := mk_req OPTIONS ["getadmin"] None NoBody in
  (forall r ps, dispatch ex_env (fun _ => false) q <> Reach r ps) /\
  dispatch ex_env (fun _ => false) q <> RootRoute /\
  (dispatch ex_env (fun _ => false) q = Preflight <-> rq_meth q = OPTIONS) /\
  (rq_meth q <> OPTIONS ->
   (exists c, dispatch ex_env (fun _ => false) q = BodyError c /\ (c = 400 \/ c = 413)) \/
   dispatch ex_env (fun _ => false) q = Static \/
   exists c, dispatch ex_env (fun _ => false) q = ApiKeyHalt c /\ (c = 401 \/ c = 403)).
Proof.
  apply dispatch_requires_api_key. intros u. cbv. discriminate.
Defined.

Lemma session_handlers_gated_witness :
  In VerifyToken (r_mws (mk_route POST [Lit "logout"] [VerifyToken] "login.logout")).
Proof.
  apply (session_handlers_gated ex_env (fun _ => false) (mk_req POST ["admin"; "logout"] (Some "k1") NoBody)
           (mk_route POST [Lit "logout"] [VerifyToken] "login.logout") []).
  - vm_compute. reflexivity.
  - cbn. tauto.
Defined.

Lemma manage_admin_without_session_witness :
  dispatch ex_env (fun _ => false) (mk_req DELETE ["deleteadmin"; "5"] (Some "k1") NoBody) =
    Reach (mk_route DELETE [Lit "deleteadmin"; Param "id"] [] "admin.deleteAdmin") [("id", "5")] /\
  dispatch ex_env (fun _ => false) (mk_req GET ["getadmin"] (Some "k1") NoBody) =
    Reach (mk_route GET [Lit "getadmin"] [] "admin.getadmin") [].
Proof.
  apply (manage_admin_without_session ex_env (fun _ => false) (Some "k1") "5"). reflexivity.
Defined.

End Routes.
