(* ===== verification/Banner.v ===== *)
(** * The home-page banner: [src/controller/banner/banner.js]

    One row of table [banner], the row with [id = 1], read by [getBanner]
    (which renames the columns [heading], [subheading], [img] to the
    fields [title], [description], [background_image]) and written by
    [updateBanner] (the image only when a file was uploaded).  The
    theorems show the renaming round-trips through an update, and what
    happens when the row is missing. *)

From stdpp Require Import base list strings decidable.
From Stdlib Require Import ZArith Lia.
From S2P Require Import Prelude.

Open Scope Z_scope.
Open Scope st_scope.

Module Banner.

(** A row of [banner]; [None] is SQL [NULL]. *)
Record row := mk_row {
  id : Z;
  heading : option string;
  subheading : option string;
  img : option string;
  created_at : Z;
  updated_at : Z
}.

Record bdb := mk_bdb { banner : list row; bfaults : list bool }.

#[export] Instance bdb_faulty : Faulty bdb :=
  {| faults_of := bfaults; with_faults bs d := mk_bdb (banner d) bs |}.

(** The body of a 200 of [getBanner] (banner.js:16-23). *)
Record bannerData := mk_bannerData {
  bd_id : Z;
  title : option string;
  description : option string;
  background_image : option string;
  bd_created_at : Z;
  bd_updated_at : Z
}.

Inductive bbody :=
| BError (msg : string)
| BMessage (msg : string)
| BData (d : bannerData).

Record bresponse := mk_bresponse { bcode : Z; bbody_of : bbody }.

Definition breply (c : Z) (b : bbody) : St bdb bresponse := st_ret (mk_bresponse c b).

Definition is_one (r : row) : bool := id r =? 1.

(** banner.js:3-27 *)
Definition getBanner : St bdb bresponse :=
  let* result := query_of (fun d => List.filter is_one (banner d)) in
  match result with
  | None => breply 500 (BError "Error fetching banner")
  | Some [] => breply 404 (BError "Banner not found")
  | Some (r :: _) =>
    breply 200 (BData (mk_bannerData (id r) (heading r) (subheading r) (img r) (created_at r) (updated_at r)))
  end.

(** banner.js:37 and :40: [UPDATE banner SET heading=?, subheading=?[, img=?] WHERE id=1] *)
Definition set_banner (title description : option string) (imgPath : option string) (r : row) : row :=
  mk_row (id r) title description (match imgPath with Some p => Some p | None => img r end)
         (created_at r) (updated_at r).

Definition update_banner (title description : option string) (imgPath : option string) (d : bdb) : bdb * Z :=
  (mk_bdb (List.map (fun r => if is_one r then set_banner title description imgPath r else r) (banner d))
          (bfaults d),
   Z.of_nat (count_where is_one (banner d))).

(** banner.js:29-55; [file] is [req.file.filename] when a file was
    uploaded. *)
Definition updateBanner (title description : option string) (file : option string) : St bdb bresponse :=
  let imgPath := if js_truthy file then file else None in
  let* u := run_of (update_banner title description imgPath) in
  match u with
  | None => breply 500 (BError "Error updating banner")
  | Some _ => breply 200 (BMessage "Banner updated successfully")
  end.

(** The banner as seeded, for the witnesses. *)
Definition ex_row : row := mk_row 1 (Some "Welcome") (Some "Fresh sweets") (Some "a.png") 0 0.
Definition ex_bdb : bdb := mk_bdb [ex_row] [].

(** ** Lemmas *)

(** Updating the selected rows commutes with selecting them, for an
    update that keeps the key. *)
Lemma filter_update_one (g : row -> row) l :
  (forall r, id (g r) = id r) ->
  List.filter is_one (List.map (fun r => if is_one r then g r else r) l) =
  List.map g (List.filter is_one l).
Proof.
  intros Hg. induction l as [|x l IH]; [done|]. cbn.
  destruct (is_one x) eqn:E; cbn; [unfold is_one at 1; rewrite Hg; fold (is_one x); rewrite E|rewrite E];
    by rewrite IH.
Qed.

(** ** Properties *)

(** An update followed by a read answers the new title and
    description, and the uploaded file as [background_image], or the
    previous image when no file was uploaded: the renaming of
    banner.js:16-23 is the inverse of the one of banner.js:31-42. *)
Theorem banner_roundtrip d t ds f r rest :
  bfaults d = [] -> List.filter is_one (banner d) = r :: rest ->
  fst (updateBanner t ds f d) = mk_bresponse 200 (BMessage "Banner updated successfully") /\
  fst (getBanner (snd (updateBanner t ds f d))) =
    mk_bresponse 200 (BData (mk_bannerData (id r) t ds (if js_truthy f then f else img r)
                                           (created_at r) (updated_at r))).
Proof.
  intros Hf Hr. unfold updateBanner. rewrite st_bind_run, run_of_nf by done. cbn [fst snd].
  split; [done|]. unfold getBanner. rewrite st_bind_run, query_of_nf by done.
  cbn [fst snd banner update_banner breply st_ret]. rewrite filter_update_one, Hr by done. cbn.
  destruct (js_truthy f) eqn:Ef; [destruct f|]; done.
Qed.

(** When the row [id = 1] is missing, [updateBanner] still answers
    200 (its callback does not look at [affectedRows]) while [getBanner]
    answers 404. *)
Theorem banner_update_missing d t ds f :
  bfaults d = [] -> List.filter is_one (banner d) = [] ->
  fst (updateBanner t ds f d) = mk_bresponse 200 (BMessage "Banner updated successfully") /\
  fst (getBanner (snd (updateBanner t ds f d))) = mk_bresponse 404 (BError "Banner not found").
Proof.
  intros Hf Hr. unfold updateBanner. rewrite st_bind_run, run_of_nf by done. cbn [fst snd].
  split; [done|]. unfold getBanner. rewrite st_bind_run, query_of_nf by done.
  cbn [fst snd banner update_banner breply st_ret]. by rewrite filter_update_one, Hr.
Qed.

(** ** Witnesses *)

Lemma banner_roundtrip_witness :
  fst (updateBanner (Some "Sale") None (Some "b.png") ex_bdb) =
    mk_bresponse 200 (BMessage "Banner updated successfully") /\
  fst (getBanner (snd (updateBanner (Some "Sale") None (Some "b.png") ex_bdb))) =
    mk_bresponse 200 (BData (mk_bannerData 1 (Some "Sale") None
                               (if js_truthy (Some "b.png") then Some "b.png" else img ex_row) 0 0)).
Proof. apply (banner_roundtrip ex_bdb (Some "Sale") None (Some "b.png") ex_row []); reflexivity. Defined.

Lemma banner_update_missing_witness :
  fst (updateBanner (Some "Sale") None None (mk_bdb [] [])) =
    mk_bresponse 200 (BMessage "Banner updated successfully") /\
  fst (getBanner (snd (updateBanner (Some "Sale") None None (mk_bdb [] [])))) =
    mk_bresponse 404 (BError "Banner not found").
Proof. apply (banner_update_missing (mk_bdb [] []) (Some "Sale") None None); reflexivity. Defined.

End Banner.
