(* ===== verification/Settings.v ===== *)
(** * General settings and their uploaded images: [src/controller/settings/generalSetting.js]

    The row [id = 1] of [general_settings] and the files of the [uploads]
    folder it names as [logo] and [favicon].  [updateGeneralSettings]
    reads the old image names, writes the nine text columns and the images
    that came with the request, and then deletes the replaced image files
    ([safeUnlink]).  The state is the table, the folder (the names of its
    files) and the fault oracle.  The theorems: the row never names a
    missing file, and a failed UPDATE leaves the uploaded files behind. *)

From stdpp Require Import base list strings decidable.
From Stdlib Require Import ZArith Lia.
From S2P Require Import Prelude.

Open Scope Z_scope.
Open Scope st_scope.

Module Settings.

(** A row of [general_settings]; [None] is SQL [NULL]. *)
Record srow := mk_srow {
  sid : Z;
  site_name : option string;
  website_status : option string;
  facebook_link : option string;
  instagram_link : option string;
  pinterest_link : option string;
  youtube_link : option string;
  whatsapp_number : option string;
  email : option string;
  address : option string;
  logo : option string;
  favicon : option string
}.

(** The nine text fields of the request body (generalSetting.js:27-37). *)
Record fields := mk_fields {
  f_site_name : option string;
  f_website_status : option string;
  f_facebook_link : option string;
  f_instagram_link : option string;
  f_pinterest_link : option string;
  f_youtube_link : option string;
  f_whatsapp_number : option string;
  f_email : option string;
  f_address : option string
}.

Record sdb := mk_sdb {
  settings : list srow;
  uploads : list string;     (** the names of the files of [uploads/] *)
  sfaults : list bool
}.

#[export] Instance sdb_faulty : Faulty sdb :=
  {| faults_of := sfaults; with_faults bs d := mk_sdb (settings d) (uploads d) bs |}.

Inductive sbody :=
| SText (msg : string)              (** [res.status(..).send(msg)] *)
| SRow (r : option srow)            (** [res.json(results[0] || {})] *)
| SOk.                              (** [res.sendStatus(200)] *)

Record sresponse := mk_sresponse { scode : Z; sbody_of : sbody }.

Definition sreply (c : Z) (b : sbody) : St sdb sresponse := st_ret (mk_sresponse c b).

Definition is_first (r : srow) : bool := sid r =? 1.

Definition first_row (d : sdb) : option srow := head (List.filter is_first (settings d)).

(** generalSetting.js:15-23 *)
Definition getGeneralSettings : St sdb sresponse :=
  let* results := query_of first_row in
  match results with
  | None => sreply 500 (SText "Error fetching settings")
  | Some r => sreply 200 (SRow r)
  end.

(** generalSetting.js:50-83: the SET clause, with [logo = ?] and
    [favicon = ?] only for a new file. *)
Definition set_settings (f : fields) (lg fv : option string) (r : srow) : srow :=
  mk_srow (sid r) (f_site_name f) (f_website_status f) (f_facebook_link f) (f_instagram_link f)
    (f_pinterest_link f) (f_youtube_link f) (f_whatsapp_number f) (f_email f) (f_address f)
    (if js_truthy lg then lg else logo r) (if js_truthy fv then fv else favicon r).

Definition update_settings (f : fields) (lg fv : option string) (d : sdb) : sdb * Z :=
  (mk_sdb (List.map (fun r => if is_first r then set_settings f lg fv r else r) (settings d))
          (uploads d) (sfaults d),
   Z.of_nat (count_where is_first (settings d))).

(** generalSetting.js:6-12 [safeUnlink]: the file is removed; a missing
    file is not an error. *)
Definition safeUnlink (name : string) : St sdb unit :=
  fun d => (tt, mk_sdb (settings d) (List.filter (fun n => negb (String.eqb n name)) (uploads d)) (sfaults d)).

(** generalSetting.js:95-104: delete the old image when a new one came. *)
Definition unlink_replaced (newf old : option string) : St sdb unit :=
  match newf, old with
  | Some n, Some o => if js_truthy (Some n) && js_truthy (Some o) then safeUnlink o else st_ret tt
  | _, _ => st_ret tt
  end.

(** generalSetting.js:26-109; [lg] and [fv] are the names multer gave the
    uploaded [logo] and [favicon] files, which are already in the folder. *)
Definition updateGeneralSettings (f : fields) (lg fv : option string) : St sdb sresponse :=
  let* results := query_of first_row in
  match results with
  | None => sreply 500 (SText "Error fetching old settings")
  | Some oldSettings =>
    let* u := run_of (update_settings f lg fv) in
    match u with
    | None => sreply 500 (SText "Error updating settings")
    | Some affectedRows =>
      if affectedRows =? 0 then sreply 404 (SText "Settings record not found")
      else
        let* _ := unlink_replaced lg (oldSettings ≫= logo) in
        let* _ := unlink_replaced fv (oldSettings ≫= favicon) in
        sreply 200 SOk
    end
  end.

(** The images the settings row names are files of the folder, and the
    row does not name one file as both images. *)
Definition refs_ok (d : sdb) : Prop :=
  match first_row d with
  | None => True
  | Some r => (forall n, logo r = Some n -> In n (uploads d)) /\
              (forall n, favicon r = Some n -> In n (uploads d)) /\
              (logo r = None \/ logo r <> favicon r)
  end.

(** What multer guarantees of the uploaded files: they are in the folder,
    and their names ([Date.now() + file.originalname]) are new. *)
Definition upload_ok (lg fv : option string) (d : sdb) : Prop :=
  (forall n, lg = Some n -> In n (uploads d) /\ (first_row d ≫= logo) <> Some n /\
                              (first_row d ≫= favicon) <> Some n) /\
  (forall n, fv = Some n -> In n (uploads d) /\ (first_row d ≫= logo) <> Some n /\
                              (first_row d ≫= favicon) <> Some n) /\
  (lg = None \/ lg <> fv).

(** The seeded row and folder, for the witnesses: [2-logo.png] is a
    fresh upload. *)
Definition ex_srow : srow :=
  mk_srow 1 (Some "Sweets") (Some "live") None None None None None None None
          (Some "1-logo.png") (Some "1-fav.ico").
Definition ex_sdb : sdb := mk_sdb [ex_srow] ["1-logo.png"; "1-fav.ico"; "2-logo.png"] [].
Definition ex_fields : fields := mk_fields (Some "Sweets") (Some "live") None None None None None None None.

(** ** Lemmas *)

Lemma first_row_update f lg fv d :
  first_row (fst (update_settings f lg fv d)) = option_map (set_settings f lg fv) (first_row d).
Proof.
  unfold first_row, update_settings. cbn [fst settings]. induction (settings d) as [|r l IH]; [done|].
  cbn. destruct (is_first r) eqn:E; cbn.
  - unfold is_first at 1. cbn. fold (is_first r). by rewrite E.
  - by rewrite E.
Qed.

Lemma in_unlink x n d : In x (uploads (snd (safeUnlink n d))) <-> In x (uploads d) /\ x <> n.
Proof.
  cbn. rewrite filter_In, negb_true_iff. by rewrite String.eqb_neq.
Qed.

Lemma first_row_unlink_replaced nw old d :
  first_row (snd (unlink_replaced nw old d)) = first_row d.
Proof. unfold unlink_replaced. repeat case_match; reflexivity. Qed.

(** [unlink_replaced nw old] removes at most [old], and only when a new
    file came. *)
Lemma in_unlink_replaced x nw old d :
  In x (uploads d) -> (js_truthy nw = true -> old <> Some x) ->
  In x (uploads (snd (unlink_replaced nw old d))).
Proof.
  intros Hx Hne. unfold unlink_replaced.
  destruct nw as [n|], old as [o|]; try done. cbn [js_truthy].
  destruct (negb (String.eqb n "")) eqn:En; cbn [andb]; [|done].
  destruct (negb (String.eqb o "")); [|done].
  apply in_unlink. split; [done|]. intros ->. by apply (Hne En).
Qed.

(** [unlink_replaced] only removes files. *)
Lemma unlink_replaced_sub x nw old d :
  In x (uploads (snd (unlink_replaced nw old d))) -> In x (uploads d).
Proof.
  unfold unlink_replaced. destruct nw, old; try done. case_match; [|done].
  by intros [? _]%in_unlink.
Qed.

(** [unlink_replaced] removes the old file when a new one came. *)
Lemma unlink_replaced_removes nw o d :
  js_truthy nw = true -> o <> "" -> ~ In o (uploads (snd (unlink_replaced nw (Some o) d))).
Proof.
  intros Hn Ho. unfold unlink_replaced. destruct nw as [n|]; [|discriminate].
  assert (Ht : js_truthy (Some o) = true) by (cbn; by rewrite (proj2 (String.eqb_neq o "") Ho)).
  rewrite Hn, Ht. cbn [andb]. by intros [_ ?]%in_unlink.
Qed.

(** The effect of a successful update on the row and the folder. *)
Lemma refs_ok_effect f lg fv d :
  refs_ok d -> upload_ok lg fv d ->
  let d1 := fst (update_settings f lg fv d) in
  let d2 := snd (unlink_replaced lg (first_row d ≫= logo) d1) in
  refs_ok (snd (unlink_replaced fv (first_row d ≫= favicon) d2)).
Proof.
  intros Href (Hlg & Hfv & Hdist) d1 d2. unfold refs_ok in *.
  subst d2 d1. rewrite !first_row_unlink_replaced, first_row_update.
  destruct (first_row d) as [r|] eqn:Er; [|done]. cbn [option_map mbind option_bind].
  destruct Href as (Hl & Hf & Hd). cbn in Hlg, Hfv.
  assert (Hkeep : forall x, In x (uploads d) ->
            (js_truthy lg = true -> logo r <> Some x) -> (js_truthy fv = true -> favicon r <> Some x) ->
            In x (uploads (snd (unlink_replaced fv (favicon r)
                   (snd (unlink_replaced lg (logo r) (fst (update_settings f lg fv d)))))))).
  { intros x Hx H1 H2. apply in_unlink_replaced; [|done]. by apply in_unlink_replaced. }
  unfold set_settings. cbn [logo favicon]. split; [|split].
  - intros n Hn. destruct (js_truthy lg) eqn:El.
    + subst lg. destruct (Hlg n eq_refl) as (Hin & Hnl & Hnf). apply Hkeep; [done|by intros _|].
      intros _. done.
    + apply Hkeep; [by apply Hl|done|]. intros Hv Heq.
      destruct (js_truthy fv) eqn:Ef; [|done]. destruct Hd as [Hd|Hd]; [congruence|congruence].
  - intros n Hn. destruct (js_truthy fv) eqn:Ef.
    + subst fv. destruct (Hfv n eq_refl) as (Hin & Hnl & Hnf). apply Hkeep; [done| |by intros _].
      intros _. done.
    + apply Hkeep; [by apply Hf| |done]. intros Hv Heq.
      destruct Hd as [Hd|Hd]; congruence.
  - destruct (js_truthy lg) eqn:El, (js_truthy fv) eqn:Ef.
    + destruct Hdist as [->|Hne]; [discriminate|]. by right.
    + destruct lg as [n|]; [|discriminate]. right. intros Heq.
      destruct (Hlg n eq_refl) as (_ & _ & Hnf). by apply Hnf.
    + destruct fv as [n|]; [|discriminate]. destruct (logo r) eqn:Hlr; [right|by left].
      intros Heq. destruct (Hfv n eq_refl) as (_ & Hnl & _). cbn in Hnl. congruence.
    + done.
Qed.

(** A row [id = 1] makes the UPDATE count it. *)
Lemma first_row_counted d r :
  first_row d = Some r -> count_where is_first (settings d) <> 0%nat.
Proof. unfold first_row, count_where. by destruct (List.filter is_first (settings d)). Qed.

(** The table and the folder do not depend on the fault oracle. *)
Lemma refs_ok_faults bs d : refs_ok (with_faults bs d) <-> refs_ok d.
Proof. done. Qed.

Lemma upload_ok_faults lg fv bs d : upload_ok lg fv (with_faults bs d) <-> upload_ok lg fv d.
Proof. done. Qed.

(** Replace the state of the goal by a fresh variable that satisfies the
    same invariants, when it is [d] with another fault oracle. *)
Ltac forget_faults d bs Href Hup :=
  rewrite <- (refs_ok_faults bs) in Href; rewrite <- (upload_ok_faults _ _ bs) in Hup;
  try change (first_row d) with (first_row (with_faults bs d));
  revert Href Hup; generalize (with_faults bs d); clear d; intros d Href Hup.

(** ** Properties *)

(** C23: whatever the faults, [updateGeneralSettings] keeps the row naming
    only files of the folder and never one file as both images, provided
    the uploaded files are in the folder under new names. *)
Theorem updateGeneralSettings_refs f lg fv d :
  refs_ok d -> upload_ok lg fv d -> refs_ok (snd (updateGeneralSettings f lg fv d)).
Proof.
  intros Href Hup. unfold updateGeneralSettings. rewrite st_bind_run.
  destruct (query_of_cases first_row d) as [Hq|(bs & [Hq|Hq])]; rewrite Hq; clear Hq; cbn [fst snd];
    [|exact Href|forget_faults d bs Href Hup].
  all: rewrite st_bind_run; destruct (run_of_cases (update_settings f lg fv) d) as [Hr|(bs' & [Hr|Hr])];
    rewrite Hr; clear Hr; cbn [fst snd]; [|exact Href|forget_faults d bs' Href Hup].
  all: destruct (snd (update_settings f lg fv d) =? 0) eqn:Hz; cbn [snd sreply st_ret].
  all: try (rewrite !st_bind_run; cbn [fst snd]; by apply refs_ok_effect).
  all: unfold refs_ok; rewrite first_row_update; destruct (first_row d) eqn:Er; [|done].
  all: apply Z.eqb_eq in Hz; cbn in Hz; apply first_row_counted in Er; lia.
Qed.

(** With no fault and the row present, [updateGeneralSettings]
    answers 200, writes the SET clause into the row, and deletes the
    previous logo file when a new logo came. *)
Theorem updateGeneralSettings_replaces f lg fv d r o :
  sfaults d = [] -> first_row d = Some r -> js_truthy lg = true -> logo r = Some o -> o <> "" ->
  fst (updateGeneralSettings f lg fv d) = mk_sresponse 200 SOk /\
  first_row (snd (updateGeneralSettings f lg fv d)) = Some (set_settings f lg fv r) /\
  ~ In o (uploads (snd (updateGeneralSettings f lg fv d))).
Proof.
  intros Hf Hr Hl Ho Hne. unfold updateGeneralSettings.
  rewrite st_bind_run, query_of_nf by done. rewrite Hr. cbn [fst snd].
  rewrite st_bind_run, run_of_nf by done. cbn [fst snd].
  assert (Hz : (snd (update_settings f lg fv d) =? 0) = false).
  { apply Z.eqb_neq. cbn. apply first_row_counted in Hr. lia. }
  rewrite Hz, !st_bind_run. cbn [fst snd mbind option_bind sreply st_ret]. split; [done|]. split.
  - by rewrite !first_row_unlink_replaced, first_row_update, Hr.
  - rewrite Ho. intros Hin%unlink_replaced_sub. by apply (unlink_replaced_removes lg o) in Hin.
Qed.

(** When the SELECT succeeds and the UPDATE fails, the uploaded logo
    stays in the folder while the row does not name it: a file no request
    deletes. *)
Theorem updateGeneralSettings_orphan f n d :
  sfaults d = [false; true] -> In n (uploads d) -> (first_row d ≫= logo) <> Some n ->
  fst (updateGeneralSettings f (Some n) None d) = mk_sresponse 500 (SText "Error updating settings") /\
  In n (uploads (snd (updateGeneralSettings f (Some n) None d))) /\
  (first_row (snd (updateGeneralSettings f (Some n) None d)) ≫= logo) <> Some n.
Proof.
  destruct d as [st up fl]. cbn. intros -> Hin Hnl. done.
Qed.

(** ** Witnesses *)

Lemma updateGeneralSettings_refs_witness :
  refs_ok ex_sdb /\ upload_ok (Some "2-logo.png") None ex_sdb /\
  refs_ok (snd (updateGeneralSettings ex_fields (Some "2-logo.png") None ex_sdb)).
Proof.
  assert (Hr : refs_ok ex_sdb).
  { cbn. split; [|split]; [intros ? [= <-]; cbn; tauto..|by right]. }
  assert (Hu : upload_ok (Some "2-logo.png") None ex_sdb).
  { split; [|split]; [intros ? [= <-]; cbn; split; [tauto|done]|done|by right]. }
  split; [exact Hr|split; [exact Hu|]].
  apply (updateGeneralSettings_refs ex_fields (Some "2-logo.png") None ex_sdb Hr Hu).
Defined.

Lemma updateGeneralSettings_replaces_witness :
  fst (updateGeneralSettings ex_fields (Some "2-logo.png") None ex_sdb) = mk_sresponse 200 SOk /\
  first_row (snd (updateGeneralSettings ex_fields (Some "2-logo.png") None ex_sdb)) =
    Some (set_settings ex_fields (Some "2-logo.png") None ex_srow) /\
  ~ In "1-logo.png" (uploads (snd (updateGeneralSettings ex_fields (Some "2-logo.png") None ex_sdb))).
Proof.
  apply (updateGeneralSettings_replaces ex_fields (Some "2-logo.png") None ex_sdb ex_srow "1-logo.png");
    [reflexivity..|discriminate].
Defined.

Lemma updateGeneralSettings_orphan_witness :
  fst (updateGeneralSettings ex_fields (Some "2-logo.png") None (mk_sdb [ex_srow] (uploads ex_sdb) [false; true])) =
    mk_sresponse 500 (SText "Error updating settings") /\
  In "2-logo.png" (uploads (snd (updateGeneralSettings ex_fields (Some "2-logo.png") None
                                   (mk_sdb [ex_srow] (uploads ex_sdb) [false; true])))) /\
  (first_row (snd (updateGeneralSettings ex_fields (Some "2-logo.png") None
                     (mk_sdb [ex_srow] (uploads ex_sdb) [false; true]))) ≫= logo) <> Some "2-logo.png".
Proof.
  apply updateGeneralSettings_orphan; [reflexivity|cbn; tauto|discriminate].
Defined.

End Settings.
