(* ===== verification/Branches.v ===== *)
(** * Branches and their categories: [src/controller/settings/branchSetting.js]

    The tables [branches] and [category_branch] and the twelve handlers
    over them: the two listings (dashboard and website) over a LEFT JOIN
    with an ORDER BY, the lookup by id, the updates, the insertions with
    their [AUTO_INCREMENT] ids, the deletions (a category's in two
    statements: unlink its branches, then delete it), and the counts of
    [getBranchStats].  The state is the two tables, the fault oracle and
    the two counters.  The theorems: every branch names an existing
    category or none, every status is one of the column's two values,
    the counts add up, the listings are sorted permutations of the join
    and the website's is the dashboard's active part, an added branch is
    found by its id, and the contact form ([Contact]) sees a status
    change at once. *)

From stdpp Require Import base list strings decidable sorting.
From Stdlib Require Import ZArith Lia.
From S2P Require Import Prelude Regex Store Codec Db Fixtures Admin Contact.

Open Scope Z_scope.
Open Scope st_scope.

Module Branches.

(** A row of [branches]; [None] is SQL [NULL]. *)
Record branch := mk_branch {
  b_id : Z;
  b_name : option string;
  category_id : option Z;
  location : option string;
  phone_main : option string;
  phone_orders : option string;
  email_info : option string;
  email_orders : option string;
  opening_hours : option string;
  map_embed : option string;
  b_status : string
}.

(** A row of [category_branch]. *)
Record category := mk_category { c_id : Z; c_name : option string; c_status : string }.

Record bsdb := mk_bsdb {
  branches : list branch;
  categories : list category;
  bsfaults : list bool;
  next_branch_id : Z;     (** [AUTO_INCREMENT] of [branches] *)
  next_category_id : Z    (** [AUTO_INCREMENT] of [category_branch] *)
}.

#[export] Instance bsdb_faulty : Faulty bsdb :=
  {| faults_of := bsfaults;
     with_faults bs d := mk_bsdb (branches d) (categories d) bs (next_branch_id d) (next_category_id d) |}.

(** A row of the LEFT JOIN: the branch and [c.name AS category_name]. *)
Definition joined : Type := branch * option string.

(** The JSON bodies: [{success: false, message, error}], [{success:
    false, message}], and the [success: true] bodies of each handler. *)
Inductive bbody :=
| BError (msg : string)
| BFail (msg : string)
| BBranches (msg : string) (rows : list joined)
| BBranch (msg : string) (row : joined)
| BAffected (msg : string) (n : Z)
| BCreated (msg : string) (id : Z)
| BStats (msg : string) (total active inactive : Z)
| BCategories (msg : string) (rows : list category).

Record bsresponse := mk_bsresponse { bscode : Z; bsbody : bbody }.

Definition bsreply (c : Z) (b : bbody) : St bsdb bsresponse := st_ret (mk_bsresponse c b).

(** ** The LEFT JOIN and the ORDER BY *)

(** [LEFT JOIN category_branch c ON b.category_id = c.id]: one row per
    matching category, or one row with [NULL] when none matches. *)
Definition cat_of (b : branch) (c : category) : bool :=
  match category_id b with Some k => c_id c =? k | None => false end.

Definition left_join (d : bsdb) : list joined :=
  flat_map (fun b => match List.filter (cat_of b) (categories d) with
                     | [] => [(b, None)]
                     | cs => List.map (fun c => (b, c_name c)) cs
                     end) (branches d).

(** [ASC] on a nullable text column: [NULL] first, then by the strings. *)
Definition ostr_cmp (a b : option string) : comparison :=
  match a, b with
  | None, None => Eq
  | None, Some _ => Lt
  | Some _, None => Gt
  | Some x, Some y => String.compare x y
  end.

(** An [ORDER BY] over several keys. *)
Fixpoint lex_cmp (k1 k2 : list (option string)) : comparison :=
  match k1, k2 with
  | [], [] => Eq
  | [], _ => Lt
  | _, [] => Gt
  | x :: r1, y :: r2 => match ostr_cmp x y with Eq => lex_cmp r1 r2 | c => c end
  end.

Definition order_by {A} (key : A -> list (option string)) (a b : A) : Prop :=
  lex_cmp (key a) (key b) <> Gt.

#[export] Instance order_by_dec {A} (key : A -> list (option string)) : RelDecision (order_by key).
Proof. intros a b. unfold order_by. apply _. Defined.

(** branchSetting.js:10 [ORDER BY b.status ASC, c.name ASC, b.name ASC] *)
Definition dashboard_key (r : joined) : list (option string) :=
  [Some (b_status r.1); r.2; b_name r.1].

(** branchSetting.js:38 [ORDER BY c.name ASC, b.name ASC] *)
Definition website_key (r : joined) : list (option string) := [r.2; b_name r.1].

Definition is_active (r : joined) : bool := String.eqb (b_status r.1) "active".

(** ** The handlers *)

(** branchSetting.js:5-29 *)
Definition getAllBranchesForDashboard : St bsdb bsresponse :=
  let* results := query_of (fun d => merge_sort (order_by dashboard_key) (left_join d)) in
  match results with
  | None => bsreply 500 (BError "Error fetching branches")
  | Some rows => bsreply 200 (BBranches "Branches fetched successfully" rows)
  end.

(** branchSetting.js:32-57 *)
Definition getAllBranchesForWebsite : St bsdb bsresponse :=
  let* results := query_of (fun d => merge_sort (order_by website_key)
                                       (List.filter is_active (left_join d))) in
  match results with
  | None => bsreply 500 (BError "Error fetching branches")
  | Some rows => bsreply 200 (BBranches "Active branches fetched successfully" rows)
  end.

(** [WHERE b.id = ?] *)
Definition is_branch (id : Z) (r : joined) : bool := b_id r.1 =? id.

(** branchSetting.js:60-100; [id] is [req.params.id], [None] when absent. *)
Definition getBranchById (id : option Z) : St bsdb bsresponse :=
  match id with
  | None => bsreply 400 (BFail "Branch ID is required")
  | Some id =>
    let* results := query_of (fun d => List.filter (is_branch id) (left_join d)) in
    match results with
    | None => bsreply 500 (BError "Error fetching branch data")
    | Some [] => bsreply 404 (BFail "Branch not found")
    | Some (r :: _) => bsreply 200 (BBranch "Branch data fetched successfully" r)
    end
  end.

(** The fields of the request body of [updateBranch] and [addBranch]
    (branchSetting.js:105-114, :234-244); [category_id] as a number. *)
Record bfields := mk_bfields {
  f_name : option string;
  f_category_id : option Z;
  f_location : option string;
  f_phone_main : option string;
  f_phone_orders : option string;
  f_email_info : option string;
  f_email_orders : option string;
  f_opening_hours : option string;
  f_map_embed : option string
}.

(** [category_id || null]: a missing id and [0] are [NULL]. *)
Definition effectiveCategoryId (c : option Z) : option Z :=
  match c with Some k => if k =? 0 then None else Some k | None => None end.

(** [UPDATE ... WHERE id = ?] on the rows selected by [p], with its
    [affectedRows]. *)
Definition update_branches (p : branch -> bool) (g : branch -> branch) (d : bsdb) : bsdb * Z :=
  (mk_bsdb (List.map (fun b => if p b then g b else b) (branches d)) (categories d) (bsfaults d)
           (next_branch_id d) (next_category_id d),
   Z.of_nat (count_where p (branches d))).

Definition has_id (id : Z) (b : branch) : bool := b_id b =? id.

(** branchSetting.js:134-147, the SET clause of [updateBranch]. *)
Definition set_branch (f : bfields) (b : branch) : branch :=
  mk_branch (b_id b) (b_name b) (effectiveCategoryId (f_category_id f)) (f_location f)
    (f_phone_main f) (f_phone_orders f) (f_email_info f) (f_email_orders f)
    (f_opening_hours f) (f_map_embed f) (b_status b).

(** branchSetting.js:103-184 *)
Definition updateBranch (id : option Z) (f : bfields) : St bsdb bsresponse :=
  match id with
  | None => bsreply 400 (BFail "Branch ID is required")
  | Some id =>
    if negb (js_truthy (f_location f) && js_truthy (f_phone_main f) &&
             js_truthy (f_email_info f) && js_truthy (f_opening_hours f))
    then bsreply 400 (BFail "Location, main phone, info email, and opening hours are required")
    else
      let* u := run_of (update_branches (has_id id) (set_branch f)) in
      match u with
      | None => bsreply 500 (BError "Error updating branch data")
      | Some n =>
        if n =? 0 then bsreply 404 (BFail "Branch not found or no changes made")
        else bsreply 200 (BAffected "Branch updated successfully" n)
      end
  end.

(** [['active', 'inactive'].includes(status)] *)
Definition valid_status (s : option string) : bool :=
  match s with Some s => String.eqb s "active" || String.eqb s "inactive" | None => false end.

Definition set_status (s : string) (b : branch) : branch :=
  mk_branch (b_id b) (b_name b) (category_id b) (location b) (phone_main b) (phone_orders b)
    (email_info b) (email_orders b) (opening_hours b) (map_embed b) s.

(** branchSetting.js:187-230 *)
Definition updateBranchStatus (id : option Z) (status : option string) : St bsdb bsresponse :=
  match id with
  | None => bsreply 400 (BFail "Branch ID is required")
  | Some id =>
    if negb (js_truthy status && valid_status status)
    then bsreply 400 (BFail "Valid status (active/inactive) is required")
    else
      let s := default "" status in
      let* u := run_of (update_branches (has_id id) (set_status s)) in
      match u with
      | None => bsreply 500 (BError "Error updating branch status")
      | Some n =>
        if n =? 0 then bsreply 404 (BFail "Branch not found")
        else bsreply 200 (BAffected ("Branch status updated to " ++ s ++ " successfully") n)
      end
  end.

(** branchSetting.js:257-261: the INSERT with [status = 'active'] and the
    new [AUTO_INCREMENT] id as [insertId]. *)
Definition new_branch (f : bfields) (id : Z) : branch :=
  mk_branch id (f_name f) (effectiveCategoryId (f_category_id f)) (f_location f) (f_phone_main f)
    (f_phone_orders f) (f_email_info f) (f_email_orders f) (f_opening_hours f) (f_map_embed f) "active".

Definition insert_branch (f : bfields) (d : bsdb) : bsdb * Z :=
  let id := next_branch_id d in
  (mk_bsdb (branches d ++ [new_branch f id]) (categories d) (bsfaults d) (id + 1) (next_category_id d),
   id).

(** branchSetting.js:247: the fields [addBranch] requires. *)
Definition required (f : bfields) : bool :=
  js_truthy (f_name f) && js_truthy (f_location f) && js_truthy (f_phone_main f) &&
  js_truthy (f_email_info f) && js_truthy (f_opening_hours f).

(** branchSetting.js:233-291 *)
Definition addBranch (f : bfields) : St bsdb bsresponse :=
  if negb (required f)
  then bsreply 400 (BFail "Name, location, main phone, info email, and opening hours are required")
  else
    let* r := run_of (insert_branch f) in
    match r with
    | None => bsreply 500 (BError "Error adding new branch")
    | Some insertId => bsreply 201 (BCreated "Branch added successfully" insertId)
    end.

(** [DELETE FROM branches WHERE id = ?] *)
Definition delete_branches (id : Z) (d : bsdb) : bsdb * Z :=
  (mk_bsdb (List.filter (fun b => negb (has_id id b)) (branches d)) (categories d) (bsfaults d)
           (next_branch_id d) (next_category_id d),
   Z.of_nat (count_where (has_id id) (branches d))).

(** branchSetting.js:294-329 *)
Definition deleteBranch (id : option Z) : St bsdb bsresponse :=
  match id with
  | None => bsreply 400 (BFail "Branch ID is required")
  | Some id =>
    let* u := run_of (delete_branches id) in
    match u with
    | None => bsreply 500 (BError "Error deleting branch")
    | Some n =>
      if n =? 0 then bsreply 404 (BFail "Branch not found")
      else bsreply 200 (BAffected "Branch permanently deleted from database" n)
    end
  end.

Definition status_is (s : string) (b : branch) : bool := String.eqb (b_status b) s.

(** branchSetting.js:333-339: [COUNT( * )] and the two [COUNT(CASE ...)]. *)
Definition stats (d : bsdb) : Z * Z * Z :=
  (Z.of_nat (length (branches d)), Z.of_nat (count_where (status_is "active") (branches d)),
   Z.of_nat (count_where (status_is "inactive") (branches d))).

(** branchSetting.js:332-357 *)
Definition getBranchStats : St bsdb bsresponse :=
  let* results := query_of stats in
  match results with
  | None => bsreply 500 (BError "Error fetching branch statistics")
  | Some (t, a, i) => bsreply 200 (BStats "Branch statistics fetched successfully" t a i)
  end.

(** branchSetting.js:363 [ORDER BY status ASC, name ASC] *)
Definition category_key (c : category) : list (option string) := [Some (c_status c); c_name c].

(** branchSetting.js:362-381 *)
Definition getAllCategories : St bsdb bsresponse :=
  let* results := query_of (fun d => merge_sort (order_by category_key) (categories d)) in
  match results with
  | None => bsreply 500 (BError "Error fetching categories")
  | Some rows => bsreply 200 (BCategories "Categories fetched successfully" rows)
  end.

(** branchSetting.js:394-398 *)
Definition insert_category (name : option string) (d : bsdb) : bsdb * Z :=
  let id := next_category_id d in
  (mk_bsdb (branches d) (categories d ++ [mk_category id name "active"]) (bsfaults d)
           (next_branch_id d) (id + 1),
   id).

(** branchSetting.js:384-416 *)
Definition addCategory (name : option string) : St bsdb bsresponse :=
  if negb (js_truthy name) then bsreply 400 (BFail "Category name is required")
  else
    let* r := run_of (insert_category name) in
    match r with
    | None => bsreply 500 (BError "Error adding new category")
    | Some insertId => bsreply 201 (BCreated "Category added successfully" insertId)
    end.

Definition has_cid (id : Z) (c : category) : bool := c_id c =? id.

(** [UPDATE category_branch SET status = ? WHERE id = ?] *)
Definition update_category_status (id : Z) (s : string) (d : bsdb) : bsdb * Z :=
  (mk_bsdb (branches d)
           (List.map (fun c => if has_cid id c then mk_category (c_id c) (c_name c) s else c)
                     (categories d))
           (bsfaults d) (next_branch_id d) (next_category_id d),
   Z.of_nat (count_where (has_cid id) (categories d))).

(** branchSetting.js:419-462 *)
Definition updateCategoryStatus (id : option Z) (status : option string) : St bsdb bsresponse :=
  match id with
  | None => bsreply 400 (BFail "Category ID is required")
  | Some id =>
    if negb (js_truthy status && valid_status status)
    then bsreply 400 (BFail "Valid status (active/inactive) is required")
    else
      let s := default "" status in
      let* u := run_of (update_category_status id s) in
      match u with
      | None => bsreply 500 (BError "Error updating category status")
      | Some n =>
        if n =? 0 then bsreply 404 (BFail "Category not found")
        else bsreply 200 (BAffected ("Category status updated to " ++ s ++ " successfully") n)
      end
  end.

(** branchSetting.js:476: [UPDATE branches SET category_id = NULL WHERE
    category_id = ?] *)
Definition in_category (id : Z) (b : branch) : bool :=
  match category_id b with Some k => k =? id | None => false end.

Definition unlink_category (b : branch) : branch :=
  mk_branch (b_id b) (b_name b) None (location b) (phone_main b) (phone_orders b)
    (email_info b) (email_orders b) (opening_hours b) (map_embed b) (b_status b).

(** branchSetting.js:489: [DELETE FROM category_branch WHERE id = ?] *)
Definition delete_categories (id : Z) (d : bsdb) : bsdb * Z :=
  (mk_bsdb (branches d) (List.filter (fun c => negb (has_cid id c)) (categories d)) (bsfaults d)
           (next_branch_id d) (next_category_id d),
   Z.of_nat (count_where (has_cid id) (categories d))).

(** branchSetting.js:465-515 *)
Definition deleteCategory (id : option Z) : St bsdb bsresponse :=
  match id with
  | None => bsreply 400 (BFail "Category ID is required")
  | Some id =>
    let* u := run_of (update_branches (in_category id) unlink_category) in
    match u with
    | None => bsreply 500 (BError "Error preparing category deletion")
    | Some _ =>
      let* v := run_of (delete_categories id) in
      match v with
      | None => bsreply 500 (BError "Error deleting category")
      | Some n =>
        if n =? 0 then bsreply 404 (BFail "Category not found")
        else bsreply 200 (BAffected "Category deleted successfully, associated branches updated" n)
      end
    end
  end.

(** ** What the tables promise *)

(** A category id names a row of [category_branch], or is [NULL]. *)
Definition cat_exists (c : option Z) (d : bsdb) : bool :=
  match c with Some k => existsb (has_cid k) (categories d) | None => true end.

(** Every branch names an existing category or none. *)
Definition refs_ok (d : bsdb) : bool :=
  forallb (fun b => cat_exists (category_id b) d) (branches d).

(** Every branch's status is one of the two values the handlers write. *)
Definition statuses_ok (d : bsdb) : bool :=
  forallb (fun b => valid_status (Some (b_status b))) (branches d).

(** The requests over the two tables, one at a time; an added or updated
    branch names an existing category (the handlers do not check it). *)
Inductive bstep : bsdb -> bsdb -> Prop :=
| bstep_dashboard d : bstep d (snd (getAllBranchesForDashboard d))
| bstep_website d : bstep d (snd (getAllBranchesForWebsite d))
| bstep_get id d : bstep d (snd (getBranchById id d))
| bstep_update id f d :
    cat_exists (effectiveCategoryId (f_category_id f)) d = true -> bstep d (snd (updateBranch id f d))
| bstep_status id s d : bstep d (snd (updateBranchStatus id s d))
| bstep_add f d :
    cat_exists (effectiveCategoryId (f_category_id f)) d = true -> bstep d (snd (addBranch f d))
| bstep_delete id d : bstep d (snd (deleteBranch id d))
| bstep_stats d : bstep d (snd (getBranchStats d))
| bstep_categories d : bstep d (snd (getAllCategories d))
| bstep_add_category n d : bstep d (snd (addCategory n d))
| bstep_category_status id s d : bstep d (snd (updateCategoryStatus id s d))
| bstep_delete_category id d : bstep d (snd (deleteCategory id d)).

Inductive breach : bsdb -> Prop :=
| breach_init bs : breach (mk_bsdb [] [] bs 1 1)
| breach_step d d' : breach d -> bstep d d' -> breach d'.

(** The [category_name] the LEFT JOIN gives a branch first. *)
Definition category_name (d : bsdb) (b : branch) : option string :=
  match List.filter (cat_of b) (categories d) with [] => None | c :: _ => c_name c end.

(** The columns of [branches] the contact form reads (contact.js:97). *)
Definition contact_view (d : bsdb) : list Contact.BranchRow.t :=
  List.map (fun b => Contact.BranchRow.mk (b_id b) (b_status b)) (branches d).

(** Two categories and a branch, for the witnesses. *)
Definition ex_fields (k : option Z) : bfields :=
  mk_bfields (Some "Downtown") k (Some "Main St 1") (Some "555-0100") None
             (Some "info@shop.test") None (Some "9-17") None.
Definition ex_bsdb : bsdb :=
  mk_bsdb [mk_branch 1 (Some "Harbour") (Some 1) (Some "Quay 2") (Some "555-0199") None
             (Some "harbour@shop.test") None (Some "8-20") None "active"]
          [mk_category 1 (Some "City") "active"; mk_category 2 (Some "Mall") "inactive"] [] 2 3.

(** ** Lemmas *)

(** The order of the listings is total, so [merge_sort] sorts. *)
Lemma ostr_cmp_antisym a b : ostr_cmp b a = CompOpp (ostr_cmp a b).
Proof. destruct a, b; [apply String.compare_antisym|done..]. Qed.

Lemma lex_cmp_antisym k1 k2 : lex_cmp k2 k1 = CompOpp (lex_cmp k1 k2).
Proof.
  revert k2. induction k1 as [|x k1 IH]; intros [|y k2]; try done. cbn.
  rewrite ostr_cmp_antisym. destruct (ostr_cmp x y); cbn; auto.
Qed.

#[export] Instance order_by_total {A} (key : A -> list (option string)) : Total (order_by key).
Proof.
  intros a b. unfold order_by. rewrite (lex_cmp_antisym (key a) (key b)).
  destruct (lex_cmp (key a) (key b)); [left|left|right]; done.
Qed.

Lemma string_compare_refl x : String.compare x x = Eq.
Proof. induction x as [|a x IH]; [done|]. cbn. unfold Ascii.compare. by rewrite N.compare_refl. Qed.

(** On rows of one status the dashboard's order is the website's. *)
Lemma lex_cmp_status x r1 r2 : lex_cmp (Some x :: r1) (Some x :: r2) = lex_cmp r1 r2.
Proof. cbn. by rewrite string_compare_refl. Qed.

(** The effects of the statements on the two table invariants. *)
Lemma refs_ok_update_branches p g d :
  (forall b, In b (branches d) -> p b = true -> cat_exists (category_id (g b)) d = true) ->
  refs_ok d = true -> refs_ok (fst (update_branches p g d)) = true.
Proof.
  unfold refs_ok. cbn. rewrite !forallb_forall. intros Hg Hd b' (b & <- & Hb)%in_map_iff.
  destruct (p b) eqn:E; [by apply Hg|by apply Hd].
Qed.

Lemma refs_ok_insert_branch f d :
  cat_exists (effectiveCategoryId (f_category_id f)) d = true ->
  refs_ok d = true -> refs_ok (fst (insert_branch f d)) = true.
Proof.
  unfold refs_ok. cbn. rewrite !forallb_forall. intros Hc Hd b [Hb|[<-|[]]]%in_app_iff; [by apply Hd|exact Hc].
Qed.

Lemma refs_ok_delete_branches id d : refs_ok d = true -> refs_ok (fst (delete_branches id d)) = true.
Proof.
  unfold refs_ok. cbn. rewrite !forallb_forall. intros Hd b (Hb & _)%filter_In. by apply Hd.
Qed.

(** A statement on [category_branch] that keeps every id keeps the
    references. *)
Lemma refs_ok_categories d d' :
  branches d' = branches d ->
  (forall k, existsb (has_cid k) (categories d) = true -> existsb (has_cid k) (categories d') = true) ->
  refs_ok d = true -> refs_ok d' = true.
Proof.
  unfold refs_ok, cat_exists. intros Hb Hk. rewrite Hb, !forallb_forall.
  intros Hd b Hin. specialize (Hd b Hin). destruct (category_id b); auto.
Qed.

Lemma existsb_has_cid_update id s cs k :
  existsb (has_cid k) cs = true ->
  existsb (has_cid k) (List.map (fun c => if has_cid id c then mk_category (c_id c) (c_name c) s else c) cs) = true.
Proof.
  rewrite !existsb_exists. intros (c & Hc & Hk). exists (if has_cid id c then mk_category (c_id c) (c_name c) s else c).
  split; [apply in_map_iff; by exists c|]. by destruct (has_cid id c).
Qed.

(** After the unlinking UPDATE no branch is in the category, and then
    deleting it keeps the references. *)
Lemma unlink_clears id d :
  forallb (fun b => negb (in_category id b)) (branches (fst (update_branches (in_category id) unlink_category d))) = true.
Proof.
  apply forallb_forall. cbn. intros b' (b & <- & _)%in_map_iff. destruct (in_category id b) eqn:E; [done|by rewrite E].
Qed.

Lemma refs_ok_delete_categories id d :
  forallb (fun b => negb (in_category id b)) (branches d) = true ->
  refs_ok d = true -> refs_ok (fst (delete_categories id d)) = true.
Proof.
  unfold refs_ok, cat_exists. cbn. rewrite !forallb_forall. intros Hn Hd b Hb.
  specialize (Hn b Hb). specialize (Hd b Hb). unfold in_category in Hn.
  destruct (category_id b) as [k|]; [|done]. apply existsb_exists in Hd as (c & Hc & Hk).
  apply existsb_exists. exists c. split; [|done]. apply filter_In. split; [done|].
  unfold has_cid in *. apply negb_true_iff, Z.eqb_neq. apply Z.eqb_eq in Hk. apply negb_true_iff, Z.eqb_neq in Hn. lia.
Qed.

Lemma statuses_ok_update_branches p g d :
  (forall b, In b (branches d) -> p b = true -> valid_status (Some (b_status (g b))) = true) ->
  statuses_ok d = true -> statuses_ok (fst (update_branches p g d)) = true.
Proof.
  unfold statuses_ok. cbn. rewrite !forallb_forall. intros Hg Hd b' (b & <- & Hb)%in_map_iff.
  destruct (p b) eqn:E; [by apply Hg|by apply Hd].
Qed.

Lemma refs_ok_in d b : refs_ok d = true -> In b (branches d) -> cat_exists (category_id b) d = true.
Proof. unfold refs_ok. rewrite forallb_forall. auto. Qed.

Lemma statuses_ok_in d b : statuses_ok d = true -> In b (branches d) -> valid_status (Some (b_status b)) = true.
Proof. unfold statuses_ok. rewrite forallb_forall. auto. Qed.

Lemma valid_status_guard (status : option string) :
  negb (js_truthy status && valid_status status) = false -> valid_status (Some (default "" status)) = true.
Proof.
  destruct status as [s|]; [|done]. unfold valid_status, js_truthy, default.
  cbn. intros H. destruct (String.eqb s ""), (String.eqb s "active"), (String.eqb s "inactive"); cbn in *; congruence.
Qed.

(** The two-statement [deleteCategory] keeps the references whatever
    fails: the first statement leaves no branch in the category, and the
    second deletes the category only then. *)
Lemma deleteCategory_keeps_refs id : st_keeps (fun d => refs_ok d = true) (deleteCategory id).
Proof.
  intros d Hd. destruct id as [id|]; [|done]. unfold deleteCategory. rewrite st_bind_run.
  set (Q d := refs_ok d = true /\ forallb (fun b => negb (in_category id b)) (branches d) = true).
  pose proof (run_of_post (fun d => refs_ok d = true) ltac:(faults_free) Q
                (update_branches (in_category id) unlink_category) d) as H.
  destruct (run_of (update_branches (in_category id) unlink_category) d) as [[u|] d1]; cbn in H |- *;
    [|apply H; [|done]; intros s Hs; split; [apply refs_ok_update_branches|apply unlink_clears]; done].
  destruct H as [H1 H2]; [intros s Hs; split; [apply refs_ok_update_branches|apply unlink_clears]; done|done|].
  rewrite st_bind_run.
  pose proof (run_of_post Q ltac:(faults_free) (fun d => refs_ok d = true) (delete_categories id) d1) as H.
  destruct (run_of (delete_categories id) d1) as [[n|] d2]; cbn in H |- *.
  - assert (refs_ok d2 = true) by (apply H; [intros s [Hs Hn]; by apply refs_ok_delete_categories|done]).
    by destruct (n =? 0).
  - apply H; [intros s [Hs Hn]; by apply refs_ok_delete_categories|done].
Qed.

(** Reduce a step's goal to the [st_keeps] of its handler. *)
Ltac keeps_handler P :=
  match goal with |- context [snd (?m ?d)] =>
    let Hk := fresh "Hk" in enough (Hk : st_keeps P m) by (apply (Hk d); auto) end.

Lemma bstep_refs d d' : bstep d d' -> refs_ok d = true -> refs_ok d' = true.
Proof.
  intros Hs Hd. destruct Hs as [d|d|id d|id f d Hc|id s d|f d Hc|id d|d|d|n d|id s d|id d].
  12: by apply deleteCategory_keeps_refs.
  4: enough (Hk : st_keeps (fun d => refs_ok d = true /\ cat_exists (effectiveCategoryId (f_category_id f)) d = true)
                    (updateBranch id f)) by exact (proj1 (Hk d (conj Hd Hc))).
  6: enough (Hk : st_keeps (fun d => refs_ok d = true /\ cat_exists (effectiveCategoryId (f_category_id f)) d = true)
                    (addBranch f)) by exact (proj1 (Hk d (conj Hd Hc))).
  all: try keeps_handler (fun d => refs_ok d = true).
  all: unfold getAllBranchesForDashboard, getAllBranchesForWebsite, getBranchById, updateBranch,
         updateBranchStatus, addBranch, deleteBranch, getBranchStats, getAllCategories, addCategory,
         updateCategoryStatus, bsreply; keeps_faulty.
  all: intros st Hst; try match type of Hst with _ /\ _ => destruct Hst as [Hst Hc'] end.
  all: first
    [ split; [apply refs_ok_update_branches; [intros; exact Hc'|done]|exact Hc']
    | split; [by apply refs_ok_insert_branch|exact Hc']
    | apply refs_ok_update_branches; [intros b Hb _; exact (refs_ok_in st b Hst Hb)|done]
    | by apply refs_ok_delete_branches
    | apply (refs_ok_categories st); [done| |done]; intros k Hk; cbn;
      first [rewrite existsb_app, Hk; done|by apply existsb_has_cid_update] ].
Qed.

Lemma statuses_ok_insert_branch f d : statuses_ok d = true -> statuses_ok (fst (insert_branch f d)) = true.
Proof.
  unfold statuses_ok. cbn. rewrite forallb_app. intros ->. done.
Qed.

Lemma statuses_ok_delete_branches id d :
  statuses_ok d = true -> statuses_ok (fst (delete_branches id d)) = true.
Proof.
  unfold statuses_ok. cbn. rewrite !forallb_forall. intros Hd b (Hb & _)%filter_In. by apply Hd.
Qed.

Lemma bstep_statuses d d' : bstep d d' -> statuses_ok d = true -> statuses_ok d' = true.
Proof.
  intros Hs Hd. destruct Hs; keeps_handler (fun d => statuses_ok d = true).
  all: unfold getAllBranchesForDashboard, getAllBranchesForWebsite, getBranchById, updateBranch,
         updateBranchStatus, addBranch, deleteBranch, getBranchStats, getAllCategories, addCategory,
         updateCategoryStatus, deleteCategory, bsreply; keeps_faulty.
  all: intros st Hst.
  all: first
    [ apply statuses_ok_update_branches; [intros b Hb _; exact (statuses_ok_in st b Hst Hb)|done]
    | apply statuses_ok_update_branches; [intros b Hb _; by apply valid_status_guard|done]
    | by apply statuses_ok_insert_branch
    | by apply statuses_ok_delete_branches
    | exact Hst ].
Qed.

Lemma in_left_join r d : In r (left_join d) -> In r.1 (branches d).
Proof.
  unfold left_join. intros (b & Hb & Hr)%in_flat_map.
  destruct (List.filter (cat_of b) (categories d)) as [|c cs];
    [destruct Hr as [<-|[]]|apply in_map_iff in Hr as (c' & <- & _)]; done.
Qed.

Lemma left_join_snoc d d' b :
  branches d' = branches d ++ [b] -> categories d' = categories d ->
  left_join d' = left_join d ++
    match List.filter (cat_of b) (categories d) with
    | [] => [(b, None)] | cs => List.map (fun c => (b, c_name c)) cs end.
Proof. intros Hb Hc. unfold left_join. rewrite Hb, Hc, flat_map_app. cbn. by rewrite app_nil_r. Qed.

(** The contact form's view after a status update: the updated branch
    carries the new status, the others keep theirs. *)
Lemma contact_view_status id s d :
  contact_view (fst (update_branches (has_id id) (set_status s) d)) =
  List.map (fun b => Contact.BranchRow.mk (b_id b) (if has_id id b then s else b_status b)) (branches d).
Proof.
  unfold contact_view. cbn. rewrite List.map_map. apply List.map_ext. intros b. by destruct (has_id id b).
Qed.

(** [updateBranchStatus] on an existing branch with a valid status and
    no fault. *)
Lemma updateBranchStatus_nf id s d :
  bsfaults d = [] -> js_truthy (Some s) && valid_status (Some s) = true ->
  count_where (has_id id) (branches d) <> 0%nat ->
  updateBranchStatus (Some id) (Some s) d =
    (mk_bsresponse 200 (BAffected ("Branch status updated to " ++ s ++ " successfully")
                                  (Z.of_nat (count_where (has_id id) (branches d)))),
     fst (update_branches (has_id id) (set_status s) d)).
Proof.
  intros Hf Hv Hn. unfold updateBranchStatus. rewrite Hv. cbn [negb default]. cbv zeta.
  rewrite st_bind_run, run_of_nf by done. cbn [fst snd update_branches].
  destruct (Z.of_nat _ =? 0) eqn:E; [apply Z.eqb_eq in E; lia|done].
Qed.

(** ** Properties *)

(** C24: in every state reached from empty tables by the twelve handlers,
    whatever statements fail, every branch names an existing category or
    none, provided every added or updated branch names an existing
    category when it is written. *)
Theorem breach_refs_ok d : breach d -> refs_ok d = true.
Proof. induction 1 as [bs|d d' _ IH Hs]; [done|]. by apply (bstep_refs d). Qed.

(** C25: in every reachable state every branch's status is [active] or
    [inactive]: [addBranch] writes [active] and [updateBranchStatus]
    writes only what its guard allows. *)
Theorem breach_statuses_ok d : breach d -> statuses_ok d = true.
Proof. induction 1 as [bs|d d' _ IH Hs]; [done|]. by apply (bstep_statuses d). Qed.

(** [getBranchStats] answers counts with [active + inactive <= total],
    and [active + inactive = total] when every status is valid. *)
Theorem getBranchStats_counts d :
  bsfaults d = [] ->
  exists t a i, fst (getBranchStats d) = mk_bsresponse 200 (BStats "Branch statistics fetched successfully" t a i) /\
    0 <= a /\ 0 <= i /\ a + i <= t /\ (statuses_ok d = true -> a + i = t).
Proof.
  intros Hf. unfold getBranchStats. rewrite st_bind_run, query_of_nf by done. cbn [fst snd stats].
  eexists _, _, _. split; [reflexivity|]. split; [lia|]. split; [lia|].
  assert (Hd : forall b, status_is "active" b = true -> status_is "inactive" b = false).
  { unfold status_is. intros b ->%String.eqb_eq. done. }
  split.
  - pose proof (count_where_disjoint _ _ (branches d) Hd). lia.
  - intros Hs. enough (count_where (status_is "active") (branches d) +
                        count_where (status_is "inactive") (branches d) = length (branches d))%nat by lia.
    apply count_where_partition; [|done].
    intros b Hb. pose proof (statuses_ok_in d b Hs Hb) as Hv. unfold valid_status in Hv.
    unfold status_is. by apply orb_true_iff.
Qed.

(** With no fault, the dashboard lists a sorted permutation of the
    LEFT JOIN (by status, category name, branch name) and the website a
    sorted permutation (by category name, branch name) of the same rows
    with status [active]: the two listings hold the same active rows. *)
Theorem branch_listings d :
  bsfaults d = [] ->
  exists a w,
    fst (getAllBranchesForDashboard d) = mk_bsresponse 200 (BBranches "Branches fetched successfully" a) /\
    fst (getAllBranchesForWebsite d) = mk_bsresponse 200 (BBranches "Active branches fetched successfully" w) /\
    a ≡ₚ left_join d /\ Sorted (order_by dashboard_key) a /\
    w ≡ₚ List.filter is_active a /\ Sorted (order_by website_key) w.
Proof.
  intros Hf. unfold getAllBranchesForDashboard, getAllBranchesForWebsite.
  rewrite !st_bind_run, !query_of_nf by done. cbn [fst snd bsreply st_ret].
  eexists _, _. do 2 (split; [reflexivity|]).
  split; [apply merge_sort_Permutation|]. split; [apply Sorted_merge_sort, _|].
  split; [|apply Sorted_merge_sort, _].
  by rewrite !merge_sort_Permutation.
Qed.

(** A branch added with no fault is found by [getBranchById] under the
    [insertId] [addBranch] answered, with status [active], the request's
    fields and its category's name, provided the [AUTO_INCREMENT] counter
    is above every id. *)
Theorem addBranch_then_get f d :
  bsfaults d = [] -> Forall (fun b => b_id b < next_branch_id d) (branches d) -> required f = true ->
  fst (addBranch f d) = mk_bsresponse 201 (BCreated "Branch added successfully" (next_branch_id d)) /\
  fst (getBranchById (Some (next_branch_id d)) (snd (addBranch f d))) =
    mk_bsresponse 200 (BBranch "Branch data fetched successfully"
      (new_branch f (next_branch_id d), category_name d (new_branch f (next_branch_id d)))).
Proof.
  intros Hf Hlt Hr. unfold addBranch. rewrite Hr. cbn [negb].
  rewrite st_bind_run, run_of_nf by done. cbn [fst snd bsreply st_ret]. split; [done|].
  unfold getBranchById. rewrite st_bind_run, query_of_nf by done. cbn [fst snd].
  rewrite (left_join_snoc d _ (new_branch f (next_branch_id d))) by done.
  rewrite List.filter_app, filter_none.
  2: { apply List.Forall_forall. intros r Hin%in_left_join. apply List.Forall_forall with (x := r.1) in Hlt; [|done].
       unfold is_branch. apply Z.eqb_neq. lia. }
  unfold category_name. destruct (List.filter _ (categories d)) as [|c cs]; cbn;
    unfold is_branch; cbn; by rewrite Z.eqb_refl.
Qed.

(** C32: the contact form's branch check (contact.js:97, [Contact]) sees a
    status update of [updateBranchStatus] at once: after [inactive] it
    finds no active branch with the id, after [active] it finds one. *)
Theorem branch_status_reaches_contact d id :
  bsfaults d = [] -> (exists b, In b (branches d) /\ b_id b = id) ->
  bscode (fst (updateBranchStatus (Some id) (Some "inactive") d)) = 200 /\
  List.filter (Contact.active_branch id) (contact_view (snd (updateBranchStatus (Some id) (Some "inactive") d))) = [] /\
  bscode (fst (updateBranchStatus (Some id) (Some "active") d)) = 200 /\
  List.filter (Contact.active_branch id) (contact_view (snd (updateBranchStatus (Some id) (Some "active") d))) <> [].
Proof.
  intros Hf (b & Hb & Hid).
  assert (Hn : count_where (has_id id) (branches d) <> 0%nat).
  { unfold count_where. intros Hl%length_zero_iff_nil.
    assert (Hin : In b (List.filter (has_id id) (branches d))) by (apply filter_In; split; [done|apply Z.eqb_eq, Hid]).
    by rewrite Hl in Hin. }
  rewrite !updateBranchStatus_nf by done. cbn [fst snd bscode]. rewrite !contact_view_status.
  split; [done|split; [|split; [done|]]].
  - apply filter_none, List.Forall_forall. intros r (b' & <- & _)%in_map_iff.
    unfold Contact.active_branch; cbn. destruct (has_id id b') eqn:E; [by rewrite andb_false_r|].
    unfold has_id in E. by rewrite E.
  - intros Hl. assert (Hin : In (Contact.BranchRow.mk id "active")
      (List.filter (Contact.active_branch id)
         (List.map (fun b => Contact.BranchRow.mk (b_id b) (if has_id id b then "active" else b_status b))
                   (branches d)))).
    { apply filter_In. split; [apply in_map_iff; exists b; unfold has_id; by rewrite Hid, Z.eqb_refl|].
      unfold Contact.active_branch; cbn. by rewrite Z.eqb_refl. }
    by rewrite Hl in Hin.
Qed.

(** With no fault, deleting an existing category answers 200, the
    category is gone and no branch names it any more. *)
Theorem deleteCategory_success d id :
  bsfaults d = [] -> existsb (has_cid id) (categories d) = true ->
  bscode (fst (deleteCategory (Some id) d)) = 200 /\
  existsb (has_cid id) (categories (snd (deleteCategory (Some id) d))) = false /\
  forallb (fun b => negb (in_category id b)) (branches (snd (deleteCategory (Some id) d))) = true.
Proof.
  intros Hf Hc. unfold deleteCategory. rewrite st_bind_run, run_of_nf by done. cbn [fst snd].
  rewrite st_bind_run, run_of_nf by done. cbn [fst snd].
  assert (Hn : (snd (delete_categories id (fst (update_branches (in_category id) unlink_category d))) =? 0) = false).
  { cbn [delete_categories fst snd update_branches categories]. apply Z.eqb_neq. apply existsb_exists in Hc as (c & Hin & Hk).
    enough (count_where (has_cid id) (categories d) <> 0)%nat by lia.
    unfold count_where. intros Hl%length_zero_iff_nil.
    assert (Hin' : In c (List.filter (has_cid id) (categories d))) by (by apply filter_In).
    by rewrite Hl in Hin'. }
  rewrite Hn. cbn [bsreply st_ret fst snd bscode]. split; [done|split].
  - cbn. apply not_true_iff_false. intros (c & (_ & Hn')%filter_In & Hk)%existsb_exists.
    by rewrite Hk in Hn'.
  - apply unlink_clears.
Qed.

(** When the unlinking UPDATE succeeds and the DELETE fails,
    [deleteCategory] answers 500 and leaves the category in place with
    every one of its branches moved to no category: the two statements
    are not one transaction. *)
Theorem deleteCategory_partial d id :
  bsfaults d = [false; true] ->
  fst (deleteCategory (Some id) d) = mk_bsresponse 500 (BError "Error deleting category") /\
  categories (snd (deleteCategory (Some id) d)) = categories d /\
  branches (snd (deleteCategory (Some id) d)) =
    List.map (fun b => if in_category id b then unlink_category b else b) (branches d).
Proof. destruct d as [bs cs fl nb nc]. cbn. intros ->. done. Qed.

(** [addBranch] does not check that the category it writes exists:
    from a state where every branch names an existing category, adding a
    branch in category 9 (which does not exist) answers 201 and leaves a
    branch naming a missing category. *)
Example addBranch_dangling_category :
  refs_ok ex_bsdb = true /\
  fst (addBranch (ex_fields (Some 9)) ex_bsdb) = mk_bsresponse 201 (BCreated "Branch added successfully" 2) /\
  refs_ok (snd (addBranch (ex_fields (Some 9)) ex_bsdb)) = false.
Proof. vm_compute. auto. Qed.

(** ** Witnesses *)

Lemma breach_refs_ok_witness :
  breach (snd (addBranch (ex_fields (Some 1)) (snd (addCategory (Some "City") (mk_bsdb [] [] [] 1 1))))) /\
  refs_ok (snd (addBranch (ex_fields (Some 1)) (snd (addCategory (Some "City") (mk_bsdb [] [] [] 1 1))))) = true.
Proof.
  assert (H : breach (snd (addBranch (ex_fields (Some 1)) (snd (addCategory (Some "City") (mk_bsdb [] [] [] 1 1)))))).
  { apply (breach_step (snd (addCategory (Some "City") (mk_bsdb [] [] [] 1 1))));
      [apply (breach_step (mk_bsdb [] [] [] 1 1)); [apply breach_init|apply bstep_add_category]|].
    apply bstep_add. reflexivity. }
  split; [exact H|exact (breach_refs_ok _ H)].
Defined.

Lemma breach_statuses_ok_witness :
  breach (snd (updateBranchStatus (Some 1) (Some "inactive") (snd (addBranch (ex_fields None) (mk_bsdb [] [] [] 1 1))))) /\
  statuses_ok (snd (updateBranchStatus (Some 1) (Some "inactive") (snd (addBranch (ex_fields None) (mk_bsdb [] [] [] 1 1))))) = true.
Proof.
  assert (H : breach (snd (updateBranchStatus (Some 1) (Some "inactive") (snd (addBranch (ex_fields None) (mk_bsdb [] [] [] 1 1)))))).
  { apply (breach_step (snd (addBranch (ex_fields None) (mk_bsdb [] [] [] 1 1))));
      [apply (breach_step (mk_bsdb [] [] [] 1 1)); [apply breach_init|apply bstep_add; reflexivity]|].
    apply bstep_status. }
  split; [exact H|exact (breach_statuses_ok _ H)].
Defined.

Lemma getBranchStats_counts_witness :
  bsfaults ex_bsdb = [] /\
  exists t a i, fst (getBranchStats ex_bsdb) = mk_bsresponse 200 (BStats "Branch statistics fetched successfully" t a i) /\
    0 <= a /\ 0 <= i /\ a + i <= t /\ (statuses_ok ex_bsdb = true -> a + i = t).
Proof. split; [reflexivity|apply (getBranchStats_counts ex_bsdb); reflexivity]. Defined.

Lemma branch_listings_witness :
  bsfaults ex_bsdb = [] /\
  exists a w,
    fst (getAllBranchesForDashboard ex_bsdb) = mk_bsresponse 200 (BBranches "Branches fetched successfully" a) /\
    fst (getAllBranchesForWebsite ex_bsdb) = mk_bsresponse 200 (BBranches "Active branches fetched successfully" w) /\
    a ≡ₚ left_join ex_bsdb /\ Sorted (order_by dashboard_key) a /\
    w ≡ₚ List.filter is_active a /\ Sorted (order_by website_key) w.
Proof. split; [reflexivity|apply (branch_listings ex_bsdb); reflexivity]. Defined.

Lemma addBranch_then_get_witness :
  fst (addBranch (ex_fields (Some 2)) ex_bsdb) = mk_bsresponse 201 (BCreated "Branch added successfully" 2) /\
  fst (getBranchById (Some 2) (snd (addBranch (ex_fields (Some 2)) ex_bsdb))) =
    mk_bsresponse 200 (BBranch "Branch data fetched successfully"
      (new_branch (ex_fields (Some 2)) 2, category_name ex_bsdb (new_branch (ex_fields (Some 2)) 2))).
Proof.
  apply (addBranch_then_get (ex_fields (Some 2)) ex_bsdb); [reflexivity| |reflexivity].
  repeat constructor; cbn; lia.
Defined.

Lemma branch_status_reaches_contact_witness :
  bscode (fst (updateBranchStatus (Some 1) (Some "inactive") ex_bsdb)) = 200 /\
  List.filter (Contact.active_branch 1) (contact_view (snd (updateBranchStatus (Some 1) (Some "inactive") ex_bsdb))) = [] /\
  bscode (fst (updateBranchStatus (Some 1) (Some "active") ex_bsdb)) = 200 /\
  List.filter (Contact.active_branch 1) (contact_view (snd (updateBranchStatus (Some 1) (Some "active") ex_bsdb))) <> [].
Proof.
  apply (branch_status_reaches_contact ex_bsdb 1); [reflexivity|].
  eexists. split; [left; reflexivity|reflexivity].
Defined.

Lemma deleteCategory_success_witness :
  bscode (fst (deleteCategory (Some 1) ex_bsdb)) = 200 /\
  existsb (has_cid 1) (categories (snd (deleteCategory (Some 1) ex_bsdb))) = false /\
  forallb (fun b => negb (in_category 1 b)) (branches (snd (deleteCategory (Some 1) ex_bsdb))) = true.
Proof. apply (deleteCategory_success ex_bsdb 1); reflexivity. Defined.

Lemma deleteCategory_partial_witness :
  fst (deleteCategory (Some 1) (with_faults [false; true] ex_bsdb)) = mk_bsresponse 500 (BError "Error deleting category") /\
  categories (snd (deleteCategory (Some 1) (with_faults [false; true] ex_bsdb))) = categories (with_faults [false; true] ex_bsdb) /\
  branches (snd (deleteCategory (Some 1) (with_faults [false; true] ex_bsdb))) =
    List.map (fun b => if in_category 1 b then unlink_category b else b) (branches (with_faults [false; true] ex_bsdb)).
Proof. apply (deleteCategory_partial (with_faults [false; true] ex_bsdb) 1). reflexivity. Defined.

End Branches.
