(* ===== verification/Items.v ===== *)
(** * Catalogue items: [src/controller/category/item.js]

    The table [items] (with [category] for the LEFT JOIN that gives
    [category_title]), the [uploads] folder holding the item images, and
    the nine handlers: the two plain listings, the two paginated client
    listings with their optional search, the lookup by id, and the
    insertion, edit, deletion and status update.  The query-string
    numbers go through [parseInt(x, 10) || d] ([parse_int], [query_num]),
    the page through [LIMIT offset, count] ([limit_rows]) and the search
    through [LIKE '%term%'] ([like]).  The theorems: [parse_int] reads
    back every decimal numeral, the pages of a listing tile it, a page
    number below 1 makes the data query fail, a search term is a
    substring test only when it holds no wildcard, the category search
    names a table that does not exist, and the images of the folder
    follow the rows. *)

From stdpp Require Import base list strings decidable sorting sets.
From Stdlib Require Import ZArith Lia Ascii.
From S2P Require Import Prelude Regex.

Open Scope Z_scope.
Open Scope st_scope.

Module Items.
Import Regex.

(** ** [parseInt(s, 10)] *)

Fixpoint skip_ws (s : string) : string :=
  match s with
  | String c s' => if is_space c then skip_ws s' else s
  | EmptyString => EmptyString
  end.

Definition digit_val (c : ascii) : Z := Z.of_nat (nat_of_ascii c) - 48.

(** The longest prefix of decimal digits: its value added to [acc * 10^n]
    and its length [n]. *)
Fixpoint digits_acc (acc : Z) (s : string) : Z * nat :=
  match s with
  | String c s' =>
    if is_digit c then let '(v, n) := digits_acc (acc * 10 + digit_val c) s' in (v, S n)
    else (acc, O)
  | EmptyString => (acc, O)
  end.

(** [parseInt(s, 10)]: leading white space, a sign, the longest run of
    digits; [None] is [NaN] (no digit). *)
Definition parse_int (s : string) : option Z :=
  let s := skip_ws s in
  let '(sign, rest) :=
    match s with
    | String c r => if Ascii.eqb c "-" then (-1, r) else if Ascii.eqb c "+" then (1, r) else (1, s)
    | EmptyString => (1, s)
    end in
  let '(v, n) := digits_acc 0 rest in
  if (n =? 0)%nat then None else Some (sign * v).

(** [parseInt(q, 10) || d], with [d] also when the parameter is absent
    (its default [1] or [15] parses to itself). *)
Definition query_num (q : option string) (d : Z) : Z :=
  match q with
  | None => d
  | Some s => match parse_int s with None => d | Some n => if n =? 0 then d else n end
  end.

(** A string column written with a string: MySQL keeps its numeric
    prefix, [0] when there is none. *)
Definition mysql_int (s : string) : Z := default 0 (parse_int s).

(** ** [LIKE] and [trim] *)

(** [p LIKE s] with [%], [_] and the escape [\]. *)
Fixpoint like (p s : string) {struct p} : bool :=
  match p with
  | EmptyString => match s with EmptyString => true | _ => false end
  | String c p' =>
    if Ascii.eqb c "%" then
      (fix any (s : string) : bool :=
         like p' s || match s with String _ s' => any s' | EmptyString => false end) s
    else if Ascii.eqb c "_" then
      match s with String _ s' => like p' s' | EmptyString => false end
    else if Ascii.eqb c "\" then
      match p' with
      | String e r => match s with String c' s' => Ascii.eqb e c' && like r s' | EmptyString => false end
      | EmptyString => match s with String c' s' => Ascii.eqb c c' && like p' s' | EmptyString => false end
      end
    else match s with String c' s' => Ascii.eqb c c' && like p' s' | EmptyString => false end
  end.

Fixpoint rev_str (s : string) (acc : string) : string :=
  match s with String c s' => rev_str s' (String c acc) | EmptyString => acc end.

(** [String.prototype.trim]. *)
Definition trim (s : string) : string := rev_str (skip_ws (rev_str (skip_ws s) "")) "".

(** ** The tables *)

(** A row of [items]; [None] is [NULL]. *)
Record item := mk_item {
  i_id : Z;
  i_category_id : option Z;
  i_title : option string;
  i_image : option string;
  i_status : option Z
}.

(** The columns of [category] read by the join. *)
Record icategory := mk_icategory { ic_id : Z; ic_title : option string }.

Record idb := mk_idb {
  items : list item;
  icategories : list icategory;   (** table [category] *)
  iuploads : list string;         (** the names of the files of [uploads/] *)
  ifaults : list bool;
  next_item_id : Z
}.

#[export] Instance idb_faulty : Faulty idb :=
  {| faults_of := ifaults;
     with_faults bs d := mk_idb (items d) (icategories d) (iuploads d) bs (next_item_id d) |}.

(** [items.*, category.title as category_title] *)
Definition irow : Type := item * option string.

Inductive ibody :=
| IText (msg : string)                              (** [res.send(msg)] *)
| IItems (rows : list item)                         (** [res.json(result)] *)
| IItem (r : item)                                  (** [res.json(result[0])] *)
| IPage (rows : list irow) (total : Z)              (** [{items, total}] with the join *)
| IPagePlain (rows : list item) (total : Z)         (** [{items, total}] without it *)
| IPageError (msg : string)                         (** [{error, items: [], total: 0}] *)
| IOk.                                              (** [res.sendStatus(200)] *)

Record iresponse := mk_iresponse { icode : Z; ibody_of : ibody }.

Definition ireply (c : Z) (b : ibody) : St idb iresponse := st_ret (mk_iresponse c b).

(** A statement naming a table the database does not have fails before
    it runs; the tables are [items] and [category]. *)
Definition table_exists (name : string) : bool :=
  String.eqb name "items" || String.eqb name "category".

Definition query_tbl {R} (tbl : string) (sel : idb -> R) : St idb (option R) :=
  if table_exists tbl then query_of sel else st_ret None.

(** ** The SELECTs *)

Definition active (r : item) : bool := bool_decide (i_status r = Some 1).

(** [category_id = ?] with the parameter a string. *)
Definition in_category (c : string) (r : item) : bool := bool_decide (i_category_id r = Some (mysql_int c)).

(** [ORDER BY id DESC] *)
Definition id_desc (a b : item) : Prop := i_id b <= i_id a.
#[export] Instance id_desc_dec : RelDecision id_desc.
Proof. intros a b. unfold id_desc. apply _. Defined.

Definition by_id_desc (l : list item) : list item := merge_sort id_desc l.

(** [LEFT JOIN category ON items.category_id = category.id] *)
Definition join_category (d : idb) (r : item) : list irow :=
  match List.filter (fun c => bool_decide (i_category_id r = Some (ic_id c))) (icategories d) with
  | [] => [(r, None)]
  | cs => List.map (fun c => (r, ic_title c)) cs
  end.

(** [LIMIT offset, count]: a negative number is a syntax error of the
    statement mysql2 formats. *)
Definition limit_rows {A} (offset count : Z) (rows : list A) : option (list A) :=
  if (offset <? 0) || (count <? 0) then None
  else Some (firstn (Z.to_nat count) (skipn (Z.to_nat offset) rows)).

(** [(items.title LIKE ? OR category.title LIKE ?)] *)
Definition title_like (pat : string) (r : irow) : bool :=
  match i_title r.1 with Some t => like pat t | None => false end ||
  match r.2 with Some t => like pat t | None => false end.

(** [!search || search.trim() === ""] *)
Definition no_search (search : option string) : bool :=
  match search with None => true | Some s => String.eqb (trim s) "" end.

Definition search_term (search : option string) : string :=
  String "%" (trim (default "" search) ++ "%").

(** ** The handlers *)

(** item.js:14-32 *)
Definition getAllItems (category_id : option string) : St idb iresponse :=
  let* result := query_of (fun d => by_id_desc (List.filter (fun r =>
                   (if js_truthy category_id then in_category (default "" category_id) r else true) && active r)
                   (items d))) in
  match result with
  | None => ireply 500 (IText "Error fetching items")
  | Some rows => ireply 200 (IItems rows)
  end.

(** item.js:36-43 *)
Definition getItemsByCategory (categoryId : string) : St idb iresponse :=
  let* result := query_of (fun d => by_id_desc (List.filter (fun r => in_category categoryId r && active r) (items d))) in
  match result with
  | None => ireply 500 (IText "Error fetching items")
  | Some rows => ireply 200 (IItems rows)
  end.

(** The rows both client listings page through: the active items (of the
    category), joined, newest id first. *)
Definition client_rows (category_id : option string) (pat : option string) (d : idb) : list irow :=
  List.filter (fun r => match pat with Some p => title_like p r | None => true end)
    (flat_map (join_category d)
       (by_id_desc (List.filter (fun r =>
          (if js_truthy category_id then in_category (default "" category_id) r else true) && active r)
          (items d)))).

(** item.js:147-239: the count, then the page. *)
Definition getAllItemsClient (category_id page limit search : option string) : St idb iresponse :=
  let pageNum := query_num page 1 in
  let limitNum := query_num limit 15 in
  let offset := (pageNum - 1) * limitNum in
  let pat := if no_search search then None else Some (search_term search) in
  let* countResult := query_tbl "category" (fun d => Z.of_nat (length (client_rows category_id pat d))) in
  match countResult with
  | None => ireply 500 (IPageError "Error fetching count")
  | Some total =>
    let* rows := query_tbl "category" (fun d => limit_rows offset limitNum (client_rows category_id pat d)) in
    match rows with
    | Some (Some items) => ireply 200 (IPage items total)
    | _ => ireply 500 (IPageError "Error fetching items")
    end
  end.

Definition category_rows (categoryId : string) (d : idb) : list item :=
  by_id_desc (List.filter (fun r => in_category categoryId r && active r) (items d)).

(** item.js:243-326; the search joins [categories], which is no table of
    the database (the others name it [category]). *)
Definition getItemsByCategoryClient (categoryId : string) (page limit search : option string) : St idb iresponse :=
  let pageNum := query_num page 1 in
  let limitNum := query_num limit 15 in
  let offset := (pageNum - 1) * limitNum in
  if no_search search then
    let* countResult := query_tbl "items" (fun d => Z.of_nat (length (category_rows categoryId d))) in
    match countResult with
    | None => ireply 500 (IPageError "Error fetching count")
    | Some total =>
      let* rows := query_tbl "items" (fun d => limit_rows offset limitNum (category_rows categoryId d)) in
      match rows with
      | Some (Some items) => ireply 200 (IPagePlain items total)
      | _ => ireply 500 (IPageError "Error fetching items")
      end
    end
  else
    let pat := search_term search in
    let sel d := List.filter (title_like pat) (flat_map (join_category d) (category_rows categoryId d)) in
    let* countResult := query_tbl "categories" (fun d => Z.of_nat (length (sel d))) in
    match countResult with
    | None => ireply 500 (IPageError "Error fetching count")
    | Some total =>
      let* rows := query_tbl "categories" (fun d => limit_rows offset limitNum (sel d)) in
      match rows with
      | Some (Some items) => ireply 200 (IPage items total)
      | _ => ireply 500 (IPageError "Error fetching items")
      end
    end.

(** item.js:108-116 *)
Definition getItemById (id : string) : St idb iresponse :=
  let* result := query_of (fun d => List.filter (fun r => bool_decide (i_id r = mysql_int id) && active r) (items d)) in
  match result with
  | None => ireply 500 (IText "Error fetching item")
  | Some [] => ireply 404 (IText "Item not found")
  | Some (r :: _) => ireply 200 (IItem r)
  end.

(** item.js:54-59: [INSERT INTO items (category_id, title, image, status)]. *)
Definition insert_item (category_id title : string) (image : string) (status : option string) (d : idb) : idb * Z :=
  let id := next_item_id d in
  (mk_idb (items d ++ [mk_item id (Some (mysql_int category_id)) (Some title) (Some image)
                        (Some (if js_truthy status then mysql_int (default "" status) else 1))])
          (icategories d) (iuploads d) (ifaults d) (id + 1),
   id).

(** item.js:47-63; [file] is [req.file.filename], already in the folder. *)
Definition addItem (title status category_id file : option string) : St idb iresponse :=
  match title, category_id, file with
  | Some t, Some c, Some img =>
    if js_truthy title && js_truthy category_id && js_truthy file then
      let* r := run_of (insert_item c t img status) in
      match r with
      | None => ireply 500 (IText "Error adding item")
      | Some _ => ireply 200 IOk
      end
    else ireply 400 (IText "Required fields missing")
  | _, _, _ => ireply 400 (IText "Required fields missing")
  end.

Definition has_id (id : string) (r : item) : bool := bool_decide (i_id r = mysql_int id).

(** [UPDATE items SET ... WHERE id = ?] with its [affectedRows]. *)
Definition update_items (id : string) (g : item -> item) (d : idb) : idb * Z :=
  (mk_idb (List.map (fun r => if has_id id r then g r else r) (items d)) (icategories d) (iuploads d)
          (ifaults d) (next_item_id d),
   Z.of_nat (count_where (has_id id) (items d))).

(** item.js:79 and :95: the SET clauses; an [undefined] field is [NULL]. *)
Definition set_item (category_id title status : option string) (image : option string) (r : item) : item :=
  mk_item (i_id r) (option_map mysql_int category_id) title
          (match image with Some i => Some i | None => i_image r end) (option_map mysql_int status).

(** item.js:6-12 [safeUnlink] *)
Definition safeUnlink (name : string) : St idb unit :=
  fun d => (tt, mk_idb (items d) (icategories d) (List.filter (fun n => negb (String.eqb n name)) (iuploads d))
                       (ifaults d) (next_item_id d)).

(** [SELECT image FROM items WHERE id=?] and [result[0]?.image] *)
Definition select_image (id : string) (d : idb) : list (option string) :=
  List.map i_image (List.filter (has_id id) (items d)).

Definition first_image (l : list (option string)) : option string :=
  match l with r :: _ => r | [] => None end.

(** item.js:67-103 *)
Definition editItem (id : string) (title status category_id file : option string) : St idb iresponse :=
  match file with
  | Some image =>
    let* result := query_of (select_image id) in
    match result with
    | None => ireply 500 (IText "Error fetching item image")
    | Some result =>
      let oldImage := first_image result in
      let* u := run_of (update_items id (set_item category_id title status (Some image))) in
      match u with
      | None => ireply 500 (IText "Error updating item")
      | Some _ =>
        let* _ := (if js_truthy oldImage then safeUnlink (default "" oldImage) else st_ret tt) in
        ireply 200 IOk
      end
    end
  | None =>
    let* u := run_of (update_items id (set_item category_id title status None)) in
    match u with
    | None => ireply 500 (IText "Error updating item")
    | Some _ => ireply 200 IOk
    end
  end.

(** [DELETE FROM items WHERE id=?] *)
Definition delete_items (id : string) (d : idb) : idb * Z :=
  (mk_idb (List.filter (fun r => negb (has_id id r)) (items d)) (icategories d) (iuploads d)
          (ifaults d) (next_item_id d),
   Z.of_nat (count_where (has_id id) (items d))).

(** item.js:120-144 *)
Definition deleteItem (id : string) : St idb iresponse :=
  let* result := query_of (select_image id) in
  match result with
  | None => ireply 500 (IText "Error fetching item image")
  | Some [] => ireply 404 (IText "Item not found")
  | Some (imageName :: _) =>
    let* u := run_of (delete_items id) in
    match u with
    | None => ireply 500 (IText "Error deleting item")
    | Some _ =>
      let* _ := (if js_truthy imageName then safeUnlink (default "" imageName) else st_ret tt) in
      ireply 200 IOk
    end
  end.

Definition set_status (s : string) (r : item) : item :=
  mk_item (i_id r) (i_category_id r) (i_title r) (i_image r) (Some (mysql_int s)).

(** item.js:330-352 *)
Definition updateItemStatus (id : string) (status : option string) : St idb iresponse :=
  match status with
  | None => ireply 400 (IText "Status is required")
  | Some s =>
    let* u := run_of (update_items id (set_status s)) in
    match u with
    | None => ireply 500 (IText "Error updating item status")
    | Some n => if n =? 0 then ireply 404 (IText "Item not found") else ireply 200 IOk
    end
  end.

(** ** Decimal numerals *)

(** The decimal digits of [n], least significant first, with fuel. *)
Fixpoint digits_rev (fuel : nat) (n : Z) : list Z :=
  match fuel with
  | O => []
  | S f => if n <? 10 then [n] else n mod 10 :: digits_rev f (n / 10)
  end.

Definition digit_char (d : Z) : ascii := ascii_of_nat (Z.to_nat d + 48).

Fixpoint string_of_digits (ds : list Z) : string :=
  match ds with [] => EmptyString | d :: ds' => String (digit_char d) (string_of_digits ds') end.

(** [String(n)] for an integer: a sign and the digits, most significant
    first; [log2 n + 1] steps are enough fuel. *)
Definition show_Z (n : Z) : string :=
  let m := Z.abs n in
  let ds := string_of_digits (rev (digits_rev (S (Z.to_nat (Z.log2 m))) m)) in
  if n <? 0 then String "-" ds else ds.

(** The page number of the [k]-th page, as a client writes it. *)
Definition page_param (k : nat) : option string := Some (show_Z (Z.of_nat k + 1)).

(** A search term with none of LIKE's special characters. *)
Fixpoint no_wild (t : string) : bool :=
  match t with
  | EmptyString => true
  | String c t' => negb (Ascii.eqb c "%" || Ascii.eqb c "_" || Ascii.eqb c "\") && no_wild t'
  end.

(** The rows a [200] of a paginated listing carries. *)
Definition page_items (r : iresponse) : list irow :=
  match ibody_of r with IPage rows _ => rows | _ => [] end.

(** Three active items of category 1 and one inactive, for the witnesses. *)
Definition ex_item (id : Z) (t : string) (st : Z) : item :=
  mk_item id (Some 1) (Some t) (Some (t ++ ".png")%string) (Some st).
Definition ex_idb : idb :=
  mk_idb [ex_item 1 "Barfi" 1; ex_item 2 "Ladoo" 1; ex_item 3 "Jalebi" 0; ex_item 4 "Kaju Katli" 1]
         [mk_icategory 1 (Some "Sweets")] ["Barfi.png"; "Ladoo.png"; "Jalebi.png"; "Kaju Katli.png"] [] 5.

(** The folder and the rows agree: ids are unique and below the
    [AUTO_INCREMENT] counter, no two rows name one image, and every image a
    row names is a file of the folder. *)
Definition images_ok (d : idb) : Prop :=
  NoDup (List.map i_id (items d)) /\ Forall (fun r => i_id r < next_item_id d) (items d) /\
  NoDup (omap i_image (items d)) /\ (forall n, n ∈ omap i_image (items d) -> n ∈ iuploads d).

(** What multer guarantees of an uploaded file: it is in the folder under
    a new, non-empty name. *)
Definition fresh_upload (d : idb) (f : option string) : Prop :=
  forall img, f = Some img -> img ∈ iuploads d /\ img <> "" /\ img ∉ omap i_image (items d).

(** The requests on items, one at a time. *)
Inductive istep : idb -> idb -> Prop :=
| istep_getAllItems c d : istep d (snd (getAllItems c d))
| istep_getItemsByCategory c d : istep d (snd (getItemsByCategory c d))
| istep_getAllItemsClient c p l s d : istep d (snd (getAllItemsClient c p l s d))
| istep_getItemsByCategoryClient c p l s d : istep d (snd (getItemsByCategoryClient c p l s d))
| istep_getItemById id d : istep d (snd (getItemById id d))
| istep_addItem t st c f d : fresh_upload d f -> istep d (snd (addItem t st c f d))
| istep_editItem id t st c f d : fresh_upload d f -> istep d (snd (editItem id t st c f d))
| istep_deleteItem id d : istep d (snd (deleteItem id d))
| istep_updateItemStatus id s d : istep d (snd (updateItemStatus id s d)).

Inductive ireach : idb -> Prop :=
| ireach_init cs ups bs : ireach (mk_idb [] cs ups bs 1)
| ireach_step d d' : ireach d -> istep d d' -> ireach d'.

(** One request on items with the file multer stored for it ([None] for
    the requests that take none), as another controller sharing the
    folder sees it. *)
Inductive ihandle : option string -> idb -> idb -> Prop :=
| ih_getAllItems c d : ihandle None d (snd (getAllItems c d))
| ih_getItemsByCategory c d : ihandle None d (snd (getItemsByCategory c d))
| ih_getAllItemsClient c p l s d : ihandle None d (snd (getAllItemsClient c p l s d))
| ih_getItemsByCategoryClient c p l s d : ihandle None d (snd (getItemsByCategoryClient c p l s d))
| ih_getItemById id d : ihandle None d (snd (getItemById id d))
| ih_addItem t st c f d : ihandle f d (snd (addItem t st c f d))
| ih_editItem id t st c f d : ihandle f d (snd (editItem id t st c f d))
| ih_deleteItem id d : ihandle None d (snd (deleteItem id d))
| ih_updateItemStatus id s d : ihandle None d (snd (updateItemStatus id s d)).

(** What a request on items does to the rest of the folder: it keeps the
    table [category], removes only files an item named, and names no
    file but those items named and the upload [f]. *)
Definition item_frame (f : option string) (d d' : idb) : Prop :=
  icategories d' = icategories d /\
  (forall n, n ∈ iuploads d -> n ∉ iuploads d' -> n ∈ omap i_image (items d)) /\
  (forall n, n ∈ omap i_image (items d') -> n ∈ omap i_image (items d) \/ f = Some n).

(** ** Lemmas *)

Definition is_dec (d : Z) : Prop := 0 <= d < 10.

(** The ten digit characters, one at a time. *)
Lemma digit_char_cases d :
  is_dec d ->
  is_digit (digit_char d) = true /\ digit_val (digit_char d) = d /\ is_space (digit_char d) = false /\
  Ascii.eqb (digit_char d) "-" = false /\ Ascii.eqb (digit_char d) "+" = false.
Proof.
  unfold is_dec. intros Hd.
  assert (d = 0 \/ d = 1 \/ d = 2 \/ d = 3 \/ d = 4 \/ d = 5 \/ d = 6 \/ d = 7 \/ d = 8 \/ d = 9) as Hc by lia.
  repeat destruct Hc as [->|Hc]; [..|subst d]; vm_compute; auto.
Qed.

(** Reading digits folds them into the accumulator (Digits.v's
    [digits_to_nat_aux]). *)
Lemma digits_acc_digits acc ds :
  Forall is_dec ds ->
  digits_acc acc (string_of_digits ds) = (fold_left (fun a d => a * 10 + d) ds acc, length ds).
Proof.
  intros Hds. revert acc. induction Hds as [|d ds Hd _ IH]; intros acc; [done|].
  destruct (digit_char_cases d Hd) as (Hdig & Hval & _). cbn. rewrite Hdig, Hval, IH. done.
Qed.

(** With enough fuel the digits are decimal and fold back to [n]. *)
Lemma digits_rev_spec f n :
  0 <= n < 10 ^ Z.of_nat (S f) ->
  Forall is_dec (digits_rev (S f) n) /\ fold_left (fun a d => a * 10 + d) (rev (digits_rev (S f) n)) 0 = n.
Proof.
  revert n. induction f as [|f IH]; intros n Hn.
  - cbn in Hn. cbn. replace (n <? 10) with true by lia. cbn. split; [repeat constructor; unfold is_dec; lia|lia].
  - change (digits_rev (S (S f)) n) with (if n <? 10 then [n] else n mod 10 :: digits_rev (S f) (n / 10)).
    destruct (n <? 10) eqn:E.
    + cbn. split; [repeat constructor; unfold is_dec; lia|lia].
    + destruct (IH (n / 10)) as [Hds Hv].
      { split; [apply Z.div_pos; lia|]. apply Z.div_lt_upper_bound; [lia|].
        rewrite Nat2Z.inj_succ, Z.pow_succ_r in Hn by lia. lia. }
      split; [constructor; [unfold is_dec; split; [apply Z.mod_pos_bound|apply Z.mod_pos_bound]; lia|done]|].
      cbn [rev]. rewrite fold_left_app. cbn [fold_left]. rewrite Hv.
      pose proof (Z.div_mod n 10 ltac:(lia)). lia.
Qed.

Lemma show_fuel m : 0 <= m -> m < 10 ^ Z.of_nat (S (Z.to_nat (Z.log2 m))).
Proof.
  intros Hm. rewrite Nat2Z.inj_succ, Z2Nat.id by apply Z.log2_nonneg.
  destruct (Z.eq_dec m 0) as [->|]; [cbn; lia|].
  pose proof (Z.log2_spec m ltac:(lia)) as [_ Hlt].
  eapply Z.lt_le_trans; [exact Hlt|]. apply Z.pow_le_mono_l. split; [lia|lia].
Qed.

Lemma skip_ws_digits ds : Forall is_dec ds -> skip_ws (string_of_digits ds) = string_of_digits ds.
Proof. intros [|d ds' Hd _]; [done|]. cbn. by rewrite (proj1 (proj2 (proj2 (digit_char_cases d Hd)))). Qed.

(** The digits of [|n|] as [show_Z] writes them. *)
Lemma show_digits n :
  let ds := rev (digits_rev (S (Z.to_nat (Z.log2 (Z.abs n)))) (Z.abs n)) in
  Forall is_dec ds /\ ds <> [] /\ fold_left (fun a d => a * 10 + d) ds 0 = Z.abs n.
Proof.
  destruct (digits_rev_spec (Z.to_nat (Z.log2 (Z.abs n))) (Z.abs n)) as [Hds Hv];
    [split; [lia|apply show_fuel; lia]|].
  split; [by apply Forall_rev|]. split; [|done].
  cbn [digits_rev]. destruct (_ <? 10); cbn; [done|]. intros Hnil%app_eq_nil. by destruct Hnil as [_ ?].
Qed.

(** Consecutive windows of [L] rows tile the first [n * L] rows. *)
Lemma pages_tile {A} (rows : list A) (L n : nat) :
  concat (List.map (fun k => firstn L (skipn (k * L) rows)) (seq 0 n)) = firstn (n * L) rows.
Proof.
  induction n as [|n IH]; [done|].
  rewrite seq_S, List.map_app, concat_app, IH. cbn [List.map concat]. rewrite app_nil_r.
  rewrite take_take_drop. f_equal. lia.
Qed.

(** A paginated client listing with no fault: the count, then the
    window. *)
Lemma getAllItemsClient_nf d cat page lim search :
  ifaults d = [] ->
  let pat := if no_search search then None else Some (search_term search) in
  let offset := (query_num page 1 - 1) * query_num lim 15 in
  fst (getAllItemsClient cat page lim search d) =
    match limit_rows offset (query_num lim 15) (client_rows cat pat d) with
    | Some items => mk_iresponse 200 (IPage items (Z.of_nat (length (client_rows cat pat d))))
    | None => mk_iresponse 500 (IPageError "Error fetching items")
    end.
Proof.
  intros Hf pat offset. unfold getAllItemsClient, query_tbl. cbv zeta.
  replace (table_exists "category") with true by reflexivity.
  rewrite st_bind_run, query_of_nf by done. cbn [fst snd].
  rewrite st_bind_run, query_of_nf by done. cbn [fst snd].
  fold pat. fold offset. by destruct (limit_rows _ _ _).
Qed.

Lemma query_num_nonzero q d : d <> 0 -> query_num q d <> 0.
Proof.
  intros Hd. unfold query_num. destruct q as [s|]; [|done].
  destruct (parse_int s) as [n|]; [|done]. destruct (n =? 0) eqn:E; [done|]. by apply Z.eqb_neq.
Qed.

(** [%q] matches [s] when [q] matches a suffix of it. *)
Lemma like_percent_unfold q s :
  like (String "%" q) s = like q s || match s with String _ s' => like (String "%" q) s' | EmptyString => false end.
Proof. destruct s; reflexivity. Qed.

Lemma like_percent q s : like (String "%" q) s = true <-> exists a b, s = (a ++ b)%string /\ like q b = true.
Proof.
  induction s as [|c s IH]; rewrite like_percent_unfold, orb_true_iff.
  - split; [intros [H|H]; [by exists "", ""%string|discriminate]|].
    intros (a & b & Hab & Hq). destruct a, b; try discriminate. by left.
  - rewrite IH. split.
    + intros [Hq|(a & b & -> & Hq)]; [by exists "", (String c s)|by exists (String c a), b].
    + intros ([|c' a] & b & Hab & Hq); autorewrite with str_rw in Hab; [subst b; by left|].
      injection Hab as -> ->. right. by exists a, b.
Qed.

(** A literal prefix matches itself. *)
Lemma like_prefix t q s :
  no_wild t = true -> like (t ++ q) s = true <-> exists b, s = (t ++ b)%string /\ like q b = true.
Proof.
  revert s. induction t as [|c t IH]; intros s Ht; [split; [by exists s|by intros (b & -> & ?)]|].
  cbn in Ht. apply andb_prop in Ht as [Hc Ht]. apply negb_true_iff, orb_false_iff in Hc as [Hc H3].
  apply orb_false_iff in Hc as [H1 H2]. rewrite string_app_cons. cbn [like]. rewrite H1, H2, H3.
  destruct s as [|c' s]; [split; [done|by intros (b & ? & _)]|].
  rewrite andb_true_iff, IH by done. split.
  - intros [->%Ascii.eqb_eq (b & -> & Hq)]. by exists b.
  - intros (b & Hs & Hq). injection Hs as -> ->. split; [apply Ascii.eqb_refl|by exists b].
Qed.

Lemma like_percent_all b : like "%" b = true.
Proof. apply like_percent. exists b, ""%string. split; [by rewrite string_app_nil_r|done]. Qed.

(** With unique ids, [WHERE id = ?] selects no row or exactly one. *)
Lemma split_match id l :
  NoDup (List.map i_id l) ->
  (forall r, In r l -> has_id id r = false) \/
  exists l1 r l2, l = l1 ++ r :: l2 /\ has_id id r = true /\ forall x, In x (l1 ++ l2) -> has_id id x = false.
Proof.
  induction l as [|x l IH]; intros Hnd; [by left|]. cbn in Hnd. apply NoDup_cons in Hnd as [Hx Hnd].
  destruct (has_id id x) eqn:E.
  - right. exists [], x, l. split; [done|split; [done|]]. intros y Hy. cbn in Hy.
    unfold has_id in *. apply bool_decide_eq_true in E. apply bool_decide_eq_false. intros Hy'.
    apply Hx, list_elem_of_In, in_map_iff. exists y. split; [congruence|done].
  - destruct (IH Hnd) as [Hn|(l1 & r & l2 & -> & Hr & Hn)].
    + left. intros r [<-|Hr]; auto.
    + right. exists (x :: l1), r, l2. split; [done|split; [done|]]. intros y [<-|Hy]; auto.
Qed.

Lemma update_none id g l :
  (forall r, In r l -> has_id id r = false) -> List.map (fun r => if has_id id r then g r else r) l = l.
Proof. intros Hn. rewrite <- (List.map_id l) at 2. apply List.map_ext_in. intros x Hx. by rewrite Hn. Qed.

Lemma update_split id g l1 r l2 :
  has_id id r = true -> (forall x, In x (l1 ++ l2) -> has_id id x = false) ->
  List.map (fun r => if has_id id r then g r else r) (l1 ++ r :: l2) = l1 ++ g r :: l2.
Proof.
  intros Hr Hn. rewrite List.map_app. cbn. rewrite Hr, !update_none; [done|..];
    intros x Hx; apply Hn; auto using in_or_app.
Qed.

Lemma filter_split id l1 r l2 :
  has_id id r = true -> (forall x, In x (l1 ++ l2) -> has_id id x = false) ->
  List.filter (has_id id) (l1 ++ r :: l2) = [r] /\
  List.filter (fun x => negb (has_id id x)) (l1 ++ r :: l2) = l1 ++ l2.
Proof.
  intros Hr Hn. rewrite !List.filter_app. cbn. rewrite Hr. cbn. split.
  - rewrite !filter_none; [done|..]; apply List.Forall_forall; intros x Hx; apply Hn; auto using in_or_app.
  - rewrite !List.forallb_filter_id; [done|..]; apply List.forallb_forall; intros x Hx;
      rewrite Hn; auto using in_or_app.
Qed.

(** A statement that keeps each row's id and image keeps the folder
    agreement. *)
Lemma images_ok_pointwise d d' (g : item -> item) (p : item -> bool) :
  items d' = List.map (fun r => if p r then g r else r) (items d) ->
  iuploads d' = iuploads d -> next_item_id d' = next_item_id d ->
  (forall r, i_id (g r) = i_id r /\ i_image (g r) = i_image r) ->
  images_ok d -> images_ok d'.
Proof.
  intros Hi Hu Hn Hg.
  assert (Hid : List.map i_id (items d') = List.map i_id (items d)).
  { rewrite Hi, List.map_map. apply List.map_ext. intros r. destruct (p r); [apply Hg|done]. }
  assert (Him : omap i_image (items d') = omap i_image (items d)).
  { rewrite Hi. clear Hi Hid. induction (items d) as [|r l IH]; [done|]. cbn.
    destruct (p r); [rewrite (proj2 (Hg r))|]; destruct (i_image r); by rewrite IH. }
  unfold images_ok. rewrite Hid, Him, Hu, Hn. intros (H1 & H2 & H3 & H4). split; [done|split; [|done]].
  rewrite Hi. apply List.Forall_forall. intros x (r & <- & Hr)%in_map_iff.
  apply List.Forall_forall with (x := r) in H2; [|done]. destruct (p r); [rewrite (proj1 (Hg r))|]; done.
Qed.

Lemma images_ok_same d d' :
  items d' = items d -> iuploads d' = iuploads d -> next_item_id d' = next_item_id d ->
  images_ok d -> images_ok d'.
Proof. unfold images_ok. by intros -> -> ->. Qed.

Lemma omap_split l1 r l2 :
  omap i_image (l1 ++ r :: l2) = omap i_image l1 ++ (match i_image r with Some i => [i] | None => [] end) ++ omap i_image l2.
Proof. rewrite omap_app. cbn. by destruct (i_image r). Qed.

(** Removing the row [r] and the file it names keeps the agreement of
    the other rows; [img], when given, replaces the row's image. *)
Lemma images_ok_replace d d' l1 r l2 (r' : option item) :
  items d = l1 ++ r :: l2 -> images_ok d ->
  items d' = l1 ++ (match r' with Some x => [x] | None => [] end) ++ l2 ->
  next_item_id d' = next_item_id d ->
  (forall r0, r' = Some r0 -> i_id r0 = i_id r /\ exists img, i_image r0 = Some img /\
                  img ∈ iuploads d' /\ img ∉ omap i_image (items d)) ->
  (forall n, n ∈ iuploads d -> i_image r <> Some n -> n ∈ iuploads d') ->
  images_ok d'.
Proof.
  intros Hd (H1 & H2 & H3 & H4) Hd' Hn Hr' Hup. rewrite Hd in H1, H2, H3, H4.
  rewrite omap_split in H3, H4. rewrite !NoDup_app in H3. destruct H3 as (Hl1 & Hdis1 & Hmid & Hdis2 & Hl2).
  assert (Hother : forall n, n ∈ omap i_image l1 ++ omap i_image l2 -> n ∈ iuploads d').
  { intros n Hn'. apply Hup; [apply H4; set_solver|]. intros Hi. rewrite Hi in Hdis1, Hdis2.
    apply elem_of_app in Hn' as [Hn'|Hn']; [exact (Hdis1 n Hn' ltac:(set_solver))|exact (Hdis2 n ltac:(set_solver) Hn')]. }
  unfold images_ok. rewrite Hd', Hn. destruct r' as [x|]; cbn [app].
  - destruct (Hr' x eq_refl) as (Hid & img & Himg & Hin & Hfresh). rewrite Hd, omap_split in Hfresh.
    split; [|split; [|split]].
    + rewrite !List.map_app in H1 |- *. cbn in H1 |- *. by rewrite Hid.
    + rewrite List.Forall_app in H2 |- *. destruct H2 as [? Hr]. inversion Hr as [|? ? Hlt ?]; subst.
      split; [done|constructor; [lia|done]].
    + rewrite omap_split, Himg. cbn [app]. apply NoDup_app. split; [done|]. split.
      * intros n Hn1 [->|Hn2]%elem_of_cons; [apply Hfresh; set_solver|apply (Hdis1 n Hn1); set_solver].
      * apply NoDup_cons. split; [set_solver|done].
    + rewrite omap_split, Himg. intros n [Hn1|[->|Hn2]%elem_of_cons]%elem_of_app; [apply Hother; set_solver|done|apply Hother; set_solver].
  - split; [|split; [|split]].
    + rewrite List.map_app in H1 |- *. cbn in H1. apply NoDup_app in H1 as (? & Hd1 & Hc).
      apply NoDup_cons in Hc as [_ ?]. apply NoDup_app. split; [done|]. split; [|done]. set_solver.
    + rewrite List.Forall_app in H2 |- *. destruct H2 as [? Hr]. inversion Hr; subst. auto.
    + rewrite omap_app. apply NoDup_app. split; [done|]. split; [|done]. intros n Hn1 Hn2.
      apply (Hdis1 n Hn1). set_solver.
    + rewrite omap_app. intros n Hn1. apply Hother. done.
Qed.

Lemma images_ok_insert c t img st d :
  images_ok d -> fresh_upload d (Some img) -> images_ok (fst (insert_item c t img st d)).
Proof.
  intros (H1 & H2 & H3 & H4) Hfr. destruct (Hfr img eq_refl) as (Hin & _ & Hnew).
  unfold images_ok. cbn [fst insert_item items iuploads next_item_id]. split; [|split; [|split]].
  - rewrite List.map_app. apply NoDup_app. split; [done|]. split; [|apply NoDup_singleton].
    intros x Hx ->%list_elem_of_singleton. apply list_elem_of_In, in_map_iff in Hx as (r & Hr & Hrin).
    apply List.Forall_forall with (x := r) in H2; [cbn in Hr; lia|done].
  - apply List.Forall_app. split; [|constructor; [cbn; lia|done]].
    eapply List.Forall_impl; [|exact H2]. intros r; cbn; lia.
  - rewrite omap_app. cbn. apply NoDup_app. split; [done|]. split; [set_solver|apply NoDup_singleton].
  - rewrite omap_app. cbn. intros n [Hn | ->%list_elem_of_singleton]%elem_of_app; auto.
Qed.

Lemma addItem_images t st c f d : images_ok d -> fresh_upload d f -> images_ok (snd (addItem t st c f d)).
Proof.
  intros Hok Hfr. unfold addItem. destruct t as [t|], c as [c|], f as [img|]; try exact Hok.
  destruct (_ && _ && _); [|exact Hok]. rewrite st_bind_run.
  pose proof (run_of_post (fun d => images_ok d /\ fresh_upload d (Some img)) ltac:(faults_free) images_ok
                (insert_item c t img st) d) as H.
  destruct (run_of (insert_item c t img st) d) as [[r|] d1]; cbn in H |- *.
  - apply H; [intros s [Hs Hf]; by apply images_ok_insert|done].
  - apply H; [intros s [Hs Hf]; by apply images_ok_insert|done].
Qed.

(** [if (oldImage) safeUnlink(...)] removes at most that file. *)
Lemma unlink_if_tables o d :
  let d' := snd ((if js_truthy o then safeUnlink (default "" o) else st_ret tt) d) in
  items d' = items d /\ next_item_id d' = next_item_id d /\
  (forall n, n ∈ iuploads d -> o <> Some n -> n ∈ iuploads d').
Proof.
  cbn zeta. destruct (js_truthy o) eqn:E; [|done]. destruct o as [o|]; [|done].
  split; [done|split; [done|]]. intros n Hn Hne. cbn. apply list_elem_of_In, filter_In.
  split; [by apply list_elem_of_In|]. apply negb_true_iff, String.eqb_neq. congruence.
Qed.

Lemma edit_core id t st c img d :
  images_ok d -> fresh_upload d (Some img) ->
  images_ok (snd ((if js_truthy (first_image (select_image id d))
                   then safeUnlink (default "" (first_image (select_image id d))) else st_ret tt)
                  (fst (update_items id (set_item c t st (Some img)) d)))).
Proof.
  intros Hok Hfr. destruct (Hfr img eq_refl) as (Hin & _ & Hnew).
  destruct (unlink_if_tables (first_image (select_image id d)) (fst (update_items id (set_item c t st (Some img)) d)))
    as (Hi & Hn' & Hup).
  destruct (split_match id (items d) (proj1 Hok)) as [Hn|(l1 & r & l2 & Hd & Hr & Hn)].
  - assert (Hs : select_image id d = []) by (unfold select_image; by rewrite filter_none by (by apply List.Forall_forall)).
    rewrite Hs in Hi, Hn', Hup |- *. apply (images_ok_same d); [|cbn; done|done|done].
    rewrite Hi. cbn. by apply update_none.
  - assert (Hs : select_image id d = [i_image r]) by (unfold select_image; rewrite Hd; by rewrite (proj1 (filter_split _ _ _ _ Hr Hn))).
    rewrite Hs in Hi, Hn', Hup |- *. cbn [first_image] in *.
    apply (images_ok_replace d _ l1 r l2 (Some (set_item c t st (Some img) r)) Hd Hok).
    + rewrite Hi. cbn. rewrite Hd. by apply update_split.
    + done.
    + intros r0 [= <-]. split; [done|]. exists img. split; [done|]. split; [|done].
      apply Hup; [done|]. intros Him. apply Hnew. rewrite Hd, omap_split, Him. set_solver.
    + intros n Hn1 Hn2. by apply Hup.
Qed.

Lemma delete_core id d :
  images_ok d ->
  match select_image id d with
  | [] => True
  | imageName :: _ =>
    images_ok (snd ((if js_truthy imageName then safeUnlink (default "" imageName) else st_ret tt)
                    (fst (delete_items id d))))
  end.
Proof.
  intros Hok. destruct (split_match id (items d) (proj1 Hok)) as [Hn|(l1 & r & l2 & Hd & Hr & Hn)].
  - unfold select_image. by rewrite filter_none by (by apply List.Forall_forall).
  - assert (Hs : select_image id d = [i_image r]) by (unfold select_image; rewrite Hd; by rewrite (proj1 (filter_split _ _ _ _ Hr Hn))).
    rewrite Hs. destruct (unlink_if_tables (i_image r) (fst (delete_items id d))) as (Hi & Hn' & Hup).
    apply (images_ok_replace d _ l1 r l2 None Hd Hok).
    + rewrite Hi. cbn. rewrite Hd. by rewrite (proj2 (filter_split _ _ _ _ Hr Hn)).
    + done.
    + done.
    + intros n Hn1 Hn2. by apply Hup.
Qed.

(** The tables, the folder and the counter do not depend on the fault
    oracle. *)
Ltac forget_faults d bs Hok Hfr :=
  change (images_ok d) with (images_ok (with_faults bs d)) in Hok;
  try change (fresh_upload d ?f) with (fresh_upload (with_faults bs d) f) in Hfr;
  try change (select_image ?id d) with (select_image id (with_faults bs d)) in Hfr;
  try change (select_image ?id d) with (select_image id (with_faults bs d));
  revert Hok Hfr; generalize (with_faults bs d); clear d; intros d Hok Hfr.

Lemma editItem_images id t st c f d :
  images_ok d -> fresh_upload d f -> images_ok (snd (editItem id t st c f d)).
Proof.
  intros Hok Hfr. unfold editItem. destruct f as [img|].
  - rewrite st_bind_run.
    destruct (query_of_cases (select_image id) d) as [Hq|(bs & [Hq|Hq])]; rewrite Hq; clear Hq; cbn [fst snd];
      [|exact Hok|forget_faults d bs Hok Hfr].
    all: cbv zeta; rewrite st_bind_run.
    all: destruct (run_of_cases (update_items id (set_item c t st (Some img))) d) as [Hr|(bs' & [Hr|Hr])];
      rewrite Hr; clear Hr; cbn [fst snd]; [|exact Hok|forget_faults d bs' Hok Hfr].
    all: rewrite st_bind_run; by apply edit_core.
  - rewrite st_bind_run.
    pose proof (run_of_post images_ok ltac:(faults_free) images_ok (update_items id (set_item c t st None)) d) as H.
    assert (He : forall s, images_ok s -> images_ok (fst (update_items id (set_item c t st None) s))).
    { intros s Hs. by apply (images_ok_pointwise s _ (set_item c t st None) (has_id id)). }
    destruct (run_of (update_items id (set_item c t st None)) d) as [[u|] d1]; cbn in H |- *; by apply H.
Qed.

Lemma deleteItem_images id d : images_ok d -> images_ok (snd (deleteItem id d)).
Proof.
  intros Hok. assert (Hfr : True) by done. unfold deleteItem. rewrite st_bind_run.
  destruct (query_of_cases (select_image id) d) as [Hq|(bs & [Hq|Hq])]; rewrite Hq; clear Hq; cbn [fst snd];
    [|exact Hok|forget_faults d bs Hok Hfr].
  all: destruct (select_image id d) as [|imageName rest] eqn:Hs; [exact Hok|]; clear Hfr.
  all: rewrite st_bind_run.
  all: destruct (run_of_cases (delete_items id) d) as [Hr|(bs' & [Hr|Hr])]; rewrite Hr; clear Hr; cbn [fst snd];
    [|exact Hok|forget_faults d bs' Hok Hs].
  all: rewrite ?st_bind_run; pose proof (delete_core id d Hok) as Hc; rewrite Hs in Hc; exact Hc.
Qed.

Lemma updateItemStatus_images id s d : images_ok d -> images_ok (snd (updateItemStatus id s d)).
Proof.
  revert d. enough (Hk : st_keeps images_ok (updateItemStatus id s)) by exact Hk.
  unfold updateItemStatus, ireply. keeps_faulty.
  intros d' Hd. by apply (images_ok_pointwise d' _ (set_status s0) (has_id id)).
Qed.

Lemma istep_images d d' : istep d d' -> images_ok d -> images_ok d'.
Proof.
  intros Hs Hd. destruct Hs as [c d|c d|c p l s d|c p l s d|id d|t st c f d Hf|id t st c f d Hf|id d|id s d].
  6: by apply addItem_images.
  6: by apply editItem_images.
  6: by apply deleteItem_images.
  6: by apply updateItemStatus_images.
  all: match goal with |- images_ok (snd (?m ?s)) =>
         enough (Hk : st_keeps images_ok m) by exact (Hk s Hd) end.
  all: unfold getAllItems, getItemsByCategory, getAllItemsClient, getItemsByCategoryClient, getItemById,
         query_tbl, ireply; keeps_faulty.
Qed.

(** ** The frame of the item requests *)

(** The tables another controller reads of the item store. *)
Definition same_tables (d e : idb) : Prop :=
  items e = items d /\ iuploads e = iuploads d /\ icategories e = icategories d.

Lemma same_tables_frame f d e : same_tables d e -> item_frame f d e.
Proof. intros (Hi & Hu & Hc). split; [done|split]; [rewrite Hu; by intros n ? []|rewrite Hi; auto]. Qed.

Lemma item_frame_trans f d e e' :
  item_frame f d e -> item_frame f e e' -> iuploads e' = iuploads e -> item_frame f d e'.
Proof.
  intros (Hc & Hu & Hi) (Hc' & _ & Hi') Hup. split; [congruence|split].
  - rewrite Hup. exact Hu.
  - intros n Hn. destruct (Hi' n Hn); auto.
Qed.

Lemma update_items_frame f id g d :
  (forall r n, i_image (g r) = Some n -> i_image r = Some n \/ f = Some n) ->
  item_frame f d (fst (update_items id g d)).
Proof.
  intros Hg. split; [done|split]; [by intros n ? []|]. cbn [fst update_items items].
  intros n (r' & Hr' & Hn)%list_elem_of_omap. apply list_elem_of_In, in_map_iff in Hr' as (r & <- & Hr).
  destruct (has_id id r); [destruct (Hg r n Hn) as [Hn'|]; [left|by right]|left];
    apply list_elem_of_omap; exists r; (split; [by apply list_elem_of_In|done]).
Qed.

Lemma insert_item_frame c t img st d : item_frame (Some img) d (fst (insert_item c t img st d)).
Proof.
  split; [done|split]; [by intros n ? []|]. cbn [fst insert_item items].
  rewrite omap_app. intros n [Hn|Hn]%elem_of_app; [by left|]. cbn in Hn.
  apply list_elem_of_singleton in Hn as ->. by right.
Qed.

Lemma first_image_in id d n : first_image (select_image id d) = Some n -> n ∈ omap i_image (items d).
Proof.
  unfold select_image. destruct (List.filter (has_id id) (items d)) as [|r rs] eqn:E; [done|]. cbn.
  intros Hr. apply list_elem_of_omap. exists r. split; [|done].
  apply list_elem_of_In. assert (Hin : In r (List.filter (has_id id) (items d))) by (rewrite E; left; done).
  by apply filter_In in Hin as [? _].
Qed.

(** Unlinking a file an item of [d] named stays in the frame of [d]. *)
Lemma unlink_frame f o d e :
  item_frame f d e -> (forall n, o = Some n -> n ∈ omap i_image (items d)) ->
  item_frame f d (snd ((if js_truthy o then safeUnlink (default "" o) else st_ret tt) e)).
Proof.
  intros Hfr Ho. destruct (unlink_if_tables o e) as (Hi & _ & Hup).
  destruct Hfr as (Hc & Hu & Hm). split; [|split].
  - cbv zeta. destruct (js_truthy o); [|done]. exact Hc.
  - intros n Hn Hn'. destruct (decide (n ∈ iuploads e)) as [He|He]; [|by apply Hu].
    destruct (decide (o = Some n)) as [->|Hne]; [by apply Ho|]. by destruct (Hn' (Hup n He Hne)).
  - rewrite Hi. exact Hm.
Qed.

Lemma editItem_frame id t st c f d : item_frame f d (snd (editItem id t st c f d)).
Proof.
  unfold editItem. destruct f as [img|].
  - apply (query_bind_post (same_tables d) ltac:(faults_free)); [done|by intros ??; apply same_tables_frame|].
    intros e He. cbv zeta.
    apply (run_bind_post (same_tables d) ltac:(faults_free)); [done|by intros ??; apply same_tables_frame|].
    intros e' He'. rewrite st_bind_run. apply unlink_frame.
    + apply (item_frame_trans _ _ e'); [by apply same_tables_frame|apply update_items_frame|done].
      intros r n. cbn. intros [= <-]. by right.
    + intros n Hn. apply first_image_in in Hn. unfold select_image in Hn. by rewrite (proj1 He) in Hn.
  - apply (run_bind_post (same_tables d) ltac:(faults_free)); [done|by intros ??; apply same_tables_frame|].
    intros e He. apply (item_frame_trans _ _ e); [by apply same_tables_frame|apply update_items_frame|done].
    intros r n. cbn. left. done.
Qed.

Lemma delete_items_frame f id d : item_frame f d (fst (delete_items id d)).
Proof.
  split; [done|split]; [by intros n ? []|]. cbn [fst delete_items items].
  intros n (r & Hr & Hn)%list_elem_of_omap. left. apply list_elem_of_omap. exists r. split; [|done].
  apply list_elem_of_In in Hr. apply filter_In in Hr as [Hr _]. by apply list_elem_of_In.
Qed.

Lemma deleteItem_frame f id d : item_frame f d (snd (deleteItem id d)).
Proof.
  unfold deleteItem.
  apply (query_bind_post (same_tables d) ltac:(faults_free)); [done|by intros ??; apply same_tables_frame|].
  intros e He. destruct (select_image id e) as [|imageName rest] eqn:Hs; [by apply same_tables_frame|].
  apply (run_bind_post (same_tables d) ltac:(faults_free)); [done|by intros ??; apply same_tables_frame|].
  intros e' He'. rewrite st_bind_run. apply unlink_frame.
  - apply (item_frame_trans _ _ e'); [by apply same_tables_frame|apply delete_items_frame|done].
  - intros n Hn. assert (Hf : first_image (select_image id e) = Some n) by (rewrite Hs; done).
    apply first_image_in in Hf. by rewrite (proj1 He) in Hf.
Qed.

(** The requests that unlink nothing keep the frame of the state they
    start from. *)
Lemma keeps_frame_update f d id g :
  (forall r n, i_image (g r) = Some n -> i_image r = Some n \/ f = Some n) ->
  forall s, item_frame f d s -> item_frame f d (fst (update_items id g s)).
Proof. intros Hg s Hs. apply (item_frame_trans _ _ s); [done|by apply update_items_frame|done]. Qed.

Lemma ihandle_frame f d d' : ihandle f d d' -> item_frame f d d'.
Proof.
  intros Hh. destruct Hh as [c d|c d|c p l q d|c p l q d|id d|t st c f d|id t st c f d|id d|id q d].
  7: apply editItem_frame.
  7: apply deleteItem_frame.
  all: match goal with |- item_frame ?f ?d _ => assert (Hd : item_frame f d d) by (by apply same_tables_frame) end.
  all: match goal with |- item_frame ?f ?d (snd (?m ?s)) =>
         enough (Hk : st_keeps (item_frame f d) m) by exact (Hk s Hd) end.
  all: unfold getAllItems, getItemsByCategory, getAllItemsClient, getItemsByCategoryClient, getItemById,
         addItem, updateItemStatus, query_tbl, ireply; keeps_faulty.
  - intros e He. apply (item_frame_trans _ _ e); [done|apply insert_item_frame|done].
  - apply keeps_frame_update. intros r n. cbn. by left.
Qed.

(** A request with a fresh upload is a step of the item store. *)
Lemma ihandle_istep f d d' : ihandle f d d' -> fresh_upload d f -> istep d d'.
Proof. intros Hh Hf. destruct Hh; constructor; done. Qed.

(** [parseInt] reads back [show_Z]. *)
Lemma parse_int_show n : parse_int (show_Z n) = Some n.
Proof.
  destruct (show_digits n) as (Hds & Hne & Hv). unfold show_Z, parse_int.
  set (ds := rev _) in *.
  assert (Hlen : (length ds =? 0)%nat = false) by (destruct ds; [done|reflexivity]).
  destruct (n <? 0) eqn:Hn.
  - cbn [skip_ws]. replace (is_space "-") with false by reflexivity.
    replace (Ascii.eqb "-" "-") with true by reflexivity.
    rewrite digits_acc_digits, Hv, Hlen by done. f_equal. lia.
  - rewrite skip_ws_digits by done.
    destruct ds as [|d ds'] eqn:Eds; [done|]. inversion Hds as [|? ? Hd].
    destruct (digit_char_cases d Hd) as (_ & _ & _ & Hm & Hp).
    cbn [string_of_digits]. rewrite Hm, Hp.
    change (String (digit_char d) (string_of_digits ds')) with (string_of_digits (d :: ds')).
    rewrite digits_acc_digits, Hv by done. cbn [length Nat.eqb]. f_equal. lia.
Qed.

(** ** Properties *)

(** [parseInt(String(n), 10)] is [n]: the query-string parser reads
    back every integer a client writes. *)
Theorem parse_show n : parse_int (show_Z n) = Some n.
Proof. apply parse_int_show. Qed.

(** C38: requesting the pages [1, 2, ..., n] of a client listing with a
    positive limit [L], the page numbers written as a client writes them,
    returns the first [n * L] rows of the listing, each once and in
    order: the pages tile the listing. *)
Theorem client_pages_tile d cat lim search n :
  ifaults d = [] -> 0 < query_num lim 15 ->
  concat (List.map (fun k => page_items (fst (getAllItemsClient cat (page_param k) lim search d))) (seq 0 n)) =
  firstn (n * Z.to_nat (query_num lim 15))
         (client_rows cat (if no_search search then None else Some (search_term search)) d).
Proof.
  intros Hf Hl. rewrite <- pages_tile. f_equal. apply List.map_ext_in. intros k _.
  rewrite getAllItemsClient_nf by done.
  assert (Hp : query_num (page_param k) 1 = Z.of_nat k + 1).
  { unfold query_num, page_param. rewrite parse_int_show. destruct (_ =? 0) eqn:E; [lia|done]. }
  rewrite Hp. unfold limit_rows.
  replace ((Z.of_nat k + 1 - 1) * query_num lim 15 <? 0) with false by lia.
  replace (query_num lim 15 <? 0) with false by lia. cbn [orb page_items ibody_of].
  f_equal. f_equal. lia.
Qed.

(** The page number and the limit are never [0] ([|| d] replaces
    it); the data query succeeds exactly when the page number is at least
    1 and the limit positive (a negative [LIMIT] is a syntax error, so
    [?page=0] is page 1 but [?page=-1] fails with 500), and then the page
    holds at most [limit] rows and reports the count of all of them. *)
Theorem client_page_bounds d cat page lim search :
  ifaults d = [] ->
  let p := query_num page 1 in
  let l := query_num lim 15 in
  let rows := client_rows cat (if no_search search then None else Some (search_term search)) d in
  p <> 0 /\ l <> 0 /\
  (icode (fst (getAllItemsClient cat page lim search d)) = 200 <-> 1 <= p /\ 0 < l) /\
  (length (page_items (fst (getAllItemsClient cat page lim search d))) <= Z.to_nat l)%nat.
Proof.
  intros Hf p l rows. rewrite getAllItemsClient_nf by done. fold p l rows.
  pose proof (query_num_nonzero page 1 ltac:(lia)) as Hp. pose proof (query_num_nonzero lim 15 ltac:(lia)) as Hl.
  fold p in Hp. fold l in Hl. split; [done|split; [done|]].
  unfold limit_rows. destruct ((p - 1) * l <? 0) eqn:E1, (l <? 0) eqn:E2; cbn [orb icode page_items ibody_of].
  all: apply Z.ltb_lt in E1 || apply Z.ltb_ge in E1; apply Z.ltb_lt in E2 || apply Z.ltb_ge in E2.
  all: split; [split; [intros H; first [discriminate H|split; nia]|intros [H1 H2]; first [reflexivity|nia]]|].
  all: cbn [length]; rewrite ?length_firstn; lia.
Qed.

(** A search term with no [%], [_] or [\] selects exactly the titles
    that contain it: [LIKE '%term%'] is a substring test. *)
Theorem search_term_substring t s :
  no_wild (trim t) = true ->
  like (search_term (Some t)) s = true <-> exists a b, s = (a ++ trim t ++ b)%string.
Proof.
  intros Hw. unfold search_term. cbn [default]. rewrite like_percent. split.
  - intros (a & b & -> & (c & -> & _)%like_prefix); [|done]. by exists a, c.
  - intros (a & c & ->). exists a, (trim t ++ c)%string. split; [done|].
    apply like_prefix; [done|]. exists c. split; [done|apply like_percent_all].
Qed.

(** C39: the search of [getItemsByCategoryClient] joins [categories], a
    table the database does not have (item.js:287 and :292; every other
    statement names [category]): with a search term the handler answers
    500 whatever the state, and changes nothing. *)
Theorem category_search_fails d categoryId page lim search :
  no_search search = false ->
  getItemsByCategoryClient categoryId page lim search d = (mk_iresponse 500 (IPageError "Error fetching count"), d).
Proof.
  intros Hs. unfold getItemsByCategoryClient. rewrite Hs. cbv zeta. unfold query_tbl.
  replace (table_exists "categories") with false by reflexivity. reflexivity.
Qed.

(** C26: in every state reached from an empty [items] table by the nine
    handlers, whatever statements fail, item ids are unique and below the
    counter, no two items name one image, and every image an item names
    is a file of the folder: [editItem] and [deleteItem] delete only the
    file of the row they change, provided every upload is a new file. *)
Theorem ireach_images_ok d : ireach d -> images_ok d.
Proof.
  induction 1 as [cs ups bs|d d' _ IH Hs]; [|by apply (istep_images d)].
  split; [constructor|split; [constructor|split; [constructor|]]]. intros n Hn. inversion Hn.
Qed.

(** An underscore in the search term is LIKE's one-character
    wildcard, not escaped by the handler: the term ["_"] selects the
    title ["a"], which does not contain it. *)
Example search_wildcard_unescaped :
  like (search_term (Some "_")) "a" = true /\ ~ exists a b, "a"%string = (a ++ "_" ++ b)%string.
Proof.
  split; [reflexivity|]. intros ([|c a] & b & Hab); autorewrite with str_rw in Hab; [discriminate|].
  injection Hab as _ Hab. destruct a; autorewrite with str_rw in Hab; discriminate.
Qed.

(** ** Witnesses *)

Lemma ireach_images_ok_witness :
  ireach (snd (addItem (Some "Barfi") None (Some "1") (Some "9-Barfi.png") (mk_idb [] [] ["9-Barfi.png"] [] 1))) /\
  images_ok (snd (addItem (Some "Barfi") None (Some "1") (Some "9-Barfi.png") (mk_idb [] [] ["9-Barfi.png"] [] 1))).
Proof.
  assert (H : ireach (snd (addItem (Some "Barfi") None (Some "1") (Some "9-Barfi.png") (mk_idb [] [] ["9-Barfi.png"] [] 1)))).
  { apply (ireach_step (mk_idb [] [] ["9-Barfi.png"] [] 1)); [apply ireach_init|].
    apply istep_addItem. intros img [= <-]. split; [left|split; [discriminate|cbn; intros Hc; inversion Hc]]. }
  split; [exact H|exact (ireach_images_ok _ H)].
Defined.

Lemma client_pages_tile_witness :
  concat (List.map (fun k => page_items (fst (getAllItemsClient None (page_param k) (Some "2") None ex_idb))) (seq 0 2)) =
  firstn (2 * Z.to_nat (query_num (Some "2") 15)) (client_rows None (if no_search None then None else Some (search_term None)) ex_idb).
Proof. apply (client_pages_tile ex_idb None (Some "2") None 2); reflexivity. Defined.

Lemma client_page_bounds_witness :
  let p := query_num (Some "-1") 1 in
  let l := query_num (Some "2") 15 in
  let rows := client_rows None (if no_search None then None else Some (search_term None)) ex_idb in
  p <> 0 /\ l <> 0 /\
  (icode (fst (getAllItemsClient None (Some "-1") (Some "2") None ex_idb)) = 200 <-> 1 <= p /\ 0 < l) /\
  (length (page_items (fst (getAllItemsClient None (Some "-1") (Some "2") None ex_idb))) <= Z.to_nat l)%nat.
Proof. apply (client_page_bounds ex_idb None (Some "-1") (Some "2") None). reflexivity. Defined.

Lemma search_term_substring_witness :
  no_wild (trim " Lad ") = true /\
  (like (search_term (Some " Lad ")) "Ladoo" = true <-> exists a b, "Ladoo"%string = (a ++ trim " Lad " ++ b)%string).
Proof. split; [reflexivity|apply (search_term_substring " Lad " "Ladoo"); reflexivity]. Defined.

Lemma category_search_fails_witness :
  getItemsByCategoryClient "1" None None (Some "Lad") ex_idb =
    (mk_iresponse 500 (IPageError "Error fetching count"), ex_idb).
Proof. apply (category_search_fails ex_idb "1" None None (Some "Lad")). reflexivity. Defined.

End Items.
