(* ===== verification/Upload.v ===== *)
(** * The upload middleware: [src/middleware/fileHandler.js]

    multer's disk storage as the repository configures it: every uploaded
    file goes to [src/uploads] under the name [Date.now() + originalname],
    the millisecond clock printed in decimal followed by the client's
    file name.  The controllers of [Items], [Catalogue] and [Settings]
    take that name as [req.file.filename] and the theorems about their
    folder assume it is new ([Items.fresh_upload]).  This file shows
    when it is: two names of this era (thirteen-digit clocks, from
    September 2001 to the year 2286) are equal only for the same
    millisecond and the same client name, so an upload made after every
    file of the folder was named gets a name no row holds.  Two uploads of
    one name in one millisecond get one name, the second file replacing
    the first (a finding). *)

From stdpp Require Import base list strings.
From Stdlib Require Import ZArith Lia.
From S2P Require Import Prelude Items.

Open Scope Z_scope.

Module Upload.
Import Items.

(** fileHandler.js:10-12: [path.join(__dirname, "../uploads")], the
    folder the controllers unlink from ([path.join(__dirname, "..", "..",
    "uploads", name)] two levels below [src]). *)
Definition destination : string := "src/uploads".

(** fileHandler.js:14-16: [Date.now() + file.originalname]; adding a
    number to a string prints the number ([String(n)], [show_Z]). *)
Definition filename (now : Z) (originalname : string) : string :=
  (show_Z now ++ originalname)%string.

(** The clocks of this era: thirteen decimal digits. *)
Definition era (now : Z) : Prop := 10 ^ 12 <= now < 10 ^ 13.

#[export] Instance era_dec now : Decision (era now).
Proof. unfold era. apply _. Defined.

(** Every file of the folder was named at an earlier millisecond of the
    era. *)
Definition named_before (now : Z) (folder : list string) : Prop :=
  forall n, n ∈ folder -> exists t o, era t /\ t < now /\ n = filename t o.

(** ** Lemmas *)

(** With [10^k <= n < 10^(k+1)] the printer writes [k + 1] digits. *)
Lemma digits_rev_length (k : nat) : forall f n,
  (k <= f)%nat -> 10 ^ Z.of_nat k <= n < 10 ^ Z.of_nat (S k) -> length (digits_rev (S f) n) = S k.
Proof.
  induction k as [|k IH]; intros f n Hf Hn.
  - cbn in Hn. cbn. by replace (n <? 10) with true by lia.
  - destruct f as [|f]; [lia|].
    change (digits_rev (S (S f)) n) with (if n <? 10 then [n] else n mod 10 :: digits_rev (S f) (n / 10)).
    rewrite !Nat2Z.inj_succ, !Z.pow_succ_r in Hn by lia.
    pose proof (Z.pow_pos_nonneg 10 (Z.of_nat k) ltac:(lia) ltac:(lia)).
    replace (n <? 10) with false by nia. cbn [length]. f_equal. apply IH; [lia|].
    rewrite Nat2Z.inj_succ, Z.pow_succ_r by lia.
    split; [apply Z.div_le_lower_bound|apply Z.div_lt_upper_bound]; lia.
Qed.

Lemma string_of_digits_length ds : String.length (string_of_digits ds) = length ds.
Proof. induction ds as [|d ds IH]; cbn; [done|by rewrite IH]. Qed.

(** A clock of the era prints as thirteen characters. *)
Lemma show_era_length n : era n -> String.length (show_Z n) = 13%nat.
Proof.
  unfold era. intros Hn. unfold show_Z. replace (n <? 0) with false by lia.
  rewrite string_of_digits_length, length_rev, Z.abs_eq by lia.
  apply (digits_rev_length 12); [|cbn; lia].
  assert (H2 : 12 <= Z.log2 n).
  { rewrite <- (Z.log2_pow2 12) by lia. apply Z.log2_le_mono. cbn. lia. }
  lia.
Qed.

(** Equal strings with prefixes of one length have equal prefixes and
    equal rests. *)
Lemma string_app_inj a b x y :
  String.length a = String.length b -> (a ++ x)%string = (b ++ y)%string -> a = b /\ x = y.
Proof.
  revert b. induction a as [|c a IH]; intros [|c' b] Hl Heq; cbn in Hl; try lia.
  - done.
  - cbn in Heq. injection Heq as -> Heq. destruct (IH b ltac:(lia) Heq) as [-> ->]. done.
Qed.

(** Two names of the era are one only for one millisecond and one
    client name. *)
Lemma filename_inj t1 t2 o1 o2 :
  era t1 -> era t2 -> filename t1 o1 = filename t2 o2 -> t1 = t2 /\ o1 = o2.
Proof.
  unfold filename. intros H1 H2 Heq.
  destruct (string_app_inj (show_Z t1) (show_Z t2) o1 o2 ltac:(by rewrite !show_era_length) Heq) as [Hs Ho].
  split; [|done]. pose proof (parse_int_show t1) as P1. rewrite Hs, parse_int_show in P1. congruence.
Qed.

(** ** Properties *)

(** An upload at [now], the folder named before [now], is new to the
    folder, and so to every row naming a file of it. *)
Theorem upload_name_fresh now o folder :
  era now -> named_before now folder -> filename now o ∉ folder.
Proof.
  intros Hnow Hfold Hin. destruct (Hfold _ Hin) as (t & o' & Ht & Hlt & Heq).
  destruct (filename_inj _ _ _ _ Hnow Ht Heq) as [-> _]. lia.
Qed.

(** The era matters: clocks of different lengths can give one name to
    two different uploads, [1 + "1a.png"] and [11 + "a.png"]. *)
Example upload_names_collide_across_lengths :
  filename 1 "1a.png" = filename 11 "a.png".
Proof. reflexivity. Qed.

Lemma upload_name_fresh_witness :
  era 1731000000005 /\ named_before 1731000000005 ["1731000000000logo.png"] /\
  filename 1731000000005 "logo.png" ∉ ["1731000000000logo.png"].
Proof.
  assert (He : era 1731000000005) by (unfold era; cbn; lia).
  assert (Hb : named_before 1731000000005 ["1731000000000logo.png"]).
  { intros n ->%list_elem_of_singleton. exists 1731000000000, "logo.png".
    split; [unfold era; cbn; lia|split; [lia|reflexivity]]. }
  split; [exact He|split; [exact Hb|]]. exact (upload_name_fresh _ _ _ He Hb).
Defined.

End Upload.
