(* ===== verification/Catalogue.v ===== *)
(** * Catalogue: [src/controller/category/category.js],
      [src/controller/gallary/gallary.js],
      [src/controller/popularProducts/popularProducts.js]

    The three controllers that share the item store and the [uploads]
    folder with [Items]: the tables [category], [gallery] and
    [popular_products], the table [items] the category delete counts and
    the popular products join, and the folder all three name their
    images in.  The item requests of [Items] run here through the view
    [item_view] ([on_items]), so that one step relation [cstep] holds
    every request of the four controllers.  The theorems: every image a
    row of any of the three image tables names is a file of the folder,
    and no two rows name one file, in every reachable state; a category
    is deleted only when no item names it; the gallery's pages count
    [Math.ceil(total / limit)] pages of at most [limit] rows; the popular
    listings are the join with [items] ordered by priority, and a
    product added with status [0] is stored active; a file multer
    stores under the clock ([multer_store], [Upload.filename]) is the
    fresh upload the folder invariant assumes. *)

From stdpp Require Import base list strings decidable sorting sets.
From Stdlib Require Import ZArith Lia Ascii.
From S2P Require Import Prelude Items Upload.

Open Scope Z_scope.
Open Scope st_scope.

Module Catalogue.
Import Items Upload.

(** ** The tables *)

(** A row of [category]. *)
Record category := mk_category {
  c_id : Z;
  c_title : option string;
  c_description : option string;
  c_status : option Z;
  c_image : option string
}.

(** A row of [gallery]. *)
Record gallery_item := mk_gallery_item {
  g_id : Z;
  g_title : option string;
  g_img : option string
}.

(** A row of [popular_products]; the body's numbers are JSON numbers,
    [None] an absent field stored as [NULL]. *)
Record popular_product := mk_popular_product {
  pp_id : Z;
  pp_item_id : option Z;
  pp_priority : option Z;
  pp_status : option Z
}.

Record cdb := mk_cdb {
  categories : list category;
  citems : list item;                 (** table [items], shared with [Items] *)
  gallery : list gallery_item;
  popular_products : list popular_product;
  uploads : list string;              (** the files of [src/uploads] *)
  cfaults : list bool;
  next_category_id : Z;
  next_citem_id : Z;
  next_gallery_id : Z;
  next_popular_id : Z
}.

#[export] Instance cdb_faulty : Faulty cdb :=
  {| faults_of := cfaults;
     with_faults bs d := mk_cdb (categories d) (citems d) (gallery d) (popular_products d) (uploads d) bs
                               (next_category_id d) (next_citem_id d) (next_gallery_id d) (next_popular_id d) |}.

(** The item store as [item.js] sees it: the items, [category]'s ids and
    titles, the folder, the same fault oracle and counter. *)
Definition item_view (d : cdb) : idb :=
  mk_idb (citems d) (List.map (fun c => mk_icategory (c_id c) (c_title c)) (categories d))
         (uploads d) (cfaults d) (next_citem_id d).

Definition with_items (e : idb) (d : cdb) : cdb :=
  mk_cdb (categories d) (items e) (gallery d) (popular_products d) (iuploads e) (ifaults e)
         (next_category_id d) (next_item_id e) (next_gallery_id d) (next_popular_id d).

(** A request of [item.js] on the shared database. *)
Definition on_items {A} (m : St idb A) : St cdb A :=
  fun d => let '(a, e) := m (item_view d) in (a, with_items e d).

Inductive cbody :=
| CText (msg : string)                                  (** [res.send(msg)] *)
| COk                                                   (** [res.sendStatus(200)] *)
| CCategories (rows : list category)                    (** [res.json(result)] *)
| CCategory (r : category)                              (** [res.json(result[0])] *)
| CGallery (rows : list gallery_item)
| CGalleryItem (r : option gallery_item)                (** [res.json(result[0])], [undefined] when none *)
| CGalleryPage (rows : list gallery_item) (totalItems currentPage totalPages : Z)
| CError (msg : string)                                 (** [{ error: msg }] *)
| CDbError                                              (** [{ error: err.message }] *)
| CPopular (rows : list (popular_product * option string * option string))
| CAdded (id : Z) (msg : string)                        (** [{ id: result.insertId, message }] *)
| CMessage (msg : string).                              (** [{ message }] *)

Record cresponse := mk_cresponse { ccode : Z; cbody_of : cbody }.

Definition creply (c : Z) (b : cbody) : St cdb cresponse := st_ret (mk_cresponse c b).

(** category.js:6-12 (gallary.js:5-12 is the same function): the file is
    removed; [ENOENT] and the other errors are only logged. *)
Definition safeUnlink (name : string) : St cdb unit :=
  fun d => (tt, mk_cdb (categories d) (citems d) (gallery d) (popular_products d)
                       (List.filter (fun n => negb (String.eqb n name)) (uploads d)) (cfaults d)
                       (next_category_id d) (next_citem_id d) (next_gallery_id d) (next_popular_id d)).

Definition unlink_if (o : option string) : St cdb unit :=
  if js_truthy o then safeUnlink (default "" o) else st_ret tt.

(** ** category.js *)

(** [WHERE id = ?] with the parameter a string. *)
Definition has_cid (id : string) (c : category) : bool := bool_decide (c_id c = mysql_int id).

(** category.js:18-24 *)
Definition getAllCategories : St cdb cresponse :=
  let* result := query_of categories in
  match result with
  | None => creply 500 (CText "Error fetching categories")
  | Some rows => creply 200 (CCategories rows)
  end.

(** category.js:27-35 *)
Definition getCategoryById (id : string) : St cdb cresponse :=
  let* result := query_of (fun d => List.filter (has_cid id) (categories d)) in
  match result with
  | None => creply 500 (CText "Error fetching category")
  | Some [] => creply 404 (CText "Category not found")
  | Some (r :: _) => creply 200 (CCategory r)
  end.

(** category.js:47-48: [INSERT INTO category (title, description, status, image)]. *)
Definition insert_category (title description status img : string) (d : cdb) : cdb * Z :=
  let id := next_category_id d in
  (mk_cdb (categories d ++ [mk_category id (Some title) (Some description) (Some (mysql_int status)) (Some img)])
          (citems d) (gallery d) (popular_products d) (uploads d) (cfaults d)
          (id + 1) (next_citem_id d) (next_gallery_id d) (next_popular_id d),
   id).

(** category.js:38-64; [file] is [req.file.filename]. *)
Definition addCategory (title description status file : option string) : St cdb cresponse :=
  match title, file, status with
  | Some t, Some img, Some st =>
    if js_truthy title && js_truthy file then
      let* r := run_of (insert_category t (js_or description "") st img) in
      match r with
      | None => creply 500 (CText "Error adding category")
      | Some _ => creply 200 COk
      end
    else creply 400 (CText "Missing title or image")
  | _, _, _ => creply 400 (CText "Missing title or image")
  end.

(** [UPDATE category SET ... WHERE id=?] *)
Definition update_categories (id : string) (g : category -> category) (d : cdb) : cdb * Z :=
  (mk_cdb (List.map (fun c => if has_cid id c then g c else c) (categories d))
          (citems d) (gallery d) (popular_products d) (uploads d) (cfaults d)
          (next_category_id d) (next_citem_id d) (next_gallery_id d) (next_popular_id d),
   Z.of_nat (count_where (has_cid id) (categories d))).

(** category.js:94 and :121: [title=?, description=?, (image=?,) status=?]. *)
Definition set_category (title description status : string) (image : option string) (c : category) : category :=
  mk_category (c_id c) (Some title) (Some description) (Some (mysql_int status))
              (match image with Some i => Some i | None => c_image c end).

(** [SELECT image FROM category WHERE id = ?] *)
Definition select_cimage (id : string) (d : cdb) : list (option string) :=
  List.map c_image (List.filter (has_cid id) (categories d)).

(** category.js:67-132 *)
Definition editCategory (id : string) (title description status file : option string) : St cdb cresponse :=
  match title, status with
  | Some t, Some st =>
    if negb (js_truthy title) then creply 400 (CText "Category title and status are required")
    else if js_truthy file then
      let newImage := default "" file in
      let* rows := query_of (select_cimage id) in
      match rows with
      | None => creply 500 (CText "Error fetching old image")
      | Some [] => creply 404 (CText "Category not found")
      | Some (oldImage :: _) =>
        let* u := run_of (update_categories id (set_category t (js_or description "") st (Some newImage))) in
        match u with
        | None => creply 500 (CText "Error updating category")
        | Some _ =>
          let* _ := (if js_truthy oldImage && bool_decide (oldImage <> Some newImage)
                     then safeUnlink (default "" oldImage) else st_ret tt) in
          creply 200 COk
        end
      end
    else
      let* u := run_of (update_categories id (set_category t (js_or description "") st None)) in
      match u with
      | None => creply 500 (CText "Error updating category")
      | Some _ => creply 200 COk
      end
  | _, _ => creply 400 (CText "Category title and status are required")
  end.

(** category.js:135-143: [status] is written as sent, [NULL] when absent. *)
Definition updateCategoryStatus (id : string) (status : option string) : St cdb cresponse :=
  let* u := run_of (update_categories id (fun c =>
              mk_category (c_id c) (c_title c) (c_description c) (option_map mysql_int status) (c_image c))) in
  match u with
  | None => creply 500 (CText "Error updating category status")
  | Some _ => creply 200 COk
  end.

(** [DELETE FROM category WHERE id = ?] *)
Definition delete_categories (id : string) (d : cdb) : cdb * Z :=
  (mk_cdb (List.filter (fun c => negb (has_cid id c)) (categories d))
          (citems d) (gallery d) (popular_products d) (uploads d) (cfaults d)
          (next_category_id d) (next_citem_id d) (next_gallery_id d) (next_popular_id d),
   Z.of_nat (count_where (has_cid id) (categories d))).

(** [SELECT COUNT( * ) AS itemCount FROM items WHERE category_id = ?] *)
Definition item_count (id : string) (d : cdb) : Z := Z.of_nat (count_where (in_category id) (citems d)).

(** category.js:146-204 *)
Definition deleteCategory (id : string) : St cdb cresponse :=
  let* itemRows := query_of (item_count id) in
  match itemRows with
  | None => creply 500 (CText "Error checking category items")
  | Some itemCount =>
    if 0 <? itemCount then creply 400 (CText "Delete all items before deleting category")
    else
      let* rows := query_of (select_cimage id) in
      match rows with
      | None => creply 500 (CText "Error fetching category image")
      | Some [] => creply 404 (CText "Category not found")
      | Some (imageName :: _) =>
        let* u := run_of (delete_categories id) in
        match u with
        | None => creply 500 (CText "Error deleting category")
        | Some _ =>
          let* _ := unlink_if imageName in
          creply 200 COk
        end
      end
  end.

(** ** gallary.js *)

(** A hexadecimal digit's value. *)
Definition hex_val (c : ascii) : option Z :=
  let n := Z.of_nat (nat_of_ascii c) in
  if (48 <=? n) && (n <=? 57) then Some (n - 48)
  else if (97 <=? n) && (n <=? 102) then Some (n - 87)
  else if (65 <=? n) && (n <=? 70) then Some (n - 55)
  else None.

Fixpoint hex_acc (acc : Z) (s : string) : Z * nat :=
  match s with
  | String c s' =>
    match hex_val c with
    | Some v => let '(w, n) := hex_acc (acc * 16 + v) s' in (w, S n)
    | None => (acc, O)
    end
  | EmptyString => (acc, O)
  end.

(** [parseInt(s)] with no radix: after the blanks and the sign, a [0x]
    or [0X] prefix reads the rest in base 16; anything else is
    [parseInt(s, 10)]. *)
Definition parse_int_auto (s : string) : option Z :=
  let t := skip_ws s in
  let '(sign, rest) :=
    match t with
    | String c r => if Ascii.eqb c "-" then (-1, r) else if Ascii.eqb c "+" then (1, r) else (1, t)
    | EmptyString => (1, t)
    end in
  match rest with
  | String z (String x r) =>
    if Ascii.eqb z "0" && (Ascii.eqb x "x" || Ascii.eqb x "X") then
      let '(v, n) := hex_acc 0 r in if (n =? 0)%nat then None else Some (sign * v)
    else parse_int s
  | _ => parse_int s
  end.

(** [parseInt(q) || d] *)
Definition query_num_auto (q : option string) (d : Z) : Z :=
  match q with
  | None => d
  | Some s => match parse_int_auto s with None => d | Some n => if n =? 0 then d else n end
  end.

(** [Math.ceil(a / b)] for [b <> 0]. *)
Definition js_ceil_div (a b : Z) : Z := - ((- a) / b).

(** [ORDER BY id DESC] *)
Definition gid_desc (a b : gallery_item) : Prop := g_id b <= g_id a.
#[export] Instance gid_desc_dec : RelDecision gid_desc.
Proof. intros a b. unfold gid_desc. apply _. Defined.

Definition by_gid_desc (l : list gallery_item) : list gallery_item := merge_sort gid_desc l.

Definition has_gid (id : string) (g : gallery_item) : bool := bool_decide (g_id g = mysql_int id).

(** gallary.js:14-22 *)
Definition getAllGallery : St cdb cresponse :=
  let* result := query_of (fun d => by_gid_desc (gallery d)) in
  match result with
  | None => creply 500 (CText "Error fetching gallery items")
  | Some rows => creply 200 (CGallery rows)
  end.

(** gallary.js:24-49: the page, then the count. *)
Definition getAllGalleryClient (page limit : option string) : St cdb cresponse :=
  let page := query_num_auto page 1 in
  let limit := query_num_auto limit 11 in
  let offset := (page - 1) * limit in
  let* result := query_of (fun d => limit_rows offset limit (by_gid_desc (gallery d))) in
  match result with
  | Some (Some rows) =>
    let* countResult := query_of (fun d => Z.of_nat (length (gallery d))) in
    match countResult with
    | None => creply 500 (CError "Error fetching total count")
    | Some totalItems => creply 200 (CGalleryPage rows totalItems page (js_ceil_div totalItems limit))
    end
  | _ => creply 500 (CError "Error fetching gallery items")
  end.

(** gallary.js:51-60: [res.json(result[0])], no 404. *)
Definition getGalleryById (id : string) : St cdb cresponse :=
  let* result := query_of (fun d => List.filter (has_gid id) (gallery d)) in
  match result with
  | None => creply 500 (CText "Error fetching gallery item")
  | Some rows => creply 200 (CGalleryItem (head rows))
  end.

(** gallary.js:71: [INSERT INTO gallery (title, img)]. *)
Definition insert_gallery (title img : string) (d : cdb) : cdb * Z :=
  let id := next_gallery_id d in
  (mk_cdb (categories d) (citems d) (gallery d ++ [mk_gallery_item id (Some title) (Some img)])
          (popular_products d) (uploads d) (cfaults d)
          (next_category_id d) (next_citem_id d) (id + 1) (next_popular_id d),
   id).

(** gallary.js:62-81 *)
Definition addGallery (title file : option string) : St cdb cresponse :=
  match title, file with
  | Some t, Some img =>
    if js_truthy title && js_truthy file then
      let* r := run_of (insert_gallery t img) in
      match r with
      | None => creply 500 (CText "Error adding gallery item")
      | Some _ => creply 200 COk
      end
    else creply 400 (CText "Missing title or image")
  | _, _ => creply 400 (CText "Missing title or image")
  end.

Definition update_gallery (id : string) (g : gallery_item -> gallery_item) (d : cdb) : cdb * Z :=
  (mk_cdb (categories d) (citems d) (List.map (fun r => if has_gid id r then g r else r) (gallery d))
          (popular_products d) (uploads d) (cfaults d)
          (next_category_id d) (next_citem_id d) (next_gallery_id d) (next_popular_id d),
   Z.of_nat (count_where (has_gid id) (gallery d))).

(** [SELECT img FROM gallery WHERE id=?] *)
Definition select_gimg (id : string) (d : cdb) : list (option string) :=
  List.map g_img (List.filter (has_gid id) (gallery d)).

(** gallary.js:84-124: [title] is written as sent, [NULL] when absent;
    the old file goes whatever the new one is named. *)
Definition editGallery (id : string) (title file : option string) : St cdb cresponse :=
  if js_truthy file then
    let imgPath := default "" file in
    let* result := query_of (select_gimg id) in
    match result with
    | None => creply 500 (CText "Error fetching gallery item")
    | Some result =>
      let oldImage := first_image result in
      let* u := run_of (update_gallery id (fun g => mk_gallery_item (g_id g) title (Some imgPath))) in
      match u with
      | None => creply 500 (CText "Error updating gallery item")
      | Some _ =>
        let* _ := unlink_if oldImage in
        creply 200 COk
      end
    end
  else
    let* u := run_of (update_gallery id (fun g => mk_gallery_item (g_id g) title (g_img g))) in
    match u with
    | None => creply 500 (CText "Error updating gallery item")
    | Some _ => creply 200 COk
    end.

Definition delete_gallery (id : string) (d : cdb) : cdb * Z :=
  (mk_cdb (categories d) (citems d) (List.filter (fun r => negb (has_gid id r)) (gallery d))
          (popular_products d) (uploads d) (cfaults d)
          (next_category_id d) (next_citem_id d) (next_gallery_id d) (next_popular_id d),
   Z.of_nat (count_where (has_gid id) (gallery d))).

(** gallary.js:127-155 *)
Definition deleteGallery (id : string) : St cdb cresponse :=
  let* result := query_of (select_gimg id) in
  match result with
  | None => creply 500 (CText "Error fetching gallery item")
  | Some [] => creply 404 (CText "Gallery item not found")
  | Some (imageName :: _) =>
    let* u := run_of (delete_gallery id) in
    match u with
    | None => creply 500 (CText "Error deleting gallery item")
    | Some _ =>
      let* _ := unlink_if imageName in
      creply 200 COk
    end
  end.

(** ** popularProducts.js *)

(** A row of [popular_products pp JOIN items i ON pp.item_id = i.id]. *)
Definition prow : Type := popular_product * item.

Definition pp_join (d : cdb) (p : popular_product) : list prow :=
  List.map (fun i => (p, i)) (List.filter (fun i => bool_decide (pp_item_id p = Some (i_id i))) (citems d)).

(** [ORDER BY pp.priority ASC], [NULL] first. *)
Definition opt_le (a b : option Z) : Prop :=
  match a, b with
  | None, _ => True
  | Some _, None => False
  | Some x, Some y => x <= y
  end.
Definition priority_le (a b : prow) : Prop := opt_le (pp_priority a.1) (pp_priority b.1).
#[export] Instance priority_le_dec : RelDecision priority_le.
Proof. intros [a ia] [b ib]. unfold priority_le, opt_le. cbn. destruct (pp_priority a), (pp_priority b); apply _. Defined.

(** The joined rows, those of active items when [only_active]
    ([WHERE i.status = 1]), by priority. *)
Definition popular_rows (only_active : bool) (d : cdb) : list prow :=
  merge_sort priority_le
    (List.filter (fun r => negb only_active || active r.2) (flat_map (pp_join d) (popular_products d))).

(** [pp.*, i.title, i.image] *)
Definition project (r : prow) : popular_product * option string * option string :=
  (r.1, i_title r.2, i_image r.2).

(** popularProducts.js:3-15 *)
Definition getPopularProducts : St cdb cresponse :=
  let* rows := query_of (fun d => List.map project (popular_rows false d)) in
  match rows with
  | None => creply 500 CDbError
  | Some rows => creply 200 (CPopular rows)
  end.

(** popularProducts.js:19-32 *)
Definition getActivePopularProducts : St cdb cresponse :=
  let* rows := query_of (fun d => List.map project (popular_rows true d)) in
  match rows with
  | None => creply 500 CDbError
  | Some rows => creply 200 (CPopular rows)
  end.

(** [x || d] on a JSON number: [0] and an absent field give [d]. *)
Definition num_or (o : option Z) (d : Z) : Z :=
  match o with
  | Some n => if n =? 0 then d else n
  | None => d
  end.

(** popularProducts.js:37-38 *)
Definition insert_popular (item_id priority status : option Z) (d : cdb) : cdb * Z :=
  let id := next_popular_id d in
  (mk_cdb (categories d) (citems d) (gallery d)
          (popular_products d ++ [mk_popular_product id item_id (Some (num_or priority 0)) (Some (num_or status 1))])
          (uploads d) (cfaults d) (next_category_id d) (next_citem_id d) (next_gallery_id d) (id + 1),
   id).

(** popularProducts.js:34-46 *)
Definition addPopularProduct (item_id priority status : option Z) : St cdb cresponse :=
  let* r := run_of (insert_popular item_id priority status) in
  match r with
  | None => creply 500 CDbError
  | Some insertId => creply 200 (CAdded insertId "Popular product added")
  end.

Definition has_pid (id : string) (p : popular_product) : bool := bool_decide (pp_id p = mysql_int id).

Definition update_popular (id : string) (g : popular_product -> popular_product) (d : cdb) : cdb * Z :=
  (mk_cdb (categories d) (citems d) (gallery d)
          (List.map (fun p => if has_pid id p then g p else p) (popular_products d))
          (uploads d) (cfaults d) (next_category_id d) (next_citem_id d) (next_gallery_id d) (next_popular_id d),
   Z.of_nat (count_where (has_pid id) (popular_products d))).

(** popularProducts.js:48-61 *)
Definition updatePopularProduct (id : string) (priority status : option Z) : St cdb cresponse :=
  let* u := run_of (update_popular id (fun p => mk_popular_product (pp_id p) (pp_item_id p) priority status)) in
  match u with
  | None => creply 500 CDbError
  | Some _ => creply 200 (CMessage "Popular product updated")
  end.

Definition delete_popular (id : string) (d : cdb) : cdb * Z :=
  (mk_cdb (categories d) (citems d) (gallery d) (List.filter (fun p => negb (has_pid id p)) (popular_products d))
          (uploads d) (cfaults d) (next_category_id d) (next_citem_id d) (next_gallery_id d) (next_popular_id d),
   Z.of_nat (count_where (has_pid id) (popular_products d))).

(** popularProducts.js:63-75 *)
Definition deletePopularProduct (id : string) : St cdb cresponse :=
  let* u := run_of (delete_popular id) in
  match u with
  | None => creply 500 CDbError
  | Some _ => creply 200 (CMessage "Popular product deleted")
  end.

(** ** The folder and the tables *)

(** Ids unique and below the [AUTO_INCREMENT] counter. *)
Definition ids_ok {R} (rid : R -> Z) (next : Z) (l : list R) : Prop :=
  NoDup (List.map rid l) /\ Forall (fun r => rid r < next) l.

(** The files the rows of the three image tables name. *)
Definition all_images (d : cdb) : list string :=
  omap c_image (categories d) ++ omap i_image (citems d) ++ omap g_img (gallery d).

(** The folder agrees with every table: no two rows name one file, and
    every file a row names is there. *)
Definition folder_ok (d : cdb) : Prop :=
  ids_ok c_id (next_category_id d) (categories d) /\ ids_ok i_id (next_citem_id d) (citems d) /\
  ids_ok g_id (next_gallery_id d) (gallery d) /\
  NoDup (all_images d) /\ (forall n, n ∈ all_images d -> n ∈ uploads d).

(** multer's upload: in the folder, under a name no row holds. *)
Definition cfresh (d : cdb) (f : option string) : Prop :=
  forall img, f = Some img -> img ∈ uploads d /\ img <> "" /\ img ∉ all_images d.

(** fileHandler.js:9-17: before the handler runs, multer writes the
    upload into the folder under [filename now originalname]. *)
Definition multer_store (now : Z) (originalname : string) (d : cdb) : cdb :=
  mk_cdb (categories d) (citems d) (gallery d) (popular_products d)
         (uploads d ++ [filename now originalname]) (cfaults d)
         (next_category_id d) (next_citem_id d) (next_gallery_id d) (next_popular_id d).

(** The requests of the four controllers, one at a time. *)
Inductive cstep : cdb -> cdb -> Prop :=
| cs_getAllCategories d : cstep d (snd (getAllCategories d))
| cs_getCategoryById id d : cstep d (snd (getCategoryById id d))
| cs_addCategory t ds st f d : cfresh d f -> cstep d (snd (addCategory t ds st f d))
| cs_editCategory id t ds st f d : cfresh d f -> cstep d (snd (editCategory id t ds st f d))
| cs_updateCategoryStatus id st d : cstep d (snd (updateCategoryStatus id st d))
| cs_deleteCategory id d : cstep d (snd (deleteCategory id d))
| cs_getAllGallery d : cstep d (snd (getAllGallery d))
| cs_getAllGalleryClient p l d : cstep d (snd (getAllGalleryClient p l d))
| cs_getGalleryById id d : cstep d (snd (getGalleryById id d))
| cs_addGallery t f d : cfresh d f -> cstep d (snd (addGallery t f d))
| cs_editGallery id t f d : cfresh d f -> cstep d (snd (editGallery id t f d))
| cs_deleteGallery id d : cstep d (snd (deleteGallery id d))
| cs_getPopularProducts d : cstep d (snd (getPopularProducts d))
| cs_getActivePopularProducts d : cstep d (snd (getActivePopularProducts d))
| cs_addPopularProduct i p st d : cstep d (snd (addPopularProduct i p st d))
| cs_updatePopularProduct id p st d : cstep d (snd (updatePopularProduct id p st d))
| cs_deletePopularProduct id d : cstep d (snd (deletePopularProduct id d))
| cs_items f d e : cfresh d f -> ihandle f (item_view d) e -> cstep d (with_items e d).

Inductive creach : cdb -> Prop :=
| creach_init ups bs : creach (mk_cdb [] [] [] [] ups bs 1 1 1 1)
| creach_step d d' : creach d -> cstep d d' -> creach d'.

(** A folder with one fresh upload and three gallery pictures, for the
    witnesses. *)
Definition ex_upload : string := "1731000000000sweets.png".
Definition ex_cdb : cdb :=
  mk_cdb [] [mk_item 7 (Some 5) (Some "Barfi") (Some "barfi.png") (Some 1)]
         [mk_gallery_item 1 (Some "Shop") (Some "shop.png"); mk_gallery_item 2 (Some "Diwali") (Some "diwali.png");
          mk_gallery_item 3 (Some "Counter") (Some "counter.png")]
         [mk_popular_product 1 (Some 7) (Some 2) (Some 1); mk_popular_product 2 (Some 9) (Some 1) (Some 1)]
         ["barfi.png"; "shop.png"; "diwali.png"; "counter.png"; ex_upload] [] 1 8 4 3.

(** ** Lemmas *)

(** *** Tables keyed by an id *)

Section Keyed.
Context {R : Type} (rid : R -> Z) (k : Z).

Definition upd (g : R -> R) (r : R) : R := if bool_decide (rid r = k) then g r else r.

(** A table with unique ids holds the key in at most one row. *)
Lemma split_key l :
  NoDup (List.map rid l) ->
  (forall r, In r l -> rid r <> k) \/
  exists l1 r l2, l = l1 ++ r :: l2 /\ rid r = k /\ forall x, In x (l1 ++ l2) -> rid x <> k.
Proof.
  induction l as [|x l IH]; intros Hnd; [by left|]. cbn in Hnd. apply NoDup_cons in Hnd as [Hx Hnd].
  destruct (decide (rid x = k)) as [E|E].
  - right. exists [], x, l. split; [done|split; [done|]]. intros y Hy Hy'. apply Hx.
    apply list_elem_of_In, in_map_iff. exists y. split; [congruence|done].
  - destruct (IH Hnd) as [Hn|(l1 & r & l2 & -> & Hr & Hn)].
    + left. intros r [<-|Hr]; auto.
    + right. exists (x :: l1), r, l2. split; [done|split; [done|]]. intros y [<-|Hy]; auto.
Qed.

Lemma upd_none g l : (forall r, In r l -> rid r <> k) -> List.map (upd g) l = l.
Proof.
  intros Hn. rewrite <- (List.map_id l) at 2. apply List.map_ext_in. intros x Hx.
  unfold upd. by rewrite bool_decide_false by auto.
Qed.

Lemma upd_split g l1 r l2 :
  rid r = k -> (forall x, In x (l1 ++ l2) -> rid x <> k) ->
  List.map (upd g) (l1 ++ r :: l2) = l1 ++ g r :: l2.
Proof.
  intros Hr Hn. rewrite List.map_app. cbn. unfold upd at 2. rewrite bool_decide_true by done.
  rewrite !upd_none; [done|..]; intros x Hx; apply Hn; auto using in_or_app.
Qed.

Lemma filter_key_split l1 r l2 :
  rid r = k -> (forall x, In x (l1 ++ l2) -> rid x <> k) ->
  List.filter (fun x => bool_decide (rid x = k)) (l1 ++ r :: l2) = [r] /\
  List.filter (fun x => negb (bool_decide (rid x = k))) (l1 ++ r :: l2) = l1 ++ l2.
Proof.
  intros Hr Hn. rewrite !List.filter_app. cbn. rewrite bool_decide_true by done. cbn. split.
  - rewrite !filter_none; [done|..]; apply List.Forall_forall; intros x Hx;
      apply bool_decide_false; apply Hn; auto using in_or_app.
  - rewrite !List.forallb_filter_id; [done|..]; apply List.forallb_forall; intros x Hx;
      rewrite bool_decide_false; auto using in_or_app.
Qed.

Lemma ids_ok_upd next g l : (forall r, rid (g r) = rid r) -> ids_ok rid next l -> ids_ok rid next (List.map (upd g) l).
Proof.
  intros Hg [Hnd Hlt]. assert (Hm : List.map rid (List.map (upd g) l) = List.map rid l).
  { rewrite List.map_map. apply List.map_ext. intros r. unfold upd. by case_bool_decide. }
  split; [by rewrite Hm|]. apply List.Forall_forall. intros x (r & <- & Hr)%in_map_iff.
  apply List.Forall_forall with (x := r) in Hlt; [|done]. unfold upd. by case_bool_decide; [rewrite Hg|].
Qed.

Lemma ids_ok_filter next p l : ids_ok rid next l -> ids_ok rid next (List.filter p l).
Proof.
  intros [Hnd Hlt]. split.
  - clear Hlt. induction l as [|x l IH]; [done|]. cbn in Hnd |- *. apply NoDup_cons in Hnd as [Hx Hnd].
    destruct (p x); [|by apply IH]. cbn. apply NoDup_cons. split; [|by apply IH].
    intros Hin. apply Hx. apply list_elem_of_In in Hin as (y & Hy & (Hyl & _)%filter_In)%in_map_iff.
    apply list_elem_of_In, in_map_iff. exists y. split; [exact Hy|exact Hyl].
  - apply List.Forall_forall. intros x (Hx & _)%filter_In. by apply List.Forall_forall with (x := x) in Hlt.
Qed.

Lemma ids_ok_snoc next l r : rid r = next -> ids_ok rid next l -> ids_ok rid (next + 1) (l ++ [r]).
Proof.
  intros Hr [Hnd Hlt]. split.
  - rewrite List.map_app. apply NoDup_app. split; [done|]. split; [|apply NoDup_singleton].
    intros x Hx1 Hx2. apply list_elem_of_singleton in Hx2. subst x.
    apply list_elem_of_In, in_map_iff in Hx1 as (y & Hy & Hyl).
    apply List.Forall_forall with (x := y) in Hlt; [lia|done].
  - apply List.Forall_app. split; [|constructor; [lia|done]].
    apply List.Forall_forall. intros x Hx. apply List.Forall_forall with (x := x) in Hlt; [lia|done].
Qed.
End Keyed.

(** *** The folder as lists of names *)

(** The names a row adds to [omap]. *)
Definition opt_list (o : option string) : list string := match o with Some x => [x] | None => [] end.

Lemma omap_split_at {R} (img : R -> option string) l1 r l2 :
  omap img (l1 ++ r :: l2) = omap img l1 ++ opt_list (img r) ++ omap img l2.
Proof. rewrite omap_app. cbn. by destruct (img r). Qed.

(** Replacing the names [M] of one place by [M'], each of them an old
    name of [M] or the fresh upload, keeps the names distinct. *)
Lemma nodup_sub (A M M' B : list string) (f : option string) :
  NoDup (A ++ M ++ B) -> NoDup M' -> (forall n, n ∈ M' -> n ∈ M \/ f = Some n) ->
  (forall img, f = Some img -> img ∉ A ++ M ++ B) -> NoDup (A ++ M' ++ B).
Proof.
  intros Hnd Hm' Hsub Hf.
  assert (Hp : forall X, A ++ X ++ B ≡ₚ X ++ A ++ B) by (intros X; solve_Permutation).
  rewrite Hp in Hnd |- *. apply NoDup_app in Hnd as (HM & Hdis & HAB).
  apply NoDup_app. split; [done|]. split; [|done].
  intros n Hn HnAB. destruct (Hsub n Hn) as [HnM|Hfn]; [exact (Hdis n HnM HnAB)|].
  apply (Hf n Hfn). rewrite (Hp M). set_solver.
Qed.

(** The rows keep their files when only [M]'s files may go and the new
    names [M'] are in the folder. *)
Lemma incl_sub (A M M' B U U' : list string) :
  (forall n, n ∈ A ++ M ++ B -> n ∈ U) -> NoDup (A ++ M ++ B) ->
  (forall n, n ∈ U -> n ∉ M -> n ∈ U') -> (forall n, n ∈ M' -> n ∈ U') ->
  forall n, n ∈ A ++ M' ++ B -> n ∈ U'.
Proof.
  intros Hin Hnd Hkeep HM' n Hn.
  assert (Hp : forall X, A ++ X ++ B ≡ₚ X ++ A ++ B) by (intros X; solve_Permutation).
  apply elem_of_app in Hn as [Hn|[Hn|Hn]%elem_of_app]; [|by apply HM'|].
  all: apply Hkeep; [apply Hin; set_solver|]; intros HnM; rewrite Hp in Hnd;
       apply NoDup_app in Hnd as (_ & Hdis & _); apply (Hdis n HnM); set_solver.
Qed.

(** *** One image table among the others

    The names the other tables hold are [P] before the table's and [Q]
    after them; [U] is the folder. *)
Section ImageTable.
Context {R : Type} (rid : R -> Z) (rimg : R -> option string) (k : Z) (P Q : list string).

Let key (x : R) : bool := bool_decide (rid x = k).

(** Updating the keyed row, its image kept or replaced by the fresh
    upload [f]. *)
Lemma images_update g (f : option string) (U : list string) l :
  NoDup (List.map rid l) -> NoDup (P ++ omap rimg l ++ Q) -> (forall n, n ∈ P ++ omap rimg l ++ Q -> n ∈ U) ->
  (forall r n, rimg (g r) = Some n -> rimg r = Some n \/ f = Some n) ->
  (forall img, f = Some img -> img ∈ U /\ img ∉ P ++ omap rimg l ++ Q) ->
  NoDup (P ++ omap rimg (List.map (upd rid k g) l) ++ Q) /\
  (forall n, n ∈ P ++ omap rimg (List.map (upd rid k g) l) ++ Q -> n ∈ U).
Proof.
  intros Hids Hnd Hin Hg Hf. destruct (split_key rid k l Hids) as [Hn|(l1 & r & l2 & -> & Hr & Hn)].
  - by rewrite upd_none.
  - rewrite upd_split by done. rewrite !omap_split_at in Hnd, Hin, Hf |- *.
    assert (Hp : forall X, P ++ (omap rimg l1 ++ X ++ omap rimg l2) ++ Q = (P ++ omap rimg l1) ++ X ++ (omap rimg l2 ++ Q))
      by (intros X; by rewrite <- !app_assoc).
    rewrite Hp in Hnd, Hin, Hf |- *.
    assert (HM : forall n, n ∈ opt_list (rimg (g r)) -> n ∈ opt_list (rimg r) \/ f = Some n).
    { intros n Hn'. destruct (rimg (g r)) eqn:E; [|set_solver]. apply list_elem_of_singleton in Hn' as ->.
      destruct (Hg r _ E) as [->|]; [left; set_solver|by right]. }
    split.
    + apply (nodup_sub _ (opt_list (rimg r)) _ _ f); [done|by destruct (rimg (g r)); constructor; [set_solver|constructor]|done|].
      intros img Himg. apply (Hf img Himg).
    + apply (incl_sub _ (opt_list (rimg r)) _ _ U U Hin Hnd); [done|].
      intros n Hn'. destruct (HM n Hn') as [Ho|Ho]; [apply Hin; set_solver|apply (Hf n Ho)].
Qed.

(** The image an updated row no longer names is named by no row. *)
Lemma images_update_drops g n rest l :
  NoDup (List.map rid l) -> NoDup (P ++ omap rimg l ++ Q) ->
  List.map rimg (List.filter key l) = Some n :: rest -> (forall r, rimg (g r) <> Some n) ->
  n ∉ P ++ omap rimg (List.map (upd rid k g) l) ++ Q.
Proof.
  intros Hids Hnd Hsel Hg. destruct (split_key rid k l Hids) as [Hn|(l1 & r & l2 & -> & Hr & Hn)].
  - unfold key in Hsel. rewrite filter_none in Hsel; [done|]. apply List.Forall_forall. intros x Hx.
    by apply bool_decide_false, Hn.
  - unfold key in Hsel. rewrite (proj1 (filter_key_split rid k l1 r l2 Hr Hn)) in Hsel. injection Hsel as Hrn _.
    rewrite upd_split by done. rewrite !omap_split_at in Hnd |- *. rewrite Hrn in Hnd.
    assert (Hp : forall X, P ++ (omap rimg l1 ++ X ++ omap rimg l2) ++ Q ≡ₚ X ++ P ++ omap rimg l1 ++ omap rimg l2 ++ Q)
      by (intros X; solve_Permutation).
    rewrite Hp in Hnd |- *. apply NoDup_app in Hnd as (_ & Hdis & _).
    intros [Hin|Hin]%elem_of_app; [destruct (rimg (g r)) eqn:E; [|set_solver]|exact (Hdis n ltac:(set_solver) Hin)].
    apply list_elem_of_singleton in Hin as ->. by apply (Hg r).
Qed.

(** Deleting the keyed rows. *)
Lemma images_delete (U : list string) l :
  NoDup (List.map rid l) -> NoDup (P ++ omap rimg l ++ Q) -> (forall n, n ∈ P ++ omap rimg l ++ Q -> n ∈ U) ->
  NoDup (P ++ omap rimg (List.filter (fun x => negb (key x)) l) ++ Q) /\
  (forall n, n ∈ P ++ omap rimg (List.filter (fun x => negb (key x)) l) ++ Q -> n ∈ U).
Proof.
  intros Hids Hnd Hin. destruct (split_key rid k l Hids) as [Hn|(l1 & r & l2 & -> & Hr & Hn)].
  - rewrite List.forallb_filter_id; [done|]. apply List.forallb_forall. intros x Hx.
    unfold key. rewrite bool_decide_false; auto.
  - unfold key. rewrite (proj2 (filter_key_split rid k l1 r l2 Hr Hn)). rewrite omap_split_at in Hnd, Hin.
    rewrite omap_app.
    assert (Hp : forall X, P ++ (omap rimg l1 ++ X ++ omap rimg l2) ++ Q = (P ++ omap rimg l1) ++ X ++ (omap rimg l2 ++ Q))
      by (intros X; by rewrite <- !app_assoc).
    rewrite Hp in Hnd, Hin. change (omap rimg l1 ++ omap rimg l2) with (omap rimg l1 ++ [] ++ omap rimg l2).
    rewrite Hp. split.
    + apply (nodup_sub _ (opt_list (rimg r)) _ _ None); [done|constructor|set_solver|done].
    + apply (incl_sub _ (opt_list (rimg r)) _ _ U U Hin Hnd); [done|set_solver].
Qed.

(** The image of the deleted row is named by no row left. *)
Lemma images_delete_drops n rest l :
  NoDup (List.map rid l) -> NoDup (P ++ omap rimg l ++ Q) ->
  List.map rimg (List.filter key l) = Some n :: rest ->
  n ∉ P ++ omap rimg (List.filter (fun x => negb (key x)) l) ++ Q.
Proof.
  intros Hids Hnd Hsel. destruct (split_key rid k l Hids) as [Hn|(l1 & r & l2 & -> & Hr & Hn)].
  - unfold key in Hsel. rewrite filter_none in Hsel; [done|]. apply List.Forall_forall. intros x Hx.
    by apply bool_decide_false, Hn.
  - unfold key in Hsel |- *. rewrite (proj1 (filter_key_split rid k l1 r l2 Hr Hn)) in Hsel.
    injection Hsel as Hrn _. rewrite (proj2 (filter_key_split rid k l1 r l2 Hr Hn)).
    rewrite omap_split_at, Hrn in Hnd. rewrite omap_app.
    assert (Hp : P ++ (omap rimg l1 ++ [n] ++ omap rimg l2) ++ Q ≡ₚ [n] ++ P ++ (omap rimg l1 ++ omap rimg l2) ++ Q)
      by solve_Permutation.
    rewrite Hp in Hnd. apply NoDup_app in Hnd as (_ & Hdis & _). apply Hdis. set_solver.
Qed.

(** Inserting a row that names the fresh upload. *)
Lemma images_insert (U : list string) l r img :
  NoDup (P ++ omap rimg l ++ Q) -> (forall n, n ∈ P ++ omap rimg l ++ Q -> n ∈ U) ->
  rimg r = Some img -> img ∈ U -> img ∉ P ++ omap rimg l ++ Q ->
  NoDup (P ++ omap rimg (l ++ [r]) ++ Q) /\ (forall n, n ∈ P ++ omap rimg (l ++ [r]) ++ Q -> n ∈ U).
Proof.
  intros Hnd Hin Hr HU Hf. rewrite omap_app. cbn. rewrite Hr. rewrite <- !app_assoc.
  assert (Hp : forall X, P ++ omap rimg l ++ X ++ Q = (P ++ omap rimg l) ++ X ++ Q)
    by (intros X; by rewrite <- !app_assoc).
  rewrite Hp. change (P ++ omap rimg l ++ Q) with (P ++ omap rimg l ++ [] ++ Q) in Hnd, Hin, Hf.
  rewrite Hp in Hnd, Hin, Hf. split.
  - apply (nodup_sub _ [] _ _ (Some img)); [done|apply NoDup_singleton|set_solver|].
    intros ? [= <-]. done.
  - apply (incl_sub _ [] _ _ U U Hin Hnd); [done|set_solver].
Qed.
End ImageTable.

(** *** The folder through each statement *)

Lemma all_images_gallery d :
  all_images d = (omap c_image (categories d) ++ omap i_image (citems d)) ++ omap g_img (gallery d) ++ [].
Proof. unfold all_images. by rewrite app_nil_r, <- app_assoc. Qed.

Lemma cfresh_spec d f img : cfresh d f -> f = Some img -> img ∈ uploads d /\ img ∉ all_images d.
Proof. intros Hf Himg. destruct (Hf img Himg) as (? & _ & ?). done. Qed.

(** Unlinking a file no row names keeps the agreement. *)
Lemma folder_unlink name d : folder_ok d -> name ∉ all_images d -> folder_ok (snd (safeUnlink name d)).
Proof.
  intros (Hc & Hi & Hg & Hnd & Hin) Hname. split; [done|split; [done|split; [done|split; [done|]]]].
  intros n Hn. cbn. apply list_elem_of_In, filter_In. split; [by apply list_elem_of_In, Hin|].
  apply negb_true_iff, String.eqb_neq. intros ->. by apply Hname.
Qed.

Lemma folder_update_categories id g f d :
  (forall c, c_id (g c) = c_id c) ->
  (forall c n, c_image (g c) = Some n -> c_image c = Some n \/ f = Some n) ->
  cfresh d f -> folder_ok d -> folder_ok (fst (update_categories id g d)).
Proof.
  intros Hid Himg Hf (Hc & Hi & Hg & Hnd & Hin). unfold folder_ok, all_images.
  cbn [fst update_categories categories citems gallery uploads next_category_id next_citem_id next_gallery_id].
  change (List.map (fun c => if has_cid id c then g c else c) ?l) with (List.map (upd c_id (mysql_int id) g) l).
  destruct (images_update c_id c_image (mysql_int id) [] (omap i_image (citems d) ++ omap g_img (gallery d))
              g f (uploads d) (categories d) (proj1 Hc) Hnd Hin Himg) as [H1 H2];
    [intros img Himg'; exact (cfresh_spec d f img Hf Himg')|].
  split; [by apply ids_ok_upd|done].
Qed.

Lemma folder_delete_categories id d : folder_ok d -> folder_ok (fst (delete_categories id d)).
Proof.
  intros (Hc & Hi & Hg & Hnd & Hin). unfold folder_ok, all_images.
  cbn [fst delete_categories categories citems gallery uploads next_category_id next_citem_id next_gallery_id].
  destruct (images_delete c_id c_image (mysql_int id) [] (omap i_image (citems d) ++ omap g_img (gallery d))
              (uploads d) (categories d) (proj1 Hc) Hnd Hin) as [H1 H2].
  split; [by apply ids_ok_filter|done].
Qed.

Lemma folder_insert_category t ds st img d :
  cfresh d (Some img) -> folder_ok d -> folder_ok (fst (insert_category t ds st img d)).
Proof.
  intros Hf (Hc & Hi & Hg & Hnd & Hin). destruct (cfresh_spec d _ img Hf eq_refl) as [HU Hn].
  unfold folder_ok, all_images.
  cbn [fst insert_category categories citems gallery uploads next_category_id next_citem_id next_gallery_id].
  destruct (images_insert c_id c_image 0 [] (omap i_image (citems d) ++ omap g_img (gallery d)) (uploads d)
              (categories d) (mk_category (next_category_id d) (Some t) (Some ds) (Some (mysql_int st)) (Some img))
              img Hnd Hin eq_refl HU Hn) as [H1 H2].
  split; [by apply ids_ok_snoc|done].
Qed.

Lemma folder_update_gallery id g f d :
  (forall r, g_id (g r) = g_id r) ->
  (forall r n, g_img (g r) = Some n -> g_img r = Some n \/ f = Some n) ->
  cfresh d f -> folder_ok d -> folder_ok (fst (update_gallery id g d)).
Proof.
  intros Hid Himg Hf (Hc & Hi & Hg & Hnd & Hin). unfold folder_ok. rewrite !all_images_gallery in *.
  cbn [fst update_gallery categories citems gallery uploads next_category_id next_citem_id next_gallery_id].
  change (List.map (fun r => if has_gid id r then g r else r) ?l) with (List.map (upd g_id (mysql_int id) g) l).
  destruct (images_update g_id g_img (mysql_int id) (omap c_image (categories d) ++ omap i_image (citems d)) []
              g f (uploads d) (gallery d) (proj1 Hg) Hnd Hin Himg) as [H1 H2];
    [intros img Himg'; destruct (cfresh_spec d f img Hf Himg'); rewrite <- all_images_gallery; done|].
  split; [done|split; [done|split; [by apply ids_ok_upd|done]]].
Qed.

Lemma folder_delete_gallery id d : folder_ok d -> folder_ok (fst (delete_gallery id d)).
Proof.
  intros (Hc & Hi & Hg & Hnd & Hin). unfold folder_ok. rewrite !all_images_gallery in *.
  cbn [fst delete_gallery categories citems gallery uploads next_category_id next_citem_id next_gallery_id].
  destruct (images_delete g_id g_img (mysql_int id) (omap c_image (categories d) ++ omap i_image (citems d)) []
              (uploads d) (gallery d) (proj1 Hg) Hnd Hin) as [H1 H2].
  split; [done|split; [done|split; [by apply ids_ok_filter|done]]].
Qed.

Lemma folder_insert_gallery t img d :
  cfresh d (Some img) -> folder_ok d -> folder_ok (fst (insert_gallery t img d)).
Proof.
  intros Hf (Hc & Hi & Hg & Hnd & Hin). destruct (cfresh_spec d _ img Hf eq_refl) as [HU Hn].
  unfold folder_ok. rewrite !all_images_gallery in *.
  cbn [fst insert_gallery categories citems gallery uploads next_category_id next_citem_id next_gallery_id].
  destruct (images_insert g_id g_img 0 (omap c_image (categories d) ++ omap i_image (citems d)) [] (uploads d)
              (gallery d) (mk_gallery_item (next_gallery_id d) (Some t) (Some img)) img Hnd Hin eq_refl HU Hn)
    as [H1 H2].
  split; [done|split; [done|split; [by apply ids_ok_snoc|done]]].
Qed.

(** *** The folder through each request *)

(** A reply leaves the state of its callback. *)
Ltac ret_post := let s := fresh "s" in let H := fresh "H" in intros s H; exact H.

Lemma sel_in {R} (rimg : R -> option string) (p : R -> bool) l n rest :
  List.map rimg (List.filter p l) = Some n :: rest -> n ∈ omap rimg l.
Proof.
  destruct (List.filter p l) as [|r rs] eqn:E; [done|]. intros [= Hr _].
  assert (Hin : In r (List.filter p l)) by (rewrite E; left; done).
  apply filter_In in Hin as [Hin _]. apply list_elem_of_omap. exists r. split; [by apply list_elem_of_In|done].
Qed.

Lemma unlink_if_folder o d :
  folder_ok d -> (forall n, o = Some n -> n ∉ all_images d) -> folder_ok (snd (unlink_if o d)).
Proof.
  intros Hd Ho. unfold unlink_if. destruct (js_truthy o) eqn:E; [|exact Hd].
  destruct o as [n|]; [by apply folder_unlink, Ho|done].
Qed.

Lemma no_fresh d : cfresh d None.
Proof. by intros img. Qed.

Lemma addCategory_folder t ds st f d : cfresh d f -> folder_ok d -> folder_ok (snd (addCategory t ds st f d)).
Proof.
  intros Hf Hd. unfold addCategory. destruct t as [t|], f as [img|], st as [st|]; try exact Hd.
  destruct (_ && _); [|exact Hd].
  apply (run_bind_post (fun e => folder_ok e /\ cfresh e (Some img)) ltac:(faults_free)); [done|intros ? []; done|].
  intros e [He Hfe]. by apply folder_insert_category.
Qed.

Lemma editCategory_folder id t ds st f d : cfresh d f -> folder_ok d -> folder_ok (snd (editCategory id t ds st f d)).
Proof.
  intros Hf Hd. unfold editCategory. destruct t as [t|], st as [st|]; try exact Hd.
  destruct (negb _); [exact Hd|]. destruct (js_truthy f) eqn:Ef.
  - destruct f as [img|]; [|done]. change (default "" (Some img)) with img. cbv zeta.
    apply (query_bind_post (fun e => folder_ok e /\ cfresh e (Some img)) ltac:(faults_free));
      [done|intros ? []; done|].
    intros s [Hs Hfs]. destruct (select_cimage id s) as [|old rest] eqn:Hsel; [exact Hs|].
    apply (run_bind_post (fun e => folder_ok e /\ cfresh e (Some img) /\ categories e = categories s)
             ltac:(faults_free)); [done|intros ? []; done|].
    intros e (He & Hfe & Hc). rewrite st_bind_run.
    assert (Hu : folder_ok (fst (update_categories id (set_category t (js_or ds "") st (Some img)) e))).
    { apply (folder_update_categories _ _ (Some img)); [done|intros c n [= <-]; by right|done|done]. }
    destruct (js_truthy old && bool_decide (old <> Some img)) eqn:Eb; [|exact Hu].
    apply andb_true_iff in Eb as [Eo Ene]. apply bool_decide_eq_true in Ene.
    destruct old as [n|]; [|done]. apply folder_unlink; [done|].
    destruct He as (Hci & _ & _ & Hnd & _). unfold all_images.
    cbn [fst update_categories categories citems gallery].
    change (List.map (fun c => if has_cid id c then ?g c else c) ?l) with (List.map (upd c_id (mysql_int id) g) l).
    apply (images_update_drops c_id c_image (mysql_int id) [] _ _ n rest (categories e) (proj1 Hci) Hnd).
    + unfold select_cimage in Hsel. rewrite Hc. exact Hsel.
    + intros r. cbn. congruence.
  - apply (run_bind_post folder_ok ltac:(faults_free)); [done|ret_post|].
    intros e He. apply (folder_update_categories _ _ None); [done|intros c n Hn; by left|apply no_fresh|done].
Qed.

Lemma updateCategoryStatus_folder id st d : folder_ok d -> folder_ok (snd (updateCategoryStatus id st d)).
Proof.
  revert d. enough (Hk : st_keeps folder_ok (updateCategoryStatus id st)) by exact Hk.
  unfold updateCategoryStatus, creply. keeps_faulty.
  intros s Hs. apply (folder_update_categories _ _ None); [done|intros c n Hn; by left|apply no_fresh|done].
Qed.

Lemma deleteCategory_folder id d : folder_ok d -> folder_ok (snd (deleteCategory id d)).
Proof.
  intros Hd. unfold deleteCategory.
  apply (query_bind_post folder_ok ltac:(faults_free)); [done|ret_post|]. intros s Hs.
  destruct (0 <? item_count id s); [exact Hs|].
  apply (query_bind_post folder_ok ltac:(faults_free)); [done|ret_post|]. intros s1 Hs1.
  destruct (select_cimage id s1) as [|img rest] eqn:Hsel; [exact Hs1|].
  apply (run_bind_post (fun e => folder_ok e /\ categories e = categories s1) ltac:(faults_free));
    [done|intros ? []; done|].
  intros e [He Hc]. rewrite st_bind_run. apply unlink_if_folder; [by apply folder_delete_categories|].
  intros n ->. destruct He as (Hci & _ & _ & Hnd & _). unfold all_images.
  cbn [fst delete_categories categories citems gallery].
  apply (images_delete_drops c_id c_image (mysql_int id) [] _ n rest (categories e) (proj1 Hci) Hnd).
  unfold select_cimage in Hsel. rewrite Hc. exact Hsel.
Qed.

Lemma addGallery_folder t f d : cfresh d f -> folder_ok d -> folder_ok (snd (addGallery t f d)).
Proof.
  intros Hf Hd. unfold addGallery. destruct t as [t|], f as [img|]; try exact Hd.
  destruct (_ && _); [|exact Hd].
  apply (run_bind_post (fun e => folder_ok e /\ cfresh e (Some img)) ltac:(faults_free)); [done|intros ? []; done|].
  intros e [He Hfe]. by apply folder_insert_gallery.
Qed.

Lemma editGallery_folder id t f d : cfresh d f -> folder_ok d -> folder_ok (snd (editGallery id t f d)).
Proof.
  intros Hf Hd. unfold editGallery. destruct (js_truthy f) eqn:Ef.
  - destruct f as [img|]; [|done]. change (default "" (Some img)) with img. cbv zeta.
    apply (query_bind_post (fun e => folder_ok e /\ cfresh e (Some img)) ltac:(faults_free));
      [done|intros ? []; done|].
    intros s [Hs Hfs].
    apply (run_bind_post (fun e => folder_ok e /\ cfresh e (Some img) /\ gallery e = gallery s)
             ltac:(faults_free)); [done|intros ? []; done|].
    intros e (He & Hfe & Hc). rewrite st_bind_run. apply unlink_if_folder.
    + apply (folder_update_gallery _ _ (Some img)); [done|intros r n [= <-]; by right|done|done].
    + destruct (select_gimg id s) as [|o rest] eqn:Hsel; [done|]. cbn [first_image]. intros n ->.
      assert (Hn : n ∈ all_images e).
      { unfold all_images. apply elem_of_app; right; apply elem_of_app; right.
        unfold select_gimg in Hsel. rewrite <- Hc in Hsel. exact (sel_in _ _ _ _ _ Hsel). }
      destruct (cfresh_spec e _ img Hfe eq_refl) as [_ Himg].
      destruct He as (_ & _ & Hgi & Hnd & _). rewrite all_images_gallery in Hnd |- *.
      cbn [fst update_gallery categories citems gallery].
      change (List.map (fun r => if has_gid id r then ?g r else r) ?l) with (List.map (upd g_id (mysql_int id) g) l).
      apply (images_update_drops g_id g_img (mysql_int id) _ [] _ n rest (gallery e) (proj1 Hgi) Hnd).
      * unfold select_gimg in Hsel. rewrite Hc. exact Hsel.
      * intros r. cbn. intros [= ->]. by apply Himg.
  - apply (run_bind_post folder_ok ltac:(faults_free)); [done|ret_post|].
    intros e He. apply (folder_update_gallery _ _ None); [done|intros r n Hn; by left|apply no_fresh|done].
Qed.

Lemma deleteGallery_folder id d : folder_ok d -> folder_ok (snd (deleteGallery id d)).
Proof.
  intros Hd. unfold deleteGallery.
  apply (query_bind_post folder_ok ltac:(faults_free)); [done|ret_post|]. intros s Hs.
  destruct (select_gimg id s) as [|img rest] eqn:Hsel; [exact Hs|].
  apply (run_bind_post (fun e => folder_ok e /\ gallery e = gallery s) ltac:(faults_free));
    [done|intros ? []; done|].
  intros e [He Hc]. rewrite st_bind_run. apply unlink_if_folder; [by apply folder_delete_gallery|].
  intros n ->. destruct He as (_ & _ & Hgi & Hnd & _). rewrite all_images_gallery in Hnd |- *.
  cbn [fst delete_gallery categories citems gallery].
  apply (images_delete_drops g_id g_img (mysql_int id) _ [] n rest (gallery e) (proj1 Hgi) Hnd).
  unfold select_gimg in Hsel. rewrite Hc. exact Hsel.
Qed.

(** The item store's agreement is part of the folder's. *)
Lemma folder_images_ok d : folder_ok d -> images_ok (item_view d).
Proof.
  intros ([? ?] & [Hi Hlt] & _ & Hnd & Hin). split; [done|split; [done|split]].
  - unfold all_images in Hnd. cbn. apply NoDup_app in Hnd as (_ & _ & Hnd). by apply NoDup_app in Hnd as (? & _ & _).
  - intros n Hn. apply Hin. unfold all_images. cbn in Hn. set_solver.
Qed.

(** A request on items keeps the agreement of the whole folder. *)
Lemma items_folder f d e : cfresh d f -> ihandle f (item_view d) e -> folder_ok d -> folder_ok (with_items e d).
Proof.
  intros Hf Hh Hd. pose proof (folder_images_ok d Hd) as Hok.
  assert (Hfr : fresh_upload (item_view d) f).
  { intros img Himg. destruct (Hf img Himg) as (? & ? & Hn). split; [done|split; [done|]].
    intros Hin. apply Hn. unfold all_images. cbn in Hin. set_solver. }
  destruct (istep_images _ _ (ihandle_istep _ _ _ Hh Hfr) Hok) as (Hi1 & Hi2 & Hi3 & Hi4).
  destruct (ihandle_frame _ _ _ Hh) as (_ & Hup & Him).
  destruct Hd as (Hc & _ & Hg & Hnd & Hin). unfold all_images in Hnd, Hin.
  split; [done|split; [done|split; [done|]]]. unfold all_images. cbn [with_items categories citems gallery uploads].
  split.
  - apply (nodup_sub _ (omap i_image (citems d)) _ _ f Hnd Hi3 Him).
    intros img Himg. exact (proj2 (cfresh_spec d f img Hf Himg)).
  - apply (incl_sub _ (omap i_image (citems d)) _ _ (uploads d) (iuploads e) Hin Hnd); [|exact Hi4].
    intros n Hn HnI. destruct (decide (n ∈ iuploads e)) as [|Hne]; [done|]. by destruct (HnI (Hup n Hn Hne)).
Qed.

Lemma cstep_folder d d' : cstep d d' -> folder_ok d -> folder_ok d'.
Proof.
  intros Hs Hd. destruct Hs.
  all: try match goal with
       | H : cfresh ?d ?f, H' : ihandle _ _ _ |- _ => by apply (items_folder f)
       end.
  3: by apply addCategory_folder.
  3: by apply editCategory_folder.
  3: by apply updateCategoryStatus_folder.
  3: by apply deleteCategory_folder.
  6: by apply addGallery_folder.
  6: by apply editGallery_folder.
  6: by apply deleteGallery_folder.
  all: match goal with |- folder_ok (snd (?m ?s)) =>
         enough (Hk : st_keeps folder_ok m) by exact (Hk s Hd) end.
  all: unfold getAllCategories, getCategoryById, getAllGallery, getAllGalleryClient, getGalleryById,
         getPopularProducts, getActivePopularProducts, addPopularProduct, updatePopularProduct,
         deletePopularProduct, creply; keeps_faulty; ret_post.
Qed.

(** *** Replies and the other statements *)

Lemma unlink_if_keeps_tables o d :
  categories (snd (unlink_if o d)) = categories d /\ citems (snd (unlink_if o d)) = citems d /\
  gallery (snd (unlink_if o d)) = gallery d.
Proof. unfold unlink_if. by destruct (js_truthy o). Qed.

Lemma query_num_auto_nonzero q n : n <> 0 -> query_num_auto q n <> 0.
Proof.
  intros Hn. unfold query_num_auto. destruct q as [s|]; [|done].
  destruct (parse_int_auto s) as [m|]; [|done]. destruct (m =? 0) eqn:E; [done|]. by apply Z.eqb_neq.
Qed.

(** [Math.ceil(a / b)] is the least number of windows of [b] that hold [a]. *)
Lemma js_ceil_div_spec a b : 0 < b -> (js_ceil_div a b - 1) * b < a <= js_ceil_div a b * b.
Proof.
  intros Hb. unfold js_ceil_div. pose proof (Z.div_mod (- a) b ltac:(lia)). pose proof (Z.mod_pos_bound (- a) b Hb).
  lia.
Qed.

Lemma limit_rows_some {A} offset count (l rows : list A) :
  limit_rows offset count l = Some rows ->
  0 <= offset /\ 0 <= count /\ rows = firstn (Z.to_nat count) (skipn (Z.to_nat offset) l).
Proof.
  unfold limit_rows. destruct (_ || _) eqn:E; [done|]. intros [= <-].
  apply orb_false_iff in E as [E1 E2]. apply Z.ltb_ge in E1, E2. split; [lia|split; [lia|done]].
Qed.

(** A row of a popular listing joins a product of the table to an item
    of the table it names. *)
Lemma popular_rows_in b d r :
  In r (popular_rows b d) ->
  In r.1 (popular_products d) /\ In r.2 (citems d) /\ pp_item_id r.1 = Some (i_id r.2).
Proof.
  unfold popular_rows. intros Hr. apply list_elem_of_In in Hr. rewrite merge_sort_Permutation in Hr.
  apply list_elem_of_In, filter_In in Hr as [Hr _]. apply in_flat_map in Hr as (p & Hp & Hr).
  unfold pp_join in Hr. apply in_map_iff in Hr as (i & <- & Hi). apply filter_In in Hi as [Hi Hid].
  cbn. split; [done|split; [done|]]. by apply bool_decide_eq_true in Hid.
Qed.

#[export] Instance priority_le_total : Total priority_le.
Proof. intros [a ia] [b ib]. unfold priority_le, opt_le. cbn. destruct (pp_priority a), (pp_priority b); auto; lia. Qed.

Lemma folder_ok_init ups bs : folder_ok (mk_cdb [] [] [] [] ups bs 1 1 1 1).
Proof.
  split; [split; constructor|split; [split; constructor|split; [split; constructor|split; [constructor|]]]].
  intros n Hn. unfold all_images in Hn. cbn in Hn. set_solver.
Qed.

(** ** Properties *)

(** C27: in every state the catalogue controllers reach, one request at a
    time with uploads as multer makes them, the [uploads] folder agrees
    with the tables [category], [items] and [gallery]: ids are unique,
    no two rows name one file, and every file a row names is in the
    folder (no request unlinks a file another row still shows). *)
Theorem creach_folder_ok d : creach d -> folder_ok d.
Proof. induction 1 as [ups bs|d d' _ IH Hs]; [apply folder_ok_init|by apply (cstep_folder d)]. Qed.

(** C30: [deleteCategory] answers 200 only when no item names the
    category: the items are untouched and the category's rows are gone. *)
Theorem deleteCategory_guard id d :
  ccode (fst (deleteCategory id d)) = 200 ->
  count_where (in_category id) (citems d) = 0%nat /\
  List.filter (has_cid id) (categories (snd (deleteCategory id d))) = [] /\
  citems (snd (deleteCategory id d)) = citems d.
Proof.
  unfold deleteCategory.
  apply (query_bind_spec (fun e => citems e = citems d) ltac:(faults_free)); [done|intros ?? H; cbn in H; discriminate|].
  intros s Hs. destruct (0 <? item_count id s) eqn:E; [intros H; cbn in H; discriminate|].
  apply (query_bind_spec (fun e => citems e = citems d) ltac:(faults_free)); [done|intros ?? H; cbn in H; discriminate|].
  intros s1 Hs1. destruct (select_cimage id s1) as [|img rest]; [intros H; cbn in H; discriminate|].
  apply (run_bind_spec (fun e => citems e = citems d) ltac:(faults_free)); [done|intros ?? H; cbn in H; discriminate|].
  intros e He _. rewrite st_bind_run. cbn [creply st_ret fst snd].
  destruct (unlink_if_keeps_tables img (fst (delete_categories id e))) as (Hc & Hi & _). rewrite Hc, Hi.
  cbn [fst delete_categories categories citems]. split; [|split; [|done]].
  - unfold item_count in E. rewrite Hs in E. apply Z.ltb_ge in E. lia.
  - apply filter_neg_empty.
Qed.

(** C35: a gallery page answered 200 is the window [(page - 1) * L, L) of
    the pictures newest first, with [L = parseInt(limit) || 11] positive
    and [page >= 1]; [totalItems] counts the pictures and [totalPages =
    Math.ceil(totalItems / L)] is the least number of windows that hold
    them. *)
Theorem gallery_page_bounds p l d rows total pg pages :
  fst (getAllGalleryClient p l d) = mk_cresponse 200 (CGalleryPage rows total pg pages) ->
  let L := query_num_auto l 11 in
  0 < L /\ 1 <= pg /\ total = Z.of_nat (length (gallery d)) /\
  rows = firstn (Z.to_nat L) (skipn (Z.to_nat ((pg - 1) * L)) (by_gid_desc (gallery d))) /\
  (pages - 1) * L < total <= pages * L.
Proof.
  cbv zeta. unfold getAllGalleryClient. cbv zeta.
  pose proof (query_num_auto_nonzero l 11 ltac:(lia)) as HL.
  apply (query_bind_spec (fun e => gallery e = gallery d) ltac:(faults_free)); [done|intros ?? H; cbn in H; discriminate|].
  intros s Hs. destruct (limit_rows _ _ _) as [rows0|] eqn:Hw; [|intros H; cbn in H; discriminate].
  apply limit_rows_some in Hw as (Ho & Hl & ->).
  apply (query_bind_spec (fun e => gallery e = gallery d) ltac:(faults_free)); [done|intros ?? H; cbn in H; discriminate|].
  intros s1 Hs1 H. cbn in H. injection H as <- <- <- <-. rewrite Hs, Hs1.
  assert (HL' : 0 < query_num_auto l 11) by lia.
  split; [done|split; [nia|split; [done|split; [done|]]]]. by apply js_ceil_div_spec.
Qed.

(** With no fault, [getActivePopularProducts] answers the products
    whose item is active, joined to that item, as a list sorted by
    priority ([NULL] first) that is a permutation of the join. *)
Theorem active_popular_listing d :
  cfaults d = [] ->
  exists rows, fst (getActivePopularProducts d) = mk_cresponse 200 (CPopular (List.map project rows)) /\
    Sorted priority_le rows /\
    rows ≡ₚ List.filter (fun r => active r.2) (flat_map (pp_join d) (popular_products d)).
Proof.
  intros Hf. exists (popular_rows true d). unfold getActivePopularProducts.
  rewrite st_bind_run, query_of_nf by done. split; [done|split].
  - apply Sorted_merge_sort, _.
  - apply merge_sort_Permutation.
Qed.

(** C34: deleting an item leaves the popular products that name it in
    their table, and no listing shows them any more: the [JOIN] drops
    every row whose item is gone. *)
Theorem deleteItem_orphans_popular id d :
  cfaults d = [] ->
  let d' := snd (on_items (deleteItem id) d) in
  popular_products d' = popular_products d /\
  forall r, In r (popular_rows false d') -> i_id r.2 <> mysql_int id.
Proof.
  intros Hf. cbv zeta. unfold on_items. destruct (deleteItem id (item_view d)) as [a e] eqn:He.
  assert (Hi : forall i, In i (items e) -> i_id i <> mysql_int id).
  { unfold deleteItem in He. rewrite st_bind_run, query_of_nf in He by done. cbn [fst snd] in He.
    unfold select_image in He. destruct (List.filter (has_id id) (items (item_view d))) as [|r rs] eqn:Hsel; cbn in He.
    - injection He as _ <-. intros i Hin Hid. assert (Hin' : In i (List.filter (has_id id) (citems d))).
      { apply filter_In. split; [done|]. by apply bool_decide_eq_true. }
      cbn in Hsel. rewrite Hsel in Hin'. done.
    - rewrite st_bind_run, run_of_nf in He by done. cbn [fst snd] in He.
      rewrite st_bind_run in He. injection He as _ <-.
      intros i Hin Hid. destruct (js_truthy (i_image r)); cbn in Hin;
        apply filter_In in Hin as [_ Hn]; apply negb_true_iff in Hn; unfold has_id in Hn;
        rewrite bool_decide_true in Hn by done; discriminate. }
  cbn [snd with_items popular_products]. split; [done|].
  intros r Hr. apply popular_rows_in in Hr as (_ & Hin & _). by apply Hi.
Qed.

(** C36: [addPopularProduct] stores [status || 1]: a product added with
    status [0] (inactive) is stored with status [1]. *)
Theorem addPopularProduct_status_zero i p d :
  cfaults d = [] ->
  fst (addPopularProduct i p (Some 0) d) = mk_cresponse 200 (CAdded (next_popular_id d) "Popular product added") /\
  last (popular_products (snd (addPopularProduct i p (Some 0) d))) =
    Some (mk_popular_product (next_popular_id d) i (Some (num_or p 0)) (Some 1)).
Proof.
  intros Hf. unfold addPopularProduct. rewrite st_bind_run, run_of_nf by done.
  split; [done|]. cbn. apply last_snoc.
Qed.

(** C31: a file multer stores at a millisecond [now] of this era, every
    file of the folder having been named earlier, is a fresh upload for
    the catalogue handlers (in the folder, under a non-empty name no row
    holds), and storing it keeps the folder's agreement: the clock
    discharges the freshness [creach_folder_ok] assumes. *)
Theorem stored_upload_fresh now o d :
  folder_ok d -> era now -> named_before now (uploads d) ->
  cfresh (multer_store now o d) (Some (filename now o)) /\ folder_ok (multer_store now o d).
Proof.
  intros (Hc & Hi & Hg & Hnd & Hin) Hnow Hb. pose proof (upload_name_fresh now o (uploads d) Hnow Hb) as Hf.
  split; [|split; [done|split; [done|split; [done|split; [done|]]]]].
  - intros img [= <-]. split; [apply elem_of_app; right; by left|split].
    + pose proof (show_era_length now Hnow) as Hl. unfold filename.
      destruct (show_Z now); [discriminate|done].
    + intros Hn. by apply Hf, Hin.
  - intros n Hn. apply elem_of_app. left. by apply Hin.
Qed.

(** ** Witnesses *)

Lemma creach_folder_ok_witness :
  creach (snd (addCategory (Some "Sweets") None (Some "1") (Some "1731000000000sweets.png")
                (mk_cdb [] [] [] [] ["1731000000000sweets.png"] [] 1 1 1 1))) /\
  folder_ok (snd (addCategory (Some "Sweets") None (Some "1") (Some "1731000000000sweets.png")
                (mk_cdb [] [] [] [] ["1731000000000sweets.png"] [] 1 1 1 1))).
Proof.
  assert (H : creach (snd (addCategory (Some "Sweets") None (Some "1") (Some "1731000000000sweets.png")
                (mk_cdb [] [] [] [] ["1731000000000sweets.png"] [] 1 1 1 1)))).
  { apply (creach_step (mk_cdb [] [] [] [] ["1731000000000sweets.png"] [] 1 1 1 1)); [apply creach_init|].
    apply cs_addCategory. intros img [= <-]. split; [by left|split; [done|cbn; set_solver]]. }
  split; [exact H|exact (creach_folder_ok _ H)].
Defined.

Lemma deleteCategory_guard_witness :
  ccode (fst (deleteCategory "1" (snd (addCategory (Some "Sweets") None (Some "1") (Some ex_upload) ex_cdb)))) = 200 /\
  count_where (in_category "1") (citems (snd (addCategory (Some "Sweets") None (Some "1") (Some ex_upload) ex_cdb))) = 0%nat.
Proof.
  assert (H : ccode (fst (deleteCategory "1" (snd (addCategory (Some "Sweets") None (Some "1") (Some ex_upload) ex_cdb)))) = 200)
    by (vm_compute; reflexivity).
  split; [exact H|exact (proj1 (deleteCategory_guard _ _ H))].
Defined.

Lemma gallery_page_bounds_witness :
  fst (getAllGalleryClient (Some "2") (Some "2") ex_cdb) =
    mk_cresponse 200 (CGalleryPage [mk_gallery_item 1 (Some "Shop") (Some "shop.png")] 3 2 2) /\
  (2 - 1) * query_num_auto (Some "2") 11 < 3 <= 2 * query_num_auto (Some "2") 11.
Proof.
  assert (H : fst (getAllGalleryClient (Some "2") (Some "2") ex_cdb) =
              mk_cresponse 200 (CGalleryPage [mk_gallery_item 1 (Some "Shop") (Some "shop.png")] 3 2 2))
    by (vm_compute; reflexivity).
  split; [exact H|exact (proj2 (proj2 (proj2 (proj2 (gallery_page_bounds _ _ _ _ _ _ _ H)))))].
Defined.

Lemma active_popular_listing_witness :
  cfaults ex_cdb = [] /\
  exists rows, fst (getActivePopularProducts ex_cdb) = mk_cresponse 200 (CPopular (List.map project rows)) /\
    Sorted priority_le rows /\
    rows ≡ₚ List.filter (fun r => active r.2) (flat_map (pp_join ex_cdb) (popular_products ex_cdb)).
Proof. split; [reflexivity|apply active_popular_listing; reflexivity]. Defined.

Lemma deleteItem_orphans_popular_witness :
  cfaults ex_cdb = [] /\
  popular_products (snd (on_items (deleteItem "7") ex_cdb)) = popular_products ex_cdb.
Proof. split; [reflexivity|exact (proj1 (deleteItem_orphans_popular "7" ex_cdb eq_refl))]. Defined.

Lemma addPopularProduct_status_zero_witness :
  cfaults ex_cdb = [] /\
  last (popular_products (snd (addPopularProduct (Some 7) None (Some 0) ex_cdb))) =
    Some (mk_popular_product 3 (Some 7) (Some 0) (Some 1)).
Proof. split; [reflexivity|exact (proj2 (addPopularProduct_status_zero (Some 7) None ex_cdb eq_refl))]. Defined.

Lemma stored_upload_fresh_witness :
  folder_ok (mk_cdb [] [] [] [] ["1731000000000logo.png"] [] 1 1 1 1) /\ era 1731000000005 /\
  named_before 1731000000005 ["1731000000000logo.png"] /\
  cfresh (multer_store 1731000000005 "shop.png" (mk_cdb [] [] [] [] ["1731000000000logo.png"] [] 1 1 1 1))
         (Some (filename 1731000000005 "shop.png")).
Proof.
  assert (He : era 1731000000005) by (unfold era; cbn; lia).
  assert (Hb : named_before 1731000000005 ["1731000000000logo.png"]).
  { intros n ->%list_elem_of_singleton. exists 1731000000000, "logo.png".
    split; [unfold era; cbn; lia|split; [lia|reflexivity]]. }
  pose proof (folder_ok_init ["1731000000000logo.png"] []) as Hd.
  split; [exact Hd|split; [exact He|split; [exact Hb|]]].
  exact (proj1 (stored_upload_fresh 1731000000005 "shop.png" _ Hd He Hb)).
Defined.

End Catalogue.
