(* ===== verification/Offers.v ===== *)
(** * Offers: [src/controller/offer/offer.js]

    The tables [offers] and [offer_categories] (with [category] for the
    joins), the listings with their [LEFT JOIN ... GROUP BY] and
    [GROUP_CONCAT], the lookup by id and by category, and the three
    writes that run in a transaction: [addOffer] and [deleteOffer] call
    [connection.beginTransaction] on the object [connection.js] exports,
    [editOffer] takes a connection of the pool first.  A transaction
    keeps a snapshot of the two tables; [rollback] restores it
    ([AUTO_INCREMENT] is not rolled back).  The object a handler calls
    [beginTransaction] on is the [handle] argument: mysql2's pool has no
    [beginTransaction], so on [Pool] the call throws.  The theorems: the
    grouping terminates with fuel the number of rows; the listing has
    one row per offer; the three writes on a connection are all or
    nothing against their abstract specifications;
    [addOffer] and [deleteOffer] as deployed never write; an edit of a
    missing offer answers 200 and leaves discounts of no offer. *)

From stdpp Require Import base list strings decidable sorting sets.
From Equations Require Import Equations.
From Stdlib Require Import ZArith Lia.
From S2P Require Import Prelude Items Catalogue.

Open Scope Z_scope.
Open Scope st_scope.

Module Offers.
Import Items Catalogue.

(** ** The tables *)

(** A row of [offers]; the dates are day numbers, [None] a missing or
    [NULL] date; [o_created_at] is set by the database on insertion. *)
Record offer := mk_offer {
  o_id : Z;
  o_title : option string;
  o_description : option string;
  o_start_date : option Z;
  o_end_date : option Z;
  o_status : option string;
  o_created_at : Z
}.

(** A row of [offer_categories]; the discount value as MySQL prints it. *)
Record offer_category := mk_offer_category {
  oc_offer_id : Z;
  oc_category_id : option Z;
  oc_discount_type : option string;
  oc_discount_value : option string
}.

(** An element of the body's [categories] array. *)
Record cat_req := mk_cat_req {
  cr_category_id : option Z;
  cr_discount_type : option string;
  cr_discount_value : option string
}.

Record odb := mk_odb {
  offers : list offer;
  offer_categories : list offer_category;
  ocategories : list category;       (** table [category], read by the joins *)
  ofaults : list bool;
  next_offer_id : Z
}.

#[export] Instance odb_faulty : Faulty odb :=
  {| faults_of := ofaults;
     with_faults bs d := mk_odb (offers d) (offer_categories d) (ocategories d) bs (next_offer_id d) |}.

(** A row of the listings: the offer's columns and [category_discounts]. *)
Definition offer_row : Type := offer * option string.

(** A row of the category join of [getOfferById]. *)
Definition offer_cat_row : Type := category * offer_category.

Inductive obody :=
| OMessage (msg : string)                            (** [{ message }] *)
| OThrown                                            (** Express's error page for a thrown [TypeError] *)
| OOffers (rows : list offer_row)
| OOffer (o : offer) (cats : list offer_cat_row)     (** [{ ...offerResult[0], categories }] *)
| OByCategory (rows : list (offer * offer_category))
| OAdded (msg : string) (id : Z).                    (** [{ message, id: offerId }] *)

Record oresponse := mk_oresponse { ocode : Z; obody_of : obody }.

Definition oreply (c : Z) (b : obody) : St odb oresponse := st_ret (mk_oresponse c b).

(** ** Transactions *)

(** The object a handler calls [beginTransaction] on: the pool
    ([connection.js]) or a connection taken from it. *)
Inductive handle := Pool | PoolConn.

(** The tables a rollback restores. *)
Definition snapshot : Type := list offer * list offer_category.

Inductive tx_begin :=
| TxThrown                  (** [TypeError: connection.beginTransaction is not a function] *)
| TxErr                     (** the callback's [err] *)
| TxOpen (snap : snapshot).

Definition beginTransaction (h : handle) : St odb tx_begin :=
  match h with
  | Pool => st_ret TxThrown
  | PoolConn =>
    let* fl := next_fault_of in
    if fl then st_ret TxErr else fun d => (TxOpen (offers d, offer_categories d), d)
  end.

Definition rollback (snap : snapshot) : St odb unit :=
  fun d => (tt, mk_odb snap.1 snap.2 (ocategories d) (ofaults d) (next_offer_id d)).

(** [commit]: [true] when it succeeds. *)
Definition commit : St odb bool := let* fl := next_fault_of in st_ret (negb fl).

(** [pool.getConnection]: [true] when a connection is granted. *)
Definition getConnection : St odb bool := let* fl := next_fault_of in st_ret (negb fl).

(** ** [GROUP BY] *)

(** The groups of rows with one key, in the order of their first row,
    with fuel (fiat-crypto's [groupAllBy']); [None] when it runs out. *)
Fixpoint group_fuel {A} (key : A -> Z) (fuel : nat) (l : list A) : option (list (list A)) :=
  match l with
  | [] => Some []
  | x :: xs =>
    match fuel with
    | O => None
    | S f =>
      option_map (cons (x :: List.filter (fun y => key y =? key x) xs))
                 (group_fuel key f (List.filter (fun y => negb (key y =? key x)) xs))
    end
  end.

(** The same grouping by well-founded recursion on the length. *)
Equations? group_rows {A} (key : A -> Z) (l : list A) : list (list A) by wf (length l) lt :=
  group_rows key [] := [];
  group_rows key (x :: xs) :=
    (x :: List.filter (fun y => key y =? key x) xs) :: group_rows key (List.filter (fun y => negb (key y =? key x)) xs).
Proof. pose proof (List.filter_length_le (fun y => negb (key y =? key x)) xs). lia. Qed.

(** [GROUP BY] as the handlers run it: fuel the number of rows. *)
Definition group_by {A} (key : A -> Z) (l : list A) : list (list A) :=
  default [] (group_fuel key (length l) l).

(** ** The listings *)

(** [offers o LEFT JOIN offer_categories oc ON o.id = oc.offer_id
    LEFT JOIN category c ON oc.category_id = c.id] *)
Definition joined : Type := offer * option (offer_category * option category).

Definition left_join (d : odb) (o : offer) : list joined :=
  match List.filter (fun oc => bool_decide (oc_offer_id oc = o_id o)) (offer_categories d) with
  | [] => [(o, None)]
  | ocs => List.map (fun oc =>
             (o, Some (oc, head (List.filter (fun c => bool_decide (oc_category_id oc = Some (c_id c))) (ocategories d)))))
             ocs
  end.

(** [CONCAT(c.title, ' (', oc.discount_value, ' ', oc.discount_type, ')')]:
    [NULL] when one argument is. *)
Definition discount (j : joined) : option string :=
  match j.2 with
  | Some (oc, Some c) =>
    match c_title c, oc_discount_value oc, oc_discount_type oc with
    | Some t, Some v, Some ty => Some (t ++ " (" ++ v ++ " " ++ ty ++ ")")%string
    | _, _, _ => None
    end
  | _ => None
  end.

(** [GROUP_CONCAT(...)]: the non-[NULL] values joined by commas, [NULL]
    when there is none. *)
Definition group_concat (vs : list (option string)) : option string :=
  match omap id vs with
  | [] => None
  | v :: vs' => Some (foldl (fun acc w => acc ++ "," ++ w) v vs')%string
  end.

(** One group's row of the result. *)
Definition summarize (g : list joined) : option offer_row :=
  match g with
  | [] => None
  | j :: _ => Some (j.1, group_concat (List.map discount g))
  end.

(** [ORDER BY o.created_at DESC] *)
Definition created_desc (a b : offer_row) : Prop := o_created_at b.1 <= o_created_at a.1.
#[export] Instance created_desc_dec : RelDecision created_desc.
Proof. intros a b. unfold created_desc. apply _. Defined.

(** The listing of the offers [keep] selects ([WHERE]). *)
Definition listing (keep : offer -> bool) (d : odb) : list offer_row :=
  merge_sort created_desc
    (omap summarize (group_by (fun j : joined => o_id j.1)
       (flat_map (left_join d) (List.filter keep (offers d))))).

Definition is_active (o : offer) : bool := bool_decide (o_status o = Some "active").

(** ** The handlers *)

(** offer.js:6-30 *)
Definition getAllOffers : St odb oresponse :=
  let* result := query_of (listing (fun _ => true)) in
  match result with
  | None => oreply 500 (OMessage "Error fetching offers")
  | Some rows => oreply 200 (OOffers rows)
  end.

(** offer.js:33-58 *)
Definition getActiveOffers : St odb oresponse :=
  let* result := query_of (listing is_active) in
  match result with
  | None => oreply 500 (OMessage "Error fetching active offers")
  | Some rows => oreply 200 (OOffers rows)
  end.

Definition has_oid (id : string) (o : offer) : bool := bool_decide (o_id o = mysql_int id).

(** [category c JOIN offer_categories oc ON c.id = oc.category_id WHERE oc.offer_id = ?] *)
Definition offer_cats (id : string) (d : odb) : list offer_cat_row :=
  flat_map (fun c => List.map (fun oc => (c, oc))
                       (List.filter (fun oc => bool_decide (oc_category_id oc = Some (c_id c)) &&
                                               bool_decide (oc_offer_id oc = mysql_int id))
                                    (offer_categories d)))
           (ocategories d).

(** offer.js:61-90 *)
Definition getOfferById (id : string) : St odb oresponse :=
  let* offerResult := query_of (fun d => List.filter (has_oid id) (offers d)) in
  match offerResult with
  | None => oreply 500 (OMessage "Error fetching offer")
  | Some [] => oreply 404 (OMessage "Offer not found")
  | Some (o :: _) =>
    let* categoryResult := query_of (offer_cats id) in
    match categoryResult with
    | None => oreply 500 (OMessage "Error fetching offer categories")
    | Some cats => oreply 200 (OOffer o cats)
    end
  end.

(** [!title || !start_date || !end_date || !categories || !categories.length] *)
Definition offer_fields_missing (title : option string) (start_date end_date : option Z)
    (categories : option (list cat_req)) : bool :=
  negb (js_truthy title) || bool_decide (start_date = None) || bool_decide (end_date = None) ||
  match categories with None | Some [] => true | Some _ => false end.

(** offer.js:104-107: [INSERT INTO offers], [created_at] the clock. *)
Definition insert_offer (title description : option string) (start_date end_date : option Z)
    (status : string) (now : Z) (d : odb) : odb * Z :=
  let id := next_offer_id d in
  (mk_odb (offers d ++ [mk_offer id title description start_date end_date (Some status) now])
          (offer_categories d) (ocategories d) (ofaults d) (id + 1),
   id).

(** [INSERT INTO offer_categories (...) VALUES ?] with one row per element. *)
Definition insert_offer_categories (offerId : Z) (cats : list cat_req) (d : odb) : odb * Z :=
  (mk_odb (offers d)
          (offer_categories d ++ List.map (fun c => mk_offer_category offerId (cr_category_id c)
                                                     (cr_discount_type c) (cr_discount_value c)) cats)
          (ocategories d) (ofaults d) (next_offer_id d),
   Z.of_nat (length cats)).

(** offer.js:93-133; [h] is the object [connection] names. *)
Definition addOffer_on (h : handle) (now : Z) (title description : option string) (start_date end_date : option Z)
    (status : option string) (categories : option (list cat_req)) : St odb oresponse :=
  if offer_fields_missing title start_date end_date categories then
    oreply 400 (OMessage "All required fields must be filled")
  else
    let* tx := beginTransaction h in
    match tx with
    | TxThrown => oreply 500 OThrown
    | TxErr => oreply 500 (OMessage "Database transaction error")
    | TxOpen snap =>
      let* r := run_of (insert_offer title description start_date end_date (default "active" status) now) in
      match r with
      | None => let* _ := rollback snap in oreply 500 (OMessage "Error adding offer")
      | Some offerId =>
        let* r2 := run_of (insert_offer_categories offerId (default [] categories)) in
        match r2 with
        | None => let* _ := rollback snap in oreply 500 (OMessage "Error adding offer categories")
        | Some _ =>
          let* ok := commit in
          if ok then oreply 201 (OAdded "Offer added successfully" offerId)
          else let* _ := rollback snap in oreply 500 (OMessage "Transaction commit error")
        end
      end
    end.

(** The handler as deployed: [connection] is the pool of connection.js. *)
Definition addOffer := addOffer_on Pool.

(** [UPDATE offers SET title=?, description=?, start_date=?, end_date=?, status=? WHERE id=?] *)
Definition update_offers (id : string) (title description : option string) (start_date end_date : option Z)
    (status : string) (d : odb) : odb * Z :=
  (mk_odb (List.map (fun o => if has_oid id o then
                                mk_offer (o_id o) title description start_date end_date (Some status) (o_created_at o)
                              else o) (offers d))
          (offer_categories d) (ocategories d) (ofaults d) (next_offer_id d),
   Z.of_nat (count_where (has_oid id) (offers d))).

(** [DELETE FROM offer_categories WHERE offer_id=?] *)
Definition delete_offer_categories (id : string) (d : odb) : odb * Z :=
  (mk_odb (offers d) (List.filter (fun oc => negb (bool_decide (oc_offer_id oc = mysql_int id))) (offer_categories d))
          (ocategories d) (ofaults d) (next_offer_id d),
   Z.of_nat (count_where (fun oc => bool_decide (oc_offer_id oc = mysql_int id)) (offer_categories d))).

(** offer.js:136-201; [conn.release()] gives the connection back and
    changes no table. *)
Definition editOffer (id : string) (title description : option string) (start_date end_date : option Z)
    (status : option string) (categories : option (list cat_req)) : St odb oresponse :=
  if offer_fields_missing title start_date end_date categories then
    oreply 400 (OMessage "All required fields must be filled")
  else
    let* conn := getConnection in
    if negb conn then oreply 500 (OMessage "Database connection error")
    else
      let* tx := beginTransaction PoolConn in
      match tx with
      | TxThrown => oreply 500 OThrown
      | TxErr => oreply 500 (OMessage "Transaction error")
      | TxOpen snap =>
        let* r := run_of (update_offers id title description start_date end_date (default "active" status)) in
        match r with
        | None => let* _ := rollback snap in oreply 500 (OMessage "Error updating offer")
        | Some _ =>
          let* r2 := run_of (delete_offer_categories id) in
          match r2 with
          | None => let* _ := rollback snap in oreply 500 (OMessage "Error clearing old categories")
          | Some _ =>
            let* r3 := run_of (insert_offer_categories (mysql_int id) (default [] categories)) in
            match r3 with
            | None => let* _ := rollback snap in oreply 500 (OMessage "Error adding new categories")
            | Some _ =>
              let* ok := commit in
              if ok then oreply 200 (OMessage "Offer updated successfully")
              else let* _ := rollback snap in oreply 500 (OMessage "Transaction commit error")
            end
          end
        end
      end.

(** [UPDATE offers SET status = ? WHERE id = ?] *)
Definition set_offer_status (id : string) (status : string) (d : odb) : odb * Z :=
  (mk_odb (List.map (fun o => if has_oid id o then
                                mk_offer (o_id o) (o_title o) (o_description o) (o_start_date o) (o_end_date o)
                                         (Some status) (o_created_at o)
                              else o) (offers d))
          (offer_categories d) (ocategories d) (ofaults d) (next_offer_id d),
   Z.of_nat (count_where (has_oid id) (offers d))).

(** offer.js:205-226 *)
Definition updateOfferStatus (id : string) (status : option string) : St odb oresponse :=
  match status with
  | Some st =>
    if negb (js_truthy status) || negb (String.eqb st "active" || String.eqb st "inactive") then
      oreply 400 (OMessage "Invalid status. Must be 'active' or 'inactive'")
    else
      let* r := run_of (set_offer_status id st) in
      match r with
      | None => oreply 500 (OMessage "Error updating offer status")
      | Some n =>
        if n =? 0 then oreply 404 (OMessage "Offer not found")
        else oreply 200 (OMessage ("Offer " ++ (if String.eqb st "active" then "activated" else "deactivated")
                                    ++ " successfully")%string)
      end
  | None => oreply 400 (OMessage "Invalid status. Must be 'active' or 'inactive'")
  end.

(** [DELETE FROM offers WHERE id=?] *)
Definition delete_offers (id : string) (d : odb) : odb * Z :=
  (mk_odb (List.filter (fun o => negb (has_oid id o)) (offers d)) (offer_categories d) (ocategories d)
          (ofaults d) (next_offer_id d),
   Z.of_nat (count_where (has_oid id) (offers d))).

(** offer.js:229-254 *)
Definition deleteOffer_on (h : handle) (id : string) : St odb oresponse :=
  let* tx := beginTransaction h in
  match tx with
  | TxThrown => oreply 500 OThrown
  | TxErr => oreply 500 (OMessage "Database transaction error")
  | TxOpen snap =>
    let* r := run_of (delete_offer_categories id) in
    match r with
    | None => let* _ := rollback snap in oreply 500 (OMessage "Error deleting categories")
    | Some _ =>
      let* r2 := run_of (delete_offers id) in
      match r2 with
      | None => let* _ := rollback snap in oreply 500 (OMessage "Error deleting offer")
      | Some _ =>
        let* ok := commit in
        if ok then oreply 200 (OMessage "Offer deleted successfully")
        else let* _ := rollback snap in oreply 500 (OMessage "Transaction commit error")
      end
    end
  end.

Definition deleteOffer := deleteOffer_on Pool.

(** [o.start_date <= CURDATE() AND o.end_date >= CURDATE()]: a [NULL]
    date compares to [NULL], which [WHERE] rejects. *)
Definition running (today : Z) (o : offer) : bool :=
  match o_start_date o, o_end_date o with
  | Some s, Some e => (s <=? today) && (today <=? e)
  | _, _ => false
  end.

(** [offers o JOIN offer_categories oc ON o.id = oc.offer_id WHERE
    oc.category_id = ? AND o.status = 'active' AND ...] *)
Definition offers_in_category (categoryId : string) (today : Z) (d : odb) : list (offer * offer_category) :=
  flat_map (fun o => List.map (fun oc => (o, oc))
                       (List.filter (fun oc => bool_decide (oc_offer_id oc = o_id o) &&
                                               bool_decide (oc_category_id oc = Some (mysql_int categoryId)))
                                    (offer_categories d)))
           (List.filter (fun o => is_active o && running today o) (offers d)).

(** offer.js:257-277; [today] is [CURDATE()]. *)
Definition getOffersByCategoryId (categoryId : string) (today : Z) : St odb oresponse :=
  let* result := query_of (offers_in_category categoryId today) in
  match result with
  | None => oreply 500 (OMessage "Error fetching offers")
  | Some rows => oreply 200 (OByCategory rows)
  end.

(** ** Specification *)

(** The tables a transaction covers. *)
Definition tables (d : odb) : snapshot := (offers d, offer_categories d).

(** What an edit promises: the offer's columns replaced and its
    discounts replaced by the request's, in one step. *)
Definition edit_spec (id : string) (title description : option string) (start_date end_date : option Z)
    (status : option string) (cats : list cat_req) (t : snapshot) : snapshot :=
  (List.map (fun o => if has_oid id o then
                        mk_offer (o_id o) title description start_date end_date (Some (default "active" status))
                                 (o_created_at o)
                      else o) t.1,
   List.filter (fun oc => negb (bool_decide (oc_offer_id oc = mysql_int id))) t.2 ++
   List.map (fun c => mk_offer_category (mysql_int id) (cr_category_id c) (cr_discount_type c) (cr_discount_value c)) cats).

(** What an addition promises: the offer under the next id, with the
    request's discounts. *)
Definition add_spec (id now : Z) (title description : option string) (start_date end_date : option Z)
    (status : option string) (cats : list cat_req) (t : snapshot) : snapshot :=
  (t.1 ++ [mk_offer id title description start_date end_date (Some (default "active" status)) now],
   t.2 ++ List.map (fun c => mk_offer_category id (cr_category_id c) (cr_discount_type c) (cr_discount_value c)) cats).

(** What a deletion promises: the offer and its discounts gone. *)
Definition delete_spec (id : string) (t : snapshot) : snapshot :=
  (List.filter (fun o => negb (has_oid id o)) t.1,
   List.filter (fun oc => negb (bool_decide (oc_offer_id oc = mysql_int id))) t.2).

(** Two offers, the first with a discount on category 1, for the
    witnesses. *)
Definition ex_odb : odb :=
  mk_odb [mk_offer 1 (Some "Diwali") None (Some 100) (Some 120) (Some "active") 5;
          mk_offer 2 (Some "Holi") None (Some 130) (Some 140) (Some "inactive") 7]
         [mk_offer_category 1 (Some 1) (Some "percent") (Some "10")]
         [mk_category 1 (Some "Sweets") None (Some 1) (Some "sweets.png")] [] 3.

(** ** Lemmas *)

Section Grouping.
Context {A : Type} (key : A -> Z).

Lemma group_fuel_rows fuel l : (length l <= fuel)%nat -> group_fuel key fuel l = Some (group_rows key l).
Proof.
  revert l. induction fuel as [|f IH]; intros [|x xs] Hl; simp group_rows; cbn in Hl |- *; try lia; try done.
  rewrite IH; [done|]. pose proof (List.filter_length_le (fun y => negb (key y =? key x)) xs). lia.
Qed.

Lemma group_by_rows l : group_by key l = group_rows key l.
Proof. unfold group_by. by rewrite group_fuel_rows. Qed.

(** A block of rows of one key followed by rows of other keys groups
    as that block and the groups of the rest. *)
Lemma group_rows_block (b rest : list A) k :
  b <> [] -> Forall (fun y => key y = k) b -> Forall (fun y => key y <> k) rest ->
  group_rows key (b ++ rest) = b :: group_rows key rest.
Proof.
  intros Hb Hk Hr. destruct b as [|x xs]; [done|]. inversion Hk as [|? ? Hx Hxs]; subst. cbn. simp group_rows.
  rewrite !List.filter_app.
  rewrite (List.forallb_filter_id _ xs), (filter_none _ rest), (filter_none _ xs), (List.forallb_filter_id _ rest).
  - by rewrite !app_nil_r.
  - apply List.forallb_forall. intros y Hy. apply List.Forall_forall with (x := y) in Hr; [|done].
    apply negb_true_iff, Z.eqb_neq. congruence.
  - apply List.Forall_forall. intros y Hy. apply List.Forall_forall with (x := y) in Hxs; [|done].
    apply negb_false_iff, Z.eqb_eq. congruence.
  - apply List.Forall_forall. intros y Hy. apply List.Forall_forall with (x := y) in Hr; [|done].
    apply Z.eqb_neq. congruence.
  - apply List.forallb_forall. intros y Hy. apply List.Forall_forall with (x := y) in Hxs; [|done].
    apply Z.eqb_eq. congruence.
Qed.
End Grouping.

Lemma left_join_block d o : left_join d o <> [] /\ Forall (fun j : joined => o_id j.1 = o_id o) (left_join d o).
Proof.
  unfold left_join. destruct (List.filter _ _) as [|oc ocs]; [split; [done|by repeat constructor]|].
  split; [done|]. apply List.Forall_forall. intros j (x & <- & _)%in_map_iff. done.
Qed.

Lemma summarize_block d o : exists s, summarize (left_join d o) = Some (o, s).
Proof.
  unfold left_join. destruct (List.filter _ _) as [|oc ocs]; cbn; eexists; reflexivity.
Qed.

(** The groups of the join are the offers, one each, in table order. *)
Lemma listing_groups d os :
  NoDup (List.map o_id os) ->
  List.map fst (omap summarize (group_rows (fun j : joined => o_id j.1) (flat_map (left_join d) os))) = os.
Proof.
  induction os as [|o os IH]; intros Hnd; [by simp group_rows|]. cbn in Hnd. apply NoDup_cons in Hnd as [Ho Hnd].
  destruct (left_join_block d o) as [Hne Hk]. cbn [flat_map].
  rewrite (group_rows_block _ _ _ (o_id o) Hne Hk).
  - cbn. destruct (summarize_block d o) as [s ->]. cbn. by rewrite IH.
  - apply List.Forall_forall. intros j (o' & Ho' & Hj)%in_flat_map.
    destruct (left_join_block d o') as [_ Hk']. apply List.Forall_forall with (x := j) in Hk'; [|done].
    rewrite Hk'. intros Heq. apply Ho, list_elem_of_In, in_map_iff. by exists o'.
Qed.

#[export] Instance created_desc_total : Total created_desc.
Proof. intros a b. unfold created_desc. lia. Qed.

Lemma rollback_tables snap d :
  tables (snd (rollback snap d)) = snap /\ ocategories (snd (rollback snap d)) = ocategories d.
Proof. by destruct snap. Qed.

(** Step a handler through every outcome of its statements: each fault
    of the oracle's list is consumed by the next statement. *)
Ltac fault_paths :=
  repeat (cbn; match goal with
               | |- context [match ?bs with [] => _ | _ :: _ => _ end] => is_var bs; destruct bs as [|[] bs]
               end).

(** ** Properties *)

(** The grouping of [GROUP BY] terminates: with fuel at least the
    number of rows it returns, and it returns the groups of the
    well-founded definition [group_rows]. *)
Theorem group_fuel_enough {A} (key : A -> Z) fuel l :
  (length l <= fuel)%nat -> group_fuel key fuel l = Some (group_rows key l).
Proof. apply group_fuel_rows. Qed.

(** C33: with no fault and unique offer ids, [getAllOffers] answers one
    row per offer, whatever its discounts (the [LEFT JOIN] keeps offers
    without any and [GROUP BY] merges the others), newest first. *)
Theorem offer_listing_once d :
  ofaults d = [] -> NoDup (List.map o_id (offers d)) ->
  exists rows, fst (getAllOffers d) = mk_oresponse 200 (OOffers rows) /\
    List.map fst rows ≡ₚ offers d /\ Sorted created_desc rows.
Proof.
  intros Hf Hnd. exists (listing (fun _ => true) d). unfold getAllOffers.
  rewrite st_bind_run, query_of_nf by done. split; [done|split; [|apply Sorted_merge_sort, _]].
  unfold listing. etransitivity; [apply Permutation_map, merge_sort_Permutation|].
  rewrite group_by_rows, List.forallb_filter_id by (by apply List.forallb_forall).
  by rewrite listing_groups.
Qed.

(** C28: the three writes of offer.js, run on a connection of the pool,
    are all or nothing: each answers success and leaves the tables its
    abstract specification gives ([add_spec], [edit_spec],
    [delete_spec]), or answers an error and the transaction's rollback
    has restored both tables, whichever statement, the connection or
    the commit failed. *)
Theorem offer_writes_atomic now t ds s e st cats id d :
  let a := addOffer_on PoolConn now t ds s e st cats d in
  let ed := editOffer id t ds s e st cats d in
  let dl := deleteOffer_on PoolConn id d in
  (ocode (fst a) = 201 /\ tables (snd a) = add_spec (next_offer_id d) now t ds s e st (default [] cats) (tables d) \/
   ocode (fst a) <> 201 /\ tables (snd a) = tables d) /\
  (ocode (fst ed) = 200 /\ tables (snd ed) = edit_spec id t ds s e st (default [] cats) (tables d) \/
   ocode (fst ed) <> 200 /\ tables (snd ed) = tables d) /\
  (ocode (fst dl) = 200 /\ tables (snd dl) = delete_spec id (tables d) \/
   ocode (fst dl) <> 200 /\ tables (snd dl) = tables d).
Proof.
  destruct d as [os ocs cs bs n]. cbv zeta.
  unfold addOffer_on, editOffer, deleteOffer_on, getConnection, beginTransaction, commit, run_of, next_fault_of,
    st_bind, rollback, oreply, st_ret.
  split; [|split].
  all: try destruct (offer_fields_missing t s e cats).
  all: fault_paths.
  all: first [left; split; reflexivity | right; split; [discriminate|reflexivity]].
Qed.

(** C29: as deployed, [addOffer] and [deleteOffer] call
    [beginTransaction] on mysql2's pool, which has no such method: every
    request that passes validation is answered 500 by Express's error
    handler, and neither handler ever changes a table. *)
Theorem deployed_offer_writes_throw now t ds s e st cats id d :
  snd (addOffer now t ds s e st cats d) = d /\
  (offer_fields_missing t s e cats = false -> fst (addOffer now t ds s e st cats d) = mk_oresponse 500 OThrown) /\
  deleteOffer id d = (mk_oresponse 500 OThrown, d).
Proof.
  unfold addOffer, addOffer_on, deleteOffer, deleteOffer_on.
  split; [by destruct (offer_fields_missing t s e cats)|split; [|done]]. intros ->. done.
Qed.

(** An UPDATE whose WHERE matches no row leaves the table as it was. *)
Lemma map_if_none {A} (p : A -> bool) (f : A -> A) l :
  List.filter p l = [] -> List.map (fun x => if p x then f x else x) l = l.
Proof.
  induction l as [|x l IH]; [done|]. cbn. destruct (p x); [done|]. intros H. by rewrite IH.
Qed.

(** C37: [editOffer] never checks that the offer exists (offer.js:136-201):
    on any store where nothing fails, editing an id no offer has answers
    200 "Offer updated successfully", leaves [offers] as it was, and
    replaces the id's discounts in [offer_categories] by the requested
    ones, rows for an offer that does not exist. *)
Theorem editOffer_missing_offer d id t ds s e st cats :
  ofaults d = [] -> offer_fields_missing t s e (Some cats) = false ->
  List.filter (has_oid id) (offers d) = [] ->
  ocode (fst (editOffer id t ds s e st (Some cats) d)) = 200 /\
  offers (snd (editOffer id t ds s e st (Some cats) d)) = offers d /\
  offer_categories (snd (editOffer id t ds s e st (Some cats) d)) =
    List.filter (fun oc => negb (bool_decide (oc_offer_id oc = mysql_int id))) (offer_categories d) ++
    List.map (fun c => mk_offer_category (mysql_int id) (cr_category_id c) (cr_discount_type c) (cr_discount_value c))
      cats.
Proof.
  intros Hf Hm Hno. unfold editOffer. rewrite Hm.
  unfold getConnection, beginTransaction, commit, run_of, next_fault_of. run_st.
  repeat progress (cbn; rewrite ?Hf). by rewrite map_if_none.
Qed.

(** ** Witnesses *)

Lemma editOffer_missing_offer_witness :
  let cats := [mk_cat_req (Some 1) (Some "percent") (Some "15")] in
  ocode (fst (editOffer "99" (Some "Navratri") None (Some 150) (Some 160) None (Some cats) ex_odb)) = 200 /\
  offers (snd (editOffer "99" (Some "Navratri") None (Some 150) (Some 160) None (Some cats) ex_odb)) = offers ex_odb /\
  offer_categories (snd (editOffer "99" (Some "Navratri") None (Some 150) (Some 160) None (Some cats) ex_odb)) =
    List.filter (fun oc => negb (bool_decide (oc_offer_id oc = mysql_int "99"))) (offer_categories ex_odb) ++
    List.map (fun c => mk_offer_category (mysql_int "99") (cr_category_id c) (cr_discount_type c) (cr_discount_value c))
      cats.
Proof.
  apply (editOffer_missing_offer ex_odb "99" (Some "Navratri") None (Some 150) (Some 160) None
           [mk_cat_req (Some 1) (Some "percent") (Some "15")]); vm_compute; reflexivity.
Defined.

Lemma group_fuel_enough_witness :
  (length [1; 2; 1; 3] <= 4)%nat /\ group_fuel (fun x => x) 4 [1; 2; 1; 3] = Some (group_rows (fun x => x) [1; 2; 1; 3]).
Proof.
  assert (H : (length [1; 2; 1; 3] <= 4)%nat) by (cbn; lia).
  split; [exact H|exact (group_fuel_enough (fun x => x) 4 [1; 2; 1; 3] H)].
Defined.

Lemma offer_listing_once_witness :
  ofaults ex_odb = [] /\ NoDup (List.map o_id (offers ex_odb)) /\
  exists rows, fst (getAllOffers ex_odb) = mk_oresponse 200 (OOffers rows) /\
    List.map fst rows ≡ₚ offers ex_odb /\ Sorted created_desc rows.
Proof.
  assert (H : NoDup (List.map o_id (offers ex_odb))) by (cbn; apply NoDup_cons; split; [set_solver|apply NoDup_singleton]).
  split; [reflexivity|split; [exact H|exact (offer_listing_once ex_odb eq_refl H)]].
Defined.

End Offers.
