(* ===== verification/System.v ===== *)
(** * The session subsystem as a transition system

    The states are worlds; a transition is one request handled to its end
    ([login], [refreshToken], [updateActivity], [logout], a [verifyToken]
    check, the four account handlers) or one run of the sweep timer.  Any
    statement may fail, and the pool may run login's and the sweep's two
    statements in either order.  [sess_inv] (unique session ids, every id
    issued by the generator, every row lasting 30 minutes) holds in every
    reachable state; at most one live session per admin holds in every
    state reachable on a database where nothing fails, and a failed
    blacklist UPDATE breaks it. *)

From stdpp Require Import base list strings decidable.
From Stdlib Require Import ZArith Lia.
From S2P Require Import Prelude Store Codec Db Session Sweep Auth Admin Fixtures.

Open Scope Z_scope.
Open Scope st_scope.

Module System.
Import Codec Db Store Session Sweep Auth Admin Fixtures.

Section WithPrimitives.
Context `{!Uuid} `{!Bcrypt}.

(** [j] came from the generator before its current seed. *)
Definition issued_id (w : world) (j : string) : Prop :=
  exists n, (n < uuid_seed w)%nat /\ j = uuidv4 n.

(** A session row carries a generated id and lasts [SESSION_MS] from its
    issue (login.js:59, :123). *)
Definition row_ok (w : world) (r : TokenRow.t) : Prop :=
  issued_id w (TokenRow.token_id r) /\ TokenRow.expires_at r = TokenRow.issued_at r + SESSION_MS.

Definition sess_inv (w : world) : Prop :=
  ids_unique (tokens w) /\ Forall (row_ok w) (tokens w).

(** The invariant inside a handler that has generated the ids [js] and
    not inserted them yet. *)
Definition sess_inv_for (js : list string) (w : world) : Prop :=
  sess_inv w /\ Forall (issued_id w) js.

(** ** Steps and reachable states

    Any statement may fail (the oracle of the world), and the pool may run
    login's and the sweep's two statements in either order. *)

Inductive step : world -> world -> Prop :=
| step_login w ord ident pw ip ua now :
    step w (snd (login ord ident pw ip ua now w))
| step_refresh w jti aid t ip ua now :
    step w (snd (refreshToken jti aid t ip ua now w))
| step_updateActivity w jti aid now :
    step w (snd (updateActivity jti aid now w))
| step_logout w jti aid :
    step w (snd (logout jti aid w))
| step_verifyToken w h now :
    step w (snd (verifyToken h now w))
| step_sweep w ord now :
    step w (snd (runTokenCleanup ord now w))
| step_addadmin w n e num p st :
    step w (snd (addadmin n e num p st w))
| step_adminstatus w aid st :
    step w (snd (adminstatus aid st w))
| step_updateadmin w aid body :
    step w (snd (updateadmin aid body w))
| step_deleteAdmin w aid :
    step w (snd (deleteAdmin aid w)).

(** From a state [init] admits, any sequence of steps. *)
Inductive reachable (init : world -> Prop) : world -> Prop :=
| reach_init w : init w -> reachable init w
| reach_step w w' : reachable init w -> step w w' -> reachable init w'.

(** An empty session table; with a database on which no statement fails. *)
Definition fresh_db (w : world) : Prop := tokens w = [].
Definition reliable_db (w : world) : Prop := tokens w = [] /\ faults w = [].

(** ** The invariant through each statement *)

Lemma issued_id_ext w w' j : uuid_seed w' = uuid_seed w -> issued_id w j -> issued_id w' j.
Proof. unfold issued_id. by intros ->. Qed.

Lemma sess_inv_for_ext js w w' :
  tokens w' = tokens w -> uuid_seed w' = uuid_seed w -> sess_inv_for js w -> sess_inv_for js w'.
Proof.
  intros Ht Hs ([Hu Hr] & Hj). unfold sess_inv_for, sess_inv. rewrite Ht. split; [split; [done|]|].
  - eapply List.Forall_impl; [|exact Hr]. intros r [Hi Hl]. split; [by eapply issued_id_ext|done].
  - eapply List.Forall_impl; [|exact Hj]. intros j. by apply issued_id_ext.
Qed.

Lemma keeps_query_for {R} js (sel : world -> list R) : st_keeps (sess_inv_for js) (query sel).
Proof.
  intros w. destruct (query_world sel w) as (_ & Ht & Hs). by apply sess_inv_for_ext.
Qed.

Lemma keeps_run_admin_for js s : st_keeps (sess_inv_for js) (run_admin s).
Proof.
  intros w. apply sess_inv_for_ext; unfold run_admin, next_fault; run_st;
    destruct (faults w) as [|[] bs]; cbn; try done; destruct (exec_admin s _) as [[adm n]|]; done.
Qed.

(** A statement keeps the invariant when the row it inserts, if any,
    carries a generated id and lasts [SESSION_MS]. *)
Lemma keeps_run_for js s :
  (forall r, inserted s = Some r ->
     In (TokenRow.token_id r) js /\ TokenRow.expires_at r = TokenRow.issued_at r + SESSION_MS) ->
  st_keeps (sess_inv_for js) (run s).
Proof.
  intros Hins w Hw. destruct (run_cases s w) as (_ & Hs & [Ht | Ht]); [by eapply sess_inv_for_ext|].
  destruct Hw as ([Hu Hr] & Hj). split; [split|].
  - by eapply exec_stmt_ids_unique.
  - eapply (exec_stmt_forall (row_ok (snd (run s w)))); [done|done| |exact Ht|].
    + intros r Hr'. destruct (Hins r Hr') as [Hin Hl]. split; [|done].
      eapply List.Forall_forall in Hj; [|exact Hin]. by eapply issued_id_ext.
    + eapply List.Forall_impl; [|exact Hr]. intros r [Hi Hl]. split; [by eapply issued_id_ext|done].
  - eapply List.Forall_impl; [|exact Hj]. intros j. by apply issued_id_ext.
Qed.

Lemma keeps_run_none js s : inserted s = None -> st_keeps (sess_inv_for js) (run s).
Proof. intros Hs. apply keeps_run_for. by rewrite Hs. Qed.

Lemma keeps_run_session js jti aid ip ua now :
  st_keeps (sess_inv_for (jti :: js)) (run (InsertToken (new_session jti aid ip ua now))).
Proof. apply keeps_run_for. intros r [= <-]. split; [by left|done]. Qed.

Lemma keeps_both {A B} (P : world -> Prop) o (m1 : St world A) (m2 : St world B) :
  st_keeps P m1 -> st_keeps P m2 -> st_keeps P (both o m1 m2).
Proof.
  intros H1 H2. destruct o; cbn [both];
    repeat (apply st_keeps_bind; [done|intros ?]); apply st_keeps_ret.
Qed.

(** The generator moves on: the id it hands out is generated, and older
    ones stay so. *)
Lemma keeps_generate {B} js a ip ua now (k : token * string -> St world B) :
  (forall tok jti, st_keeps (sess_inv_for (jti :: js)) (k (tok, jti))) ->
  st_keeps (sess_inv_for js) (st_bind (generateAccessToken a ip ua now) k).
Proof.
  intros Hk w ([Hu Hr] & Hj). rewrite bind_generate.
  assert (Hup : forall j, issued_id w j ->
            issued_id (mk_world (admins w) (tokens w) (faults w) (S (uuid_seed w))) j)
    by (intros j (n & Hn & ->); exists n; cbn; split; [lia|done]).
  match goal with |- sess_inv_for _ (snd (k ?x ?w1)) =>
    enough (Hpre : sess_inv_for (snd x :: js) w1)
      by (destruct (Hk (fst x) (snd x) w1 Hpre) as [? Hj']; split; [done|]; by inversion Hj') end.
  split; [split; [done|]|constructor].
  - eapply List.Forall_impl; [|exact Hr]. intros r [Hi Hl]. split; [by apply Hup|done].
  - exists (uuid_seed w). cbn. split; [lia|done].
  - eapply List.Forall_impl; [|exact Hj]. exact Hup.
Qed.

Create HintDb sess_keeps.
#[local] Hint Resolve keeps_query_for keeps_run_admin_for keeps_run_session keeps_both
  st_keeps_ret : sess_keeps.
#[local] Hint Extern 1 (st_keeps _ (run _)) => apply keeps_run_none; reflexivity : sess_keeps.
#[local] Hint Extern 1 (st_keeps _ (st_bind _ _)) => apply st_keeps_bind; intros : sess_keeps.

(** One step of a handler's chain of statements. *)
Ltac sess_keeps_step :=
  match goal with
  | |- st_keeps _ (st_bind (generateAccessToken _ _ _ _) _) =>
      apply keeps_generate; let tok := fresh "tok" in let j := fresh "jti" in intros tok j; cbv beta iota
  | |- st_keeps _ (st_bind _ _) => apply st_keeps_bind; [solve [eauto 6 with sess_keeps]|intros ?]
  | |- st_keeps _ (reply _ _) => apply st_keeps_ret
  | |- st_keeps _ (st_ret _) => apply st_keeps_ret
  | |- st_keeps _ (match ?x with _ => _ end) => destruct x
  | |- st_keeps _ (if ?b then _ else _) => destruct b
  end.

(** ** Every handler keeps the invariant, whatever fails *)

Lemma sess_inv_session_handlers :
  (forall ord ident pw ip ua now, st_keeps (sess_inv_for []) (login ord ident pw ip ua now)) /\
  (forall jti aid t ip ua now, st_keeps (sess_inv_for []) (refreshToken jti aid t ip ua now)) /\
  (forall jti aid now, st_keeps (sess_inv_for []) (updateActivity jti aid now)) /\
  (forall jti aid, st_keeps (sess_inv_for []) (logout jti aid)) /\
  (forall h now, st_keeps (sess_inv_for []) (verifyToken h now)) /\
  (forall ord now, st_keeps (sess_inv_for []) (runTokenCleanup ord now)).
Proof.
  split; [|split; [|split; [|split; [|split]]]]; intros *;
    [unfold login|unfold refreshToken|unfold updateActivity|unfold logout|unfold verifyToken
    |unfold runTokenCleanup, updateExpiredTokens, cleanupExpiredTokens];
    repeat sess_keeps_step.
Qed.

Lemma sess_inv_admin_handlers :
  (forall n e num p st, st_keeps (sess_inv_for []) (addadmin n e num p st)) /\
  (forall aid st, st_keeps (sess_inv_for []) (adminstatus aid st)) /\
  (forall aid body, st_keeps (sess_inv_for []) (updateadmin aid body)) /\
  (forall aid, st_keeps (sess_inv_for []) (deleteAdmin aid)).
Proof.
  split; [|split; [|split]]; intros *;
    [unfold addadmin|unfold adminstatus|unfold updateadmin|unfold deleteAdmin];
    repeat sess_keeps_step.
Qed.

Lemma sess_inv_for_nil w : sess_inv_for [] w <-> sess_inv w.
Proof. unfold sess_inv_for. split; [by intros []|intros; split; [done|constructor]]. Qed.

Lemma sess_inv_step w w' : step w w' -> sess_inv w -> sess_inv w'.
Proof.
  intros Hs Hinv. apply sess_inv_for_nil. apply sess_inv_for_nil in Hinv.
  destruct sess_inv_session_handlers as (Hl & Hr & Hu & Ho & Hv & Hw).
  destruct sess_inv_admin_handlers as (Ha & Hst & Hup & Hd).
  destruct Hs; [apply (Hl _ _ _ _ _ _ w)|apply (Hr _ _ _ _ _ _ w)|apply (Hu _ _ _ w)|apply (Ho _ _ w)
    |apply (Hv _ _ w)|apply (Hw _ _ w)|apply (Ha _ _ _ _ _ w)|apply (Hst _ _ w)|apply (Hup _ _ w)
    |apply (Hd _ w)]; exact Hinv.
Qed.

Lemma sess_inv_init w : tokens w = [] -> sess_inv w.
Proof. intros Ht. unfold sess_inv. rewrite Ht. split; constructor. Qed.

Lemma sess_inv_issued w : sess_inv w -> ids_issued w.
Proof. intros [_ Hr]. eapply List.Forall_impl; [|exact Hr]. by intros r [(n & Hn & Hid) _]; exists n. Qed.

(** ** A database on which nothing fails *)

Lemma login_cases ord w ident pw ip ua now :
  faults w = [] -> ids_issued w ->
  snd (login ord ident pw ip ua now w) = w \/
  exists a, snd (login ord ident pw ip ua now w) =
    mk_world (admins w)
      (login_table ord (AdminRow.id a)
         (new_session (uuidv4 (uuid_seed w)) (AdminRow.id a) (js_or ip "127.0.0.1") (js_or ua "") now)
         (tokens w))
      [] (S (uuid_seed w)).
Proof.
  intros Hf Hiss. destruct ident as [i|], pw as [p|]; try (left; reflexivity).
  destruct (String.eqb_spec i "") as [->|Hi]; [left; reflexivity|].
  destruct (String.eqb_spec p "") as [->|Hp]; [left; unfold login; by rewrite orb_true_r|].
  destruct (select_admin_by_identifier i (admins w)) as [|a rest] eqn:Hsel.
  { left. unfold login. rewrite !eqb_nonempty by done. cbn. step_nf. by rewrite Hsel. }
  destruct (String.eqb_spec (AdminRow.status a) "active") as [Hst|Hst].
  - destruct (bcrypt_compare p (AdminRow.password a)) eqn:Hpw.
    + right. exists a. by rewrite (login_run ord w i p ip ua now a rest).
    + left. apply (login_early_return ord w i p ip ua now a rest); auto.
  - left. apply (login_early_return ord w i p ip ua now a rest); auto.
Qed.

Lemma refresh_cases w jti aid t ip ua now :
  faults w = [] -> ids_issued w ->
  snd (refreshToken jti aid t ip ua now w) = w \/
  exists row, In row (tokens w) /\ is_live_token_of jti aid row = true /\
    (snd (refreshToken jti aid t ip ua now w) =
       set_tokens (update_where (is_token jti) TokenRow.blacklist (tokens w)) w \/
     snd (refreshToken jti aid t ip ua now w) =
       mk_world (admins w)
         (update_where (is_token jti) TokenRow.blacklist (tokens w)
            ++ [new_session (uuidv4 (uuid_seed w)) aid (js_or ip "127.0.0.1") (js_or ua "") now])
         [] (S (uuid_seed w))).
Proof.
  intros Hf Hiss. unfold refreshToken. step_nf.
  destruct (select_live_token jti aid (tokens w)) as [|row rest] eqn:Hsel; [left; reflexivity|].
  destruct (select_live_token_head _ _ _ _ _ Hsel) as [Hin Hlive].
  destruct (_ <? REFRESH_WINDOW_MS); [left; reflexivity|].
  destruct (_ <? IDLE_GUARD_MS).
  { right. exists row. split; [done|]. split; [done|]. left. by step_nf. }
  step_nf. destruct (select_admin_by_id aid (admins w)) as [|admin rest']; [left; reflexivity|].
  right. exists row. split; [done|]. split; [done|]. right. repeat step_nf.
  rewrite insert_fresh by done. unfold reply, set_tokens. simpl. by rewrite Hf.
Qed.

(** On a reliable database: no fault pending and at most one live
    session per admin. *)
Definition reliable_inv (w : world) : Prop := faults w = [] /\ at_most_one_live (tokens w).

Lemma keeps_query_rel {R} (sel : world -> list R) : st_keeps reliable_inv (query sel).
Proof. intros w [Hf Ho]. by rewrite query_no_fault. Qed.

Lemma keeps_run_rel s : inserted s = None -> st_keeps reliable_inv (run s).
Proof.
  intros Hs w [Hf Ho]. split; [by rewrite run_faults, Hf|].
  apply run_preserves; [intros ??; by apply at_most_one_live_stmt|done].
Qed.

Lemma keeps_run_admin_rel s : st_keeps reliable_inv (run_admin s).
Proof.
  intros w [Hf Ho]. unfold run_admin, next_fault. run_st. rewrite Hf. cbn.
  by destruct (exec_admin s _) as [[adm n]|].
Qed.

#[local] Hint Resolve keeps_query_rel keeps_run_admin_rel : sess_keeps.
#[local] Hint Extern 1 (st_keeps reliable_inv (run _)) => apply keeps_run_rel; reflexivity : sess_keeps.

(** A login appends one session row and leaves its admin no other live
    row, in either order. *)
Lemma login_table_one_live o aid r tbl :
  ids_unique tbl -> at_most_one_live tbl -> has_token_id (TokenRow.token_id r) tbl = false ->
  TokenRow.admin_id r = aid -> of_admin_live aid r = true ->
  at_most_one_live (login_table o aid r tbl).
Proof.
  intros Hu Ho Hfr <- Hl. destruct o; [cbn [login_table]|rewrite login_table_swapped by done];
    apply rotate_invariants; rewrite ?blacklist_token_id; try done;
    apply blacklist_admin_tokens_none.
Qed.

Lemma reliable_step w w' : step w w' -> sess_inv w -> reliable_inv w -> reliable_inv w'.
Proof.
  intros Hs Hinv [Hf Ho]. pose proof (sess_inv_issued w Hinv) as Hiss.
  pose proof Hinv as [Hu _].
  destruct Hs as [w ord ident pw ip1 ua1 now|w jti aid t ip1 ua1 now|w jti aid now|w jti aid|w h now
                 |w ord now|w n e num p st|w aid st|w aid body|w aid].
  - destruct (login_cases ord w ident pw ip1 ua1 now Hf Hiss) as [-> | (a & ->)]; [done|].
    split; [done|]. apply login_table_one_live; [done|done|by apply fresh_uuid|done|apply new_session_live].
  - destruct (refresh_cases w jti aid t ip1 ua1 now Hf Hiss) as [-> | (row & Hin & Hlive & [-> | ->])];
      [done| |].
    + pose proof (keeps_run_rel (BlacklistToken jti) eq_refl w (conj Hf Ho)) as Hk.
      rewrite run_no_fault in Hk by done. exact Hk.
    + split; [done|]. apply rotate_invariants; [done|done|by apply fresh_uuid|].
      pose proof (live_count_blacklist_drop (is_token jti) aid row (tokens w) Hin
        (is_live_token_of_admin_live _ _ _ Hlive) (is_live_token_of_is_token _ _ _ Hlive)).
      specialize (Ho aid). cbn. lia.
  - revert w Hinv Hiss Hu Hf Ho. enough (Hk : st_keeps reliable_inv (updateActivity jti aid now))
      by (intros w ????? ; by apply Hk).
    unfold updateActivity. repeat sess_keeps_step.
  - revert w Hinv Hiss Hu Hf Ho. enough (Hk : st_keeps reliable_inv (logout jti aid))
      by (intros w ????? ; by apply Hk).
    unfold logout. repeat sess_keeps_step.
  - revert w Hinv Hiss Hu Hf Ho. enough (Hk : st_keeps reliable_inv (verifyToken h now))
      by (intros w ????? ; by apply Hk).
    unfold verifyToken. repeat sess_keeps_step.
  - split; [by rewrite runTokenCleanup_run|]. by apply runTokenCleanup_invariants.
  - revert w Hinv Hiss Hu Hf Ho. enough (Hk : st_keeps reliable_inv (addadmin n e num p st))
      by (intros w ????? ; by apply Hk).
    unfold addadmin. repeat sess_keeps_step.
  - revert w Hinv Hiss Hu Hf Ho. enough (Hk : st_keeps reliable_inv (adminstatus aid st))
      by (intros w ????? ; by apply Hk).
    unfold adminstatus. repeat sess_keeps_step.
  - revert w Hinv Hiss Hu Hf Ho. enough (Hk : st_keeps reliable_inv (updateadmin aid body))
      by (intros w ????? ; by apply Hk).
    unfold updateadmin. repeat sess_keeps_step.
  - revert w Hinv Hiss Hu Hf Ho. enough (Hk : st_keeps reliable_inv (deleteAdmin aid))
      by (intros w ????? ; by apply Hk).
    unfold deleteAdmin. repeat sess_keeps_step.
Qed.

(** ** Properties *)

(** C1: in every state reachable from an empty session table, whatever
    statements fail and whichever order the pool runs login's and the
    sweep's statements in, session ids are unique, every id came from the
    generator, and every session row expires [SESSION_MS] (30 minutes)
    after its issue. *)
Theorem reachable_sess_inv w : reachable fresh_db w -> sess_inv w.
Proof.
  induction 1 as [w Ht | w w' _ IH Hs].
  - by apply sess_inv_init.
  - by eapply sess_inv_step.
Qed.

(** C2: on a database where no statement fails, every admin owns at most
    one live session in every reachable state (spec, section 3), whichever
    order the pool runs login's and the sweep's statements in.  A single
    failed blacklist UPDATE breaks this: login.js:52 and :121 ignore its
    error and insert the new session beside the old one. *)
Theorem reliable_single_live w : reachable reliable_db w -> at_most_one_live (tokens w).
Proof.
  enough (Hall : reachable reliable_db w -> sess_inv w /\ reliable_inv w) by (intros Hr; apply Hall, Hr).
  induction 1 as [w [Ht Hf] | w w' _ [IH IR] Hs].
  - split; [by apply sess_inv_init|]. split; [done|]. intros aid. unfold live_count. rewrite Ht. cbn. lia.
  - split; [by eapply sess_inv_step|by eapply reliable_step].
Qed.
End WithPrimitives.

(** ** Witnesses *)

(** The state after one login, in either order, is reachable. *)
Lemma reachable_sess_inv_witness :
  sess_inv (snd (login Swapped (Some "a@x.com") (Some "secret1") None None 1000000 ex_world)).
Proof.
  apply reachable_sess_inv. apply (reach_step _ ex_world).
  - apply reach_init. reflexivity.
  - apply step_login.
Defined.

Lemma reliable_single_live_witness :
  at_most_one_live (tokens (snd (login InOrder (Some "a@x.com") (Some "secret1") None None 1000000 ex_world))).
Proof.
  apply reliable_single_live. apply (reach_step _ ex_world).
  - apply reach_init. split; reflexivity.
  - apply step_login.
Defined.
End System.
